(** * A shallow embedding of the NYPC Yacht bidding agents

    The repository holds three variants of one agent for a two-player
    Yacht game with auctioned dice groups:

    - [1650.py], the ladder-of-rounds agent;
    - [testing-tool-yacht-cli/main.py], a later revision of the same
      agent, with an exhaustive valuation for the last round;
    - [testing-tool-yacht-cli/test2.py], a small agent built on an
      estimator over the 5-dice selections of a pool.

    Python integers are modelled by [Z], Python lists by [list], the
    dictionary of opponent bids by a [gmap], and exceptions by the
    result type [Res]. *)

From stdpp Require Import base numbers list strings gmap sorting.
From Stdlib Require Import ZArith Lia DecimalString.

Open Scope Z_scope.

(** ** Exceptions *)

Inductive PyError : Type :=
  | AssertionError (msg : string)
  | ValueError
  | IndexError.

Inductive Res (A : Type) : Type :=
  | Ok (a : A)
  | Raise (e : PyError).
Arguments Ok {A} a.
Arguments Raise {A} e.

#[global] Instance Res_ret : MRet Res := λ A a, Ok a.
#[global] Instance Res_bind : MBind Res := λ A B f m,
  match m with
  | Ok a => f a
  | Raise e => Raise e
  end.

#[global] Instance Res_fmap : FMap Res := λ A B f m,
  match m with
  | Ok a => Ok (f a)
  | Raise e => Raise e
  end.

(** A [for] loop whose body may raise. *)
Fixpoint for_each {A S} (body : S → A → Res S) (s : S) (l : list A) : Res S :=
  match l with
  | [] => Ok s
  | x :: l' => s' ← body s x; for_each body s' l'
  end.

(** ** Python built-ins on lists of integers *)

(** [range(a, b)] *)
Definition range (a b : Z) : list Z :=
  (λ i, a + Z.of_nat i) <$> seq 0 (Z.to_nat (b - a)).

(** [sum(l)] *)
Definition py_sum (l : list Z) : Z := foldr Z.add 0 l.

(** [l.count(x)] *)
Fixpoint count (x : Z) (l : list Z) : Z :=
  match l with
  | [] => 0
  | y :: l' => (if y =? x then 1 else 0) + count x l'
  end.

(** [x in l] *)
Definition py_in (x : Z) (l : list Z) : bool := existsb (Z.eqb x) l.

(** [any(...)] and [all(...)] over an already mapped list *)
Definition any (l : list bool) : bool := existsb id l.
Definition all (l : list bool) : bool := forallb id l.

(** [l.remove(x)]: drops the first occurrence, [ValueError] when there
    is none. *)
Fixpoint list_remove (x : Z) (l : list Z) : Res (list Z) :=
  match l with
  | [] => Raise ValueError
  | y :: l' => if y =? x then Ok l' else (y ::.) <$> list_remove x l'
  end.

(** [a[i]] for a Python list of length [n]: negative indices count from
    the end, anything outside [-n, n) is an [IndexError]. *)
Definition py_index (n : nat) (i : Z) : Res nat :=
  if (0 <=? i) && (i <? Z.of_nat n) then Ok (Z.to_nat i)
  else if (- Z.of_nat n <=? i) && (i <? 0) then Ok (Z.to_nat (Z.of_nat n + i))
  else Raise IndexError.

(** [sorted(l)] and [sorted(l, reverse=True)] *)
Definition sorted (l : list Z) : list Z := merge_sort Z.le l.
Definition sorted_rev (l : list Z) : list Z := merge_sort Z.ge l.

(** [str(n)] for an integer *)
Definition str (n : Z) : string := NilZero.string_of_int (Z.to_int n).

(** ** The data classes shared by the three files *)

Inductive DiceRule : Type :=
  | ONE | TWO | THREE | FOUR | FIVE | SIX
  | CHOICE | FOUR_OF_A_KIND | FULL_HOUSE
  | SMALL_STRAIGHT | LARGE_STRAIGHT | YACHT.

#[global] Instance DiceRule_eq_dec : EqDecision DiceRule.
Proof. solve_decision. Defined.

(** [rule.value] *)
Definition value (r : DiceRule) : nat :=
  match r with
  | ONE => 0 | TWO => 1 | THREE => 2 | FOUR => 3 | FIVE => 4 | SIX => 5
  | CHOICE => 6 | FOUR_OF_A_KIND => 7 | FULL_HOUSE => 8
  | SMALL_STRAIGHT => 9 | LARGE_STRAIGHT => 10 | YACHT => 11
  end%nat.

Definition all_rules : list DiceRule :=
  [ONE; TWO; THREE; FOUR; FIVE; SIX; CHOICE; FOUR_OF_A_KIND; FULL_HOUSE;
   SMALL_STRAIGHT; LARGE_STRAIGHT; YACHT].

(** [DiceRule(i)]: the member with that value, [ValueError] otherwise. *)
Definition DiceRule_of (i : nat) : Res DiceRule :=
  match all_rules !! i with
  | Some r => Ok r
  | None => Raise ValueError
  end.

Record Bid : Type := mkBid { group : string; amount : Z }.

Record DicePut : Type := mkDicePut { put_rule : DiceRule; put_dice : list Z }.

(** [GameState]: the three files declare the same three attributes. *)
Record GameState : Type := mkGameState {
  dice : list Z;
  rule_score : list (option Z);
  bid_score : Z
}.

(** [GameState.__init__] *)
Definition GameState_init : GameState :=
  {| dice := []; rule_score := replicate 12 None; bid_score := 0 |}.

(** [sum(score for score in l if score is not None)] *)
Definition sum_filled (l : list (option Z)) : Z :=
  py_sum (omap id l).

(** [itertools.combinations(l, r)]: the [r]-element selections of [l] by
    position, in lexicographic order of the positions. *)
Fixpoint combinations (l : list Z) (r : nat) : list (list Z) :=
  match r with
  | O => [[]]
  | S r' =>
      match l with
      | [] => []
      | x :: l' => ((x ::.) <$> combinations l' r') ++ combinations l' r
      end
  end.

(** [random.sample(population, k)] draws [k] distinct positions of the
    population.  The generator is outside the program, so the positions
    it drew are an input of the model: [picks].  [sample_draw] says that
    [picks] is a possible outcome for a population of [n] elements. *)
Definition random_sample {A} (picks : list nat) (population : list A) (k : nat)
  : list A :=
  omap (λ i, population !! i) (take k picks).

Definition sample_draw (n k : nat) (picks : list nat) : Prop :=
  length picks = k ∧ NoDup picks ∧ Forall (λ i, (i < n)%nat) picks.

(** [random.choice(seq)] returns [seq[i]] for a drawn position [i] below
    [len(seq)]; the drawn position is again an input of the model. *)
Definition random_choice (draw : nat) (options : list Z) : Res Z :=
  match options !! draw with
  | Some x => Ok x
  | None => Raise IndexError
  end.

(** ** Helpers for the [Game] classes *)

(** [l[i]] at a position given as a natural number. *)
Definition at_pos {A} (l : list A) (i : nat) : Res A :=
  match l !! i with
  | Some x => Ok x
  | None => Raise IndexError
  end.

(** [st.rule_score[rule.value] is None] *)
Definition is_unused (st : GameState) (r : DiceRule) : Res bool :=
  s ← at_pos (rule_score st) (value r);
  Ok (match s with None => true | Some _ => false end).

(** [counts = [0] * 7; for d in l: counts[d] += 1] *)
Definition count_array (l : list Z) : Res (list Z) :=
  for_each (λ counts d, i ← py_index 7 d; Ok (alter (λ c, c + 1) i counts))
           (replicate 7 0) l.

(** [has = [False] * 7; for d in l: has[d] = True] *)
Definition has_array (l : list Z) : Res (list bool) :=
  for_each (λ has d, i ← py_index 7 d; Ok (<[i := true]> has))
           (replicate 7 false) l.

(** [min(l)] and [max(l)], [ValueError] on the empty list. *)
Definition py_min (l : list Z) : Res Z :=
  match l with
  | [] => Raise ValueError
  | x :: l' => Ok (foldl Z.min x l')
  end.

Definition py_max (l : list Z) : Res Z :=
  match l with
  | [] => Raise ValueError
  | x :: l' => Ok (foldl Z.max x l')
  end.

(** [d.values()] of a dictionary of integers. *)
Definition dict_values (d : gmap Z Z) : list Z := (map_to_list d).*2.

(** A loop that leaves the function at the first iteration that
    returns. *)
Fixpoint first_return {A B} (body : A → Res (option B)) (l : list A)
  : Res (option B) :=
  match l with
  | [] => Ok None
  | x :: l' =>
      r ← body x;
      match r with
      | Some b => Ok (Some b)
      | None => first_return body l'
      end
  end.

(** [[i for i, score in enumerate(rule_score) if score is None]] *)
Definition unused_indices (st : GameState) : list nat :=
  omap (λ '(i, score), match score with None => Some i | Some _ => None end)
       (imap pair (rule_score st)).

(** [for _ in range(n): target.append(x); temp.remove(x)] *)
Fixpoint move_copies (n : nat) (x : Z) (target temp : list Z)
  : Res (list Z * list Z) :=
  match n with
  | O => Ok (target, temp)
  | S n' => temp' ← list_remove x temp; move_copies n' x (target ++ [x]) temp'
  end.

(** [for num in seq: if num in temp: target.append(num); temp.remove(num)] *)
Definition move_present (seq target temp : list Z) : Res (list Z * list Z) :=
  for_each (λ '(target, temp) num,
              if py_in num temp
              then temp' ← list_remove num temp; Ok (target ++ [num], temp')
              else Ok (target, temp))
           (target, temp) seq.

(** [while len(dice) < 5 and temp: dice.append(temp.pop(0))] *)
Fixpoint fill_from (dice temp : list Z) : list Z * list Z :=
  match temp with
  | [] => (dice, temp)
  | x :: temp' =>
      if (length dice <? 5)%nat then fill_from (dice ++ [x]) temp' else (dice, temp)
  end.

(** [while len(dice) < 5: dice.append(x)] *)
Definition pad_with (x : Z) (dice : list Z) : list Z :=
  dice ++ replicate (5 - length dice) x.

(** The classes of [1650.py]: [GameState], which [main.py] repeats line
    for line, and [Game]. *)
Module Y1650.

(** [get_total_score]: slices [0:6] and [6:12] of [rule_score]. *)
Definition get_total_score (st : GameState) : Z :=
  let basic := sum_filled (take 6 (rule_score st)) in
  let bonus := if 63000 <=? basic then 35000 else 0 in
  let combination := sum_filled (take 6 (drop 6 (rule_score st))) in
  basic + bonus + combination + bid_score st.

Definition bid (st : GameState) (is_successful : bool) (amount : Z) : GameState :=
  if is_successful
  then {| dice := dice st; rule_score := rule_score st;
          bid_score := bid_score st - amount |}
  else {| dice := dice st; rule_score := rule_score st;
          bid_score := bid_score st + amount |}.

Definition add_dice (st : GameState) (new_dice : list Z) : GameState :=
  {| dice := dice st ++ new_dice; rule_score := rule_score st;
     bid_score := bid_score st |}.

(** [calculate_score]: the final [assert False] is out of reach, every
    member of the enumeration has its branch. *)
Definition calculate_score (put : DicePut) : Z :=
  let dice := put_dice put in
  match put_rule put with
  | ONE => py_sum (filter (λ d, d = 1) dice) * 1000
  | TWO => py_sum (filter (λ d, d = 2) dice) * 1000
  | THREE => py_sum (filter (λ d, d = 3) dice) * 1000
  | FOUR => py_sum (filter (λ d, d = 4) dice) * 1000
  | FIVE => py_sum (filter (λ d, d = 5) dice) * 1000
  | SIX => py_sum (filter (λ d, d = 6) dice) * 1000
  | CHOICE => py_sum dice * 1000
  | FOUR_OF_A_KIND =>
      let ok := any ((λ i, 4 <=? count i dice) <$> range 1 7) in
      if ok then py_sum dice * 1000 else 0
  | FULL_HOUSE =>
      let '(pair', triple) :=
        foldl (λ '(pair', triple) i,
                 let cnt := count i dice in
                 let pair' := if (cnt =? 2) || (cnt =? 5) then true else pair' in
                 let triple := if (cnt =? 3) || (cnt =? 5) then true else triple in
                 (pair', triple))
              (false, false) (range 1 7) in
      if pair' && triple then py_sum dice * 1000 else 0
  | SMALL_STRAIGHT =>
      let e i := 0 <? count i dice in
      let ok := (e 1 && e 2 && e 3 && e 4)
                || (e 2 && e 3 && e 4 && e 5)
                || (e 3 && e 4 && e 5 && e 6) in
      if ok then 15000 else 0
  | LARGE_STRAIGHT =>
      let e i := 0 <? count i dice in
      let ok := (e 1 && e 2 && e 3 && e 4 && e 5)
                || (e 2 && e 3 && e 4 && e 5 && e 6) in
      if ok then 30000 else 0
  | YACHT =>
      let ok := any ((λ i, count i dice =? 5) <$> range 1 7) in
      if ok then 50000 else 0
  end.

(** [use_dice]: the assertion guards the category; a die of the put
    that the pool lacks is skipped ("ignore it instead of raising"),
    and the category is scored on the put as given. *)
Definition use_dice (st : GameState) (put : DicePut) : Res GameState :=
  match rule_score st !! value (put_rule put) with
  | None => Raise IndexError
  | Some (Some _) => Raise (AssertionError "Rule already used")
  | Some None =>
      dice' ← for_each (λ ds d, if py_in d ds then list_remove d ds else Ok ds)
                       (dice st) (put_dice put);
      Ok {| dice := dice';
            rule_score := <[value (put_rule put) := Some (calculate_score put)]>
                            (rule_score st);
            bid_score := bid_score st |}
  end.

(** [Game]: [start_time] only feeds the log and is left out;
    [sorted_dice_unique] and [sorted_dice] are the attributes that
    [calculate_put] stores before it searches. *)
Record Game : Type := mkGame {
  my_state : GameState;
  opp_state : GameState;
  current_round : Z;
  opponent_bids : gmap Z Z;
  opponent_yacht_completed : bool;
  my_yacht_completed : bool;
  sorted_dice_unique : list Z;
  sorted_dice : list Z
}.

Definition Game_init : Game :=
  {| my_state := GameState_init; opp_state := GameState_init;
     current_round := 0; opponent_bids := ∅;
     opponent_yacht_completed := false; my_yacht_completed := false;
     sorted_dice_unique := []; sorted_dice := [] |}.

Definition get_max_duplicate_count (g : Game) (dice_group : list Z) : Res Z :=
  counts ← count_array dice_group;
  small_straight_completed ← negb <$> is_unused (my_state g) SMALL_STRAIGHT;
  large_straight_completed ← negb <$> is_unused (my_state g) LARGE_STRAIGHT;
  yacht_completed ← negb <$> is_unused (my_state g) YACHT;
  let high_rules_completed :=
    small_straight_completed && large_straight_completed && yacht_completed in
  if high_rules_completed then
    (* the first open number rule, from 6 down, with a positive count *)
    r ← first_return
           (λ num : Z,
              s ← at_pos (rule_score (my_state g)) (Z.to_nat (num - 1));
              c ← at_pos counts (Z.to_nat num);
              Ok (match s with
                  | None => if 0 <? c then Some c else None
                  | Some _ => None
                  end))
           [6; 5; 4; 3; 2; 1];
    Ok (default 0 r)
  else
    for_each
      (λ max_count num,
         s ← at_pos (rule_score (my_state g)) (Z.to_nat (num - 1));
         c ← at_pos counts (Z.to_nat num);
         Ok (match s with
             | None => max_count `max` c
             | Some _ => max_count
             end))
      0 (range 1 7).

Definition save_opponent_bid (g : Game) (round_num bid_amount : Z) : Game :=
  {| my_state := my_state g; opp_state := opp_state g;
     current_round := current_round g;
     opponent_bids := <[round_num := bid_amount]> (opponent_bids g);
     opponent_yacht_completed := opponent_yacht_completed g;
     my_yacht_completed := my_yacht_completed g;
     sorted_dice_unique := sorted_dice_unique g; sorted_dice := sorted_dice g |}.

Definition check_opponent_yacht_completion (g : Game) : Res Game :=
  s ← at_pos (rule_score (opp_state g)) (value YACHT);
  Ok {| my_state := my_state g; opp_state := opp_state g;
        current_round := current_round g; opponent_bids := opponent_bids g;
        opponent_yacht_completed :=
          match s with
          | Some v => if 0 <? v then true else opponent_yacht_completed g
          | None => opponent_yacht_completed g
          end;
        my_yacht_completed := my_yacht_completed g;
        sorted_dice_unique := sorted_dice_unique g;
        sorted_dice := sorted_dice g |}.

Definition check_my_yacht_completion (g : Game) : Res Game :=
  s ← at_pos (rule_score (my_state g)) (value YACHT);
  Ok {| my_state := my_state g; opp_state := opp_state g;
        current_round := current_round g; opponent_bids := opponent_bids g;
        opponent_yacht_completed := opponent_yacht_completed g;
        my_yacht_completed :=
          match s with
          | Some v => if 0 <? v then true else my_yacht_completed g
          | None => my_yacht_completed g
          end;
        sorted_dice_unique := sorted_dice_unique g;
        sorted_dice := sorted_dice g |}.

Definition should_block_yacht (g : Game) (dice_a dice_b : list Z)
    : Res (option (string * Z)) :=
  if opponent_yacht_completed g then Ok None
  else
    let opp_dice := dice (opp_state g) in
    if (length opp_dice <? 4)%nat then Ok None
    else
      opp_counts ← count_array opp_dice;
      four_duplicate_number ←
        first_return (λ i : Z, c ← at_pos opp_counts (Z.to_nat i);
                               Ok (if 4 <=? c then Some i else None))
                     (range 1 7);
      match four_duplicate_number with
      | Some n =>
          let count_a := count n dice_a in
          let count_b := count n dice_b in
          if ((0 <? count_a) && (count_b =? 0)) || ((count_a =? 0) && (0 <? count_b))
          then Ok (Some (if 0 <? count_a then "A" else "B", 5001))
          else Ok None
      | None => Ok None
      end.

Definition calculate_rule_potential_score (dice : list Z) (rule : DiceRule)
    : Res Z :=
  match rule with
  | ONE => Ok (py_sum (filter (λ d, d = 1) dice) * 1000)
  | TWO => Ok (py_sum (filter (λ d, d = 2) dice) * 1000)
  | THREE => Ok (py_sum (filter (λ d, d = 3) dice) * 1000)
  | FOUR => Ok (py_sum (filter (λ d, d = 4) dice) * 1000)
  | FIVE => Ok (py_sum (filter (λ d, d = 5) dice) * 1000)
  | SIX => Ok (py_sum (filter (λ d, d = 6) dice) * 1000)
  | CHOICE => Ok (py_sum dice * 1000)
  | FOUR_OF_A_KIND =>
      if any ((λ i, 4 <=? count i dice) <$> range 1 7)
      then Ok (py_sum dice * 1000) else Ok 0
  | FULL_HOUSE =>
      let has_pair :=
        any ((λ i, (count i dice =? 2) || (count i dice =? 5)) <$> range 1 7) in
      let has_triple :=
        any ((λ i, (count i dice =? 3) || (count i dice =? 5)) <$> range 1 7) in
      if has_pair && has_triple then Ok (py_sum dice * 1000) else Ok 0
  | SMALL_STRAIGHT =>
      has ← has_array dice;
      let h i := default false (has !! i) in
      if (h 1 && h 2 && h 3 && h 4)%nat
         || (h 2 && h 3 && h 4 && h 5)%nat
         || (h 3 && h 4 && h 5 && h 6)%nat
      then Ok 15000 else Ok 0
  | LARGE_STRAIGHT =>
      has ← has_array dice;
      let h i := default false (has !! i) in
      if (h 1 && h 2 && h 3 && h 4 && h 5)%nat
         || (h 2 && h 3 && h 4 && h 5 && h 6)%nat
      then Ok 30000 else Ok 0
  | YACHT =>
      if any ((λ i, count i dice =? 5) <$> range 1 7) then Ok 50000 else Ok 0
  end.

(** [min(9999, max(0, x))] *)
Definition clamp_bid (x : Z) : Z := 9999 `min` (0 `max` x).

(** [calculate_strategic_bid_amount]; [draw] is the position that
    [random.choice] draws from the two options. *)
Definition calculate_strategic_bid_amount (draw : nat) (g : Game)
    (dice_a dice_b : list Z) (selected_group : string) : Res Z :=
  let selected_dice := if String.eqb selected_group "A" then dice_a else dice_b in
  max_count ← get_max_duplicate_count g selected_dice;
  if current_round g <=? 2 then
    let dice_sum := py_sum selected_dice in
    if max_count =? 5 then Ok 7999
    else if max_count =? 4 then Ok 3001
    else if max_count =? 3 then Ok 1001
    else if max_count =? 2 then Ok 98
    else Ok (if 20 <=? dice_sum then 201 else 1)
  else if current_round g =? 3 then
    if 3 <=? max_count then Ok 999 else Ok 0
  else if (4 <=? current_round g) && (current_round g <=? 8) then
    if bool_decide (opponent_bids g = ∅) then Ok 0
    else if my_yacht_completed g then
      min_opponent_bid ← py_min (dict_values (opponent_bids g));
      let option1 := 0 in
      let option2 := clamp_bid (min_opponent_bid + 1) in
      random_choice draw [option1; option2]
    else
      min_opponent_bid ← py_min (dict_values (opponent_bids g));
      max_opponent_bid ← py_max (dict_values (opponent_bids g));
      let combined_dice := dice (my_state g) ++ selected_dice in
      combined_max_count ← get_max_duplicate_count g combined_dice;
      if combined_max_count =? 3 then Ok (clamp_bid (min_opponent_bid + 1))
      else if combined_max_count =? 4 then Ok (clamp_bid (max_opponent_bid - 1))
      else Ok 0
  else if 9 <=? current_round g then
    if bool_decide (opponent_bids g = ∅) then Ok 0
    else
      min_opponent_bid ← py_min (dict_values (opponent_bids g));
      let option1 := 0 in
      let option2 := clamp_bid (min_opponent_bid + 1) in
      random_choice draw [option1; option2]
  else Ok 1.

Definition calculate_bid (draw : nat) (g : Game) (dice_a dice_b : list Z)
    : Res Bid :=
  block_result ← should_block_yacht g dice_a dice_b;
  match block_result with
  | Some (block_group, block_amount) => Ok (mkBid block_group block_amount)
  | None =>
      max_count_a ← get_max_duplicate_count g dice_a;
      max_count_b ← get_max_duplicate_count g dice_b;
      let group := if max_count_b <=? max_count_a then "A" else "B" in
      amount ← calculate_strategic_bid_amount draw g dice_a dice_b group;
      Ok (mkBid group amount)
  end.

Definition should_use_rule_strategically (g : Game) (rule : DiceRule)
    (score : Z) : bool :=
  match rule with
  | YACHT => 0 <? score
  | LARGE_STRAIGHT => 0 <? score
  | SMALL_STRAIGHT => if 0 <? score then true else current_round g <=? 6
  | FOUR_OF_A_KIND => 0 <? score
  | FULL_HOUSE =>
      if current_round g <=? 6 then (0 <? score) && (4 <=? current_round g)
      else 0 <? score
  | CHOICE => (10 <=? current_round g) && (0 <? score)
  | ONE | TWO | THREE | FOUR | FIVE | SIX =>
      if 3000 <=? score then true
      else if 1000 <=? score then
        if current_round g <=? 4 then false else true
      else 8 <=? current_round g
  end.

(** [while len(dice) < 5 and 6 in temp_dice]: every turn of the loop
    lengthens [dice], so five turns always reach the exit. *)
Fixpoint take_sixes (turns : nat) (dice temp_dice : list Z)
    : Res (list Z * list Z) :=
  match turns with
  | O => Ok (dice, temp_dice)
  | S turns' =>
      if (length dice <? 5)%nat && py_in 6 temp_dice
      then temp' ← list_remove 6 temp_dice; take_sixes turns' (dice ++ [6]) temp'
      else Ok (dice, temp_dice)
  end.

(** [while len(dice) < 5 and unique_dice: selected = unique_dice.pop(0); ...] *)
Fixpoint take_unique (unique_dice dice temp_dice : list Z)
    : Res (list Z * list Z) :=
  match unique_dice with
  | [] => Ok (dice, temp_dice)
  | selected :: unique_dice' =>
      if (length dice <? 5)%nat then
        if py_in selected temp_dice
        then temp' ← list_remove selected temp_dice;
             take_unique unique_dice' (dice ++ [selected]) temp'
        else take_unique unique_dice' dice temp_dice
      else Ok (dice, temp_dice)
  end.

(** The branch of [find_optimal_dice_for_rule] for ONE..SIX when the
    pool holds the target number. *)
Definition optimal_number_dice (g : Game) (rule : DiceRule)
    (target_number target_count : Z) : Res (list Z * Z) :=
  let my_dice := dice (my_state g) in
  '(dice, temp_dice) ←
    move_copies (Z.to_nat (5 `min` target_count)) target_number [] my_dice;
  let remaining_count : gmap Z Z :=
    foldl (λ m d, <[d := default 0 (m !! d) + 1]> m) ∅ temp_dice in
  four_of_kind_available ← is_unused (my_state g) FOUR_OF_A_KIND;
  full_house_available ← is_unused (my_state g) FULL_HOUSE;
  let high_rules_available := four_of_kind_available || full_house_available in
  '(dice, temp_dice) ←
    (if high_rules_available && py_in 6 temp_dice
     then take_sixes 5 dice temp_dice else Ok (dice, temp_dice));
  let unique_dice :=
    sorted ((filter (λ '(num, cnt), cnt = 1 ∧ py_in num temp_dice = true)
                    (map_to_list remaining_count)).*1) in
  '(dice, temp_dice) ← take_unique unique_dice dice temp_dice;
  large_straight_completed ← negb <$> is_unused (my_state g) LARGE_STRAIGHT;
  small_straight_completed ← negb <$> is_unused (my_state g) SMALL_STRAIGHT;
  let straights_completed := large_straight_completed && small_straight_completed in
  let '(dice, temp_dice) :=
    if straights_completed then fill_from dice (sorted temp_dice)
    else fill_from dice temp_dice in
  let dice := pad_with 0 dice in
  score ← calculate_rule_potential_score dice rule;
  Ok (dice, score).

(** [my_dice[:5] if len(my_dice) >= 5 else [0] * 5], scored *)
Definition default_dice (g : Game) (rule : DiceRule) : Res (list Z * Z) :=
  let my_dice := dice (my_state g) in
  let dice := if (5 <=? length my_dice)%nat then take 5 my_dice else replicate 5 0 in
  score ← calculate_rule_potential_score dice rule;
  Ok (dice, score).

(** The loop of the FOUR_OF_A_KIND branch over the candidate numbers. *)
Definition optimal_four_of_a_kind (g : Game) (nums : list Z)
    : Res (option (list Z * Z)) :=
  let my_dice := dice (my_state g) in
  first_return
    (λ num,
       if 4 <=? count num my_dice then
         '(target_dice, temp_dice) ← move_copies 4 num [] my_dice;
         let target_dice :=
           match temp_dice with
           | x :: _ => target_dice ++ [x]
           | [] => target_dice ++ [num]
           end in
         score ← calculate_rule_potential_score target_dice FOUR_OF_A_KIND;
         Ok (Some (target_dice, score))
       else Ok None)
    nums.

(** The nested loops of the FULL_HOUSE branch. *)
Definition optimal_full_house (g : Game) (nums : list Z)
    : Res (option (list Z * Z)) :=
  let my_dice := dice (my_state g) in
  first_return
    (λ num1,
       if 3 <=? count num1 my_dice then
         first_return
           (λ num2,
              if negb (num2 =? num1) && (2 <=? count num2 my_dice) then
                '(target_dice, temp_dice) ← move_copies 3 num1 [] my_dice;
                '(target_dice, temp_dice) ← move_copies 2 num2 target_dice temp_dice;
                score ← calculate_rule_potential_score target_dice FULL_HOUSE;
                Ok (Some (target_dice, score))
              else Ok None)
           nums
       else Ok None)
    nums.

Definition sequences : list (list Z) := [[1; 2; 3; 4]; [2; 3; 4; 5]; [3; 4; 5; 6]].

(** The SMALL_STRAIGHT branch; [None] when it falls through to the
    default at the end of the function. *)
Definition optimal_small_straight (g : Game) : Res (option (list Z * Z)) :=
  let my_dice := dice (my_state g) in
  let sorted_dice := sorted_dice_unique g in
  complete ←
    first_return
      (λ sequence,
         if all ((λ x, py_in x sorted_dice) <$> sequence) then
           '(target_dice, temp_dice) ← move_present sequence [] my_dice;
           let target_dice :=
             match temp_dice with
             | x :: _ => target_dice ++ [x]
             | [] =>
                 let last := List.last sequence 0 in
                 target_dice ++ [if last <? 6 then last + 1 else hd 0 sequence - 1]
             end in
           score ← calculate_rule_potential_score target_dice SMALL_STRAIGHT;
           Ok (Some (target_dice, score))
         else Ok None)
      sequences;
  match complete with
  | Some r => Ok (Some r)
  | None =>
      let '(best_partial, best_count) :=
        foldl (λ '(best_partial, best_count) sequence,
                 let cnt := Z.of_nat (length (filter (λ x, py_in x sorted_dice = true)
                                                     sequence)) in
                 if best_count <? cnt then (Some sequence, cnt)
                 else (best_partial, best_count))
              (None, 0) sequences in
      match best_partial with
      | Some partial =>
          if 1 <=? best_count then
            '(target_dice, temp_dice) ← move_present partial [] my_dice;
            Ok (Some (target_dice, 0))
          else Ok None
      | None => Ok None
      end
  end.

(** The LARGE_STRAIGHT branch. *)
Definition optimal_large_straight (g : Game) : Res (option (list Z * Z)) :=
  let my_dice := dice (my_state g) in
  let sorted_dice := sorted_dice_unique g in
  let pick seq :=
    '(target_dice, temp_dice) ← move_present seq [] my_dice;
    score ← calculate_rule_potential_score target_dice LARGE_STRAIGHT;
    Ok (Some (target_dice, score)) in
  if all ((λ x, py_in x sorted_dice) <$> [1; 2; 3; 4; 5]) then pick [1; 2; 3; 4; 5]
  else if all ((λ x, py_in x sorted_dice) <$> [2; 3; 4; 5; 6]) then pick [2; 3; 4; 5; 6]
  else Ok None.

(** The YACHT branch. *)
Definition optimal_yacht (g : Game) : Res (option (list Z * Z)) :=
  let my_dice := dice (my_state g) in
  first_return
    (λ num,
       if 5 <=? count num my_dice then
         '(target_dice, temp_dice) ← move_copies 5 num [] my_dice;
         score ← calculate_rule_potential_score target_dice YACHT;
         Ok (Some (target_dice, score))
       else Ok None)
    (range 1 7).

Definition find_optimal_dice_for_rule (g : Game) (rule : DiceRule)
    : Res (list Z * Z) :=
  let my_dice := dice (my_state g) in
  found ←
    match rule with
    | ONE | TWO | THREE | FOUR | FIVE | SIX =>
        let target_number := Z.of_nat (value rule) + 1 in
        let target_count := count target_number my_dice in
        if 0 <? target_count
        then Some <$> optimal_number_dice g rule target_number target_count
        else Ok None
    | CHOICE =>
        if 10 <=? current_round g then
          let dice := take 5 (sorted_dice g) in
          score ← calculate_rule_potential_score dice CHOICE;
          Ok (Some (dice, score))
        else Ok (Some (replicate 5 0, 0))
    | FOUR_OF_A_KIND =>
        if current_round g <=? 8 then
          r ← optimal_four_of_a_kind g (range 4 7);
          Ok (Some (default (replicate 5 0, 0) r))
        else optimal_four_of_a_kind g (range 1 7)
    | FULL_HOUSE =>
        if current_round g <=? 8 then
          r ← optimal_full_house g (range 4 7);
          Ok (Some (default (replicate 5 0, 0) r))
        else optimal_full_house g (range 1 7)
    | SMALL_STRAIGHT => optimal_small_straight g
    | LARGE_STRAIGHT => optimal_large_straight g
    | YACHT => optimal_yacht g
    end;
  match found with
  | Some r => Ok r
  | None => default_dice g rule
  end.

Definition priority_rules : list nat :=
  value <$> [YACHT; LARGE_STRAIGHT; SMALL_STRAIGHT; FOUR_OF_A_KIND; FULL_HOUSE;
             CHOICE; SIX; FIVE; FOUR; THREE; TWO; ONE].

(** The two attributes that [calculate_put] stores first. *)
Definition cache_sorted (g : Game) : Game :=
  {| my_state := my_state g; opp_state := opp_state g;
     current_round := current_round g; opponent_bids := opponent_bids g;
     opponent_yacht_completed := opponent_yacht_completed g;
     my_yacht_completed := my_yacht_completed g;
     sorted_dice_unique := sorted (remove_dups (dice (my_state g)));
     sorted_dice := sorted_rev (dice (my_state g)) |}.

(** The clean-up loops over the low numbers 1, 2, 3: the first of them
    held at least [threshold] times whose rule is open is placed. *)
Definition cleanup_low (g : Game) (unused_rules : list nat) (threshold : Z)
    : Res (option DicePut) :=
  first_return
    (λ low_num : Z,
       let cnt := count low_num (dice (my_state g)) in
       if threshold <=? cnt then
         let rule_index := Z.to_nat (low_num - 1) in
         if bool_decide (rule_index ∈ unused_rules) then
           rule ← DiceRule_of rule_index;
           '(dice, score) ← find_optimal_dice_for_rule g rule;
           Ok (Some (mkDicePut rule dice))
         else Ok None
       else Ok None)
    [1; 2; 3].

(** The state of the search: [best_rule] with [best_dice], and
    [best_score]. *)
Definition Best : Type := option (DiceRule * list Z) * Z.

(** One turn of the loop over [priority_rules]. *)
Definition consider_priority_rule (g : Game) (unused_rules : list nat)
    (best : Best) (priority_rule : nat) : Res Best :=
  let '(best_put, best_score) := best in
  if bool_decide (priority_rule ∈ unused_rules) then
    rule ← DiceRule_of priority_rule;
    '(dice, score) ← find_optimal_dice_for_rule g rule;
    if should_use_rule_strategically g rule score then
      if bool_decide (rule ∈ [SMALL_STRAIGHT; LARGE_STRAIGHT]) && (score =? 0) then
        match best_put with
        | None => Ok (Some (rule, dice), score)
        | Some (best_rule, _) =>
            if negb (bool_decide (best_rule ∈ [YACHT; LARGE_STRAIGHT; SMALL_STRAIGHT]))
               || (best_score =? 0)
            then Ok (Some (rule, dice), score)
            else Ok best
        end
      else if best_score <? score then Ok (Some (rule, dice), score)
      else Ok best
    else Ok best
  else Ok best.

(** One turn of the fallback loop over all the open rules. *)
Definition consider_any_rule (g : Game) (best : Best) (rule_index : nat)
    : Res Best :=
  let '(best_put, best_score) := best in
  rule ← DiceRule_of rule_index;
  '(dice, score) ← find_optimal_dice_for_rule g rule;
  if best_score <? score then Ok (Some (rule, dice), score) else Ok best.

Definition calculate_put (g : Game) : Res DicePut :=
  let g := cache_sorted g in
  let unused_rules := unused_indices (my_state g) in
  let straights_done : Res bool :=
    large_done ← negb <$> is_unused (my_state g) LARGE_STRAIGHT;
    if large_done : bool then negb <$> is_unused (my_state g) SMALL_STRAIGHT
    else Ok false in
  high_value_rules_completed ←
    (if my_yacht_completed g then straights_done else Ok false);
  early ←
    (if high_value_rules_completed : bool then cleanup_low g unused_rules 3
     else if my_yacht_completed g then cleanup_low g unused_rules 4
     else Ok None);
  match early with
  | Some put => Ok put
  | None =>
      best ← for_each (consider_priority_rule g unused_rules) (None, -1)
                      priority_rules;
      best ← (match best.1 with
              | None => for_each (consider_any_rule g) best unused_rules
              | Some _ => Ok best
              end);
      match best.1 with
      | Some (best_rule, best_dice) => Ok (mkDicePut best_rule best_dice)
      | None =>
          first ← at_pos unused_rules 0;
          best_rule ← DiceRule_of first;
          let my_dice := dice (my_state g) in
          Ok (mkDicePut best_rule
                (if (5 <=? length my_dice)%nat then take 5 my_dice
                 else replicate 5 0))
      end
  end.

Definition update_get (g : Game) (dice_a dice_b : list Z) (my_bid opp_bid : Bid)
    (my_group : string) : Game :=
  let g := save_opponent_bid g (current_round g) (amount opp_bid) in
  let '(mine, theirs) :=
    if String.eqb my_group "A" then (dice_a, dice_b) else (dice_b, dice_a) in
  let my_bid_ok := String.eqb (group my_bid) my_group in
  let opp_group := if String.eqb my_group "A" then "B" else "A" in
  let opp_bid_ok := String.eqb (group opp_bid) opp_group in
  {| my_state := bid (add_dice (my_state g) mine) my_bid_ok (amount my_bid);
     opp_state := bid (add_dice (opp_state g) theirs) opp_bid_ok (amount opp_bid);
     current_round := current_round g; opponent_bids := opponent_bids g;
     opponent_yacht_completed := opponent_yacht_completed g;
     my_yacht_completed := my_yacht_completed g;
     sorted_dice_unique := sorted_dice_unique g; sorted_dice := sorted_dice g |}.

Definition update_put (g : Game) (put : DicePut) : Res Game :=
  st ← use_dice (my_state g) put;
  check_my_yacht_completion
    {| my_state := st; opp_state := opp_state g;
       current_round := current_round g; opponent_bids := opponent_bids g;
       opponent_yacht_completed := opponent_yacht_completed g;
       my_yacht_completed := my_yacht_completed g;
       sorted_dice_unique := sorted_dice_unique g; sorted_dice := sorted_dice g |}.

Definition update_set (g : Game) (put : DicePut) : Res Game :=
  st ← use_dice (opp_state g) put;
  check_opponent_yacht_completion
    {| my_state := my_state g; opp_state := st;
       current_round := current_round g; opponent_bids := opponent_bids g;
       opponent_yacht_completed := opponent_yacht_completed g;
       my_yacht_completed := my_yacht_completed g;
       sorted_dice_unique := sorted_dice_unique g; sorted_dice := sorted_dice g |}.

(** [get_my_max_duplicate_number]: the number held most often and how
    often, the smallest such number on a tie; nothing for an empty
    pool. *)
Definition get_my_max_duplicate_number (g : Game) : Res (option (Z * Z)) :=
  let my_dice := dice (my_state g) in
  match my_dice with
  | [] => Ok None
  | _ :: _ =>
      counts ← count_array my_dice;
      '(max_count, max_number) ←
        for_each (λ '(max_count, max_number) i,
                    c ← at_pos counts (Z.to_nat i);
                    Ok (if max_count <? c then (c, i) else (max_count, max_number)))
                 (0, 0) (range 1 7);
      Ok (if 0 <? max_count then Some (max_number, max_count) else None)
  end.

(** [calculate_potential_score] of [Game]: the best potential score of
    the dice over the given rule indices. *)
Definition calculate_potential_score (dice : list Z) (unused_rules : list nat)
    : Res Z :=
  for_each (λ max_score rule_index,
              rule ← DiceRule_of rule_index;
              score ← calculate_rule_potential_score dice rule;
              Ok (max_score `max` score))
           0 unused_rules.

Definition select_group_by_remaining_combinations (g : Game)
    (dice_a dice_b : list Z) : Res string :=
  let unused_rules := unused_indices (my_state g) in
  score_a ← calculate_potential_score dice_a unused_rules;
  score_b ← calculate_potential_score dice_b unused_rules;
  Ok (if score_b <? score_a then "A" else "B").

Definition select_group_based_on_my_dice (g : Game) (dice_a dice_b : list Z)
    : Res string :=
  my_max_info ← get_my_max_duplicate_number g;
  let by_sum := if py_sum dice_b <? py_sum dice_a then "A" else "B" in
  match my_max_info with
  | Some (my_max_number, _) =>
      let count_a := count my_max_number dice_a in
      let count_b := count my_max_number dice_b in
      if count_b <? count_a then Ok "A"
      else if count_a <? count_b then Ok "B"
      else if (count_a =? count_b) && (0 <? count_a) then
        if current_round g <=? 8 then Ok by_sum
        else select_group_by_remaining_combinations g dice_a dice_b
      else Ok by_sum
  | None => Ok by_sum
  end.

(** [count_unused_rules] *)
Definition count_unused_rules (g : Game) : Z :=
  Z.of_nat (length (filter (λ score, score = None) (rule_score (my_state g)))).

(** [get_unused_rule_indices] *)
Definition get_unused_rule_indices (g : Game) : list nat :=
  unused_indices (my_state g).

(** [count_critical_rules]: the open ones among YACHT, LARGE_STRAIGHT,
    SMALL_STRAIGHT and FOUR_OF_A_KIND. *)
Definition count_critical_rules (g : Game) : Res Z :=
  for_each (λ n rule, open ← is_unused (my_state g) rule;
                      Ok (if open : bool then n + 1 else n))
           0 [YACHT; LARGE_STRAIGHT; SMALL_STRAIGHT; FOUR_OF_A_KIND].

(** [calculate_simple_put]: the first open rule (rule 0 when none is)
    with the first five dice of the pool, five zeros for a shorter
    pool. *)
Definition calculate_simple_put (g : Game) : Res DicePut :=
  let unused_rules := unused_indices (my_state g) in
  let rule_index := default 0%nat (head unused_rules) in
  let my_dice := dice (my_state g) in
  let dice := if (5 <=? length my_dice)%nat then take 5 my_dice else replicate 5 0 in
  rule ← DiceRule_of rule_index;
  Ok (mkDicePut rule dice).

(** [calculate_13th_round_put]: the same choice, written a second
    time. *)
Definition calculate_13th_round_put (g : Game) : Res DicePut :=
  let my_dice := dice (my_state g) in
  let unused_rules := unused_indices (my_state g) in
  let dice := if (5 <=? length my_dice)%nat then take 5 my_dice else replicate 5 0 in
  let rule_index := default 0%nat (head unused_rules) in
  rule ← DiceRule_of rule_index;
  Ok (mkDicePut rule dice).

End Y1650.

(** The classes of [test2.py]. *)
Module Test2.

Record Game : Type := mkGame { my_state : GameState; opp_state : GameState }.

Definition get_total_score (st : GameState) : Z :=
  let basic := sum_filled (take 6 (rule_score st)) in
  let bonus := if 63000 <=? basic then 35000 else 0 in
  let combination := sum_filled (take 6 (drop 6 (rule_score st))) in
  basic + bonus + combination + bid_score st.

Definition bid (st : GameState) (is_successful : bool) (amount : Z) : GameState :=
  {| dice := dice st; rule_score := rule_score st;
     bid_score := bid_score st + (if is_successful then - amount else amount) |}.

Definition add_dice (st : GameState) (new_dice : list Z) : GameState :=
  {| dice := dice st ++ new_dice; rule_score := rule_score st;
     bid_score := bid_score st |}.

Definition calculate_score (put : DicePut) : Z :=
  let dice := put_dice put in
  let counts := (λ i, count i dice) <$> range 1 7 in
  match put_rule put with
  | ONE => count 1 dice * 1 * 1000
  | TWO => count 2 dice * 2 * 1000
  | THREE => count 3 dice * 3 * 1000
  | FOUR => count 4 dice * 4 * 1000
  | FIVE => count 5 dice * 5 * 1000
  | SIX => count 6 dice * 6 * 1000
  | CHOICE => py_sum dice * 1000
  | FOUR_OF_A_KIND =>
      if any ((λ c, 4 <=? c) <$> counts) then py_sum dice * 1000 else 0
  | FULL_HOUSE =>
      if py_in 3 counts && py_in 2 counts then py_sum dice * 1000 else 0
  | SMALL_STRAIGHT =>
      let straights := [[1; 2; 3; 4]; [2; 3; 4; 5]; [3; 4; 5; 6]] in
      if any ((λ s, all ((λ x, py_in x dice) <$> s)) <$> straights)
      then 15000 else 0
  | LARGE_STRAIGHT =>
      let dice_str := String.concat "" (str <$> sorted dice) in
      if bool_decide (dice_str ∈ ["12345"; "23456"]%string) then 30000 else 0
  | YACHT =>
      if any ((λ c, c =? 5) <$> counts) then 50000 else 0
  end.

(** [use_dice]: [self.dice.remove(d)] is not guarded here, a die the
    pool lacks raises [ValueError] before anything is scored. *)
Definition use_dice (st : GameState) (put : DicePut) : Res GameState :=
  match rule_score st !! value (put_rule put) with
  | None => Raise IndexError
  | Some (Some _) => Raise (AssertionError "Rule already used")
  | Some None =>
      dice' ← for_each (λ ds d, list_remove d ds) (dice st) (put_dice put);
      Ok {| dice := dice';
            rule_score := <[value (put_rule put) := Some (calculate_score put)]>
                            (rule_score st);
            bid_score := bid_score st |}
  end.

(** [get_unused_rules]: [DiceRule(i)] for the open positions. *)
Definition get_unused_rules (st : GameState) : Res (list DiceRule) :=
  mapM DiceRule_of
    (omap (λ '(i, score), match score with None => Some i | Some _ => None end)
          (imap pair (rule_score st))).

(** One entry of [possible_plays]. *)
Record Play : Type := mkPlay {
  play_score : Z; play_rule : DiceRule; play_dice : list Z
}.

(** [max(plays, key=score)]: the first play of maximal score. *)
Definition max_play (first : Play) (rest : list Play) : Play :=
  foldl (λ best p, if play_score best <? play_score p then p else best)
        first rest.

Definition sacrifice_priority : list DiceRule :=
  [YACHT; LARGE_STRAIGHT; FOUR_OF_A_KIND; SMALL_STRAIGHT; FULL_HOUSE; ONE; TWO].

Definition find_best_put (st : GameState) (dice_pool : list Z)
    (is_sacrifice_ok : bool) : Res DicePut :=
  unused_rules ← get_unused_rules st;
  match unused_rules with
  | [] => Ok (mkDicePut CHOICE (take 5 dice_pool))
  | first_rule :: _ =>
      let num_dice_to_choose := (length dice_pool `min` 5)%nat in
      let possible_plays :=
        hand ← combinations dice_pool num_dice_to_choose;
        rule ← unused_rules;
        [mkPlay (calculate_score (mkDicePut rule hand)) rule hand] in
      match possible_plays with
      | [] => Ok (mkDicePut first_rule (take 5 dice_pool))
      | p :: ps =>
          let best_play := max_play p ps in
          let sacrifice :=
            if is_sacrifice_ok && (play_score best_play <? 10000) then
              head (rule_to_sacrifice ← sacrifice_priority;
                    if bool_decide (rule_to_sacrifice ∈ unused_rules) then
                      filter (λ play, play_rule play = rule_to_sacrifice
                                      ∧ play_score play = 0) possible_plays
                    else [])
            else None in
          match sacrifice with
          | Some play => Ok (mkDicePut (play_rule play) (play_dice play))
          | None => Ok (mkDicePut (play_rule best_play) (play_dice best_play))
          end
      end
  end.

(** The estimator with the size of the sample as a parameter; the
    source fixes it to 300, see [calculate_potential_score]. *)
Definition potential_score_within (budget : nat) (picks : list nat)
    (dice_pool : list Z) (unused_rules : list DiceRule) : Z :=
  let num_dice_to_choose := (length dice_pool `min` 5)%nat in
  let all_combinations := combinations dice_pool num_dice_to_choose in
  let all_combinations :=
    if decide (budget < length all_combinations)%nat
    then random_sample picks all_combinations budget
    else all_combinations in
  foldl (λ best_score hand,
           foldl (λ best_score rule,
                    let score := calculate_score (mkDicePut rule hand) in
                    if best_score <? score then score else best_score)
                 best_score unused_rules)
        0 all_combinations.

Definition calculate_potential_score : list nat → list Z → list DiceRule → Z :=
  potential_score_within 300.

(** The positions drawn by the four calls of the estimator in
    [calculate_bid]. *)
Record BidDraws : Type := mkBidDraws {
  draw_my_A : list nat; draw_my_B : list nat;
  draw_opp_A : list nat; draw_opp_B : list nat
}.

Definition calculate_bid (draws : BidDraws) (g : Game) (dice_a dice_b : list Z)
    : Res Bid :=
  let my_dice := dice (my_state g) in
  let opp_dice := dice (opp_state g) in
  my_unused_rules ← get_unused_rules (my_state g);
  opp_unused_rules ← get_unused_rules (opp_state g);
  let my_potential_A :=
    calculate_potential_score (draw_my_A draws) (my_dice ++ dice_a) my_unused_rules in
  let my_potential_B :=
    calculate_potential_score (draw_my_B draws) (my_dice ++ dice_b) my_unused_rules in
  let opp_potential_A :=
    calculate_potential_score (draw_opp_A draws) (opp_dice ++ dice_a) opp_unused_rules in
  let opp_potential_B :=
    calculate_potential_score (draw_opp_B draws) (opp_dice ++ dice_b) opp_unused_rules in
  let my_preferred_group := if my_potential_B <? my_potential_A then "A" else "B" in
  let opp_preferred_group := if opp_potential_B <? opp_potential_A then "A" else "B" in
  let my_gain := Z.abs (my_potential_A - my_potential_B) in
  let amount :=
    if String.eqb my_preferred_group opp_preferred_group then
      let score_diff :=
        get_total_score (my_state g) - get_total_score (opp_state g) in
      if score_diff <? -20000 then my_gain `div` 2
      else if 20000 <? score_diff then my_gain `div` 8
      else my_gain `div` 4
    else 0 in
  Ok (mkBid my_preferred_group (0 `max` (100000 `min` amount))).

Definition calculate_put (g : Game) : Res DicePut :=
  find_best_put (my_state g) (dice (my_state g)) true.

Definition update_get (g : Game) (dice_a dice_b : list Z) (my_bid opp_bid : Bid)
    (my_group : string) : Game :=
  let '(mine, theirs) :=
    if String.eqb my_group "A" then (dice_a, dice_b) else (dice_b, dice_a) in
  let my_bid_ok := String.eqb (group my_bid) my_group in
  let opp_group := if String.eqb my_group "A" then "B" else "A" in
  let opp_bid_ok := String.eqb (group opp_bid) opp_group in
  {| my_state := bid (add_dice (my_state g) mine) my_bid_ok (amount my_bid);
     opp_state := bid (add_dice (opp_state g) theirs) opp_bid_ok (amount opp_bid) |}.

Definition update_put (g : Game) (put : DicePut) : Res Game :=
  st ← use_dice (my_state g) put;
  Ok {| my_state := st; opp_state := opp_state g |}.

Definition update_set (g : Game) (put : DicePut) : Res Game :=
  st ← use_dice (opp_state g) put;
  Ok {| my_state := my_state g; opp_state := st |}.

End Test2.

(** The last-round valuation of [main.py].  Its [GameState] and the
    attributes of its [Game] are those of [1650.py]. *)
Module MainPy.
Import Y1650.

(** [calculate_rule_potential_score] of [main.py]: the FULL_HOUSE
    branch looks for a number held three times and then for a pair
    among the other dice; an open YACHT is valued only while
    [my_yacht_completed] is unset. *)
Definition calculate_rule_potential_score (g : Game) (dice : list Z)
    (rule : DiceRule) : Res Z :=
  match rule with
  | ONE => Ok (py_sum (filter (λ d, d = 1) dice) * 1000)
  | TWO => Ok (py_sum (filter (λ d, d = 2) dice) * 1000)
  | THREE => Ok (py_sum (filter (λ d, d = 3) dice) * 1000)
  | FOUR => Ok (py_sum (filter (λ d, d = 4) dice) * 1000)
  | FIVE => Ok (py_sum (filter (λ d, d = 5) dice) * 1000)
  | SIX => Ok (py_sum (filter (λ d, d = 6) dice) * 1000)
  | CHOICE => Ok (py_sum dice * 1000)
  | FOUR_OF_A_KIND =>
      if any ((λ i, 4 <=? count i dice) <$> range 1 7)
      then Ok (py_sum dice * 1000) else Ok 0
  | YACHT =>
      if negb (my_yacht_completed g) then
        if any ((λ i, count i dice =? 5) <$> range 1 7) then Ok 50000 else Ok 0
      else Ok 0
  | FULL_HOUSE =>
      match head (filter (λ i, 3 ≤ count i dice) (range 1 7)) with
      | None => Ok 0
      | Some triple_number =>
          let remaining_dice := filter (λ d, d ≠ triple_number) dice in
          let has_pair := any ((λ i, 2 <=? count i remaining_dice) <$> range 1 7) in
          if has_pair then Ok (py_sum dice * 1000) else Ok 0
      end
  | SMALL_STRAIGHT =>
      has ← has_array dice;
      let h i := default false (has !! i) in
      if (h 1 && h 2 && h 3 && h 4)%nat
         || (h 2 && h 3 && h 4 && h 5)%nat
         || (h 3 && h 4 && h 5 && h 6)%nat
      then Ok 15000 else Ok 0
  | LARGE_STRAIGHT =>
      has ← has_array dice;
      let h i := default false (has !! i) in
      if (h 1 && h 2 && h 3 && h 4 && h 5)%nat
         || (h 2 && h 3 && h 4 && h 5 && h 6)%nat
      then Ok 30000 else Ok 0
  end.

(** [remaining_rules]: [DiceRule(i)] for the open positions among
    [range(12)]. *)
Definition remaining_rules (st : GameState) : Res (list DiceRule) :=
  for_each (λ acc i, s ← at_pos (rule_score st) i;
                     match s with
                     | None => r ← DiceRule_of i; Ok (acc ++ [r])
                     | Some _ => Ok acc
                     end)
           [] (seq 0 12).

(** The five nested loops: the increasing positions [i < j < k < l < m]
    below [n]. *)
Definition five_positions (n : Z) : list (list Z) :=
  i ← range 0 (n - 4);
  j ← range (i + 1) (n - 3);
  k ← range (j + 1) (n - 2);
  l ← range (k + 1) (n - 1);
  m ← range (l + 1) n;
  [[i; j; k; l; m]].

(** [[d for idx, d in enumerate(dice) if idx not in positions]] *)
Definition dice_not_at (positions : list Z) (dice : list Z) : list Z :=
  omap (λ '(idx, d), if py_in (Z.of_nat idx) positions then None else Some d)
       (imap pair dice).

(** The two hands of one turn of the innermost loop. *)
Definition hands_at (combined_dice : list Z) (positions : list Z)
    : Res (list Z * list Z) :=
  dice_for_rule1 ← mapM (λ i, at_pos combined_dice (Z.to_nat i)) positions;
  Ok (dice_for_rule1, dice_not_at positions combined_dice).

Definition calculate_highest_possible_score_for_last_turn (g : Game)
    (dice_group : list Z) : Res Z :=
  let combined_dice := dice (my_state g) ++ dice_group in
  rules ← remaining_rules (my_state g);
  match rules with
  | [rule1; rule2] =>
      for_each
        (λ max_score positions,
           '(dice_for_rule1, dice_for_rule2) ← hands_at combined_dice positions;
           score1 ← calculate_rule_potential_score g dice_for_rule1 rule1;
           score2 ← calculate_rule_potential_score g dice_for_rule2 rule2;
           let total_score := score1 + score2 in
           Ok (max_score `max` total_score))
        0 (five_positions (Z.of_nat (length combined_dice)))
  | _ => Ok 0
  end.

(** The search at the head of [calculate_put] from round 12 on; [None]
    when the function goes on to its general ladder. *)
Definition last_turn_put (g : Game) : Res (option DicePut) :=
  if 12 <=? current_round g then
    rules ← remaining_rules (my_state g);
    match rules with
    | [rule1; rule2] =>
        let my_dice := dice (my_state g) in
        '(max_score, best_dice_for_rule1, best_dice_for_rule2) ←
          for_each
            (λ '(max_score, best1, best2) positions,
               '(dice_for_rule1, dice_for_rule2) ← hands_at my_dice positions;
               score1 ← calculate_rule_potential_score g dice_for_rule1 rule1;
               score2 ← calculate_rule_potential_score g dice_for_rule2 rule2;
               let total_score := score1 + score2 in
               if max_score <? total_score
               then Ok (total_score, dice_for_rule1, dice_for_rule2)
               else Ok (max_score, best1, best2))
            (0, [], []) (five_positions (Z.of_nat (length my_dice)));
        match best_dice_for_rule1, best_dice_for_rule2 with
        | _ :: _, _ :: _ => Ok (Some (mkDicePut rule1 best_dice_for_rule1))
        | _, _ => Ok None
        end
    | _ => Ok None
    end
  else Ok None.

(** [get_max_duplicate_count] of [main.py]: the dictionary of the open
    numbers that the group holds at least twice, with their counts.
    [max(d.values()) if d else 0] is [max_duplicate] below. *)
Definition get_max_duplicate_count (g : Game) (dice_group : list Z)
    : Res (gmap Z Z) :=
  counts ← count_array dice_group;
  small_straight_completed ← negb <$> is_unused (my_state g) SMALL_STRAIGHT;
  large_straight_completed ← negb <$> is_unused (my_state g) LARGE_STRAIGHT;
  yacht_completed ← negb <$> is_unused (my_state g) YACHT;
  let high_rules_completed :=
    small_straight_completed && large_straight_completed && yacht_completed in
  for_each
    (λ (duplicate_dict : gmap Z Z) (num : Z),
       s ← at_pos (rule_score (my_state g)) (Z.to_nat (num - 1));
       match s with
       | None =>
           c ← at_pos counts (Z.to_nat num);
           Ok (if 2 <=? c then <[num := c]> duplicate_dict else duplicate_dict)
       | Some _ => Ok duplicate_dict
       end)
    ∅ (if high_rules_completed then [6; 5; 4; 3; 2; 1] else range 1 7).

(** [max(d.values()) if d else 0] *)
Definition max_duplicate (d : gmap Z Z) : Res Z :=
  if bool_decide (d = ∅) then Ok 0 else py_max (dict_values d).

(** [should_block_yacht] of [main.py]: each offered group is joined to
    the opponent's pool and searched for a number held five times. *)
Definition should_block_yacht (g : Game) (dice_a dice_b : list Z)
    : Res (option (string * Z)) :=
  if opponent_yacht_completed g then Ok None
  else
    let opp_dice := dice (opp_state g) in
    if (length opp_dice <? 4)%nat then Ok None
    else
      first_return
        (λ dice_group : list Z,
           combined_counts ← count_array (opp_dice ++ dice_group);
           first_return
             (λ num : Z,
                c ← at_pos combined_counts (Z.to_nat num);
                if 5 <=? c then
                  let count_a := count num dice_a in
                  let count_b := count num dice_b in
                  if ((0 <? count_a) && (count_b =? 0))
                     || ((count_a =? 0) && (0 <? count_b))
                  then Ok (Some (if 0 <? count_a then "A" else "B", 5001))
                  else Ok None
                else Ok None)
             (range 1 7))
        [dice_a; dice_b].

(** [calculate_needed_dice_value]: [total_value] is threaded through the
    loops over the rules and, inside a rule, over the numbers or the
    straights. *)
Definition calculate_needed_dice_value (g : Game) (dice_group : list Z)
    (remaining_rules : list DiceRule) (is_opponent : bool) : Z :=
  let combined_dice :=
    if is_opponent then dice_group ++ dice (opp_state g)
    else dice_group ++ dice (my_state g) in
  foldl
    (λ total_value rule,
       match rule with
       | ONE | TWO | THREE | FOUR | FIVE | SIX =>
           let target_number := Z.of_nat (value rule) + 1 in
           total_value + count target_number dice_group * target_number
       | CHOICE => total_value + py_sum dice_group
       | FOUR_OF_A_KIND =>
           foldl (λ total_value num,
                    if 4 <=? count num combined_dice
                    then total_value + num * 4 else total_value)
                 total_value (range 4 7)
       | FULL_HOUSE =>
           foldl (λ total_value num1,
                    if 3 <=? count num1 combined_dice then
                      foldl (λ total_value num2,
                               if negb (num2 =? num1)
                                  && (2 <=? count num2 combined_dice)
                               then total_value + (num1 * 3 + num2 * 2)
                               else total_value)
                            total_value (range 4 7)
                    else total_value)
                 total_value (range 4 7)
       | SMALL_STRAIGHT =>
           foldl (λ total_value straight,
                    if all ((λ x, py_in x combined_dice) <$> straight)
                    then total_value + 15 else total_value)
                 total_value [[1; 2; 3; 4]; [2; 3; 4; 5]; [3; 4; 5; 6]]
       | LARGE_STRAIGHT =>
           foldl (λ total_value straight,
                    if all ((λ x, py_in x combined_dice) <$> straight)
                    then total_value + 30 else total_value)
                 total_value [[1; 2; 3; 4; 5]; [2; 3; 4; 5; 6]]
       | YACHT =>
           foldl (λ total_value num,
                    if 5 <=? count num combined_dice
                    then total_value + 50 else total_value)
                 total_value (range 1 7)
       end)
    0 remaining_rules.

Definition calculate_my_needed_dice_value (g : Game) (dice_group : list Z)
    : Res Z :=
  remaining_rules ← remaining_rules (my_state g);
  Ok (calculate_needed_dice_value g dice_group remaining_rules false).

Definition calculate_opponent_needed_dice_value (g : Game) (dice_group : list Z)
    : Res Z :=
  remaining_rules ← remaining_rules (opp_state g);
  Ok (calculate_needed_dice_value g dice_group remaining_rules true).

Definition calculate_final_round_bid (g : Game) (dice_a dice_b : list Z)
    : Res Bid :=
  remaining_rules ← remaining_rules (my_state g);
  let by_sum := if py_sum dice_b <=? py_sum dice_a then "A" else "B" in
  match remaining_rules with
  | [] => Ok (mkBid by_sum 0)
  | _ :: _ =>
      let value_a := calculate_needed_dice_value g dice_a remaining_rules false in
      let value_b := calculate_needed_dice_value g dice_b remaining_rules false in
      if value_b <? value_a then Ok (mkBid "A" (999 `min` (value_a * 999)))
      else if value_a <? value_b then Ok (mkBid "B" (999 `min` (value_b * 999)))
      else Ok (mkBid by_sum (999 `min` ((value_a `max` value_b) * 999)))
  end.

(** [calculate_strategic_bid_amount] of [main.py]; [draw] is the
    position that [random.choice] draws from the two options. *)
Definition calculate_strategic_bid_amount (draw : nat) (g : Game)
    (selected_dice : list Z) : Res Z :=
  max_count_dict ← get_max_duplicate_count g selected_dice;
  let dice_sum := py_sum selected_dice in
  max_count ← max_duplicate max_count_dict;
  if current_round g <=? 1 then
    if max_count =? 5 then Ok 7999
    else if max_count =? 4 then Ok 4001
    else if max_count =? 3 then Ok 2001
    else if max_count =? 2 then
      if 21 <=? dice_sum then Ok 988
      else if 17 <=? dice_sum then Ok 498
      else Ok 2
    else Ok (if 20 <=? dice_sum then 3002 else 1)
  else if current_round g <=? 3 then
    if 4 <=? max_count then
      if 21 <=? dice_sum then Ok 4501
      else if 17 <=? dice_sum then Ok 3155
      else Ok 2401
    else if max_count =? 3 then
      if 22 <=? dice_sum then Ok 2301
      else if 19 <=? dice_sum then Ok 1897
      else Ok 1245
    else if max_count =? 2 then
      if 21 <=? dice_sum then Ok 1135
      else if 16 <=? dice_sum then Ok 874
      else Ok 2
    else
      if 20 <=? dice_sum then Ok 786 else Ok 487
  else if (4 <=? current_round g) && (current_round g <=? 8) then
    if my_yacht_completed g then
      min_opponent_bid ← py_min (dict_values (opponent_bids g));
      let option1 := 0 in
      let option2 := 511 `min` (0 `max` (min_opponent_bid - 1)) in
      random_choice draw [option1; option2]
    else
      min_opponent_bid ← py_min (dict_values (opponent_bids g));
      let combined_dice := dice (my_state g) ++ selected_dice in
      combined_max_count_dict ← get_max_duplicate_count g combined_dice;
      combined_max_count ← max_duplicate combined_max_count_dict;
      if combined_max_count =? 3
      then Ok (499 `min` (0 `max` (min_opponent_bid - 1)))
      else if combined_max_count =? 4
      then Ok (511 `min` (0 `max` (min_opponent_bid + 1)))
      else if 2 <=? count 6 selected_dice
      then Ok (599 `min` (0 `max` (min_opponent_bid - 1)))
      else if 2 <=? count 5 selected_dice
      then Ok (599 `min` (0 `max` (min_opponent_bid - 1)))
      else if (1 <=? count 6 selected_dice) && (1 <=? count 5 selected_dice)
      then Ok (599 `min` (0 `max` (min_opponent_bid - 1)))
      else Ok 0
  else if 9 <=? current_round g then
    my_needed_dice_value ← calculate_my_needed_dice_value g selected_dice;
    opp_needed_dice_value ← calculate_opponent_needed_dice_value g selected_dice;
    min_opponent_bid ← py_min (dict_values (opponent_bids g));
    if 0 <? my_needed_dice_value then
      if 51 <=? my_needed_dice_value
      then Ok (2999 `min` (min_opponent_bid `max` 1999))
      else if 42 <=? my_needed_dice_value
      then Ok (1999 `min` (min_opponent_bid `max` 999))
      else if 33 <=? my_needed_dice_value
      then Ok (999 `min` (min_opponent_bid `max` 99))
      else Ok (1 `min` (min_opponent_bid `max` 2))
    else if 0 <? opp_needed_dice_value then
      if 10 <=? opp_needed_dice_value
      then Ok (3499 `min` (min_opponent_bid `max` 2999))
      else if 5 <=? opp_needed_dice_value
      then Ok (2499 `min` (min_opponent_bid `max` 1999))
      else Ok (1499 `min` (min_opponent_bid `max` 999))
    else
      let option1 := 0 in
      let option2 := 2 `min` (0 `max` (min_opponent_bid + 1)) in
      random_choice draw [option1; option2]
  else Ok 1.

(** The choice between the two groups by duplicates and sum, the last
    resort of [calculate_bid]. *)
Definition select_by_duplicates (g : Game) (dice_a dice_b : list Z)
    : Res (list Z * string) :=
  max_count_a_dict ← get_max_duplicate_count g dice_a;
  max_count_b_dict ← get_max_duplicate_count g dice_b;
  let dice_Asum := py_sum dice_a in
  let dice_Bsum := py_sum dice_b in
  max_count_a ← max_duplicate max_count_a_dict;
  max_count_b ← max_duplicate max_count_b_dict;
  if max_count_b <=? max_count_a then
    if dice_Bsum <=? dice_Asum then Ok (dice_a, "A") else Ok (dice_b, "B")
  else Ok (dice_b, "B").

(** The choice by the needed values, with the duplicates as the tie
    break. *)
Definition select_by_needed_value (g : Game) (dice_a dice_b : list Z)
    : Res (list Z * string) :=
  value_a ← calculate_my_needed_dice_value g dice_a;
  value_b ← calculate_my_needed_dice_value g dice_b;
  if value_b <? value_a then Ok (dice_a, "A")
  else if value_a <? value_b then Ok (dice_b, "B")
  else select_by_duplicates g dice_a dice_b.

(** The group that [calculate_bid] selects outside round 13, after the
    YACHT block. *)
Definition select_group (g : Game) (dice_a dice_b : list Z)
    : Res (list Z * string) :=
  if 6 <=? current_round g then
    one_open ← is_unused (my_state g) ONE;
    one_or_two_open ←
      (if one_open : bool then Ok true else is_unused (my_state g) TWO);
    if one_or_two_open : bool then
      let my_dice := dice (my_state g) in
      let count_1_a := count 1 dice_a + count 1 my_dice in
      let count_2_a := count 2 dice_a + count 2 my_dice in
      let count_1_b := count 1 dice_b + count 1 my_dice in
      let count_2_b := count 2 dice_b + count 2 my_dice in
      if one_open && (4 <=? count_1_a) && (count_1_b <? count_1_a)
      then Ok (dice_a, "A")
      else if one_open && (4 <=? count_1_b) && (count_1_a <? count_1_b)
      then Ok (dice_b, "B")
      else
        two_open ← is_unused (my_state g) TWO;
        if two_open && (4 <=? count_2_a) && (count_2_b <? count_2_a)
        then Ok (dice_a, "A")
        else if two_open && (4 <=? count_2_b) && (count_2_a <? count_2_b)
        then Ok (dice_b, "B")
        else select_by_needed_value g dice_a dice_b
    else select_by_needed_value g dice_a dice_b
  else select_by_duplicates g dice_a dice_b.

(** [calculate_bid] of [main.py]. *)
Definition calculate_bid (draw : nat) (g : Game) (dice_a dice_b : list Z)
    : Res Bid :=
  if current_round g =? 13 then
    let remaining_rules_count :=
      length (filter (λ score, score = None) (rule_score (my_state g))) in
    if (remaining_rules_count =? 2)%nat then
      score_a ← calculate_highest_possible_score_for_last_turn g dice_a;
      score_b ← calculate_highest_possible_score_for_last_turn g dice_b;
      let '(selected_dice, group) :=
        if score_b <? score_a then (dice_a, "A")
        else if score_a <? score_b then (dice_b, "B")
        else if py_sum dice_b <=? py_sum dice_a then (dice_a, "A")
        else (dice_b, "B") in
      amount ← calculate_strategic_bid_amount draw g selected_dice;
      Ok (mkBid group amount)
    else calculate_final_round_bid g dice_a dice_b
  else
    block_result ← should_block_yacht g dice_a dice_b;
    match block_result with
    | Some (block_group, block_result_amount) =>
        Ok (mkBid block_group block_result_amount)
    | None =>
        '(selected_dice, group) ← select_group g dice_a dice_b;
        amount ← calculate_strategic_bid_amount draw g selected_dice;
        Ok (mkBid group amount)
    end.

(** [should_use_rule_strategically] of [main.py]: each number category
    has its own two thresholds and rounds. *)
Definition should_use_rule_strategically (g : Game) (rule : DiceRule)
    (score : Z) : bool :=
  let by_thresholds (high low : Z) (round_low round_else : Z) :=
    if high <=? score then true
    else if low <=? score then round_low <=? current_round g
    else round_else <=? current_round g in
  match rule with
  | YACHT => 0 <? score
  | LARGE_STRAIGHT => 0 <? score
  | SMALL_STRAIGHT => if 0 <? score then true else current_round g <=? 6
  | FOUR_OF_A_KIND =>
      if 9 <=? current_round g then 0 <? score else 0 <? score
  | FULL_HOUSE =>
      if 9 <=? current_round g then 0 <? score
      else if current_round g <=? 6
           then (0 <? score) && (4 <=? current_round g)
           else 0 <? score
  | CHOICE => (13 <=? current_round g) && (0 <? score - 7000)
  | ONE => by_thresholds 3000 1000 7 10
  | TWO => by_thresholds 6000 2000 6 9
  | THREE => by_thresholds 9000 3000 6 8
  | FOUR => by_thresholds 12000 4000 4 7
  | FIVE => by_thresholds 15000 5000 3 6
  | SIX => by_thresholds 18000 6000 3 5
  end.

End MainPy.

(** ** Notions used to state the properties *)

(** A die shows a value from 1 to 6. *)
Definition dice_value (d : Z) : Prop := 1 ≤ d ≤ 6.

(** The hand holds one value three times and another one twice, or one
    value five times. *)
Definition full_house_shape (hand : list Z) : Prop :=
  (∃ a b, a ≠ b ∧ count a hand = 3 ∧ count b hand = 2) ∨ (∃ a, count a hand = 5).

(** The hand holds one value exactly three times and another one exactly
    twice. *)
Definition strict_full_house (hand : list Z) : Prop :=
  ∃ a b, a ≠ b ∧ count a hand = 3 ∧ count b hand = 2.

(** The score stored for a category, 0 while it is open. *)
Definition score_of (st : GameState) (r : DiceRule) : Z :=
  match rule_score st !! value r with
  | Some (Some s) => s
  | _ => 0
  end.

Definition number_rules : list DiceRule := [ONE; TWO; THREE; FOUR; FIVE; SIX].
Definition other_rules : list DiceRule :=
  [CHOICE; FOUR_OF_A_KIND; FULL_HOUSE; SMALL_STRAIGHT; LARGE_STRAIGHT; YACHT].

Definition subtotal (st : GameState) (rules : list DiceRule) : Z :=
  py_sum (score_of st <$> rules).


(** A non-negative multiple of 1000. *)
Definition thousands (v : Z) : Prop := ∃ k, 0 ≤ k ∧ v = 1000 * k.

(** Every stored category score is a non-negative multiple of 1000. *)
Definition stored_in_thousands (st : GameState) : Prop :=
  ∀ i v, rule_score st !! i = Some (Some v) → thousands v.


(** The score at a position of the board, 0 while it is open. *)
Definition score_at (board : list (option Z)) (i : nat) : Z :=
  match board !! i with
  | Some (Some s) => s
  | _ => 0
  end.


(** A state of round 4: the pool [1,1,2,2,3], the
    categories ONE, TWO and THREE filled with [s1], [s2], [s3]. *)
Definition partial_straight_game (s1 s2 s3 : Z) : Y1650.Game :=
  {| Y1650.my_state :=
       {| dice := [1; 1; 2; 2; 3];
          rule_score := [Some s1; Some s2; Some s3; None; None; None;
                         None; None; None; None; None; None];
          bid_score := 0 |};
     Y1650.opp_state := GameState_init;
     Y1650.current_round := 4;
     Y1650.opponent_bids := ∅;
     Y1650.opponent_yacht_completed := false;
     Y1650.my_yacht_completed := false;
     Y1650.sorted_dice_unique := [];
     Y1650.sorted_dice := [] |}.



(** A state of round 9 in which the opponent has bid 100 once. *)
Definition round9_game : Y1650.Game :=
  {| Y1650.my_state := GameState_init;
     Y1650.opp_state := GameState_init;
     Y1650.current_round := 9;
     Y1650.opponent_bids := {[ 1 := 100 ]};
     Y1650.opponent_yacht_completed := false;
     Y1650.my_yacht_completed := false;
     Y1650.sorted_dice_unique := [];
     Y1650.sorted_dice := [] |}.



(** The scores of the given hands under the given rules, by
    [calculate_score] of [test2.py]. *)
Definition hand_scores (hands : list (list Z)) (rules : list DiceRule) : list Z :=
  hand ← hands; rule ← rules; [Test2.calculate_score (mkDicePut rule hand)].

(** The largest element of a list of scores, 0 for the empty list. *)
Definition highest (scores : list Z) : Z := foldr Z.max 0 scores.

(** The exhaustive optimum of the estimator: the highest score over
    every selection of five dice of the pool (of the whole pool when it
    holds fewer) and every open rule. *)
Definition exhaustive_maximum (dice_pool : list Z) (rules : list DiceRule) : Z :=
  highest (hand_scores (combinations dice_pool (length dice_pool `min` 5)%nat) rules).

(** A pool of eleven dice: 462 selections of five. *)
Definition eleven_dice : list Z := [6; 6; 6; 6; 6; 1; 1; 1; 1; 1; 1].


(** One way of handing [l] out to two hands: the dice at the marked
    positions go to the first hand, the others to the second. *)
Fixpoint split_by (mask : list bool) (l : list Z) : list Z * list Z :=
  match mask, l with
  | b :: mask', x :: l' =>
      let '(h1, h2) := split_by mask' l' in
      if b then (x :: h1, h2) else (h1, x :: h2)
  | _, _ => ([], [])
  end.

(** The number of marked positions. *)
Definition marked (mask : list bool) : nat := length (filter (λ b, b = true) mask).

(** A split of ten dice into two hands of five. *)
Definition five_of_ten (mask : list bool) : Prop :=
  length mask = 10%nat ∧ marked mask = 5%nat.

(** Every split of [l] with [k] dice in the first hand, the splits that
    give the first die to the first hand listed first. *)
Fixpoint splits (k : nat) (l : list Z) : list (list Z * list Z) :=
  match l with
  | [] => match k with O => [([], [])] | S _ => [] end
  | x :: l' =>
      match k with
      | O => []
      | S k' => (λ '(h1, h2), (x :: h1, h2)) <$> splits k' l'
      end ++ ((λ '(h1, h2), (h1, x :: h2)) <$> splits k l')
  end.

(** All five dice of the hand show the same value. *)
Definition five_of_a_kind (hand : list Z) : bool :=
  any ((λ i, count i hand =? 5) <$> range 1 7).

(** The hands of [n] dice. *)
Fixpoint all_hands (n : nat) : list (list Z) :=
  match n with
  | O => [[]]
  | S n' => d ← range 1 7; (d ::.) <$> all_hands n'
  end.

(** A state of the last round: five ones in the
    pool, ONE and FULL_HOUSE open. *)
Definition last_round_game : Y1650.Game :=
  {| Y1650.my_state :=
       {| dice := [1; 1; 1; 1; 1];
          rule_score := [None; Some 0; Some 0; Some 0; Some 0; Some 0;
                         Some 0; Some 0; None; Some 0; Some 0; Some 0];
          bid_score := 0 |};
     Y1650.opp_state := GameState_init;
     Y1650.current_round := 13;
     Y1650.opponent_bids := ∅;
     Y1650.opponent_yacht_completed := false;
     Y1650.my_yacht_completed := false;
     Y1650.sorted_dice_unique := [];
     Y1650.sorted_dice := [] |}.


(** The value that the last-round search gives to one split: the sum of
    the two potential scores. *)
Definition split_value (g : Y1650.Game) (rule1 rule2 : DiceRule)
    (hands : list Z * list Z) : Z :=
  match MainPy.calculate_rule_potential_score g hands.1 rule1,
        MainPy.calculate_rule_potential_score g hands.2 rule2 with
  | Ok score1, Ok score2 => score1 + score2
  | _, _ => 0
  end.

(** The ones to the first hand, the sixes to the second. *)
Definition first_five : list bool :=
  [true; true; true; true; true; false; false; false; false; false].


(** The number category of [n] (1 to 6) is still open for the agent. *)
Definition open_number (g : Y1650.Game) (n : Z) : Prop :=
  rule_score (Y1650.my_state g) !! Z.to_nat (n - 1) = Some None.

(** The category [r] of the agent is filled. *)
Definition filled (st : GameState) (r : DiceRule) : Prop :=
  ∃ v, rule_score st !! value r = Some (Some v).

(** SMALL_STRAIGHT, LARGE_STRAIGHT and YACHT of the agent are filled. *)
Definition high_rules_filled (g : Y1650.Game) : Prop :=
  filled (Y1650.my_state g) SMALL_STRAIGHT
  ∧ filled (Y1650.my_state g) LARGE_STRAIGHT
  ∧ filled (Y1650.my_state g) YACHT.


(** The two YACHT flags of [Game] say exactly whether the YACHT category
    of the agent, respectively of the opponent, holds a positive
    score. *)
Definition yacht_flags_exact (g : Y1650.Game) : Prop :=
  (Y1650.my_yacht_completed g = true
   ↔ ∃ v, rule_score (Y1650.my_state g) !! value YACHT = Some (Some v) ∧ 0 < v)
  ∧ (Y1650.opponent_yacht_completed g = true
     ↔ ∃ v, rule_score (Y1650.opp_state g) !! value YACHT = Some (Some v) ∧ 0 < v).


(** The rule of the best put found so far is one of the open ones. *)
Definition names_open (unused : list nat) (best : Y1650.Best) : Prop :=
  ∀ rule dice, best.1 = Some (rule, dice) → value rule ∈ unused.

(** Dice as the search of [find_optimal_dice_for_rule] handles them:
    faces 1..6 and the filler 0. *)
Definition small_dice (l : list Z) : Prop := Forall (λ d, 0 ≤ d ≤ 6) l.

(** The state of the filling loops: the dice chosen so far, at most
    five, and the dice still in the working copy. *)
Definition picked_ok (dice temp : list Z) : Prop :=
  (length dice ≤ 5)%nat ∧ small_dice dice ∧ small_dice temp.

(** What the search returns for a rule: at most five dice, and the score
    that the board would record for them. *)
Definition good_choice (rule : DiceRule) (r : list Z * Z) : Prop :=
  (length r.1 ≤ 5)%nat ∧ small_dice r.1
  ∧ r.2 = Y1650.calculate_score (mkDicePut rule r.1).

(** A board of twelve entries and a pool of dice 0..6. *)
Definition regular_position (g : Y1650.Game) : Prop :=
  length (rule_score (Y1650.my_state g)) = 12%nat
  ∧ small_dice (dice (Y1650.my_state g)).

(** The two attributes stored by [calculate_put] agree with the pool. *)
Definition cache_fresh (g : Y1650.Game) : Prop :=
  Y1650.sorted_dice_unique g = sorted (remove_dups (dice (Y1650.my_state g)))
  ∧ Y1650.sorted_dice g = sorted_rev (dice (Y1650.my_state g)).

(** The dice of the best put found so far are at most five dice 0..6. *)
Definition best_good (best : Y1650.Best) : Prop :=
  ∀ rule dice, best.1 = Some (rule, dice) →
               (length dice ≤ 5)%nat ∧ small_dice dice.

(** The plays that [find_best_put] of [test2.py] lists: every selection
    of the pool under every open rule, with its score. *)
Definition possible_plays (dice_pool : list Z) (rules : list DiceRule)
    : list Test2.Play :=
  hand ← combinations dice_pool (length dice_pool `min` 5)%nat;
  rule ← rules;
  [Test2.mkPlay (Test2.calculate_score (mkDicePut rule hand)) rule hand].

(** Round 12 with ONE and FULL_HOUSE open and ten dice in the pool. *)
Definition last_turn_game : Y1650.Game :=
  {| Y1650.my_state :=
       {| dice := [1; 1; 1; 1; 1; 6; 6; 6; 6; 6];
          rule_score := [None; Some 0; Some 0; Some 0; Some 0; Some 0;
                         Some 0; Some 0; None; Some 0; Some 0; Some 0];
          bid_score := 0 |};
     Y1650.opp_state := GameState_init;
     Y1650.current_round := 12;
     Y1650.opponent_bids := ∅;
     Y1650.opponent_yacht_completed := false;
     Y1650.my_yacht_completed := false;
     Y1650.sorted_dice_unique := [];
     Y1650.sorted_dice := [] |}.

#[global] Instance open_number_dec (g : Y1650.Game) (n : Z) :
  Decision (open_number g n).
Proof. unfold open_number. apply _. Defined.

(** What an answer of [should_block_yacht] of [main.py] says: the
    amount 5001 and a face that the opponent's pool joined to
    [dice_group] holds five times and that only the named group
    shows. *)
Definition blocks (opp_dice dice_group dice_a dice_b : list Z)
    (answer : string * Z) : Prop :=
  answer.2 = 5001
  ∧ ∃ n, 1 ≤ n ≤ 6 ∧ 5 ≤ count n (opp_dice ++ dice_group)
         ∧ ((answer.1 = "A" ∧ 0 < count n dice_a ∧ count n dice_b = 0)
            ∨ (answer.1 = "B" ∧ count n dice_a = 0 ∧ 0 < count n dice_b)).

(** The pool without the first die equal to [x], and unchanged when it
    holds none: what [if d in self.dice: self.dice.remove(d)] leaves. *)
Fixpoint remove_first (x : Z) (l : list Z) : list Z :=
  match l with
  | [] => []
  | y :: l => if y =? x then l else y :: remove_first x l
  end.

(** [x] is the first element of [l] that satisfies [P]. *)
Definition first_such {A} (P : A → Prop) (x : A) (l : list A) : Prop :=
  ∃ before after, l = before ++ x :: after ∧ P x ∧ ∀ y, y ∈ before → ¬ P y.

(** Some listed play scores 0 under a rule of [sacrifice_priority]. *)
Definition sacrificable (plays : list Test2.Play) : Prop :=
  ∃ q, q ∈ plays ∧ Test2.play_rule q ∈ Test2.sacrifice_priority
       ∧ Test2.play_score q = 0.

(** A fresh board of [test2.py] with the pool [1,2]. *)
Definition two_dice_game : Test2.Game :=
  Test2.mkGame (mkGameState [1; 2] (replicate 12 None) 0) GameState_init.

(** * Properties of the embedded code *)

(** ** Counting and summing *)

Lemma count_nonneg x l : 0 ≤ count x l.
Proof. induction l as [|y l IH]; simpl; [lia|]. destruct (y =? x); lia. Qed.

Lemma count_pos_elem x l : 0 < count x l ↔ x ∈ l.
Proof.
  induction l as [|y l IH]; simpl.
  - split; [lia | intros H; inversion H].
  - rewrite elem_of_cons. destruct (Z.eqb_spec y x) as [->|Hne].
    + pose proof (count_nonneg x l). split; [auto | lia].
    + rewrite Z.add_0_l, IH. split; [auto | intros [->|H]; [done | auto]].
Qed.

Lemma py_in_elem x l : py_in x l = true ↔ x ∈ l.
Proof.
  unfold py_in. rewrite existsb_exists. setoid_rewrite <- list_elem_of_In.
  split.
  - intros (y & Hy & Heq). apply Z.eqb_eq in Heq. by subst.
  - intros H. exists x. split; [done | apply Z.eqb_refl].
Qed.

Lemma py_sum_filter_eq n l : py_sum (filter (λ d, d = n) l) = n * count n l.
Proof.
  induction l as [|y l IH]; simpl; [lia|].
  rewrite filter_cons. destruct (decide (y = n)) as [->|Hne]; simpl.
  - rewrite Z.eqb_refl, IH. lia.
  - destruct (Z.eqb_spec y n); [done | lia].
Qed.

Lemma py_sum_nonneg l : Forall (λ d, 0 ≤ d) l → 0 ≤ py_sum l.
Proof. induction 1; simpl; lia. Qed.

Lemma py_sum_pos l : Forall dice_value l → l ≠ [] → 0 < py_sum l.
Proof.
  intros Hall Hne. destruct Hall as [|d l Hd Hl]; [done|]. simpl.
  assert (0 ≤ py_sum l).
  { apply py_sum_nonneg. eapply Forall_impl; [exact Hl|]. unfold dice_value. lia. }
  unfold dice_value in Hd. lia.
Qed.

Lemma range_1_7 : range 1 7 = [1; 2; 3; 4; 5; 6].
Proof. reflexivity. Qed.

Lemma elem_of_range_1_7 i : i ∈ range 1 7 ↔ dice_value i.
Proof.
  rewrite range_1_7. unfold dice_value. rewrite !elem_of_cons, elem_of_nil. lia.
Qed.

Lemma counted_value_is_dice x l : Forall dice_value l → 0 < count x l → dice_value x.
Proof.
  intros Hall Hpos. apply count_pos_elem in Hpos.
  by eapply Forall_forall in Hall.
Qed.

(** The loop of FULL_HOUSE that raises its two flags. *)
Lemma flags_loop (f h : Z → bool) (l : list Z) (p t : bool) :
  foldl (λ '(pair', triple) i,
           ((if f i then true else pair'), (if h i then true else triple)))
        (p, t) l
  = (p || existsb f l, t || existsb h l).
Proof.
  revert p t. induction l as [|x l IH]; intros p t; simpl.
  - by rewrite !orb_false_r.
  - rewrite IH. f_equal; destruct (f x), (h x), p, t; simpl; try done.
Qed.

(** ** FULL_HOUSE *)

Lemma full_house_1650_flags hand :
  Y1650.calculate_score (mkDicePut FULL_HOUSE hand)
  = if existsb (λ i, (count i hand =? 2) || (count i hand =? 5)) (range 1 7)
       && existsb (λ i, (count i hand =? 3) || (count i hand =? 5)) (range 1 7)
    then py_sum hand * 1000 else 0.
Proof.
  unfold Y1650.calculate_score; simpl put_rule; simpl put_dice; cbv zeta.
  rewrite (flags_loop (λ i, (count i hand =? 2) || (count i hand =? 5))
                      (λ i, (count i hand =? 3) || (count i hand =? 5))).
  reflexivity.
Qed.

Lemma existsb_range_count (p : Z → bool) hand :
  existsb (λ i, p (count i hand)) (range 1 7) = true
  ↔ ∃ a, dice_value a ∧ p (count a hand) = true.
Proof.
  rewrite existsb_exists. setoid_rewrite <- list_elem_of_In.
  by setoid_rewrite elem_of_range_1_7.
Qed.

Lemma full_house_1650_shape hand :
  Forall dice_value hand →
  (existsb (λ i, (count i hand =? 2) || (count i hand =? 5)) (range 1 7)
   && existsb (λ i, (count i hand =? 3) || (count i hand =? 5)) (range 1 7)) = true
  ↔ full_house_shape hand.
Proof.
  intros Hall.
  rewrite andb_true_iff.
  rewrite (existsb_range_count (λ c, (c =? 2) || (c =? 5))).
  rewrite (existsb_range_count (λ c, (c =? 3) || (c =? 5))).
  unfold full_house_shape. split.
  - intros [(a & _ & Ha) (b & _ & Hb)].
    apply orb_true_iff in Ha. apply orb_true_iff in Hb.
    rewrite !Z.eqb_eq in Ha, Hb.
    destruct Ha as [Ha|Ha]; [|right; eauto].
    destruct Hb as [Hb|Hb]; [|right; eauto].
    left. exists b, a. split; [|done]. intros ->. lia.
  - intros [(a & b & _ & Ha & Hb)|(a & Ha)].
    + split.
      * exists b. split; [eapply counted_value_is_dice; [done|lia]|].
        rewrite Hb. reflexivity.
      * exists a. split; [eapply counted_value_is_dice; [done|lia]|].
        rewrite Ha. reflexivity.
    + assert (dice_value a) by (eapply counted_value_is_dice; [done|lia]).
      split; exists a; (split; [done|]); rewrite Ha; reflexivity.
Qed.

Lemma py_in_counts n hand :
  py_in n ((λ i, count i hand) <$> range 1 7) = true
  ↔ ∃ a, dice_value a ∧ count a hand = n.
Proof.
  rewrite py_in_elem, list_elem_of_fmap.
  setoid_rewrite elem_of_range_1_7. split.
  - intros (a & -> & Ha). eauto.
  - intros (a & Ha & <-). eauto.
Qed.

Lemma full_house_test2_shape hand :
  Forall dice_value hand →
  (py_in 3 ((λ i, count i hand) <$> range 1 7)
   && py_in 2 ((λ i, count i hand) <$> range 1 7)) = true
  ↔ strict_full_house hand.
Proof.
  intros Hall. rewrite andb_true_iff, !py_in_counts. unfold strict_full_house. split.
  - intros [(a & _ & Ha) (b & _ & Hb)]. exists a, b. split; [|done]. intros ->. lia.
  - intros (a & b & _ & Ha & Hb). split; [exists a|exists b];
      (split; [eapply counted_value_is_dice; [done|lia] | done]).
Qed.

(** C2 (as amended).  For a hand of five dice, [calculate_score] of
    [1650.py] gives FULL_HOUSE the score [sum(hand) * 1000] exactly when
    the hand holds a triple and a pair of two different values or five
    equal dice, and 0 otherwise: [3,3,3,5,5] scores 19000 and
    [2,2,2,2,2] scores 10000.  [calculate_score] of [test2.py] asks for
    a count of exactly three and a count of exactly two: [3,3,3,5,5]
    scores 19000 there as well, five equal dice score 0. *)
Theorem C2_full_house_score (hand : list Z) :
  length hand = 5%nat → Forall dice_value hand →
  (Y1650.calculate_score (mkDicePut FULL_HOUSE hand) = py_sum hand * 1000
     ↔ full_house_shape hand)
  ∧ (¬ full_house_shape hand →
       Y1650.calculate_score (mkDicePut FULL_HOUSE hand) = 0)
  ∧ (Test2.calculate_score (mkDicePut FULL_HOUSE hand) = py_sum hand * 1000
       ↔ strict_full_house hand)
  ∧ (¬ strict_full_house hand →
       Test2.calculate_score (mkDicePut FULL_HOUSE hand) = 0)
  ∧ Y1650.calculate_score (mkDicePut FULL_HOUSE [3; 3; 3; 5; 5]) = 19000
  ∧ Y1650.calculate_score (mkDicePut FULL_HOUSE [2; 2; 2; 2; 2]) = 10000
  ∧ Test2.calculate_score (mkDicePut FULL_HOUSE [3; 3; 3; 5; 5]) = 19000
  ∧ Test2.calculate_score (mkDicePut FULL_HOUSE [2; 2; 2; 2; 2]) = 0.
Proof.
  intros Hlen Hall.
  assert (Hpos : 0 < py_sum hand).
  { apply py_sum_pos; [done|]. by destruct hand. }
  pose proof (full_house_1650_shape hand Hall) as H1.
  pose proof (full_house_test2_shape hand Hall) as H2.
  rewrite full_house_1650_flags.
  change (Test2.calculate_score (mkDicePut FULL_HOUSE hand))
    with (if py_in 3 ((λ i, count i hand) <$> range 1 7)
             && py_in 2 ((λ i, count i hand) <$> range 1 7)
          then py_sum hand * 1000 else 0).
  destruct (existsb _ _ && existsb _ _);
    destruct (py_in 3 _ && py_in 2 _);
    repeat split; try reflexivity; try tauto; try lia;
    try (intros Hn; exfalso; apply Hn; tauto);
    try (intros Hn; exfalso; assert (false = true) by tauto; done).
Qed.

Lemma C2_full_house_score_witness :
  Y1650.calculate_score (mkDicePut FULL_HOUSE [4; 4; 6; 6; 6]) = 26000.
Proof.
  pose proof (C2_full_house_score [4; 4; 6; 6; 6] eq_refl) as H.
  assert (Hall : Forall dice_value [4; 4; 6; 6; 6]).
  { repeat constructor; unfold dice_value; lia. }
  destruct (H Hall) as [[_ Hshape] _].
  rewrite Hshape; [reflexivity|].
  left. exists 6, 4. split; [lia|]. split; reflexivity.
Defined.

(** C2 (as stated) fails on [test2.py]: five equal dice have the shape
    that the claim accepts, and score 0 instead of 10000. *)
Lemma C2_counterexample :
  full_house_shape [2; 2; 2; 2; 2]
  ∧ py_sum [2; 2; 2; 2; 2] * 1000 = 10000
  ∧ Test2.calculate_score (mkDicePut FULL_HOUSE [2; 2; 2; 2; 2]) ≠ 10000.
Proof.
  split; [right; exists 2; reflexivity|].
  split; [reflexivity|]. vm_compute. discriminate.
Qed.

(** ** Scores are multiples of 1000 *)

Lemma thousands_0 : thousands 0.
Proof. exists 0. lia. Qed.

Lemma thousands_times v : 0 ≤ v → thousands (v * 1000).
Proof. intros Hv. exists v. lia. Qed.

Lemma thousands_if (b : bool) v w : thousands v → thousands w → thousands (if b then v else w).
Proof. by destruct b. Qed.

Lemma thousands_plus v w : thousands v → thousands w → thousands (v + w).
Proof. intros (k & ? & ->) (j & ? & ->). exists (k + j). lia. Qed.

Create HintDb thousands.
#[local] Hint Resolve thousands_0 thousands_times thousands_if py_sum_nonneg : thousands.

Lemma score_1650_thousands put :
  Forall (λ d, 0 ≤ d) (put_dice put) → thousands (Y1650.calculate_score put).
Proof.
  intros Hall. destruct put as [r hand]; simpl in Hall.
  pose proof (py_sum_nonneg hand Hall) as Hsum.
  destruct (decide (r = FULL_HOUSE)) as [->|Hr].
  { rewrite full_house_1650_flags. auto with thousands. }
  unfold Y1650.calculate_score; simpl put_rule; simpl put_dice; cbv zeta.
  destruct r; try done;
    try (rewrite py_sum_filter_eq; apply thousands_times;
         pose proof (count_nonneg 1 hand); pose proof (count_nonneg 2 hand);
         pose proof (count_nonneg 3 hand); pose proof (count_nonneg 4 hand);
         pose proof (count_nonneg 5 hand); pose proof (count_nonneg 6 hand); lia);
    try (apply thousands_if; auto with thousands; fail);
    try (apply thousands_times; done).
  - apply thousands_if; [exists 15; lia | apply thousands_0].
  - apply thousands_if; [exists 30; lia | apply thousands_0].
  - apply thousands_if; [exists 50; lia | apply thousands_0].
Qed.

Lemma score_test2_thousands put :
  Forall (λ d, 0 ≤ d) (put_dice put) → thousands (Test2.calculate_score put).
Proof.
  intros Hall. destruct put as [r hand]; simpl in Hall.
  pose proof (py_sum_nonneg hand Hall) as Hsum.
  unfold Test2.calculate_score; simpl put_rule; simpl put_dice; cbv zeta.
  destruct r;
    try (match goal with |- thousands (count ?n hand * _ * 1000) =>
           apply thousands_times; pose proof (count_nonneg n hand); lia end);
    try (apply thousands_if; auto with thousands; fail);
    try (apply thousands_times; done).
  - apply thousands_if; [exists 15; lia | apply thousands_0].
  - apply thousands_if; [exists 30; lia | apply thousands_0].
  - apply thousands_if; [exists 50; lia | apply thousands_0].
Qed.

Lemma for_each_Ok_inv {A S} (body : S → A → Res S) s x l r :
  for_each body s (x :: l) = Ok r →
  ∃ s', body s x = Ok s' ∧ for_each body s' l = Ok r.
Proof. simpl. destruct (body s x) as [s'|e]; simpl; [eauto | discriminate]. Qed.

Lemma use_dice_1650_Ok st put st' :
  Y1650.use_dice st put = Ok st' →
  rule_score st !! value (put_rule put) = Some None
  ∧ rule_score st'
    = <[value (put_rule put) := Some (Y1650.calculate_score put)]> (rule_score st)
  ∧ bid_score st' = bid_score st.
Proof.
  unfold Y1650.use_dice.
  destruct (rule_score st !! value (put_rule put)) as [[v|]|]; try discriminate.
  destruct (for_each _ _ _) as [ds|e]; simpl; [|discriminate].
  intros [= <-]. done.
Qed.

Lemma use_dice_test2_Ok st put st' :
  Test2.use_dice st put = Ok st' →
  rule_score st !! value (put_rule put) = Some None
  ∧ rule_score st'
    = <[value (put_rule put) := Some (Test2.calculate_score put)]> (rule_score st)
  ∧ bid_score st' = bid_score st.
Proof.
  unfold Test2.use_dice.
  destruct (rule_score st !! value (put_rule put)) as [[v|]|]; try discriminate.
  destruct (for_each _ _ _) as [ds|e]; simpl; [|discriminate].
  intros [= <-]. done.
Qed.

Lemma stored_in_thousands_insert st st' i v :
  stored_in_thousands st → thousands v →
  rule_score st' = <[i := Some v]> (rule_score st) →
  stored_in_thousands st'.
Proof.
  intros Hst Hv Heq j w. rewrite Heq.
  destruct (decide (i = j)) as [->|Hne].
  - intros Hj. destruct (decide (j < length (rule_score st))%nat).
    + rewrite list_lookup_insert_eq in Hj by done. by injection Hj as <-.
    + rewrite list_insert_ge in Hj by lia. eauto.
  - rewrite list_lookup_insert_ne by done. eauto.
Qed.

Lemma sum_filled_thousands l :
  (∀ i v, l !! i = Some (Some v) → thousands v) → thousands (sum_filled l).
Proof.
  induction l as [|[v|] l IH]; intros H; unfold sum_filled; simpl.
  - apply thousands_0.
  - apply thousands_plus; [apply (H 0%nat); done|].
    apply IH. intros i w Hi. apply (H (S i)). done.
  - apply IH. intros i w Hi. apply (H (S i)). done.
Qed.

(** C10.  On dice that are not negative every category score is a
    non-negative multiple of 1000, in [1650.py] and in [test2.py]: the
    number and sum categories multiply by 1000 and the fixed awards are
    15000, 30000, 50000 or 0.  Hence the score that [use_dice] stores is
    such a multiple, the board keeps holding such multiples only, and
    the subtotal of the number categories that is compared with 63000
    is one. *)
Theorem C10_scores_in_thousands (put : DicePut) :
  Forall (λ d, 0 ≤ d) (put_dice put) →
  thousands (Y1650.calculate_score put)
  ∧ thousands (Test2.calculate_score put)
  ∧ (∀ st st', stored_in_thousands st →
       Y1650.use_dice st put = Ok st' ∨ Test2.use_dice st put = Ok st' →
       (∃ v, rule_score st' !! value (put_rule put) = Some (Some v) ∧ thousands v)
       ∧ stored_in_thousands st'
       ∧ thousands (sum_filled (take 6 (rule_score st'))))
  ∧ stored_in_thousands GameState_init
  ∧ (∀ score, score = Y1650.calculate_score put ∨ score = Test2.calculate_score put →
       match put_rule put with
       | SMALL_STRAIGHT => score = 15000 ∨ score = 0
       | LARGE_STRAIGHT => score = 30000 ∨ score = 0
       | YACHT => score = 50000 ∨ score = 0
       | _ => True
       end).
Proof.
  intros Hall.
  pose proof (score_1650_thousands put Hall) as H1.
  pose proof (score_test2_thousands put Hall) as H2.
  split; [done|]. split; [done|].
  assert (Hif : ∀ (b : bool) v, (if b then v else 0) = v ∨ (if b then v else 0) = 0)
    by (intros [] v; auto).
  split; [|split; [|
    intros score [-> | ->]; destruct put as [[] hand]; try exact I; apply Hif]].
  - intros st st' Hst Huse.
    assert (∃ v, thousands v ∧ rule_score st !! value (put_rule put) = Some None
                 ∧ rule_score st' = <[value (put_rule put) := Some v]> (rule_score st))
      as (v & Hv & Hopen & Heq).
    { destruct Huse as [Huse|Huse].
      - apply use_dice_1650_Ok in Huse as (? & ? & _). eauto.
      - apply use_dice_test2_Ok in Huse as (? & ? & _). eauto. }
    assert (Hst' : stored_in_thousands st')
      by (eapply stored_in_thousands_insert; eauto).
    split; [|split; [done|]].
    + exists v. split; [|done]. rewrite Heq.
      apply list_lookup_insert_eq. by eapply lookup_lt_Some.
    + apply sum_filled_thousands. intros i w Hi.
      apply lookup_take_Some in Hi as [Hi _]. eauto.
  - intros i v Hi.
    change (replicate 12 (@None Z) !! i = Some (Some v)) in Hi.
    apply lookup_replicate in Hi as [Hi _]. discriminate.
Qed.

Lemma C10_scores_in_thousands_witness :
  thousands (Y1650.calculate_score (mkDicePut SIX [6; 6; 1; 2; 6])).
Proof.
  assert (Hall : Forall (λ d, 0 ≤ d) [6; 6; 1; 2; 6]) by (repeat constructor; lia).
  exact (proj1 (C10_scores_in_thousands (mkDicePut SIX [6; 6; 1; 2; 6]) Hall)).
Defined.

(** ** The ledger *)

Lemma eqb_decide (s1 s2 : string) :
  String.eqb s1 s2 = bool_decide (s1 = s2).
Proof.
  destruct (String.eqb_spec s1 s2) as [->|Hne].
  - by rewrite bool_decide_eq_true_2.
  - by rewrite bool_decide_eq_false_2.
Qed.

(** C4.  Resolving a bid whose group is the awarded one lowers the
    ledger by the amount, any other bid raises it by the amount, and an
    amount of 0 leaves it as it was; [update_get] applies the rule to
    the two agents separately, the opponent being awarded the other
    group.  Nothing but the ledger changes.  The same holds for
    [test2.py]. *)
Theorem C4_bid_adjusts_ledger (st : GameState) (amt : Z) (g : Y1650.Game)
    (h : Test2.Game) (dice_a dice_b : list Z) (my_bid opp_bid : Bid)
    (my_group : string) :
  let resolve (ledger : Z) (b : Bid) (awarded : string) :=
    if bool_decide (group b = awarded) then ledger - amount b
    else ledger + amount b in
  let opp_group := if bool_decide (my_group = "A") then "B" else "A" in
  bid_score (Y1650.bid st true amt) = bid_score st - amt
  ∧ bid_score (Y1650.bid st false amt) = bid_score st + amt
  ∧ bid_score (Test2.bid st true amt) = bid_score st - amt
  ∧ bid_score (Test2.bid st false amt) = bid_score st + amt
  ∧ (∀ ok, Y1650.bid st ok 0 = st ∧ Test2.bid st ok 0 = st)
  ∧ (∀ ok, dice (Y1650.bid st ok amt) = dice st
           ∧ rule_score (Y1650.bid st ok amt) = rule_score st
           ∧ dice (Test2.bid st ok amt) = dice st
           ∧ rule_score (Test2.bid st ok amt) = rule_score st)
  ∧ bid_score (Y1650.my_state (Y1650.update_get g dice_a dice_b my_bid opp_bid my_group))
    = resolve (bid_score (Y1650.my_state g)) my_bid my_group
  ∧ bid_score (Y1650.opp_state (Y1650.update_get g dice_a dice_b my_bid opp_bid my_group))
    = resolve (bid_score (Y1650.opp_state g)) opp_bid opp_group
  ∧ bid_score (Test2.my_state (Test2.update_get h dice_a dice_b my_bid opp_bid my_group))
    = resolve (bid_score (Test2.my_state h)) my_bid my_group
  ∧ bid_score (Test2.opp_state (Test2.update_get h dice_a dice_b my_bid opp_bid my_group))
    = resolve (bid_score (Test2.opp_state h)) opp_bid opp_group.
Proof.
  intros resolve opp_group. subst resolve opp_group.
  repeat split; try reflexivity.
  - destruct st, ok; unfold Y1650.bid; simpl; f_equal; lia.
  - destruct st, ok; unfold Test2.bid; simpl; f_equal; lia.
  - by destruct ok.
  - by destruct ok.
  - unfold Y1650.update_get. rewrite !eqb_decide.
    destruct (bool_decide (my_group = "A")), (bool_decide (group my_bid = my_group));
      reflexivity.
  - unfold Y1650.update_get. rewrite !eqb_decide.
    destruct (bool_decide (my_group = "A")); simpl;
      destruct (bool_decide (group opp_bid = _)); reflexivity.
  - unfold Test2.update_get. rewrite !eqb_decide.
    destruct (bool_decide (my_group = "A")), (bool_decide (group my_bid = my_group));
      simpl; lia.
  - unfold Test2.update_get. rewrite !eqb_decide.
    destruct (bool_decide (my_group = "A")); simpl;
      destruct (bool_decide (group opp_bid = _)); simpl; lia.
Qed.

(** ** The total score *)

Lemma py_sum_cons x l : py_sum (x :: l) = x + py_sum l.
Proof. reflexivity. Qed.

Lemma py_sum_zeros (f : nat → Z) l : (∀ i, i ∈ l → f i = 0) → py_sum (f <$> l) = 0.
Proof.
  induction l as [|x l IH]; intros H; [done|].
  rewrite fmap_cons, py_sum_cons, (H x) by apply list_elem_of_here.
  rewrite IH; [done|]. intros i Hi. apply H. by apply list_elem_of_further.
Qed.

Lemma sum_filled_slice board k n :
  sum_filled (take n (drop k board)) = py_sum (score_at board <$> seq k n).
Proof.
  revert k. induction n as [|n IH]; intros k; [done|].
  destruct (board !! k) as [x|] eqn:Hk.
  - rewrite (drop_S _ _ _ Hk). simpl take. simpl seq. rewrite fmap_cons.
    rewrite py_sum_cons, <- IH. unfold score_at at 1. rewrite Hk.
    unfold sum_filled. simpl omap. by destruct x.
  - rewrite drop_ge by (by apply lookup_ge_None). rewrite take_nil.
    symmetry. apply py_sum_zeros. intros i Hi. apply elem_of_seq in Hi.
    unfold score_at. rewrite (proj2 (lookup_ge_None board i)); [done|].
    apply lookup_ge_None in Hk. lia.
Qed.

Lemma total_1650_formula st :
  Y1650.get_total_score st
  = subtotal st number_rules
    + (if 63000 <=? subtotal st number_rules then 35000 else 0)
    + subtotal st other_rules + bid_score st.
Proof.
  unfold Y1650.get_total_score. cbv zeta.
  rewrite <- (drop_0 (rule_score st)) at 1 2.
  rewrite !sum_filled_slice. reflexivity.
Qed.

(** C5.  The total is the sum of the filled number categories, plus
    35000 exactly when that subtotal reaches 63000 (nothing at 62999),
    plus the sum of the other filled categories, plus the ledger, in
    [1650.py] and in [test2.py].  It is a function of the board and the
    ledger as they are when it is asked for: the pool does not enter
    it, and a bid, an award of dice or a placement shows in the next
    total. *)
Theorem C5_total_score (st : GameState) :
  let number := subtotal st number_rules in
  let other := subtotal st other_rules in
  Y1650.get_total_score st
    = number + (if 63000 <=? number then 35000 else 0) + other + bid_score st
  ∧ Test2.get_total_score st = Y1650.get_total_score st
  ∧ (number = 62999 → Y1650.get_total_score st = 62999 + other + bid_score st)
  ∧ (number = 63000 → Y1650.get_total_score st = 63000 + 35000 + other + bid_score st)
  ∧ (∀ st', rule_score st' = rule_score st → bid_score st' = bid_score st →
       Y1650.get_total_score st' = Y1650.get_total_score st)
  ∧ (∀ amt, Y1650.get_total_score (Y1650.bid st true amt)
            = Y1650.get_total_score st - amt
          ∧ Y1650.get_total_score (Y1650.bid st false amt)
            = Y1650.get_total_score st + amt)
  ∧ (∀ new_dice, Y1650.get_total_score (Y1650.add_dice st new_dice)
                 = Y1650.get_total_score st)
  ∧ (∀ put st', Y1650.use_dice st put = Ok st' →
       Y1650.get_total_score st'
       = subtotal st' number_rules
         + (if 63000 <=? subtotal st' number_rules then 35000 else 0)
         + subtotal st' other_rules + bid_score st
       ∧ score_of st' (put_rule put) = Y1650.calculate_score put).
Proof.
  intros number other. subst number other.
  split; [apply total_1650_formula|].
  split; [reflexivity|].
  split; [intros H; rewrite total_1650_formula, H; reflexivity|].
  split; [intros H; rewrite total_1650_formula, H; reflexivity|].
  split.
  { intros st' Hb Hl. unfold Y1650.get_total_score. by rewrite Hb, Hl. }
  split.
  { intros amt. unfold Y1650.get_total_score, Y1650.bid; simpl. lia. }
  split; [reflexivity|].
  intros put st' Huse. apply use_dice_1650_Ok in Huse as (Hopen & Hboard & Hledger).
  split; [rewrite total_1650_formula, Hledger; reflexivity|].
  unfold score_of. rewrite Hboard.
  rewrite list_lookup_insert_eq; [done|]. by eapply lookup_lt_Some.
Qed.

Lemma C5_total_score_witness :
  Y1650.get_total_score
    (mkGameState [] [Some 3000; Some 10000; Some 9000; Some 16000; Some 25000;
                     None; Some 21000; None; None; Some 15000; None; None] (-120))
  = 63000 + 35000 + 36000 + -120.
Proof.
  exact (proj1 (proj2 (proj2 (proj2 (C5_total_score
    (mkGameState [] [Some 3000; Some 10000; Some 9000; Some 16000; Some 25000;
                     None; Some 21000; None; None; Some 15000; None; None] (-120))))))
    eq_refl).
Defined.

(** ** A filled category stays as it is *)

Lemma use_dice_1650_keeps st put st' r s :
  rule_score st !! value r = Some (Some s) →
  Y1650.use_dice st put = Ok st' →
  rule_score st' !! value r = Some (Some s).
Proof.
  intros Hr Huse. apply use_dice_1650_Ok in Huse as (Hopen & -> & _).
  rewrite list_lookup_insert_ne; [done|].
  intros Heq. rewrite Heq in Hopen. congruence.
Qed.

Lemma use_dice_test2_keeps st put st' r s :
  rule_score st !! value r = Some (Some s) →
  Test2.use_dice st put = Ok st' →
  rule_score st' !! value r = Some (Some s).
Proof.
  intros Hr Huse. apply use_dice_test2_Ok in Huse as (Hopen & -> & _).
  rewrite list_lookup_insert_ne; [done|].
  intros Heq. rewrite Heq in Hopen. congruence.
Qed.

Lemma check_my_yacht_states g g' :
  Y1650.check_my_yacht_completion g = Ok g' →
  Y1650.my_state g' = Y1650.my_state g ∧ Y1650.opp_state g' = Y1650.opp_state g.
Proof.
  unfold Y1650.check_my_yacht_completion.
  destruct (at_pos _ _); simpl; [|discriminate]. by intros [= <-].
Qed.

Lemma check_opponent_yacht_states g g' :
  Y1650.check_opponent_yacht_completion g = Ok g' →
  Y1650.my_state g' = Y1650.my_state g ∧ Y1650.opp_state g' = Y1650.opp_state g.
Proof.
  unfold Y1650.check_opponent_yacht_completion.
  destruct (at_pos _ _); simpl; [|discriminate]. by intros [= <-].
Qed.

Lemma update_put_1650_inv g put g' :
  Y1650.update_put g put = Ok g' →
  Y1650.use_dice (Y1650.my_state g) put = Ok (Y1650.my_state g')
  ∧ Y1650.opp_state g' = Y1650.opp_state g.
Proof.
  unfold Y1650.update_put.
  destruct (Y1650.use_dice _ _) as [st|e]; simpl; [|discriminate].
  intros H. apply check_my_yacht_states in H as [-> ->]. done.
Qed.

Lemma update_set_1650_inv g put g' :
  Y1650.update_set g put = Ok g' →
  Y1650.use_dice (Y1650.opp_state g) put = Ok (Y1650.opp_state g')
  ∧ Y1650.my_state g' = Y1650.my_state g.
Proof.
  unfold Y1650.update_set.
  destruct (Y1650.use_dice _ _) as [st|e]; simpl; [|discriminate].
  intros H. apply check_opponent_yacht_states in H as [-> ->]. done.
Qed.

Lemma update_get_1650_boards g dice_a dice_b my_bid opp_bid my_group :
  rule_score (Y1650.my_state (Y1650.update_get g dice_a dice_b my_bid opp_bid my_group))
  = rule_score (Y1650.my_state g)
  ∧ rule_score (Y1650.opp_state (Y1650.update_get g dice_a dice_b my_bid opp_bid my_group))
    = rule_score (Y1650.opp_state g).
Proof.
  unfold Y1650.update_get.
  destruct (String.eqb my_group "A"); simpl;
    destruct (String.eqb (group my_bid) my_group), (String.eqb (group opp_bid) _);
    done.
Qed.

(** C7.  A category score that is set stays as it is: resolving a bid,
    adding awarded dice and placing into another category leave it
    untouched, for the agent and for the opponent, and a placement that
    names the filled category stops at the assertion
    ["Rule already used"] without touching the state.  The same holds
    for [test2.py]. *)
Theorem C7_filled_category_is_immutable (st : GameState) (r : DiceRule) (s : Z) :
  rule_score st !! value r = Some (Some s) →
  (∀ ok amt, rule_score (Y1650.bid st ok amt) !! value r = Some (Some s)
             ∧ rule_score (Test2.bid st ok amt) !! value r = Some (Some s))
  ∧ (∀ new_dice,
       rule_score (Y1650.add_dice st new_dice) !! value r = Some (Some s)
       ∧ rule_score (Test2.add_dice st new_dice) !! value r = Some (Some s))
  ∧ (∀ put st',
       Y1650.use_dice st put = Ok st' ∨ Test2.use_dice st put = Ok st' →
       put_rule put ≠ r ∧ rule_score st' !! value r = Some (Some s))
  ∧ (∀ hand,
       Y1650.use_dice st (mkDicePut r hand) = Raise (AssertionError "Rule already used")
       ∧ Test2.use_dice st (mkDicePut r hand) = Raise (AssertionError "Rule already used"))
  ∧ (∀ g dice_a dice_b my_bid opp_bid my_group put g',
       Y1650.my_state g = st →
       rule_score (Y1650.my_state
                     (Y1650.update_get g dice_a dice_b my_bid opp_bid my_group))
         !! value r = Some (Some s)
       ∧ (Y1650.update_put g put = Ok g' →
            rule_score (Y1650.my_state g') !! value r = Some (Some s))
       ∧ (Y1650.update_set g put = Ok g' → Y1650.my_state g' = st))
  ∧ (∀ g dice_a dice_b my_bid opp_bid my_group put g',
       Y1650.opp_state g = st →
       rule_score (Y1650.opp_state
                     (Y1650.update_get g dice_a dice_b my_bid opp_bid my_group))
         !! value r = Some (Some s)
       ∧ (Y1650.update_set g put = Ok g' →
            rule_score (Y1650.opp_state g') !! value r = Some (Some s))
       ∧ (Y1650.update_put g put = Ok g' → Y1650.opp_state g' = st)).
Proof.
  intros Hr. repeat split.
  - by destruct ok.
  - done.
  - done.
  - done.
  - intros Heq. destruct H as [H|H];
      [apply use_dice_1650_Ok in H as (Hopen & _)
      |apply use_dice_test2_Ok in H as (Hopen & _)];
      rewrite Heq in Hopen; congruence.
  - destruct H as [H|H];
      [by eapply use_dice_1650_keeps | by eapply use_dice_test2_keeps].
  - unfold Y1650.use_dice; simpl. by rewrite Hr.
  - unfold Test2.use_dice; simpl. by rewrite Hr.
  - subst st. by rewrite (proj1 (update_get_1650_boards _ _ _ _ _ _)).
  - intros Hput. apply update_put_1650_inv in Hput as [Huse _].
    subst st. by eapply use_dice_1650_keeps.
  - intros Hset. apply update_set_1650_inv in Hset as [_ ->]. done.
  - subst st. by rewrite (proj2 (update_get_1650_boards _ _ _ _ _ _)).
  - intros Hset. apply update_set_1650_inv in Hset as [Huse _].
    subst st. by eapply use_dice_1650_keeps.
  - intros Hput. apply update_put_1650_inv in Hput as [_ ->]. done.
Qed.

Lemma C7_filled_category_is_immutable_witness :
  Y1650.use_dice
    (mkGameState [6; 6; 6; 6; 6]
       [None; None; None; None; None; None; None; None; None; None; None; Some 50000] 0)
    (mkDicePut YACHT [6; 6; 6; 6; 6])
  = Raise (AssertionError "Rule already used").
Proof.
  exact (proj1 (proj1 (proj2 (proj2 (proj2 (C7_filled_category_is_immutable
    (mkGameState [6; 6; 6; 6; 6]
       [None; None; None; None; None; None; None; None; None; None; None; Some 50000] 0)
    YACHT 50000 eq_refl)))) [6; 6; 6; 6; 6])).
Defined.

(** ** Placements that name dice the pool lacks *)

Lemma list_remove_Ok x l l' : list_remove x l = Ok l' → l ≡ₚ x :: l'.
Proof.
  revert l'. induction l as [|y l IH]; intros l'; simpl; [discriminate|].
  destruct (Z.eqb_spec y x) as [->|Hne].
  - by intros [= ->].
  - destruct (list_remove x l) as [k|e]; simpl; [|discriminate].
    intros [= <-]. rewrite (IH k eq_refl). apply Permutation_swap.
Qed.

Lemma list_remove_Raise x l e : list_remove x l = Raise e → e = ValueError ∧ x ∉ l.
Proof.
  induction l as [|y l IH]; simpl.
  - intros [= <-]. split; [done | apply not_elem_of_nil].
  - destruct (Z.eqb_spec y x) as [->|Hne]; [discriminate|].
    destruct (list_remove x l) as [k|e']; simpl; [discriminate|].
    intros [= <-]. destruct (IH eq_refl) as [-> Hnot]. split; [done|].
    rewrite not_elem_of_cons. split; [congruence | done].
Qed.

Lemma remove_all_Ok pool puts rest :
  for_each (λ ds d, list_remove d ds) pool puts = Ok rest → pool ≡ₚ puts ++ rest.
Proof.
  revert pool. induction puts as [|d puts IH]; intros pool; simpl.
  - by intros [= ->].
  - destruct (list_remove d pool) as [pool'|e] eqn:Hrm; simpl; [|discriminate].
    intros H. apply IH in H. apply list_remove_Ok in Hrm. by rewrite Hrm, H.
Qed.

Lemma remove_all_Raise pool puts e :
  for_each (λ ds d, list_remove d ds) pool puts = Raise e →
  e = ValueError ∧ ¬ puts ⊆+ pool.
Proof.
  revert pool. induction puts as [|d puts IH]; intros pool; simpl; [discriminate|].
  destruct (list_remove d pool) as [pool'|e'] eqn:Hrm; simpl.
  - intros H. apply IH in H as [-> Hnot]. split; [done|].
    apply list_remove_Ok in Hrm. rewrite Hrm. intros Hsub. apply Hnot.
    by apply (submseteq_app_inv_l _ _ [d]).
  - intros [= <-]. apply list_remove_Raise in Hrm as [-> Hnot]. split; [done|].
    intros Hsub. apply Hnot. eapply elem_of_submseteq; [|exact Hsub]. left.
Qed.

Lemma remove_present_Ok pool puts :
  ∃ rest,
    for_each (λ ds d, if py_in d ds then list_remove d ds else Ok ds) pool puts
    = Ok rest
    ∧ rest ⊆+ pool
    ∧ (puts ⊆+ pool → pool ≡ₚ puts ++ rest).
Proof.
  revert pool. induction puts as [|d puts IH]; intros pool; simpl.
  - exists pool. done.
  - destruct (py_in d pool) eqn:Hin.
    + destruct (list_remove d pool) as [pool'|e] eqn:Hrm.
      * simpl. destruct (IH pool') as (rest & Hrest & Hsub & Hperm).
        apply list_remove_Ok in Hrm.
        exists rest. split; [done|]. split.
        { rewrite Hrm. by apply submseteq_cons. }
        intros Hputs. rewrite Hrm in Hputs.
        apply (submseteq_app_inv_l _ _ [d]) in Hputs.
        rewrite Hrm, (Hperm Hputs). done.
      * apply list_remove_Raise in Hrm as [_ Hnot].
        apply py_in_elem in Hin. done.
    + simpl. destruct (IH pool) as (rest & Hrest & Hsub & Hperm).
      exists rest. split; [done|]. split; [done|].
      intros Hputs. exfalso.
      assert (d ∈ pool) by (eapply elem_of_submseteq; [|exact Hputs]; left).
      apply py_in_elem in H. congruence.
Qed.

Lemma list_remove_sublist x l l' : list_remove x l = Ok l' → l' `sublist_of` l.
Proof.
  revert l'. induction l as [|y l IH]; intros l'; simpl; [discriminate|].
  destruct (y =? x).
  - intros [= ->]. by apply sublist_cons.
  - destruct (list_remove x l) as [k|e]; simpl; [|discriminate].
    intros [= <-]. apply sublist_skip. by apply IH.
Qed.

Lemma count_cons_eq x y l :
  count x (y :: l) = (if y =? x then 1 else 0) + count x l.
Proof. reflexivity. Qed.

Lemma list_remove_count x l l' :
  list_remove x l = Ok l' → ∀ y, count y l = count y (x :: l').
Proof.
  revert l'. induction l as [|z l IH]; intros l'; simpl; [discriminate|].
  destruct (Z.eqb_spec z x) as [-> | Hne].
  - by intros [= ->].
  - destruct (list_remove x l) as [k|e]; simpl; [|discriminate].
    intros [= <-] y. specialize (IH k eq_refl y). simpl in IH |- *. lia.
Qed.

Lemma list_remove_first x l l' :
  list_remove x l = Ok l' → l' = remove_first x l.
Proof.
  revert l'. induction l as [|z l IH]; intros l'; simpl; [discriminate|].
  destruct (z =? x); [by intros [= ->]|].
  destruct (list_remove x l) as [k|e]; simpl; [|discriminate].
  intros [= <-]. by rewrite (IH k eq_refl).
Qed.

Lemma remove_first_absent x l : py_in x l = false → remove_first x l = l.
Proof.
  induction l as [|z l IH]; [done|]. unfold py_in. cbn [existsb remove_first].
  rewrite (Z.eqb_sym x z). destruct (z =? x); [done|].
  cbn [orb]. intros H. by rewrite (IH H).
Qed.

Lemma remove_present_first puts :
  ∀ pool rest,
    for_each (λ ds d, if py_in d ds then list_remove d ds else Ok ds) pool puts
    = Ok rest →
    rest = foldl (λ ds d, remove_first d ds) pool puts.
Proof.
  induction puts as [|d puts IH]; intros pool rest Hrun.
  - by injection Hrun as <-.
  - cbn [for_each foldl] in Hrun |- *. destruct (py_in d pool) eqn:Hin.
    + destruct (list_remove d pool) as [pool'|e] eqn:Hrm; [|discriminate].
      cbn [mbind Res_bind] in Hrun.
      rewrite <- (list_remove_first _ _ _ Hrm). by apply IH.
    + cbn [mbind Res_bind] in Hrun. rewrite (remove_first_absent _ _ Hin).
      by apply IH.
Qed.

Lemma remove_present_exact puts :
  ∀ pool rest,
    for_each (λ ds d, if py_in d ds then list_remove d ds else Ok ds) pool puts
    = Ok rest →
    rest `sublist_of` pool
    ∧ ∀ x, count x rest = 0 `max` (count x pool - count x puts).
Proof.
  induction puts as [|d puts IH]; intros pool rest Hrun.
  - injection Hrun as <-. split; [done|]. intros x.
    pose proof (count_nonneg x pool). simpl. lia.
  - cbn [for_each] in Hrun. destruct (py_in d pool) eqn:Hin.
    + destruct (list_remove d pool) as [pool'|e] eqn:Hrm; [|discriminate].
      cbn [mbind Res_bind] in Hrun.
      destruct (IH pool' rest Hrun) as [Hsub Hcount].
      split; [etrans; [exact Hsub | by eapply list_remove_sublist]|].
      intros x. rewrite Hcount.
      rewrite (list_remove_count _ _ _ Hrm x), !count_cons_eq. lia.
    + cbn [mbind Res_bind] in Hrun.
      destruct (IH pool rest Hrun) as [Hsub Hcount].
      split; [exact Hsub|]. intros x. rewrite Hcount, count_cons_eq.
      destruct (Z.eqb_spec d x) as [-> | Hne]; [|lia].
      assert (Hzero : count x pool = 0).
      { pose proof (count_nonneg x pool).
        destruct (Z.ltb_spec 0 (count x pool)) as [Hpos|]; [|lia].
        apply count_pos_elem, py_in_elem in Hpos. congruence. }
      pose proof (count_nonneg x puts). lia.
Qed.

(** C1 (as amended).  On an open category, [use_dice] of [test2.py]
    raises [ValueError] when the pool lacks a die of the placement, its
    multiplicity counted, and then scores nothing; when the pool holds
    all of them it removes exactly these.  [use_dice] of [1650.py] and
    [main.py] never raises on an open category: it removes the dice of
    the placement that the pool holds, skips the others, and scores the
    category on the dice as the placement names them.  The pool that is
    left is the pool with, for each die of the placement in turn, the
    first die of that face taken out when there is one; it keeps its
    order and holds, of every face, the copies that the pool had beyond
    those the placement names: none when the placement names more than
    the pool had.  The bid score is unchanged. *)
Theorem C1_dice_missing_from_pool (st : GameState) (put : DicePut) :
  rule_score st !! value (put_rule put) = Some None →
  (¬ put_dice put ⊆+ dice st → Test2.use_dice st put = Raise ValueError)
  ∧ (put_dice put ⊆+ dice st →
       ∃ st', Test2.use_dice st put = Ok st'
              ∧ dice st ≡ₚ put_dice put ++ dice st')
  ∧ ∃ st', Y1650.use_dice st put = Ok st'
           ∧ rule_score st'
             = <[value (put_rule put) := Some (Y1650.calculate_score put)]>
                 (rule_score st)
           ∧ bid_score st' = bid_score st
           ∧ dice st' ⊆+ dice st
           ∧ dice st' = foldl (λ ds d, remove_first d ds) (dice st) (put_dice put)
           ∧ dice st' `sublist_of` dice st
           ∧ (∀ x, count x (dice st')
                   = 0 `max` (count x (dice st) - count x (put_dice put)))
           ∧ (put_dice put ⊆+ dice st → dice st ≡ₚ put_dice put ++ dice st').
Proof.
  intros Hopen. split; [|split].
  - intros Hnot. unfold Test2.use_dice. rewrite Hopen.
    destruct (for_each _ _ _) as [rest|e] eqn:Hloop; simpl.
    + apply remove_all_Ok in Hloop. exfalso. apply Hnot. rewrite Hloop.
      by apply submseteq_inserts_r.
    + by apply remove_all_Raise in Hloop as [-> _].
  - intros Hsub. unfold Test2.use_dice. rewrite Hopen.
    destruct (for_each _ _ _) as [rest|e] eqn:Hloop; simpl.
    + apply remove_all_Ok in Hloop. eexists. split; [reflexivity|]. done.
    + apply remove_all_Raise in Hloop as [_ Hnot]. done.
  - unfold Y1650.use_dice. rewrite Hopen.
    destruct (remove_present_Ok (dice st) (put_dice put))
      as (rest & Hrun & Hsub & Hperm).
    destruct (remove_present_exact _ _ _ Hrun) as [Hkeep Hcount].
    pose proof (remove_present_first _ _ _ Hrun) as Hfirst.
    rewrite Hrun. simpl. eexists. split; [reflexivity|]. done.
Qed.

Lemma C1_dice_missing_from_pool_witness :
  Test2.use_dice
    (mkGameState [1; 2; 3; 4; 5] (replicate 12 None) 0)
    (mkDicePut YACHT [6; 6; 6; 6; 6])
  = Raise ValueError.
Proof.
  refine (proj1 (C1_dice_missing_from_pool
    (mkGameState [1; 2; 3; 4; 5] (replicate 12 None) 0)
    (mkDicePut YACHT [6; 6; 6; 6; 6]) eq_refl) _).
  simpl. intros Hsub.
  assert (H : 6 ∈ [1; 2; 3; 4; 5]) by (eapply elem_of_submseteq; [|exact Hsub]; left).
  repeat (apply elem_of_cons in H as [H|H]; [discriminate H|]).
  inversion H.
Defined.

(** C1 (as stated) fails on [1650.py]: with the pool [1,2,3,4,5] a
    placement of five sixes into YACHT is accepted, the pool is left as
    it was and 50000 is stored; with the pool [3,6] a placement of
    [6,6] into SIX is accepted, the one six is removed, 12000 is stored
    for the two sixes named, and [3] is left. *)
Lemma C1_counterexample :
  ¬ [6; 6; 6; 6; 6] ⊆+ [1; 2; 3; 4; 5]
  ∧ Y1650.use_dice
      (mkGameState [1; 2; 3; 4; 5] (replicate 12 None) 0)
      (mkDicePut YACHT [6; 6; 6; 6; 6])
    = Ok (mkGameState [1; 2; 3; 4; 5]
            (<[11%nat := Some 50000]> (replicate 12 None)) 0)
  ∧ ¬ [6; 6] ⊆+ [3; 6]
  ∧ Y1650.use_dice
      (mkGameState [3; 6] (replicate 12 None) 0) (mkDicePut SIX [6; 6])
    = Ok (mkGameState [3] (<[5%nat := Some 12000]> (replicate 12 None)) 0).
Proof.
  split; [|split; [reflexivity|split; [|reflexivity]]].
  - intros Hsub.
    assert (H : 6 ∈ [1; 2; 3; 4; 5])
      by (eapply elem_of_submseteq; [|exact Hsub]; left).
    repeat (apply elem_of_cons in H as [H|H]; [discriminate H|]).
    inversion H.
  - exact (proj2 (remove_all_Raise [3; 6] [6; 6] ValueError eq_refl)).
Qed.

(** ** The placement of an incomplete straight *)

(** C9.  In round 4, with the pool [1,1,2,2,3] and ONE, TWO, THREE
    filled, [calculate_put] of [1650.py] returns SMALL_STRAIGHT with
    the three dice [1,2,3] of the partial straight: fewer than five
    dice.  [update_put] accepts it, stores 0 for SMALL_STRAIGHT and
    leaves [1,2] in the pool. *)
Theorem C9_put_with_fewer_than_five_dice (s1 s2 s3 : Z) :
  let g := partial_straight_game s1 s2 s3 in
  Y1650.find_optimal_dice_for_rule (Y1650.cache_sorted g) SMALL_STRAIGHT
    = Ok ([1; 2; 3], 0)
  ∧ Y1650.calculate_put g = Ok (mkDicePut SMALL_STRAIGHT [1; 2; 3])
  ∧ (∃ put, Y1650.calculate_put g = Ok put ∧ (length (put_dice put) < 5)%nat)
  ∧ (∃ g', Y1650.update_put g (mkDicePut SMALL_STRAIGHT [1; 2; 3]) = Ok g'
           ∧ dice (Y1650.my_state g') = [1; 2]
           ∧ rule_score (Y1650.my_state g') !! value SMALL_STRAIGHT = Some (Some 0)).
Proof.
  intros g. subst g.
  assert (Hput : Y1650.calculate_put (partial_straight_game s1 s2 s3)
                 = Ok (mkDicePut SMALL_STRAIGHT [1; 2; 3])) by (vm_compute; reflexivity).
  split; [vm_compute; reflexivity|].
  split; [exact Hput|].
  split.
  - eexists. split; [exact Hput|]. simpl. lia.
  - eexists. split; [vm_compute; reflexivity|]. done.
Qed.

(** ** Decisions and random draws *)


Lemma Res_bind_Ok {A B} (m : Res A) (f : A → Res B) v :
  m ≫= f = Ok v → ∃ x, m = Ok x ∧ f x = Ok v.
Proof. destruct m as [x|e]; simpl; [eauto | discriminate]. Qed.


Lemma random_choice_two draw x y v :
  random_choice draw [x; y] = Ok v → v = x ∨ v = y.
Proof.
  unfold random_choice. destruct draw as [|[|n]]; simpl; [| |discriminate];
    intros [= <-]; auto.
Qed.


(** ** The estimator of [test2.py] *)

Lemma highest_nonneg l : 0 ≤ highest l.
Proof. induction l; unfold highest in *; simpl; lia. Qed.

Lemma highest_upper x l : x ∈ l → x ≤ highest l.
Proof.
  induction l as [|y l IH]; [by intros ?%elem_of_nil|].
  intros [->|H]%elem_of_cons; unfold highest in *; simpl; [lia|].
  specialize (IH H). lia.
Qed.

Lemma highest_least l m : 0 ≤ m → (∀ x, x ∈ l → x ≤ m) → highest l ≤ m.
Proof.
  intros Hm. induction l as [|y l IH]; intros H; unfold highest in *; simpl; [done|].
  apply Z.max_lub.
  - apply H. left.
  - apply IH. intros x Hx. apply H. by right.
Qed.

Lemma highest_attained l : highest l = 0 ∨ highest l ∈ l.
Proof.
  induction l as [|y l IH]; [by left|].
  unfold highest in *; simpl.
  destruct (Z.max_spec y (foldr Z.max 0 l)) as [[_ ->]|[_ ->]].
  - destruct IH as [IH|IH]; [by left | right; by right].
  - right. left.
Qed.


Lemma foldr_max_base (l : list Z) (b x : Z) :
  foldr Z.max (b `max` x) l = x `max` foldr Z.max b l.
Proof. induction l as [|y l IH]; simpl; [lia|]. rewrite IH. lia. Qed.

Lemma foldl_best_score (l : list Z) (b : Z) :
  foldl (λ best score, if best <? score then score else best) b l
  = foldr Z.max b l.
Proof.
  revert b. induction l as [|x l IH]; intros b; simpl; [done|].
  replace (if b <? x then x else b) with (b `max` x)
    by (destruct (Z.ltb_spec b x); lia).
  by rewrite IH, foldr_max_base.
Qed.

Lemma list_bind_singleton {A B} (f : A → B) (l : list A) :
  (x ← l; [f x]) = f <$> l.
Proof.
  induction l as [|x l IH]; [done|].
  change ((x :: l) ≫= (λ x, [f x])) with ([f x] ++ (l ≫= (λ x, [f x]))).
  by rewrite IH.
Qed.

Lemma hand_scores_cons hand hands rules :
  hand_scores (hand :: hands) rules
  = ((λ rule, Test2.calculate_score (mkDicePut rule hand)) <$> rules)
    ++ hand_scores hands rules.
Proof.
  unfold hand_scores. by rewrite bind_cons, list_bind_singleton.
Qed.

Lemma elem_of_hand_scores x hands rules :
  x ∈ hand_scores hands rules
  ↔ ∃ hand rule, hand ∈ hands ∧ rule ∈ rules
                 ∧ x = Test2.calculate_score (mkDicePut rule hand).
Proof.
  unfold hand_scores. rewrite list_elem_of_bind. split.
  - intros (hand & Hx & Hhand). apply list_elem_of_bind in Hx as (rule & Hx & Hrule).
    apply list_elem_of_singleton in Hx. eauto.
  - intros (hand & rule & Hhand & Hrule & ->). exists hand. split; [|done].
    apply list_elem_of_bind. exists rule. split; [|done].
    by apply list_elem_of_singleton.
Qed.

(** The two nested loops of the estimator keep the highest score. *)
Lemma estimator_loops hands rules :
  foldl (λ best_score hand,
           foldl (λ best_score rule,
                    let score := Test2.calculate_score (mkDicePut rule hand) in
                    if best_score <? score then score else best_score)
                 best_score rules)
        0 hands
  = highest (hand_scores hands rules).
Proof.
  unfold highest. rewrite <- foldl_best_score.
  generalize 0. induction hands as [|hand hands IH]; intros b; [done|].
  rewrite hand_scores_cons, foldl_app. simpl. rewrite IH. f_equal.
  by rewrite foldl_fmap.
Qed.

Lemma potential_score_within_highest budget picks dice_pool rules :
  Test2.potential_score_within budget picks dice_pool rules
  = let all_combinations := combinations dice_pool (length dice_pool `min` 5)%nat in
    highest (hand_scores
               (if decide (budget < length all_combinations)%nat
                then random_sample picks all_combinations budget
                else all_combinations) rules).
Proof. unfold Test2.potential_score_within. cbv zeta. apply estimator_loops. Qed.

Lemma elem_of_random_sample {A} (picks : list nat) (population : list A) k x :
  x ∈ random_sample picks population k
  ↔ ∃ i, i ∈ take k picks ∧ population !! i = Some x.
Proof. unfold random_sample. by rewrite list_elem_of_omap. Qed.

Lemma random_sample_subset {A} (picks : list nat) (population : list A) k x :
  x ∈ random_sample picks population k → x ∈ population.
Proof.
  rewrite elem_of_random_sample. intros (i & _ & Hi).
  by eapply list_elem_of_lookup_2.
Qed.

(** [combinations] lists exactly the selections of [r] dice. *)
Lemma elem_of_combinations hand l r :
  hand ∈ combinations l r ↔ hand `sublist_of` l ∧ length hand = r.
Proof.
  revert hand r. induction l as [|x l IH]; intros hand r.
  - destruct r as [|r]; simpl.
    + rewrite list_elem_of_singleton. split.
      * intros ->. done.
      * intros [_ Hlen]. by apply length_zero_iff_nil.
    + split; [by intros ?%elem_of_nil|].
      intros [Hsub Hlen]. apply sublist_nil_r in Hsub. by subst.
  - destruct r as [|r].
    + simpl. rewrite list_elem_of_singleton. split.
      * intros ->. split; [apply sublist_nil_l | done].
      * intros [_ Hlen]. by apply length_zero_iff_nil.
    + cbn [combinations]. rewrite elem_of_app, list_elem_of_fmap. split.
      * intros [(h & -> & Hh)|Hh].
        -- apply IH in Hh as [Hsub Hlen]. split; [by apply sublist_skip|].
           simpl. by rewrite Hlen.
        -- apply IH in Hh as [Hsub Hlen]. split; [by apply sublist_cons | done].
      * intros [Hsub Hlen]. apply sublist_cons_r in Hsub as [Hsub|(h & -> & Hsub)].
        -- right. apply IH. done.
        -- left. exists h. split; [done|]. apply IH. split; [done|].
           simpl in Hlen. lia.
Qed.










(** The eleven dice [6,6,6,6,6,1,1,1,1,1,1] have 462 selections of five,
    more than the 300 of the source, so the estimator samples.  Under
    the rule YACHT the draw of the positions 0..299 holds the selection
    of the five sixes and scores 50000; the draw of the positions
    1..300 misses it and the selection of five ones, and scores 0, below
    the exhaustive maximum 50000, which a budget of 462 reaches on the
    same draw. *)
Lemma estimator_on_eleven_dice :
  length (combinations eleven_dice 5) = 462%nat
  ∧ sample_draw 462 300 (seq 0 300)
  ∧ sample_draw 462 300 (seq 1 300)
  ∧ Test2.calculate_potential_score (seq 0 300) eleven_dice [YACHT] = 50000
  ∧ Test2.calculate_potential_score (seq 1 300) eleven_dice [YACHT] = 0
  ∧ Test2.potential_score_within 462 (seq 1 300) eleven_dice [YACHT] = 50000
  ∧ exhaustive_maximum eleven_dice [YACHT] = 50000.
Proof.
  assert (Hdraw : ∀ a, (a + 300 ≤ 462)%nat → sample_draw 462 300 (seq a 300)).
  { intros a Ha. split; [apply length_seq|]. split; [apply NoDup_seq|].
    apply Forall_forall. intros i Hi. apply elem_of_seq in Hi. lia. }
  split; [vm_compute; reflexivity|].
  split; [apply Hdraw; lia|]. split; [apply Hdraw; lia|].
  split; [vm_compute; reflexivity|]. split; [vm_compute; reflexivity|].
  split; vm_compute; reflexivity.
Qed.















(** From the state [round9_game] the bid is [A 0] when [random.choice]
    draws its first option and [A 101] when it draws the second: the
    draw is an input of the decision. *)
Lemma bid_of_round9_game :
  Y1650.calculate_bid 0 round9_game [1; 2; 3; 4; 5] [2; 3; 4; 5; 6]
    = Ok (mkBid "A" 0)
  ∧ Y1650.calculate_bid 1 round9_game [1; 2; 3; 4; 5] [2; 3; 4; 5; 6]
    = Ok (mkBid "A" 101).
Proof. split; vm_compute; reflexivity. Qed.

(** ** The valuation of the last round in [main.py] *)

Lemma hands_of_ten_dice (l : list Z) :
  length l = 10%nat →
  mapM (MainPy.hands_at l) (MainPy.five_positions (Z.of_nat (length l)))
  = Ok (splits 5 l).
Proof.
  intros Hlen.
  do 10 (destruct l as [|? l]; [discriminate Hlen|]).
  destruct l; [|discriminate Hlen].
  vm_compute. reflexivity.
Qed.

Lemma py_index_dice d : 0 ≤ d ≤ 6 → py_index 7 d = Ok (Z.to_nat d).
Proof.
  intros Hd. unfold py_index.
  destruct (Z.leb_spec 0 d); [|lia]. destruct (Z.ltb_spec d (Z.of_nat 7)); [done|lia].
Qed.

Lemma py_in_cons x d l : py_in x (d :: l) = (x =? d) || py_in x l.
Proof. reflexivity. Qed.

Lemma has_array_from (acc : list bool) (hand : list Z) :
  length acc = 7%nat → Forall (λ d, 0 ≤ d ≤ 6) hand →
  ∃ has,
    for_each (λ has d, i ← py_index 7 d; Ok (<[i := true]> has)) acc hand = Ok has
    ∧ ∀ i, (i < 7)%nat →
        has !! i = Some (default false (acc !! i) || py_in (Z.of_nat i) hand).
Proof.
  intros Hlen Hall. revert acc Hlen.
  induction Hall as [|d hand Hd Hall IH]; intros acc Hlen.
  - exists acc. split; [done|]. intros i Hi.
    destruct (lookup_lt_is_Some_2 acc i) as [b Hb]; [lia|].
    rewrite Hb. simpl. by rewrite orb_false_r.
  - destruct (IH (<[Z.to_nat d := true]> acc)) as (has & Hhas & Hlook).
    { by rewrite length_insert. }
    exists has. split.
    { simpl. rewrite (py_index_dice d Hd). simpl. exact Hhas. }
    intros i Hi. rewrite (Hlook i Hi), py_in_cons.
    destruct (decide (i = Z.to_nat d)) as [->|Hne].
    + rewrite list_lookup_insert_eq by lia. rewrite Z2Nat.id by lia.
      rewrite Z.eqb_refl. simpl. by rewrite orb_true_r.
    + rewrite list_lookup_insert_ne by done.
      destruct (Z.eqb_spec (Z.of_nat i) d) as [Heq|_]; [|done].
      exfalso. apply Hne. subst d. by rewrite Nat2Z.id.
Qed.

Lemma has_array_dice hand :
  Forall dice_value hand →
  ∃ has, has_array hand = Ok has
         ∧ ∀ i, (i < 7)%nat → has !! i = Some (py_in (Z.of_nat i) hand).
Proof.
  intros Hall. destruct (has_array_from (replicate 7 false) hand) as (has & Hhas & Hlook).
  - done.
  - eapply Forall_impl; [exact Hall|]. unfold dice_value. intros; lia.
  - exists has. split; [exact Hhas|]. intros i Hi. rewrite (Hlook i Hi).
    rewrite lookup_replicate_2 by done. done.
Qed.

Lemma count_pos_py_in x l : (0 <? count x l) = py_in x l.
Proof.
  apply eq_true_iff_eq. rewrite Z.ltb_lt, count_pos_elem, py_in_elem. done.
Qed.

Lemma potential_straights g hand rule :
  Forall dice_value hand → rule = SMALL_STRAIGHT ∨ rule = LARGE_STRAIGHT →
  MainPy.calculate_rule_potential_score g hand rule
  = Ok (Y1650.calculate_score (mkDicePut rule hand)).
Proof.
  intros Hall Hrule. destruct (has_array_dice hand Hall) as (has & Hhas & Hlook).
  unfold MainPy.calculate_rule_potential_score, Y1650.calculate_score.
  simpl put_rule. simpl put_dice. cbv zeta.
  destruct Hrule as [-> | ->]; rewrite Hhas; simpl;
    rewrite ?(Hlook 1%nat), ?(Hlook 2%nat), ?(Hlook 3%nat), ?(Hlook 4%nat),
            ?(Hlook 5%nat), ?(Hlook 6%nat) by lia;
    simpl; rewrite !count_pos_py_in;
    by destruct (_ || _).
Qed.

Lemma elem_of_all_hands hand n :
  Forall dice_value hand → length hand = n → hand ∈ all_hands n.
Proof.
  intros Hall. revert n. induction Hall as [|d hand Hd Hall IH]; intros n Hlen.
  - subst n. simpl. by apply list_elem_of_singleton.
  - destruct n as [|n]; [discriminate|]. simpl in Hlen.
    cbn [all_hands]. apply list_elem_of_bind. exists d.
    split; [|by apply elem_of_range_1_7].
    apply list_elem_of_fmap. exists hand. split; [done|]. apply IH. lia.
Qed.

Lemma potential_full_house_checked :
  forallb (λ hand,
             match MainPy.calculate_rule_potential_score Y1650.Game_init hand FULL_HOUSE with
             | Ok v => v =? (if five_of_a_kind hand then 0
                             else Y1650.calculate_score (mkDicePut FULL_HOUSE hand))
             | Raise _ => false
             end)
          (all_hands 5) = true.
Proof. vm_compute. reflexivity. Qed.

Lemma potential_full_house g hand :
  length hand = 5%nat → Forall dice_value hand →
  MainPy.calculate_rule_potential_score g hand FULL_HOUSE
  = Ok (if five_of_a_kind hand then 0
        else Y1650.calculate_score (mkDicePut FULL_HOUSE hand)).
Proof.
  intros Hlen Hall.
  pose proof potential_full_house_checked as Hchk.
  rewrite forallb_forall in Hchk.
  specialize (Hchk hand). rewrite <- list_elem_of_In in Hchk.
  specialize (Hchk (elem_of_all_hands hand 5 Hall Hlen)).
  change (MainPy.calculate_rule_potential_score g hand FULL_HOUSE)
    with (MainPy.calculate_rule_potential_score Y1650.Game_init hand FULL_HOUSE).
  destruct (MainPy.calculate_rule_potential_score _ _ _) as [v|e]; [|discriminate].
  apply Z.eqb_eq in Hchk. by rewrite Hchk.
Qed.

(** The potential score of [main.py] against the category score. *)
Lemma potential_vs_score g hand rule :
  length hand = 5%nat → Forall dice_value hand →
  (rule = YACHT → Y1650.my_yacht_completed g = false) →
  MainPy.calculate_rule_potential_score g hand rule
  = Ok (if bool_decide (rule = FULL_HOUSE) && five_of_a_kind hand then 0
        else Y1650.calculate_score (mkDicePut rule hand)).
Proof.
  intros Hlen Hall Hflag.
  destruct rule; simpl bool_decide; cbv beta iota;
    try reflexivity;
    try (apply potential_straights; auto; fail).
  - unfold MainPy.calculate_rule_potential_score, Y1650.calculate_score.
    simpl put_rule. simpl put_dice. cbv zeta. by destruct (any _).
  - rewrite potential_full_house by done. done.
  - unfold MainPy.calculate_rule_potential_score, Y1650.calculate_score.
    rewrite Hflag by done. cbn [negb put_rule put_dice]. cbv zeta.
    by destruct (any _).
Qed.

Lemma potential_total g hand rule :
  length hand = 5%nat → Forall dice_value hand →
  ∃ v, MainPy.calculate_rule_potential_score g hand rule = Ok v ∧ 0 ≤ v.
Proof.
  intros Hlen Hall.
  destruct (decide (rule = YACHT ∧ Y1650.my_yacht_completed g = true)) as [[-> Hf]|Hn].
  - exists 0. unfold MainPy.calculate_rule_potential_score. by rewrite Hf.
  - rewrite potential_vs_score; [| done | done |].
    + eexists. split; [reflexivity|].
      destruct (_ && _); [lia|].
      destruct (score_1650_thousands (mkDicePut rule hand)) as (k & Hk & ->); [|lia].
      eapply Forall_impl; [exact Hall|]. unfold dice_value. simpl. intros; lia.
    + intros ->. destruct (Y1650.my_yacht_completed g); [|done].
      exfalso. by apply Hn.
Qed.

Lemma marked_cons b mask :
  marked (b :: mask) = if b then S (marked mask) else marked mask.
Proof. unfold marked. rewrite filter_cons. by destruct b. Qed.

Lemma split_by_in_splits l mask k :
  length mask = length l → marked mask = k → split_by mask l ∈ splits k l.
Proof.
  revert mask k. induction l as [|x l IH]; intros [|b mask] k Hlen Hk;
    try discriminate Hlen.
  - subst k. simpl. by apply list_elem_of_singleton.
  - rewrite marked_cons in Hk. simpl in Hlen. injection Hlen as Hlen.
    cbn [split_by splits].
    destruct (split_by mask l) as [h1 h2] eqn:Hsplit.
    destruct b.
    + subst k. apply elem_of_app. left. apply list_elem_of_fmap.
      exists (h1, h2). split; [done|]. rewrite <- Hsplit. by apply IH.
    + apply elem_of_app. right. apply list_elem_of_fmap.
      exists (h1, h2). split; [done|]. rewrite <- Hsplit. by apply IH.
Qed.

Lemma splits_from_mask l k hands :
  hands ∈ splits k l →
  ∃ mask, length mask = length l ∧ marked mask = k ∧ split_by mask l = hands.
Proof.
  revert k hands. induction l as [|x l IH]; intros k hands Hin.
  - destruct k; simpl in Hin; [|by apply elem_of_nil in Hin].
    apply list_elem_of_singleton in Hin as ->. by exists [].
  - cbn [splits] in Hin. apply elem_of_app in Hin as [Hin|Hin].
    + destruct k as [|k]; [by apply elem_of_nil in Hin|].
      apply list_elem_of_fmap in Hin as ([h1 h2] & -> & Hin).
      destruct (IH _ _ Hin) as (mask & Hlen & Hk & Hsplit).
      exists (true :: mask). rewrite marked_cons. cbn [split_by]. rewrite Hsplit.
      simpl. auto.
    + apply list_elem_of_fmap in Hin as ([h1 h2] & -> & Hin).
      destruct (IH _ _ Hin) as (mask & Hlen & Hk & Hsplit).
      exists (false :: mask). rewrite marked_cons. cbn [split_by]. rewrite Hsplit.
      simpl. auto.
Qed.

Lemma split_by_Permutation mask l :
  length mask = length l →
  (split_by mask l).1 ++ (split_by mask l).2 ≡ₚ l
  ∧ length (split_by mask l).1 = marked mask.
Proof.
  revert mask. induction l as [|x l IH]; intros [|b mask] Hlen;
    try discriminate Hlen; [done|].
  simpl in Hlen. injection Hlen as Hlen. destruct (IH mask Hlen) as [Hperm Hlen1].
  rewrite marked_cons. cbn [split_by].
  destruct (split_by mask l) as [h1 h2]. simpl in *.
  destruct b; simpl.
  - split; [by rewrite Hperm | by rewrite Hlen1].
  - split; [|done]. by rewrite <- Permutation_middle, Hperm.
Qed.

Lemma split_by_complement mask l :
  split_by (negb <$> mask) l = ((split_by mask l).2, (split_by mask l).1).
Proof.
  revert mask. induction l as [|x l IH]; intros [|b mask]; try done.
  rewrite fmap_cons. cbn [split_by]. rewrite IH.
  destruct (split_by mask l) as [h1 h2]. by destruct b.
Qed.

Lemma marked_complement mask :
  (marked (negb <$> mask) + marked mask = length mask)%nat.
Proof.
  induction mask as [|b mask IH]; [done|].
  rewrite fmap_cons, !marked_cons. destruct b; simpl; lia.
Qed.

Lemma five_of_ten_complement mask : five_of_ten mask → five_of_ten (negb <$> mask).
Proof.
  intros [Hlen Hk]. split; [by rewrite length_fmap|].
  pose proof (marked_complement mask). lia.
Qed.

(** The two hands of a split of ten dice hold five dice each. *)
Lemma five_of_ten_hands mask l :
  five_of_ten mask → length l = 10%nat → Forall dice_value l →
  let hands := split_by mask l in
  hands.1 ++ hands.2 ≡ₚ l
  ∧ length hands.1 = 5%nat ∧ length hands.2 = 5%nat
  ∧ Forall dice_value hands.1 ∧ Forall dice_value hands.2.
Proof.
  intros [Hlen Hk] Hl Hall hands. subst hands.
  destruct (split_by_Permutation mask l) as [Hperm Hlen1]; [lia|].
  rewrite Hk in Hlen1.
  assert (Hlen2 : length (split_by mask l).2 = 5%nat).
  { apply Permutation_length in Hperm. rewrite length_app in Hperm. lia. }
  rewrite <- Hperm in Hall. apply Forall_app in Hall as [H1 H2]. done.
Qed.

Lemma mapM_cons_Ok {A B} (f : A → Res B) x l ys :
  mapM f (x :: l) = Ok ys →
  ∃ y ys', f x = Ok y ∧ mapM f l = Ok ys' ∧ ys = y :: ys'.
Proof.
  simpl. destruct (f x) as [y|e]; simpl; [|discriminate].
  destruct (mapM f l) as [ys'|e]; simpl; [|discriminate].
  intros [= <-]. eauto.
Qed.

(** The loop of the valuation keeps the highest value of a split. *)
Lemma last_turn_loop g l rule1 rule2 positions hs acc :
  mapM (MainPy.hands_at l) positions = Ok hs →
  Forall (λ hands, length hands.1 = 5%nat ∧ length hands.2 = 5%nat
                   ∧ Forall dice_value hands.1 ∧ Forall dice_value hands.2) hs →
  for_each
    (λ max_score positions,
       '(dice_for_rule1, dice_for_rule2) ← MainPy.hands_at l positions;
       score1 ← MainPy.calculate_rule_potential_score g dice_for_rule1 rule1;
       score2 ← MainPy.calculate_rule_potential_score g dice_for_rule2 rule2;
       let total_score := score1 + score2 in
       Ok (max_score `max` total_score))
    acc positions
  = Ok (foldr Z.max acc (split_value g rule1 rule2 <$> hs)).
Proof.
  revert hs acc. induction positions as [|p positions IH]; intros hs acc Hmap Hall.
  - injection Hmap as <-. done.
  - apply mapM_cons_Ok in Hmap as ([h1 h2] & hs' & Hp & Hmap & ->).
    apply Forall_cons in Hall as [(Hl1 & Hl2 & Hv1 & Hv2) Hall].
    simpl in Hl1, Hl2, Hv1, Hv2.
    cbn [for_each]. rewrite Hp. cbn [mbind Res_bind].
    destruct (potential_total g h1 rule1 Hl1 Hv1) as (v1 & Hs1 & _).
    destruct (potential_total g h2 rule2 Hl2 Hv2) as (v2 & Hs2 & _).
    rewrite Hs1, Hs2. cbn [mbind Res_bind]. cbv zeta.
    rewrite (IH hs' _ Hmap Hall). rewrite fmap_cons.
    unfold split_value at 2. simpl. rewrite Hs1, Hs2.
    by rewrite foldr_max_base.
Qed.

Lemma DiceRule_of_value i r : DiceRule_of i = Ok r → value r = i.
Proof.
  unfold DiceRule_of.
  do 12 (destruct i as [|i]; [simpl; by intros [= <-]|]).
  simpl. discriminate.
Qed.

Lemma remaining_rules_from (board : list (option Z)) positions acc rs r :
  for_each (λ acc i, s ← at_pos board i;
                     match s with
                     | None => r ← DiceRule_of i; Ok (acc ++ [r])
                     | Some _ => Ok acc
                     end)
           acc positions = Ok rs →
  r ∈ rs → r ∈ acc ∨ board !! value r = Some None.
Proof.
  revert acc. induction positions as [|i positions IH]; intros acc Hloop Hr.
  - injection Hloop as <-. by left.
  - apply for_each_Ok_inv in Hloop as (acc' & Hbody & Hloop).
    destruct (IH acc' Hloop Hr) as [Hacc'|Hopen]; [|by right].
    unfold at_pos in Hbody.
    destruct (board !! i) as [[v|]|] eqn:Hi; simpl in Hbody; try discriminate.
    + injection Hbody as <-. by left.
    + destruct (DiceRule_of i) as [r'|e] eqn:Hof; simpl in Hbody; [|discriminate].
      injection Hbody as <-. apply elem_of_app in Hacc' as [Hacc|Hnew]; [by left|].
      apply list_elem_of_singleton in Hnew as ->. right.
      by rewrite (DiceRule_of_value _ _ Hof).
Qed.

Lemma remaining_rules_open st rs r :
  MainPy.remaining_rules st = Ok rs → r ∈ rs → rule_score st !! value r = Some None.
Proof.
  intros Hrs Hr. destruct (remaining_rules_from _ _ _ _ _ Hrs Hr) as [H|H]; [|done].
  by apply elem_of_nil in H.
Qed.

(** C6 (as amended).  With exactly two categories open and ten dice in
    pool and candidate group together, the valuation of the last round
    returns the exact maximum, over every split of the ten dice into
    two hands of five and both ways of giving the two categories to the
    two hands, of the sum of the two potential scores
    ([calculate_rule_potential_score]); the search is exhaustive.  The
    potential score is the category score, except that FULL_HOUSE on
    five equal dice has the potential score 0. *)
Theorem C6_last_round_valuation (g : Y1650.Game) (dice_group : list Z)
    (rule1 rule2 : DiceRule) :
  let combined := dice (Y1650.my_state g) ++ dice_group in
  let potential := MainPy.calculate_rule_potential_score g in
  MainPy.remaining_rules (Y1650.my_state g) = Ok [rule1; rule2] →
  length combined = 10%nat →
  Forall dice_value combined →
  ∃ best,
    MainPy.calculate_highest_possible_score_for_last_turn g dice_group = Ok best
    ∧ (∀ mask, five_of_ten mask →
         ∃ v1 v2 w1 w2,
           potential (split_by mask combined).1 rule1 = Ok v1
           ∧ potential (split_by mask combined).2 rule2 = Ok v2
           ∧ potential (split_by mask combined).1 rule2 = Ok w1
           ∧ potential (split_by mask combined).2 rule1 = Ok w2
           ∧ v1 + v2 ≤ best ∧ w1 + w2 ≤ best)
    ∧ (∃ mask v1 v2,
         five_of_ten mask
         ∧ potential (split_by mask combined).1 rule1 = Ok v1
         ∧ potential (split_by mask combined).2 rule2 = Ok v2
         ∧ best = v1 + v2)
    ∧ ((Y1650.my_yacht_completed g = true →
        rule_score (Y1650.my_state g) !! value YACHT ≠ Some None) →
       ∀ hand rule, rule ∈ [rule1; rule2] →
         length hand = 5%nat → Forall dice_value hand →
         potential hand rule
         = Ok (if bool_decide (rule = FULL_HOUSE) && five_of_a_kind hand then 0
               else Y1650.calculate_score (mkDicePut rule hand))).
Proof.
  intros combined potential Hrules Hlen Hall. subst potential.
  pose proof (hands_of_ten_dice combined Hlen) as Hmap.
  assert (Hhands : Forall (λ hands, length hands.1 = 5%nat ∧ length hands.2 = 5%nat
                                    ∧ Forall dice_value hands.1
                                    ∧ Forall dice_value hands.2)
                          (splits 5 combined)).
  { apply Forall_forall. intros hands Hin.
    apply splits_from_mask in Hin as (mask & Hm & Hk & <-).
    destruct (five_of_ten_hands mask combined) as (_ & ? & ? & ? & ?); try done.
    split; [lia | done]. }
  assert (Hupper : ∀ mask, five_of_ten mask →
            ∃ v1 v2,
              MainPy.calculate_rule_potential_score g (split_by mask combined).1 rule1 = Ok v1
              ∧ MainPy.calculate_rule_potential_score g (split_by mask combined).2 rule2 = Ok v2
              ∧ v1 + v2 ≤ highest (split_value g rule1 rule2 <$> splits 5 combined)).
  { intros mask Hmask.
    destruct (five_of_ten_hands mask combined Hmask Hlen Hall) as (_ & Hl1 & Hl2 & Hv1 & Hv2).
    destruct (potential_total g _ rule1 Hl1 Hv1) as (v1 & Hs1 & _).
    destruct (potential_total g _ rule2 Hl2 Hv2) as (v2 & Hs2 & _).
    exists v1, v2. split; [done|]. split; [done|].
    apply highest_upper. apply list_elem_of_fmap.
    exists (split_by mask combined). split.
    - unfold split_value. by rewrite Hs1, Hs2.
    - apply split_by_in_splits; [destruct Hmask; lia | by destruct Hmask]. }
  exists (highest (split_value g rule1 rule2 <$> splits 5 combined)).
  split; [|split; [|split]].
  - unfold MainPy.calculate_highest_possible_score_for_last_turn.
    rewrite Hrules. cbn [mbind Res_bind].
    exact (last_turn_loop g combined rule1 rule2 _ _ 0 Hmap Hhands).
  - intros mask Hmask.
    destruct (Hupper mask Hmask) as (v1 & v2 & Hs1 & Hs2 & Hle).
    destruct (Hupper _ (five_of_ten_complement mask Hmask)) as (w2 & w1 & Ht2 & Ht1 & Hle').
    rewrite split_by_complement in Ht1, Ht2. simpl in Ht1, Ht2.
    exists v1, v2, w1, w2. repeat split; try done. lia.
  - destruct (highest_attained (split_value g rule1 rule2 <$> splits 5 combined))
      as [H0|Hat].
    + destruct (Hupper first_five) as (v1 & v2 & Hs1 & Hs2 & Hle); [done|].
      destruct (five_of_ten_hands first_five combined) as (_ & Hl1 & Hl2 & Hv1 & Hv2);
        try done.
      destruct (potential_total g _ rule1 Hl1 Hv1) as (v1' & Hs1' & Hn1).
      destruct (potential_total g _ rule2 Hl2 Hv2) as (v2' & Hs2' & Hn2).
      exists first_five, v1, v2. repeat split; try done.
      rewrite Hs1 in Hs1'. rewrite Hs2 in Hs2'.
      injection Hs1' as <-. injection Hs2' as <-. lia.
    + apply list_elem_of_fmap in Hat as (hands & Hval & Hin).
      apply splits_from_mask in Hin as (mask & Hm & Hk & <-).
      assert (Hmask : five_of_ten mask) by (split; [lia | done]).
      destruct (Hupper mask Hmask) as (v1 & v2 & Hs1 & Hs2 & _).
      exists mask, v1, v2. repeat split; try done; try (destruct Hmask; done).
      rewrite Hval. unfold split_value. by rewrite Hs1, Hs2.
  - intros Hflag hand rule Hrule Hl Hv. apply potential_vs_score; try done.
    intros ->. destruct (Y1650.my_yacht_completed g) eqn:Hf; [|done].
    exfalso. apply Hflag; [done|]. by eapply remaining_rules_open.
Qed.

Lemma C6_last_round_valuation_witness :
  ∃ best,
    MainPy.calculate_highest_possible_score_for_last_turn
      last_round_game [6; 6; 6; 6; 6] = Ok best.
Proof.
  assert (Hall : Forall dice_value ([1; 1; 1; 1; 1] ++ [6; 6; 6; 6; 6])).
  { repeat constructor; unfold dice_value; lia. }
  destruct (C6_last_round_valuation last_round_game [6; 6; 6; 6; 6] ONE FULL_HOUSE
              eq_refl eq_refl Hall) as (best & Hbest & _).
  exists best. exact Hbest.
Defined.

(** C6 (as stated) fails.  In the last round, with five ones in the
    pool, ONE and FULL_HOUSE open and a group of five sixes, the
    valuation returns 23000, while the split that gives the ones to ONE
    and the sixes to FULL_HOUSE has the category scores 5000 and
    30000. *)
Lemma C6_counterexample :
  MainPy.remaining_rules (Y1650.my_state last_round_game) = Ok [ONE; FULL_HOUSE]
  ∧ MainPy.calculate_highest_possible_score_for_last_turn
      last_round_game [6; 6; 6; 6; 6] = Ok 23000
  ∧ five_of_ten first_five
  ∧ split_by first_five ([1; 1; 1; 1; 1] ++ [6; 6; 6; 6; 6])
    = ([1; 1; 1; 1; 1], [6; 6; 6; 6; 6])
  ∧ Y1650.calculate_score (mkDicePut ONE [1; 1; 1; 1; 1])
    + Y1650.calculate_score (mkDicePut FULL_HOUSE [6; 6; 6; 6; 6]) = 35000
  ∧ MainPy.last_turn_put
      (Y1650.update_get last_round_game [6; 6; 6; 6; 6] [2; 3; 4; 5; 6]
         (mkBid "A" 0) (mkBid "B" 0) "A")
    = Ok (Some (mkDicePut ONE [1; 1; 1; 6; 6])).
Proof.
  repeat split; vm_compute; reflexivity.
Qed.


(** * Further properties of the three files *)

(** ** The scoring functions *)

Lemma count_Permutation x l l' : l ≡ₚ l' → count x l = count x l'.
Proof.
  induction 1 as [|y l l' _ IH|y z l|l1 l2 l3 _ IH1 _ IH2]; simpl; lia.
Qed.

Lemma py_sum_Permutation l l' : l ≡ₚ l' → py_sum l = py_sum l'.
Proof.
  induction 1 as [|y l l' _ IH|y z l|l1 l2 l3 _ IH1 _ IH2]; simpl; lia.
Qed.

Lemma py_in_Permutation x l l' : l ≡ₚ l' → py_in x l = py_in x l'.
Proof.
  intros H. apply eq_true_iff_eq. rewrite !py_in_elem. by rewrite H.
Qed.

Lemma sorted_Permutation l l' : l ≡ₚ l' → sorted l = sorted l'.
Proof.
  intros H. unfold sorted. apply (Sorted_unique Z.le).
  - apply Sorted_merge_sort. intros x y. lia.
  - apply Sorted_merge_sort. intros x y. lia.
  - by rewrite !merge_sort_Permutation.
Qed.

Lemma counts_Permutation l l' :
  l ≡ₚ l' → (λ i, count i l) <$> range 1 7 = (λ i, count i l') <$> range 1 7.
Proof.
  intros H. apply list_fmap_ext. intros _ i _. by apply count_Permutation.
Qed.

Lemma existsb_count_Permutation (p : Z → bool) l hand hand' :
  hand ≡ₚ hand' →
  existsb (λ i, p (count i hand)) l = existsb (λ i, p (count i hand')) l.
Proof.
  intros H. induction l as [|i l IH]; [done|]. simpl.
  by rewrite IH, (count_Permutation i _ _ H).
Qed.

(** X1.  A category score does not depend on the order of the dice, in
    [1650.py] (and [main.py]) and in [test2.py]. *)
Theorem X1_score_order_independent (rule : DiceRule) (hand hand' : list Z) :
  hand ≡ₚ hand' →
  Y1650.calculate_score (mkDicePut rule hand)
    = Y1650.calculate_score (mkDicePut rule hand')
  ∧ Test2.calculate_score (mkDicePut rule hand)
    = Test2.calculate_score (mkDicePut rule hand').
Proof.
  intros H. split.
  - destruct (decide (rule = FULL_HOUSE)) as [->|Hr].
    { rewrite !full_house_1650_flags, (py_sum_Permutation _ _ H).
      by rewrite (existsb_count_Permutation (λ c, (c =? 2) || (c =? 5)) _ _ _ H),
                 (existsb_count_Permutation (λ c, (c =? 3) || (c =? 5)) _ _ _ H). }
    unfold Y1650.calculate_score. simpl put_rule. simpl put_dice. cbv zeta.
    destruct rule; try done;
      rewrite ?py_sum_filter_eq, ?(py_sum_Permutation _ _ H),
              ?(count_Permutation 1 _ _ H), ?(count_Permutation 2 _ _ H),
              ?(count_Permutation 3 _ _ H), ?(count_Permutation 4 _ _ H),
              ?(count_Permutation 5 _ _ H), ?(count_Permutation 6 _ _ H);
      try reflexivity.
    + by rewrite (list_fmap_ext (λ i, 4 <=? count i hand) (λ i, 4 <=? count i hand')
                    (range 1 7)) by (intros; by rewrite (count_Permutation _ _ _ H)).
    + by rewrite (list_fmap_ext (λ i, count i hand =? 5) (λ i, count i hand' =? 5)
                    (range 1 7)) by (intros; by rewrite (count_Permutation _ _ _ H)).
  - unfold Test2.calculate_score. simpl put_rule. simpl put_dice. cbv zeta.
    rewrite (counts_Permutation _ _ H), (py_sum_Permutation _ _ H),
            (sorted_Permutation _ _ H).
    destruct rule; rewrite ?(count_Permutation _ _ _ H); try reflexivity.
    match goal with
    | |- (if ?a then _ else _) = (if ?b then _ else _) => replace a with b; [done|]
    end.
    f_equal. apply list_fmap_ext. intros _ s _. f_equal.
    apply list_fmap_ext. intros _ x _. symmetry. by apply py_in_Permutation.
Qed.

Lemma X1_score_order_independent_witness :
  Y1650.calculate_score (mkDicePut SMALL_STRAIGHT [2; 1; 3; 4; 4])
  = Y1650.calculate_score (mkDicePut SMALL_STRAIGHT [1; 2; 3; 4; 4]).
Proof.
  exact (proj1 (X1_score_order_independent SMALL_STRAIGHT
                  [2; 1; 3; 4; 4] [1; 2; 3; 4; 4] (perm_swap 1 2 [3; 4; 4]))).
Defined.

Lemma all_hands_checked (check : list Z → bool) (hand : list Z) :
  forallb check (all_hands 5) = true →
  length hand = 5%nat → Forall dice_value hand → check hand = true.
Proof.
  intros Hchk Hlen Hall. rewrite forallb_forall in Hchk. apply Hchk.
  apply list_elem_of_In. by apply elem_of_all_hands.
Qed.

Lemma scores_agree_checked :
  forallb (λ hand,
             forallb (λ rule,
                        Test2.calculate_score (mkDicePut rule hand)
                        =? (if bool_decide (rule = FULL_HOUSE) && five_of_a_kind hand
                            then 0 else Y1650.calculate_score (mkDicePut rule hand)))
                     all_rules)
          (all_hands 5) = true.
Proof. vm_compute. reflexivity. Qed.

(** X2.  On a hand of five dice the scoring function of [test2.py]
    gives the score of [1650.py] in every category, except that it
    gives 0 to FULL_HOUSE on five equal dice. *)
Theorem X2_scoring_functions_agree (rule : DiceRule) (hand : list Z) :
  length hand = 5%nat → Forall dice_value hand →
  Test2.calculate_score (mkDicePut rule hand)
  = if bool_decide (rule = FULL_HOUSE) && five_of_a_kind hand then 0
    else Y1650.calculate_score (mkDicePut rule hand).
Proof.
  intros Hlen Hall.
  pose proof (all_hands_checked _ hand scores_agree_checked Hlen Hall) as H.
  cbv beta in H. rewrite forallb_forall in H.
  apply Z.eqb_eq, H. destruct rule; simpl; tauto.
Qed.

Lemma X2_scoring_functions_agree_witness :
  Test2.calculate_score (mkDicePut LARGE_STRAIGHT [6; 2; 4; 3; 5]) = 30000.
Proof.
  assert (Hall : Forall dice_value [6; 2; 4; 3; 5])
    by (repeat constructor; unfold dice_value; lia).
  exact (X2_scoring_functions_agree LARGE_STRAIGHT [6; 2; 4; 3; 5] eq_refl Hall).
Defined.

Lemma count_le_length x l : count x l ≤ Z.of_nat (length l).
Proof. induction l as [|y l IH]; simpl length; simpl count; [lia|]. destruct (y =? x); lia. Qed.

Lemma count_all x l : count x l = Z.of_nat (length l) → l = replicate (length l) x.
Proof.
  induction l as [|y l IH]; [done|]. simpl count. simpl length.
  pose proof (count_le_length x l).
  destruct (Z.eqb_spec y x) as [->|Hne]; [|lia].
  intros H'. simpl. f_equal. apply IH. lia.
Qed.

Lemma count_replicate x n : count x (replicate n x) = Z.of_nat n.
Proof. induction n as [|n IH]; [done|]. simpl. rewrite Z.eqb_refl, IH. lia. Qed.

Lemma sorted_iff_Permutation hand l :
  sorted l = l → (sorted hand = l ↔ hand ≡ₚ l).
Proof.
  intros Hl. split.
  - intros <-. unfold sorted. by rewrite merge_sort_Permutation.
  - intros H. by rewrite (sorted_Permutation _ _ H).
Qed.

Lemma any_count_true (p : Z → bool) hand :
  any ((λ i, p (count i hand)) <$> range 1 7) = true
  ↔ ∃ a, dice_value a ∧ p (count a hand) = true.
Proof.
  unfold any. rewrite existsb_exists. setoid_rewrite <- list_elem_of_In.
  setoid_rewrite list_elem_of_fmap. setoid_rewrite elem_of_range_1_7. unfold id.
  split.
  - intros (b & (a & -> & Ha) & Hb). eauto.
  - intros (a & Ha & Hp). exists (p (count a hand)). split; [|done]. eauto.
Qed.

Lemma large_straight_checked :
  forallb (λ hand,
             Bool.eqb (Y1650.calculate_score (mkDicePut LARGE_STRAIGHT hand) =? 30000)
                      (bool_decide (sorted hand = [1; 2; 3; 4; 5]
                                    ∨ sorted hand = [2; 3; 4; 5; 6])))
          (all_hands 5) = true.
Proof. vm_compute. reflexivity. Qed.

(** X3.  For a hand of five dice in [1650.py] (and [main.py]): YACHT
    scores 50000 exactly when the five dice are equal, LARGE_STRAIGHT
    scores 30000 exactly when the hand is 1,2,3,4,5 or 2,3,4,5,6 in
    some order, and SMALL_STRAIGHT scores 15000 exactly when the hand
    holds 1,2,3,4 or 2,3,4,5 or 3,4,5,6. *)
Theorem X3_fixed_awards (hand : list Z) :
  length hand = 5%nat → Forall dice_value hand →
  (Y1650.calculate_score (mkDicePut YACHT hand) = 50000
     ↔ ∃ a, hand = replicate 5 a)
  ∧ (Y1650.calculate_score (mkDicePut LARGE_STRAIGHT hand) = 30000
       ↔ hand ≡ₚ [1; 2; 3; 4; 5] ∨ hand ≡ₚ [2; 3; 4; 5; 6])
  ∧ (Y1650.calculate_score (mkDicePut SMALL_STRAIGHT hand) = 15000
       ↔ ∃ low, low ∈ [1; 2; 3] ∧ low ∈ hand ∧ low + 1 ∈ hand
                ∧ low + 2 ∈ hand ∧ low + 3 ∈ hand).
Proof.
  intros Hlen Hall. split; [|split].
  - change (Y1650.calculate_score (mkDicePut YACHT hand))
      with (if any ((λ i, count i hand =? 5) <$> range 1 7) then 50000 else 0).
    destruct (any _) eqn:Hany.
    + split; [intros _ | intros _; reflexivity].
      apply (any_count_true (λ c, c =? 5)) in Hany as (a & _ & Ha).
      apply Z.eqb_eq in Ha. exists a. rewrite <- Hlen. apply count_all. lia.
    + split; [discriminate|]. intros (a & ->).
      assert (dice_value a) by (by apply Forall_cons in Hall as [? _]).
      assert (Htrue : any ((λ i, count i (replicate 5 a) =? 5) <$> range 1 7) = true).
      { apply (any_count_true (λ c, c =? 5)). exists a. split; [done|].
        by rewrite count_replicate. }
      congruence.
  - pose proof (all_hands_checked _ hand large_straight_checked Hlen Hall) as H.
    cbv beta in H. apply Bool.eqb_prop in H.
    rewrite <- (sorted_iff_Permutation hand [1; 2; 3; 4; 5]) by reflexivity.
    rewrite <- (sorted_iff_Permutation hand [2; 3; 4; 5; 6]) by reflexivity.
    rewrite <- Z.eqb_eq, H. apply bool_decide_eq_true.
  - change (Y1650.calculate_score (mkDicePut SMALL_STRAIGHT hand))
      with (let e i := 0 <? count i hand in
            if (e 1 && e 2 && e 3 && e 4) || (e 2 && e 3 && e 4 && e 5)
               || (e 3 && e 4 && e 5 && e 6) then 15000 else 0).
    cbv beta zeta. rewrite !count_pos_py_in.
    transitivity ((1 ∈ hand ∧ 2 ∈ hand ∧ 3 ∈ hand ∧ 4 ∈ hand)
                  ∨ (2 ∈ hand ∧ 3 ∈ hand ∧ 4 ∈ hand ∧ 5 ∈ hand)
                  ∨ (3 ∈ hand ∧ 4 ∈ hand ∧ 5 ∈ hand ∧ 6 ∈ hand)).
    + rewrite <- !py_in_elem.
      destruct (py_in 1 hand), (py_in 2 hand), (py_in 3 hand),
               (py_in 4 hand), (py_in 5 hand), (py_in 6 hand); simpl;
        split; intros H; try reflexivity; try discriminate H; try tauto;
        exfalso; destruct H as [H|[H|H]]; destruct H as (? & ? & ? & ?);
        discriminate.
    + split.
      * intros [H|[H|H]]; [exists 1|exists 2|exists 3];
          (split; [repeat constructor|exact H]).
      * intros (low & Hlow & Hh).
        repeat (apply elem_of_cons in Hlow as [->|Hlow]);
          [by left | right; by left | right; by right | by apply elem_of_nil in Hlow].
Qed.

Lemma X3_fixed_awards_witness :
  Y1650.calculate_score (mkDicePut YACHT [6; 6; 6; 6; 6]) = 50000.
Proof.
  assert (Hall : Forall dice_value [6; 6; 6; 6; 6])
    by (repeat constructor; unfold dice_value; lia).
  apply (proj1 (X3_fixed_awards [6; 6; 6; 6; 6] eq_refl Hall)).
  exists 6. reflexivity.
Defined.

(** ** The potential score of [1650.py] *)

Lemma any_fmap {A} (f : A → bool) (l : list A) : any (f <$> l) = existsb f l.
Proof.
  unfold any. induction l as [|x l IH]; [done|].
  rewrite fmap_cons. cbn [existsb]. by rewrite IH.
Qed.

Lemma has_array_raises (acc : list bool) (hand : list Z) :
  Exists (λ d, d < -7 ∨ 6 < d) hand →
  for_each (λ has d, i ← py_index 7 d; Ok (<[i := true]> has)) acc hand
  = Raise IndexError.
Proof.
  intros Hex. revert acc. induction hand as [|d hand IH]; intros acc.
  - by apply Exists_nil in Hex.
  - simpl. unfold py_index.
    destruct ((0 <=? d) && (d <? Z.of_nat 7)) eqn:H1; simpl.
    + apply IH. apply Exists_cons in Hex as [Hd|Hex]; [|done].
      rewrite andb_true_iff, Z.leb_le, Z.ltb_lt in H1. lia.
    + destruct ((- Z.of_nat 7 <=? d) && (d <? 0)) eqn:H2; simpl; [|done].
      apply IH. apply Exists_cons in Hex as [Hd|Hex]; [|done].
      rewrite andb_true_iff, Z.leb_le, Z.ltb_lt in H2. lia.
Qed.

Lemma has_array_small_dice hand :
  Forall (λ d, 0 ≤ d ≤ 6) hand →
  ∃ has, has_array hand = Ok has
         ∧ ∀ i, (i < 7)%nat → has !! i = Some (py_in (Z.of_nat i) hand).
Proof.
  intros Hall. destruct (has_array_from (replicate 7 false) hand) as (has & Hhas & Hlook);
    [done | done |].
  exists has. split; [exact Hhas|]. intros i Hi. rewrite (Hlook i Hi).
  by rewrite lookup_replicate_2.
Qed.

Lemma potential_plain rule hand :
  rule ≠ SMALL_STRAIGHT → rule ≠ LARGE_STRAIGHT →
  Y1650.calculate_rule_potential_score hand rule
  = Ok (Y1650.calculate_score (mkDicePut rule hand)).
Proof.
  intros Hs Hl. destruct rule; try done.
  - change (Y1650.calculate_rule_potential_score hand FOUR_OF_A_KIND)
      with (if any ((λ i, 4 <=? count i hand) <$> range 1 7)
            then Ok (py_sum hand * 1000) else Ok 0).
    change (Y1650.calculate_score (mkDicePut FOUR_OF_A_KIND hand))
      with (if any ((λ i, 4 <=? count i hand) <$> range 1 7)
            then py_sum hand * 1000 else 0).
    by destruct (any _).
  - rewrite full_house_1650_flags.
    unfold Y1650.calculate_rule_potential_score. cbv zeta. rewrite !any_fmap.
    by destruct (_ && _).
  - change (Y1650.calculate_rule_potential_score hand YACHT)
      with (if any ((λ i, count i hand =? 5) <$> range 1 7)
            then Ok 50000 else Ok 0).
    change (Y1650.calculate_score (mkDicePut YACHT hand))
      with (if any ((λ i, count i hand =? 5) <$> range 1 7) then 50000 else 0).
    by destruct (any _).
Qed.

Lemma potential_small_dice rule hand :
  Forall (λ d, 0 ≤ d ≤ 6) hand →
  Y1650.calculate_rule_potential_score hand rule
  = Ok (Y1650.calculate_score (mkDicePut rule hand)).
Proof.
  intros Hall.
  destruct (decide (rule = SMALL_STRAIGHT ∨ rule = LARGE_STRAIGHT)) as [Hr|Hr];
    [|apply potential_plain; tauto].
  destruct (has_array_small_dice hand Hall) as (has & Hhas & Hlook).
  unfold Y1650.calculate_rule_potential_score, Y1650.calculate_score.
  simpl put_rule. simpl put_dice. cbv zeta.
  destruct Hr as [-> | ->]; rewrite Hhas; simpl;
    rewrite ?(Hlook 1%nat), ?(Hlook 2%nat), ?(Hlook 3%nat), ?(Hlook 4%nat),
            ?(Hlook 5%nat), ?(Hlook 6%nat) by lia;
    simpl; rewrite !count_pos_py_in;
    by destruct (_ || _).
Qed.

(** X4.  The potential score of [1650.py] is the category score: for
    every category but the two straights on any list of dice, and for
    the straights when every die is between 0 and 6.  On a straight, a
    die above 6 or below -7 raises [IndexError]. *)
Theorem X4_potential_score_1650 (rule : DiceRule) (hand : list Z) :
  (rule ≠ SMALL_STRAIGHT → rule ≠ LARGE_STRAIGHT →
     Y1650.calculate_rule_potential_score hand rule
     = Ok (Y1650.calculate_score (mkDicePut rule hand)))
  ∧ (Forall (λ d, 0 ≤ d ≤ 6) hand →
       Y1650.calculate_rule_potential_score hand rule
       = Ok (Y1650.calculate_score (mkDicePut rule hand)))
  ∧ (rule = SMALL_STRAIGHT ∨ rule = LARGE_STRAIGHT →
       Exists (λ d, d < -7 ∨ 6 < d) hand →
       Y1650.calculate_rule_potential_score hand rule = Raise IndexError).
Proof.
  split; [apply potential_plain|]. split; [apply potential_small_dice|].
  intros Hr Hex. unfold Y1650.calculate_rule_potential_score.
  destruct Hr as [-> | ->]; unfold has_array; by rewrite has_array_raises.
Qed.

Lemma X4_potential_score_1650_witness :
  Y1650.calculate_rule_potential_score [0; 0; 0; 0; 0] LARGE_STRAIGHT = Ok 0
  ∧ Y1650.calculate_rule_potential_score [1; 2; 3; 4; 7] SMALL_STRAIGHT
    = Raise IndexError.
Proof.
  destruct (X4_potential_score_1650 LARGE_STRAIGHT [0; 0; 0; 0; 0]) as (_ & H & _).
  destruct (X4_potential_score_1650 SMALL_STRAIGHT [1; 2; 3; 4; 7]) as (_ & _ & H').
  split.
  - apply H. repeat constructor; lia.
  - apply H'; [by left|]. do 4 apply Exists_cons_tl. apply Exists_cons_hd. lia.
Defined.

(** ** Counting duplicates in a group *)

Lemma count_array_from (acc : list Z) (hand : list Z) :
  length acc = 7%nat → Forall (λ d, 0 ≤ d ≤ 6) hand →
  ∃ counts,
    for_each (λ counts d, i ← py_index 7 d; Ok (alter (λ c, c + 1) i counts)) acc hand
    = Ok counts
    ∧ length counts = 7%nat
    ∧ ∀ i, (i < 7)%nat →
        counts !! i = Some (default 0 (acc !! i) + count (Z.of_nat i) hand).
Proof.
  intros Hlen Hall. revert acc Hlen.
  induction Hall as [|d hand Hd Hall IH]; intros acc Hlen.
  - exists acc. split; [done|]. split; [done|]. intros i Hi.
    destruct (lookup_lt_is_Some_2 acc i) as [c Hc]; [lia|].
    rewrite Hc. simpl. f_equal. lia.
  - destruct (IH (alter (λ c, c + 1) (Z.to_nat d) acc)) as (counts & Hc & Hl & Hlook).
    { by rewrite length_alter. }
    exists counts. split.
    { simpl. rewrite (py_index_dice d Hd). simpl. exact Hc. }
    split; [done|]. intros i Hi. rewrite (Hlook i Hi). f_equal.
    destruct (lookup_lt_is_Some_2 acc i) as [c Hacc]; [lia|].
    simpl count.
    destruct (decide (i = Z.to_nat d)) as [->|Hne].
    + rewrite list_lookup_alter_eq, Hacc. simpl. rewrite Z2Nat.id by lia.
      rewrite Z.eqb_refl. lia.
    + rewrite list_lookup_alter_ne by done. rewrite Hacc. simpl.
      destruct (Z.eqb_spec d (Z.of_nat i)) as [Heq|_]; [|lia].
      exfalso. apply Hne. subst d. by rewrite Nat2Z.id.
Qed.

Lemma count_array_counts hand :
  Forall (λ d, 0 ≤ d ≤ 6) hand →
  ∃ counts, count_array hand = Ok counts
            ∧ ∀ n, 0 ≤ n ≤ 6 → at_pos counts (Z.to_nat n) = Ok (count n hand).
Proof.
  intros Hall.
  destruct (count_array_from (replicate 7 0) hand) as (counts & Hc & _ & Hlook);
    [done | done |].
  exists counts. split; [exact Hc|]. intros n Hn. unfold at_pos.
  rewrite Hlook by lia. rewrite lookup_replicate_2 by lia. simpl.
  rewrite Z2Nat.id by lia. f_equal.
Qed.

Section max_duplicate.
Variables (board : list (option Z)) (counts : list Z) (group : list Z).
Hypothesis Hboard : (6 ≤ length board)%nat.
Hypothesis Hcounts :
  ∀ n, 0 ≤ n ≤ 6 → at_pos counts (Z.to_nat n) = Ok (count n group).

Let is_open (n : Z) : Prop := board !! Z.to_nat (n - 1) = Some None.

Lemma board_at n : 1 ≤ n ≤ 6 → ∃ s, at_pos board (Z.to_nat (n - 1)) = Ok s
                                    ∧ (s = None ↔ is_open n).
Proof.
  intros Hn. unfold at_pos, is_open.
  destruct (lookup_lt_is_Some_2 board (Z.to_nat (n - 1))) as [s Hs]; [lia|].
  rewrite Hs. exists s. split; [done|]. split; [by intros -> | by intros [= ->]].
Qed.

Lemma max_count_loop nums acc :
  (∀ n, n ∈ nums → 1 ≤ n ≤ 6) →
  ∃ m,
    for_each (λ max_count num,
                s ← at_pos board (Z.to_nat (num - 1));
                c ← at_pos counts (Z.to_nat num);
                Ok (match s with
                    | None => max_count `max` c
                    | Some _ => max_count
                    end)) acc nums = Ok m
    ∧ acc ≤ m
    ∧ (∀ n, n ∈ nums → is_open n → count n group ≤ m)
    ∧ (m = acc ∨ ∃ n, n ∈ nums ∧ is_open n ∧ count n group = m).
Proof.
  revert acc. induction nums as [|x nums IH]; intros acc Hnums.
  - exists acc. split; [done|]. split; [lia|]. split; [|by left].
    intros n Hn. by apply elem_of_nil in Hn.
  - assert (Hx : 1 ≤ x ≤ 6) by (apply Hnums; left).
    destruct (board_at x Hx) as (s & Hs & Hopen).
    cbn [for_each]. rewrite Hs, Hcounts by lia. cbn [mbind Res_bind].
    set (acc' := match s with None => acc `max` count x group | Some _ => acc end).
    destruct (IH acc') as (m & Hm & Hle & Hub & Hat).
    { intros n Hn. apply Hnums. by right. }
    exists m. split; [exact Hm|].
    assert (acc ≤ acc') by (subst acc'; destruct s; lia).
    split; [lia|]. split.
    + intros n [->|Hn]%elem_of_cons Ho; [|by apply Hub].
      apply Hopen in Ho. subst s acc'. lia.
    + destruct Hat as [->|(n & Hn & Ho & Hc)].
      * subst acc'. destruct s as [v|].
        -- by left.
        -- destruct (Z.max_spec acc (count x group)) as [[_ ->]|[_ ->]].
           ++ right. exists x. split; [left|]. split; [by apply Hopen | done].
           ++ by left.
      * right. exists n. split; [by right | done].
Qed.

Lemma first_present_loop nums :
  (∀ n, n ∈ nums → 1 ≤ n ≤ 6) →
  ∃ r,
    first_return (λ num : Z,
                    s ← at_pos board (Z.to_nat (num - 1));
                    c ← at_pos counts (Z.to_nat num);
                    Ok (match s with
                        | None => if 0 <? c then Some c else None
                        | Some _ => None
                        end)) nums = Ok r
    ∧ ((r = None ∧ ∀ n, n ∈ nums → is_open n → count n group ≤ 0)
       ∨ ∃ before n after,
           nums = before ++ n :: after ∧ is_open n ∧ 0 < count n group
           ∧ r = Some (count n group)
           ∧ ∀ n', n' ∈ before → is_open n' → count n' group ≤ 0).
Proof.
  induction nums as [|x nums IH]; intros Hnums.
  - exists None. split; [done|]. left. split; [done|].
    intros n Hn. by apply elem_of_nil in Hn.
  - assert (Hx : 1 ≤ x ≤ 6) by (apply Hnums; left).
    destruct (board_at x Hx) as (s & Hs & Hopen).
    cbn [first_return]. rewrite Hs, Hcounts by lia. cbn [mbind Res_bind].
    destruct IH as (r & Hr & Hcases).
    { intros n Hn. apply Hnums. by right. }
    destruct s as [v|].
    + exists r. split; [exact Hr|].
      assert (Hx_closed : ¬ is_open x) by (intros Ho; by apply Hopen in Ho).
      destruct Hcases as [[-> Hnone]|(before & n & after & -> & Ho & Hpos & -> & Hb)].
      * left. split; [done|]. intros n [->|Hn]%elem_of_cons Ho; [done | by apply Hnone].
      * right. exists (x :: before), n, after. repeat split; try done.
        intros n' [->|Hn']%elem_of_cons Ho'; [done | by apply Hb].
    + destruct (Z.ltb_spec 0 (count x group)) as [Hpos|Hzero].
      * exists (Some (count x group)). split; [done|]. right.
        exists [], x, nums. repeat split; try done; [by apply Hopen|].
        intros n' Hn'. by apply elem_of_nil in Hn'.
      * exists r. split; [exact Hr|].
        destruct Hcases as [[-> Hnone]|(before & n & after & -> & Ho & Hpos & -> & Hb)].
        -- left. split; [done|].
           intros n [->|Hn]%elem_of_cons Ho; [done | by apply Hnone].
        -- right. exists (x :: before), n, after. repeat split; try done.
           intros n' [->|Hn']%elem_of_cons Ho'; [done | by apply Hb].
Qed.
End max_duplicate.

Lemma is_unused_filled st r :
  (value r < length (rule_score st))%nat →
  ∃ b, is_unused st r = Ok b ∧ (b = false ↔ filled st r)
       ∧ (b = true ↔ rule_score st !! value r = Some None).
Proof.
  intros Hlen. unfold is_unused, at_pos, filled.
  destruct (lookup_lt_is_Some_2 (rule_score st) (value r) Hlen) as [s Hs].
  rewrite Hs. simpl. destruct s as [v|]; eexists; (split; [reflexivity|]).
  - split; split; try done. intros _. by exists v.
  - split; split; try done. intros (v & [=]).
Qed.

(** X5.  With twelve categories on the board and dice from 0 to 6,
    [get_max_duplicate_count] of [1650.py] does not raise.  Its result
    lies between 0 and the size of the group and, unless it is 0, is the
    number of copies of some number whose category is open.  While
    SMALL_STRAIGHT, LARGE_STRAIGHT and YACHT are not all filled it is
    the largest such count; once they are, it is the count of the
    largest open number that occurs in the group. *)
Theorem X5_max_duplicate_count (g : Y1650.Game) (group : list Z) :
  length (rule_score (Y1650.my_state g)) = 12%nat →
  Forall (λ d, 0 ≤ d ≤ 6) group →
  ∃ m,
    Y1650.get_max_duplicate_count g group = Ok m
    ∧ 0 ≤ m ≤ Z.of_nat (length group)
    ∧ (m = 0 ∨ ∃ n, 1 ≤ n ≤ 6 ∧ open_number g n ∧ count n group = m)
    ∧ (¬ high_rules_filled g →
         ∀ n, 1 ≤ n ≤ 6 → open_number g n → count n group ≤ m)
    ∧ (high_rules_filled g →
         ∀ n, 1 ≤ n ≤ 6 → open_number g n → 0 < count n group →
           (∀ n', n < n' ≤ 6 → open_number g n' → count n' group = 0) →
           m = count n group).
Proof.
  intros Hlen Hall.
  destruct (count_array_counts group Hall) as (counts & Hca & Hcounts).
  destruct (is_unused_filled (Y1650.my_state g) SMALL_STRAIGHT) as (bs & Hs & Hsf & _);
    [rewrite Hlen; simpl; lia|].
  destruct (is_unused_filled (Y1650.my_state g) LARGE_STRAIGHT) as (bl & Hl & Hlf & _);
    [rewrite Hlen; simpl; lia|].
  destruct (is_unused_filled (Y1650.my_state g) YACHT) as (byt & Hy & Hyf & _);
    [rewrite Hlen; simpl; lia|].
  assert (Hb : (6 ≤ length (rule_score (Y1650.my_state g)))%nat) by lia.
  unfold Y1650.get_max_duplicate_count.
  rewrite Hca, Hs, Hl, Hy. cbn [mbind Res_bind fmap Res_fmap]. cbv zeta.
  assert (Hhigh : negb bs && negb bl && negb byt = true ↔ high_rules_filled g).
  { unfold high_rules_filled. rewrite <- Hsf, <- Hlf, <- Hyf.
    destruct bs, bl, byt; simpl; intuition congruence. }
  assert (Hcnt : ∀ n, count n group ≤ Z.of_nat (length group))
    by (intros; apply count_le_length).
  destruct (negb bs && negb bl && negb byt) eqn:Hb3.
  - destruct (first_present_loop _ counts group Hb Hcounts [6; 5; 4; 3; 2; 1])
      as (r & -> & Hcases).
    { intros n Hn. repeat (apply elem_of_cons in Hn as [->|Hn]); try lia.
      by apply elem_of_nil in Hn. }
    cbn [mbind Res_bind].
    destruct Hcases as [[-> Hnone]|(before & n & after & Hnums & Ho & Hpos & -> & Hbefore)].
    + exists 0. split; [done|]. split; [lia|]. split; [by left|].
      split; [intros Hn; exfalso; apply Hn; by apply Hhigh|].
      intros _ n Hn Ho Hpos _. specialize (Hnone n).
      assert (n ∈ [6; 5; 4; 3; 2; 1]) by (rewrite !elem_of_cons; lia).
      specialize (Hnone H Ho). lia.
    + assert (Hn : 1 ≤ n ≤ 6).
      { assert (n ∈ [6; 5; 4; 3; 2; 1]) as Hin
          by (rewrite Hnums; apply elem_of_app; right; left).
        rewrite !elem_of_cons, elem_of_nil in Hin. lia. }
      exists (count n group). split; [done|]. simpl. split; [split; [lia | apply Hcnt]|].
      split; [right; by exists n|].
      split; [intros Hnh; exfalso; apply Hnh; by apply Hhigh|].
      intros _ n1 Hn1 Ho1 Hpos1 Hlarger.
      destruct (Z.lt_trichotomy n n1) as [Hlt|[->|Hgt]]; [|done|].
      * (* a larger open number with a positive count precedes [n] *)
        exfalso.
        assert (Hin1 : n1 ∈ before).
        { assert (Hsorted : StronglySorted Z.gt (before ++ n :: after)).
          { rewrite <- Hnums. repeat constructor; lia. }
          assert (n1 ∈ before ++ n :: after) as Hin
            by (rewrite <- Hnums, !elem_of_cons; lia).
          apply elem_of_app in Hin as [Hin|Hin]; [done|].
          apply StronglySorted_app in Hsorted as (_ & _ & Hsorted).
          apply StronglySorted_inv in Hsorted as [_ Hgt].
          apply elem_of_cons in Hin as [->|Hin]; [lia|].
          rewrite Forall_forall in Hgt. specialize (Hgt n1 Hin). lia. }
        specialize (Hbefore n1 Hin1 Ho1). lia.
      * specialize (Hlarger n (conj Hgt (proj2 Hn)) Ho). lia.
  - destruct (max_count_loop _ counts group Hb Hcounts (range 1 7) 0)
      as (m & -> & H0 & Hub & Hat).
    { intros n Hn. by apply elem_of_range_1_7 in Hn. }
    exists m. split; [done|].
    assert (Hm : m = 0 ∨ ∃ n, 1 ≤ n ≤ 6 ∧ open_number g n ∧ count n group = m).
    { destruct Hat as [->|(n & Hn & Ho & Hc)]; [by left|].
      right. exists n. split; [by apply elem_of_range_1_7 in Hn | done]. }
    split.
    { split; [done|]. destruct Hm as [->|(n & _ & _ & <-)]; [lia | apply Hcnt]. }
    split; [exact Hm|]. split.
    + intros _ n Hn Ho. apply Hub; [by apply elem_of_range_1_7 | done].
    + intros Hh. apply Hhigh in Hh. discriminate.
Qed.

Lemma X5_max_duplicate_count_witness :
  ∃ m, Y1650.get_max_duplicate_count (partial_straight_game 0 0 0) [4; 4; 5; 1; 1] = Ok m
       ∧ 0 ≤ m ≤ 5.
Proof.
  assert (Hall : Forall (λ d, 0 ≤ d ≤ 6) [4; 4; 5; 1; 1]) by (repeat constructor; lia).
  destruct (X5_max_duplicate_count (partial_straight_game 0 0 0) [4; 4; 5; 1; 1]
              eq_refl Hall) as (m & Hm & Hrange & _).
  exists m. split; [exact Hm | exact Hrange].
Defined.

(** ** Blocking the opponent's YACHT *)

Lemma four_duplicate_loop counts dice nums :
  (∀ n, n ∈ nums → 0 ≤ n ≤ 6) →
  (∀ n, 0 ≤ n ≤ 6 → at_pos counts (Z.to_nat n) = Ok (count n dice)) →
  first_return (λ i : Z, c ← at_pos counts (Z.to_nat i);
                         Ok (if 4 <=? c then Some i else None)) nums
  = Ok (head (filter (λ i, 4 ≤ count i dice) nums)).
Proof.
  intros Hnums Hcounts. induction nums as [|x nums IH]; [done|].
  cbn [first_return]. rewrite Hcounts by (apply Hnums; left). cbn [mbind Res_bind].
  rewrite filter_cons. destruct (Z.leb_spec 4 (count x dice)).
  - by rewrite decide_True.
  - rewrite decide_False by lia. apply IH. intros n Hn. apply Hnums. by right.
Qed.

(** X6.  [should_block_yacht] of [1650.py] answers nothing once the
    opponent has completed YACHT or while the opponent holds fewer than
    four dice.  Otherwise it looks at the smallest number that the
    opponent holds at least four times: it names a group, always with
    the amount 5001, exactly when one of the two groups shows that
    number and the other does not, and it names the group that shows
    it. *)
Theorem X6_should_block_yacht (g : Y1650.Game) (dice_a dice_b : list Z) :
  let opp_dice := dice (Y1650.opp_state g) in
  let held := filter (λ i, 4 ≤ count i opp_dice) (range 1 7) in
  Forall (λ d, 0 ≤ d ≤ 6) opp_dice →
  (Y1650.opponent_yacht_completed g = true ∨ (length opp_dice < 4)%nat →
     Y1650.should_block_yacht g dice_a dice_b = Ok None)
  ∧ (Y1650.opponent_yacht_completed g = false → (4 ≤ length opp_dice)%nat →
     match head held with
     | None => Y1650.should_block_yacht g dice_a dice_b = Ok None
     | Some n =>
         (0 < count n dice_a → count n dice_b = 0 →
            Y1650.should_block_yacht g dice_a dice_b = Ok (Some ("A", 5001)))
         ∧ (count n dice_a = 0 → 0 < count n dice_b →
              Y1650.should_block_yacht g dice_a dice_b = Ok (Some ("B", 5001)))
         ∧ ((0 < count n dice_a ∧ 0 < count n dice_b)
            ∨ (count n dice_a = 0 ∧ count n dice_b = 0) →
              Y1650.should_block_yacht g dice_a dice_b = Ok None)
     end)
  ∧ (∀ grp amt,
       Y1650.should_block_yacht g dice_a dice_b = Ok (Some (grp, amt)) →
       amt = 5001 ∧ (grp = "A" ∨ grp = "B")
       ∧ ∃ n, 4 ≤ count n opp_dice
              ∧ count n (if String.eqb grp "A" then dice_a else dice_b) > 0
              ∧ count n (if String.eqb grp "A" then dice_b else dice_a) = 0).
Proof.
  intros opp_dice held Hall. subst held.
  destruct (count_array_counts opp_dice Hall) as (counts & Hca & Hcounts).
  assert (Hloop := four_duplicate_loop counts opp_dice (range 1 7)).
  specialize (Hloop (λ n Hn, match proj1 (elem_of_range_1_7 n) Hn with
                             | conj H1 H6 => conj (Z.le_trans 0 1 n ltac:(lia) H1) H6
                             end) Hcounts).
  assert (Hrun : Y1650.opponent_yacht_completed g = false → (4 ≤ length opp_dice)%nat →
            Y1650.should_block_yacht g dice_a dice_b
            = match head (filter (λ i, 4 ≤ count i opp_dice) (range 1 7)) with
              | Some n =>
                  if ((0 <? count n dice_a) && (count n dice_b =? 0))
                     || ((count n dice_a =? 0) && (0 <? count n dice_b))
                  then Ok (Some (if 0 <? count n dice_a then "A" else "B", 5001))
                  else Ok None
              | None => Ok None
              end).
  { intros Hflag Hlen. unfold Y1650.should_block_yacht. rewrite Hflag.
    fold opp_dice. destruct (Nat.ltb_spec (length opp_dice) 4); [lia|].
    rewrite Hca. cbn [mbind Res_bind]. rewrite Hloop. cbn [mbind Res_bind]. done. }
  split; [|split].
  - intros [Hflag|Hlen]; unfold Y1650.should_block_yacht.
    + by rewrite Hflag.
    + fold opp_dice. destruct (Y1650.opponent_yacht_completed g); [done|].
      destruct (Nat.ltb_spec (length opp_dice) 4); [done | lia].
  - intros Hflag Hlen. rewrite (Hrun Hflag Hlen).
    destruct (head _) as [n|]; [|done].
    pose proof (count_nonneg n dice_a). pose proof (count_nonneg n dice_b).
    split; [|split].
    + intros Ha Hb. rewrite Hb.
      destruct (Z.ltb_spec 0 (count n dice_a)); [done | lia].
    + intros Ha Hb. rewrite Ha.
      destruct (Z.ltb_spec 0 (count n dice_b)); [done | lia].
    + intros [[Ha Hb]|[Ha Hb]].
      * destruct (Z.ltb_spec 0 (count n dice_a)); [|lia].
        destruct (Z.ltb_spec 0 (count n dice_b)); [|lia].
        destruct (Z.eqb_spec (count n dice_a) 0); [lia|].
        destruct (Z.eqb_spec (count n dice_b) 0); [lia|]. done.
      * by rewrite Ha, Hb.
  - intros grp amt Hres.
    destruct (Y1650.opponent_yacht_completed g) eqn:Hflag.
    { unfold Y1650.should_block_yacht in Hres. rewrite Hflag in Hres. discriminate. }
    destruct (Nat.ltb_spec (length opp_dice) 4) as [Hlt|Hge].
    { unfold Y1650.should_block_yacht in Hres. rewrite Hflag in Hres.
      fold opp_dice in Hres.
      destruct (Nat.ltb_spec (length opp_dice) 4); [discriminate | lia]. }
    rewrite (Hrun eq_refl Hge) in Hres.
    destruct (head _) as [n|] eqn:Hhead; [|discriminate].
    assert (Hn : 4 ≤ count n opp_dice).
    { apply head_Some_elem_of, list_elem_of_filter in Hhead. tauto. }
    destruct (Z.ltb_spec 0 (count n dice_a)) as [Ha|Ha];
      destruct (Z.eqb_spec (count n dice_b) 0) as [Hb|Hb];
      destruct (Z.eqb_spec (count n dice_a) 0) as [Ha0|Ha0];
      destruct (Z.ltb_spec 0 (count n dice_b)) as [Hb0|Hb0];
      simpl in Hres; try discriminate; injection Hres as <- <-;
      (split; [done|]); (split; [auto|]); exists n; simpl; (split; [done|]);
      split; lia.
Qed.

Lemma X6_should_block_yacht_witness :
  Y1650.should_block_yacht
    (Y1650.update_get Y1650.Game_init [3; 3; 3; 3; 1] [2; 2; 5; 6; 6]
       (mkBid "B" 0) (mkBid "A" 10) "B")
    [3; 1; 1; 2; 2] [4; 4; 5; 6; 6]
  = Ok (Some ("A", 5001)).
Proof.
  pose (g := Y1650.update_get Y1650.Game_init [3; 3; 3; 3; 1] [2; 2; 5; 6; 6]
               (mkBid "B" 0) (mkBid "A" 10) "B").
  assert (Hall : Forall (λ d, 0 ≤ d ≤ 6) (dice (Y1650.opp_state g)))
    by (repeat constructor; lia).
  destruct (X6_should_block_yacht g [3; 1; 1; 2; 2] [4; 4; 5; 6; 6] Hall) as (_ & H & _).
  specialize (H eq_refl). simpl in H.
  destruct (H ltac:(lia)) as (HA & _). apply HA; reflexivity.
Defined.

(** ** The bid of [1650.py] *)

Lemma should_block_shape g dice_a dice_b grp amt :
  Y1650.should_block_yacht g dice_a dice_b = Ok (Some (grp, amt)) →
  amt = 5001 ∧ (grp = "A" ∨ grp = "B").
Proof.
  unfold Y1650.should_block_yacht.
  destruct (Y1650.opponent_yacht_completed g); [discriminate|].
  destruct (length _ <? 4)%nat; [discriminate|].
  intros (counts & _ & H)%Res_bind_Ok.
  apply Res_bind_Ok in H as ([n|] & _ & H); [|discriminate].
  destruct (_ || _); [|discriminate].
  injection H as <- <-. split; [done|]. destruct (0 <? _); auto.
Qed.

Lemma clamp_bid_range x : 0 ≤ Y1650.clamp_bid x ≤ 9999.
Proof. unfold Y1650.clamp_bid. lia. Qed.

Lemma strategic_amount_range draw g dice_a dice_b grp v :
  Y1650.calculate_strategic_bid_amount draw g dice_a dice_b grp = Ok v →
  0 ≤ v ≤ 9999.
Proof.
  unfold Y1650.calculate_strategic_bid_amount.
  intros (max_count & _ & H)%Res_bind_Ok. revert H.
  assert (Hchoice : ∀ x, random_choice draw [0; Y1650.clamp_bid x] = Ok v → 0 ≤ v ≤ 9999).
  { intros x Hc. pose proof (clamp_bid_range x).
    apply random_choice_two in Hc as [-> | ->]; lia. }
  destruct (Y1650.current_round g <=? 2).
  { repeat (destruct (max_count =? _); [intros [= <-]; lia|]).
    destruct (20 <=? _); intros [= <-]; lia. }
  destruct (Y1650.current_round g =? 3).
  { destruct (3 <=? max_count); intros [= <-]; lia. }
  destruct ((4 <=? Y1650.current_round g) && (Y1650.current_round g <=? 8)).
  { destruct (bool_decide _); [intros [= <-]; lia|].
    destruct (Y1650.my_yacht_completed g).
    - intros (lowest & _ & H)%Res_bind_Ok. by eapply Hchoice.
    - intros (lowest & _ & H)%Res_bind_Ok.
      apply Res_bind_Ok in H as (highest' & _ & H).
      apply Res_bind_Ok in H as (combined & _ & H). revert H.
      pose proof (clamp_bid_range (lowest + 1)).
      pose proof (clamp_bid_range (highest' - 1)).
      destruct (combined =? 3); [intros [= <-]; lia|].
      destruct (combined =? 4); intros [= <-]; lia. }
  destruct (9 <=? Y1650.current_round g); [|intros [= <-]; lia].
  destruct (bool_decide _); [intros [= <-]; lia|].
  intros (lowest & _ & H)%Res_bind_Ok. by eapply Hchoice.
Qed.

(** X7.  Whatever the state, the dice and the draw, a bid that
    [calculate_bid] of [1650.py] returns names the group A or B and an
    amount from 0 to 9999; a YACHT block always bids 5001. *)
Theorem X7_bid_range_1650 (draw : nat) (g : Y1650.Game) (dice_a dice_b : list Z)
    (b : Bid) :
  Y1650.calculate_bid draw g dice_a dice_b = Ok b →
  (group b = "A" ∨ group b = "B")
  ∧ 0 ≤ amount b ≤ 9999
  ∧ (∀ blocked, Y1650.should_block_yacht g dice_a dice_b = Ok (Some blocked) →
       amount b = 5001 ∧ group b = blocked.1).
Proof.
  unfold Y1650.calculate_bid. intros (block & Hblock & H)%Res_bind_Ok.
  destruct block as [[grp amt]|].
  - injection H as <-. simpl.
    destruct (should_block_shape _ _ _ _ _ Hblock) as [-> Hgrp].
    split; [done|]. split; [lia|].
    intros blocked Hb. rewrite Hblock in Hb. by injection Hb as <-.
  - apply Res_bind_Ok in H as (ca & _ & H).
    apply Res_bind_Ok in H as (cb & _ & H).
    apply Res_bind_Ok in H as (v & Hv & [= <-]). simpl.
    split; [destruct (cb <=? ca); auto|].
    split; [by eapply strategic_amount_range|].
    intros blocked Hb. rewrite Hblock in Hb. discriminate.
Qed.

Lemma X7_bid_range_1650_witness :
  ∃ b, Y1650.calculate_bid 1 round9_game [1; 2; 3; 4; 5] [2; 3; 4; 5; 6] = Ok b
       ∧ 0 ≤ amount b ≤ 9999.
Proof.
  exists (mkBid "A" 101).
  assert (H : Y1650.calculate_bid 1 round9_game [1; 2; 3; 4; 5] [2; 3; 4; 5; 6]
              = Ok (mkBid "A" 101)) by (vm_compute; reflexivity).
  split; [exact H|].
  exact (proj1 (proj2 (X7_bid_range_1650 1 round9_game _ _ _ H))).
Defined.

(** ** Awards and the history of opponent bids *)

Lemma foldl_min_spec (l : list Z) (x : Z) :
  (∀ y, y ∈ x :: l → foldl Z.min x l ≤ y) ∧ foldl Z.min x l ∈ x :: l.
Proof.
  revert x. induction l as [|z l IH]; intros x; simpl.
  - split; [|left]. intros y ->%list_elem_of_singleton. lia.
  - destruct (IH (x `min` z)) as [Hle Hin]. split.
    + intros y Hy. assert (foldl Z.min (x `min` z) l ≤ x `min` z) by (apply Hle; left).
      apply elem_of_cons in Hy as [->|Hy]; [lia|].
      apply elem_of_cons in Hy as [->|Hy]; [lia|]. apply Hle. by right.
    + apply elem_of_cons in Hin as [Hin|Hin]; [|right; by right].
      rewrite Hin. destruct (Z.min_spec x z) as [[_ ->]|[_ ->]]; [left | right; left].
Qed.

Lemma py_min_spec l m :
  py_min l = Ok m → m ∈ l ∧ ∀ y, y ∈ l → m ≤ y.
Proof.
  destruct l as [|x l]; [discriminate|]. intros [= <-].
  destruct (foldl_min_spec l x). done.
Qed.

Lemma elem_of_dict_values (d : gmap Z Z) v :
  v ∈ dict_values d ↔ ∃ k, d !! k = Some v.
Proof.
  unfold dict_values. rewrite list_elem_of_fmap. split.
  - intros ([k w] & -> & Hin). exists k. by apply elem_of_map_to_list in Hin.
  - intros (k & Hk). exists (k, v). split; [done|]. by apply elem_of_map_to_list.
Qed.

(** X8.  [update_get] of [1650.py] (and [main.py]) appends the awarded
    group to the agent's pool and the other group to the opponent's,
    and records the opponent's amount under the current round, leaving
    the records of the other rounds.  From then on the history is not
    empty: [min] over it does not raise, and its value is a recorded
    bid that is at most the amount just recorded. *)
Theorem X8_update_get (g : Y1650.Game) (dice_a dice_b : list Z)
    (my_bid opp_bid : Bid) (my_group : string) :
  let g' := Y1650.update_get g dice_a dice_b my_bid opp_bid my_group in
  dice (Y1650.my_state g')
    = dice (Y1650.my_state g) ++ (if bool_decide (my_group = "A") then dice_a else dice_b)
  ∧ dice (Y1650.opp_state g')
    = dice (Y1650.opp_state g) ++ (if bool_decide (my_group = "A") then dice_b else dice_a)
  ∧ Y1650.opponent_bids g' !! Y1650.current_round g = Some (amount opp_bid)
  ∧ (∀ r, r ≠ Y1650.current_round g →
       Y1650.opponent_bids g' !! r = Y1650.opponent_bids g !! r)
  ∧ Y1650.opponent_bids g' ≠ ∅
  ∧ ∃ lowest, py_min (dict_values (Y1650.opponent_bids g')) = Ok lowest
              ∧ lowest ≤ amount opp_bid
              ∧ (∃ r, Y1650.opponent_bids g' !! r = Some lowest).
Proof.
  intros g'. subst g'.
  assert (Hbids : Y1650.opponent_bids
                    (Y1650.update_get g dice_a dice_b my_bid opp_bid my_group)
                  = <[Y1650.current_round g := amount opp_bid]> (Y1650.opponent_bids g)).
  { unfold Y1650.update_get. by destruct (String.eqb my_group "A"). }
  rewrite Hbids.
  split; [|split; [|split; [|split; [|split]]]].
  - unfold Y1650.update_get. rewrite (eqb_decide my_group "A").
    destruct (bool_decide (my_group = "A")); simpl;
      by destruct (String.eqb (group my_bid) my_group).
  - unfold Y1650.update_get. rewrite (eqb_decide my_group "A").
    destruct (bool_decide (my_group = "A")); simpl;
      by destruct (String.eqb (group opp_bid) _).
  - apply lookup_insert_eq.
  - intros r Hr. by apply lookup_insert_ne.
  - apply insert_non_empty.
  - destruct (dict_values (<[Y1650.current_round g := amount opp_bid]>
                             (Y1650.opponent_bids g))) as [|x l] eqn:Hvals.
    + exfalso.
      assert (Hin : amount opp_bid ∈ dict_values
                (<[Y1650.current_round g := amount opp_bid]> (Y1650.opponent_bids g))).
      { apply elem_of_dict_values. eexists. apply lookup_insert_eq. }
      rewrite Hvals in Hin. by apply elem_of_nil in Hin.
    + destruct (py_min_spec (x :: l) (foldl Z.min x l) eq_refl) as [Hin Hle].
      exists (foldl Z.min x l). split; [done|]. rewrite <- Hvals in Hin, Hle. split.
      * apply Hle, elem_of_dict_values. eexists. apply lookup_insert_eq.
      * by apply elem_of_dict_values.
Qed.

(** ** The YACHT flags *)

Lemma positive_score_kept st put st' :
  Y1650.use_dice st put = Ok st' →
  put_rule put ≠ YACHT →
  rule_score st' !! value YACHT = rule_score st !! value YACHT.
Proof.
  intros Huse Hr. apply use_dice_1650_Ok in Huse as (_ & -> & _).
  apply list_lookup_insert_ne. intros Heq. apply Hr.
  destruct (put_rule put); simpl in Heq; (done || discriminate Heq).
Qed.

Lemma yacht_score_after st put st' :
  Y1650.use_dice st put = Ok st' →
  (∃ v, rule_score st' !! value YACHT = Some (Some v) ∧ 0 < v)
  ↔ (∃ v, rule_score st !! value YACHT = Some (Some v) ∧ 0 < v)
    ∨ (put_rule put = YACHT ∧ 0 < Y1650.calculate_score put).
Proof.
  intros Huse. destruct (decide (put_rule put = YACHT)) as [Hr|Hr].
  - apply use_dice_1650_Ok in Huse as (Hopen & -> & _). rewrite Hr in *.
    rewrite list_lookup_insert_eq by (by eapply lookup_lt_Some). split.
    + intros (v & [= <-] & Hv). by right.
    + intros [(v & Hv & _)|[_ Hv]]; [congruence | eauto].
  - rewrite (positive_score_kept _ _ _ Huse Hr). split; [by left|].
    intros [H|[H _]]; done.
Qed.

(** X9.  The YACHT flags of [1650.py] (and [main.py]) are exact: they
    are unset in a fresh game, and [update_get], [update_put] and
    [update_set] keep [my_yacht_completed] (respectively
    [opponent_yacht_completed]) set exactly when the YACHT category of
    that side holds a positive score.  A placement sets the flag
    exactly when it puts a positive score into YACHT. *)
Theorem X9_yacht_flags (g : Y1650.Game) :
  yacht_flags_exact Y1650.Game_init
  ∧ (yacht_flags_exact g →
     (∀ dice_a dice_b my_bid opp_bid my_group,
        yacht_flags_exact (Y1650.update_get g dice_a dice_b my_bid opp_bid my_group))
     ∧ (∀ put g', Y1650.update_put g put = Ok g' →
          yacht_flags_exact g'
          ∧ (Y1650.my_yacht_completed g' = true
             ↔ Y1650.my_yacht_completed g = true
               ∨ (put_rule put = YACHT ∧ 0 < Y1650.calculate_score put)))
     ∧ (∀ put g', Y1650.update_set g put = Ok g' →
          yacht_flags_exact g'
          ∧ (Y1650.opponent_yacht_completed g' = true
             ↔ Y1650.opponent_yacht_completed g = true
               ∨ (put_rule put = YACHT ∧ 0 < Y1650.calculate_score put)))).
Proof.
  split.
  { split; (split; [discriminate|]); intros (v & Hv & _);
      change (replicate 12 (@None Z) !! value YACHT = Some (Some v)) in Hv;
      apply lookup_replicate in Hv as [? _]; discriminate. }
  intros [Hmy Hopp]. split; [|split].
  - intros dice_a dice_b my_bid opp_bid my_group.
    destruct (update_get_1650_boards g dice_a dice_b my_bid opp_bid my_group) as [Hb1 Hb2].
    unfold yacht_flags_exact. rewrite Hb1, Hb2.
    assert (Y1650.my_yacht_completed
              (Y1650.update_get g dice_a dice_b my_bid opp_bid my_group)
            = Y1650.my_yacht_completed g) as ->
      by (unfold Y1650.update_get; by destruct (String.eqb my_group "A")).
    assert (Y1650.opponent_yacht_completed
              (Y1650.update_get g dice_a dice_b my_bid opp_bid my_group)
            = Y1650.opponent_yacht_completed g) as ->
      by (unfold Y1650.update_get; by destruct (String.eqb my_group "A")).
    done.
  - intros put g' Hput. unfold Y1650.update_put in Hput.
    apply Res_bind_Ok in Hput as (st & Huse & Hchk).
    unfold Y1650.check_my_yacht_completion in Hchk.
    apply Res_bind_Ok in Hchk as (s & Hs & [= <-]).
    cbn [Y1650.my_state Y1650.opp_state] in Hs.
    pose proof (yacht_score_after _ _ _ Huse) as Hafter.
    unfold at_pos in Hs. destruct (rule_score st !! value YACHT) as [s'|] eqn:Hl;
      [|discriminate]. injection Hs as ->.
    assert (Hflag : match s with
                    | Some v => if 0 <? v then true else Y1650.my_yacht_completed g
                    | None => Y1650.my_yacht_completed g
                    end = true
                    ↔ ∃ v, Some s = Some (Some v) ∧ 0 < v).
    { destruct s as [v|].
      - destruct (Z.ltb_spec 0 v).
        + split; [intros _; eauto | done].
        + split; [|intros (w & [= ->] & Hw); lia].
          intros Hold. apply Hmy in Hold.
          destruct (proj2 Hafter (or_introl Hold)) as (w & [= ->] & Hw). lia.
      - split; [|by intros (w & [=] & _)].
        intros Hold. apply Hmy in Hold.
        by destruct (proj2 Hafter (or_introl Hold)) as (w & [=] & _). }
    unfold yacht_flags_exact.
    cbn [Y1650.my_state Y1650.opp_state Y1650.my_yacht_completed
         Y1650.opponent_yacht_completed].
    rewrite Hl. split; [split; [exact Hflag | exact Hopp]|].
    rewrite Hflag, Hafter, Hmy. done.
  - intros put g' Hset. unfold Y1650.update_set in Hset.
    apply Res_bind_Ok in Hset as (st & Huse & Hchk).
    unfold Y1650.check_opponent_yacht_completion in Hchk.
    apply Res_bind_Ok in Hchk as (s & Hs & [= <-]).
    cbn [Y1650.my_state Y1650.opp_state] in Hs.
    pose proof (yacht_score_after _ _ _ Huse) as Hafter.
    unfold at_pos in Hs. destruct (rule_score st !! value YACHT) as [s'|] eqn:Hl;
      [|discriminate]. injection Hs as ->.
    assert (Hflag : match s with
                    | Some v => if 0 <? v then true else Y1650.opponent_yacht_completed g
                    | None => Y1650.opponent_yacht_completed g
                    end = true
                    ↔ ∃ v, Some s = Some (Some v) ∧ 0 < v).
    { destruct s as [v|].
      - destruct (Z.ltb_spec 0 v).
        + split; [intros _; eauto | done].
        + split; [|intros (w & [= ->] & Hw); lia].
          intros Hold. apply Hopp in Hold.
          destruct (proj2 Hafter (or_introl Hold)) as (w & [= ->] & Hw). lia.
      - split; [|by intros (w & [=] & _)].
        intros Hold. apply Hopp in Hold.
        by destruct (proj2 Hafter (or_introl Hold)) as (w & [=] & _). }
    unfold yacht_flags_exact.
    cbn [Y1650.my_state Y1650.opp_state Y1650.my_yacht_completed
         Y1650.opponent_yacht_completed].
    rewrite Hl. split; [split; [exact Hmy | exact Hflag]|].
    rewrite Hflag, Hafter, Hopp. done.
Qed.

Lemma X9_yacht_flags_witness :
  yacht_flags_exact
    (Y1650.update_get Y1650.Game_init [1; 2; 3; 4; 5] [2; 2; 5; 6; 6]
       (mkBid "A" 1) (mkBid "B" 0) "A").
Proof.
  destruct (X9_yacht_flags Y1650.Game_init) as [Hinit Hkeep].
  exact (proj1 (Hkeep Hinit) _ _ _ _ _).
Defined.

(** ** Open categories *)

Lemma elem_of_unused_indices st i :
  i ∈ unused_indices st ↔ rule_score st !! i = Some None.
Proof.
  unfold unused_indices. rewrite list_elem_of_omap. split.
  - intros ([j s] & Hin & Hg). apply elem_of_lookup_imap in Hin as (j' & s' & [= -> ->] & Hl).
    destruct s' as [v|]; [discriminate|]. by injection Hg as <-.
  - intros Hl. exists (i, None). split; [|done].
    apply elem_of_lookup_imap. eauto.
Qed.

Lemma length_open_positions (h : nat → nat) (board : list (option Z)) :
  length (omap (λ '(i, score), match score with None => Some i | Some _ => None end)
               (imap (λ i s, (h i, s)) board))
  = length (filter (λ score, score = None) board).
Proof.
  revert h. induction board as [|s board IH]; intros h; [done|].
  rewrite imap_cons, filter_cons.
  specialize (IH (h ∘ S)).
  destruct s as [v|].
  - rewrite decide_False by done. exact IH.
  - rewrite decide_True by done.
    change (S (length (omap (λ '(i, score), match score with
                                           | None => Some i
                                           | Some _ => None
                                           end)
                         (imap ((λ i s, (h i, s)) ∘ S) board)))
            = S (length (filter (λ score : option Z, score = None) board))).
    f_equal. exact IH.
Qed.

Lemma length_unused_indices st :
  length (unused_indices st)
  = length (filter (λ score, score = None) (rule_score st)).
Proof. apply (length_open_positions id). Qed.

Lemma open_count_insert (board : list (option Z)) k v :
  board !! k = Some None →
  (length (filter (λ score, score = None) (<[k := Some v]> board)) + 1
   = length (filter (λ score, score = None) board))%nat.
Proof.
  revert k. induction board as [|s board IH]; intros k Hk; [done|].
  destruct k as [|k]; simpl in Hk.
  - injection Hk as ->.
    change (<[0%nat := Some v]> (None :: board)) with (Some v :: board).
    rewrite !filter_cons.
    rewrite decide_False by done. rewrite decide_True by done.
    cbn [length]. lia.
  - change (<[S k := Some v]> (s :: board)) with (s :: <[k := Some v]> board).
    rewrite !filter_cons. specialize (IH k Hk).
    destruct (decide (s = None)); cbn [length]; lia.
Qed.

(** X10.  In [1650.py] a fresh game has twelve open categories, and
    every placement that [update_put] accepts closes exactly one: the
    board keeps its length, [count_unused_rules] goes down by one, and
    [get_unused_rule_indices] loses the index of the placed rule and
    nothing else.  The two functions always agree on the number of open
    categories. *)
Theorem X10_one_category_per_placement (g g' : Y1650.Game) (put : DicePut) :
  Y1650.count_unused_rules Y1650.Game_init = 12
  ∧ Y1650.count_unused_rules g = Z.of_nat (length (Y1650.get_unused_rule_indices g))
  ∧ (Y1650.update_put g put = Ok g' →
     length (rule_score (Y1650.my_state g')) = length (rule_score (Y1650.my_state g))
     ∧ Y1650.count_unused_rules g' = Y1650.count_unused_rules g - 1
     ∧ (∀ i, i ∈ Y1650.get_unused_rule_indices g'
             ↔ i ∈ Y1650.get_unused_rule_indices g ∧ i ≠ value (put_rule put))
     ∧ rule_score (Y1650.opp_state g') = rule_score (Y1650.opp_state g)).
Proof.
  split; [reflexivity|]. split.
  { unfold Y1650.count_unused_rules, Y1650.get_unused_rule_indices.
    by rewrite length_unused_indices. }
  intros Hput. apply update_put_1650_inv in Hput as [Huse Hopp].
  apply use_dice_1650_Ok in Huse as (Hopen & Hboard & _).
  split; [by rewrite Hboard, length_insert|]. split; [|split].
  - unfold Y1650.count_unused_rules. rewrite Hboard.
    pose proof (open_count_insert _ _ (Y1650.calculate_score put) Hopen). lia.
  - intros i. unfold Y1650.get_unused_rule_indices.
    rewrite !elem_of_unused_indices, Hboard.
    destruct (decide (i = value (put_rule put))) as [->|Hne].
    + rewrite list_lookup_insert_eq by (by eapply lookup_lt_Some).
      split; [discriminate | tauto].
    + rewrite list_lookup_insert_ne by done. tauto.
  - by rewrite Hopp.
Qed.

Lemma X10_one_category_per_placement_witness :
  ∃ g', Y1650.update_put (partial_straight_game 0 0 0)
          (mkDicePut SMALL_STRAIGHT [1; 2; 3]) = Ok g'
        ∧ Y1650.count_unused_rules g' = 9 - 1.
Proof.
  eexists. split; [reflexivity|].
  exact (proj1 (proj2 (proj2 (proj2 (X10_one_category_per_placement
    (partial_straight_game 0 0 0) _ (mkDicePut SMALL_STRAIGHT [1; 2; 3]))) eq_refl))).
Defined.

(** ** The put chosen by [calculate_put] of [1650.py] *)

Lemma for_each_invariant {A S} (P : S → Prop) (body : S → A → Res S) l :
  ∀ s r,
    P s →
    (∀ s a s', a ∈ l → P s → body s a = Ok s' → P s') →
    for_each body s l = Ok r → P r.
Proof.
  induction l as [|x l IH]; intros s r Hs Hbody Hrun.
  - injection Hrun as <-. exact Hs.
  - apply for_each_Ok_inv in Hrun as (s' & Hx & Hrun).
    apply (IH s' r); [| |exact Hrun].
    + apply (Hbody s x s'); [left|exact Hs|exact Hx].
    + intros s0 a s0' Ha. apply Hbody. by right.
Qed.

Lemma first_return_Some {A B} (body : A → Res (option B)) l b :
  first_return body l = Ok (Some b) → ∃ x, x ∈ l ∧ body x = Ok (Some b).
Proof.
  induction l as [|x l IH]; [discriminate|].
  cbn [first_return]. intros Hrun.
  apply Res_bind_Ok in Hrun as ([b'|] & Hx & Hrest).
  - injection Hrest as ->. exists x. split; [left|exact Hx].
  - destruct (IH Hrest) as (y & Hy & Hbody). exists y. split; [by right|exact Hbody].
Qed.

Lemma first_return_None {A B} (body : A → Res (option B)) l :
  first_return body l = Ok None → ∀ x, x ∈ l → body x = Ok None.
Proof.
  induction l as [|x l IH]; intros Hrun y Hy; [by apply elem_of_nil in Hy|].
  cbn [first_return] in Hrun.
  apply Res_bind_Ok in Hrun as ([b'|] & Hx & Hrest); [discriminate|].
  apply elem_of_cons in Hy as [->|Hy]; [exact Hx | by apply IH].
Qed.

Lemma cleanup_low_open g unused threshold put :
  Y1650.cleanup_low g unused threshold = Ok (Some put) →
  value (put_rule put) ∈ unused.
Proof.
  unfold Y1650.cleanup_low. intros Hrun.
  apply first_return_Some in Hrun as (low & _ & Hbody).
  destruct (threshold <=? _); [|discriminate].
  destruct (bool_decide _) eqn:Hopen; [|discriminate].
  apply bool_decide_eq_true in Hopen.
  apply Res_bind_Ok in Hbody as (rule & Hrule & Hbody).
  apply Res_bind_Ok in Hbody as ([dice score] & _ & Hbody).
  injection Hbody as <-. cbn [put_rule].
  by rewrite (DiceRule_of_value _ _ Hrule).
Qed.

Lemma consider_priority_rule_open g unused best priority_rule best' :
  names_open unused best →
  Y1650.consider_priority_rule g unused best priority_rule = Ok best' →
  names_open unused best'.
Proof.
  intros Hbest. unfold Y1650.consider_priority_rule.
  destruct best as [best_put best_score].
  destruct (bool_decide _) eqn:Hopen; [|by intros [= <-]].
  apply bool_decide_eq_true in Hopen. intros Hrun.
  apply Res_bind_Ok in Hrun as (rule & Hrule & Hrun).
  apply Res_bind_Ok in Hrun as ([dice score] & _ & Hrun).
  assert (Hnew : names_open unused (Some (rule, dice), score)).
  { intros r d [= <- <-]. by rewrite (DiceRule_of_value _ _ Hrule). }
  destruct (Y1650.should_use_rule_strategically _ _ _); [|by injection Hrun as <-].
  destruct (_ && _).
  - destruct best_put as [[best_rule best_dice]|]; [|by injection Hrun as <-].
    destruct (_ || _); by injection Hrun as <-.
  - destruct (_ <? _); by injection Hrun as <-.
Qed.

Lemma consider_any_rule_open g unused best rule_index best' :
  rule_index ∈ unused →
  names_open unused best →
  Y1650.consider_any_rule g best rule_index = Ok best' →
  names_open unused best'.
Proof.
  intros Hopen Hbest. unfold Y1650.consider_any_rule.
  destruct best as [best_put best_score]. intros Hrun.
  apply Res_bind_Ok in Hrun as (rule & Hrule & Hrun).
  apply Res_bind_Ok in Hrun as ([dice score] & _ & Hrun).
  destruct (_ <? _); injection Hrun as <-; [|exact Hbest].
  intros r d [= <- <-]. by rewrite (DiceRule_of_value _ _ Hrule).
Qed.

Lemma calculate_put_open g put :
  Y1650.calculate_put g = Ok put →
  value (put_rule put) ∈ unused_indices (Y1650.my_state g).
Proof.
  unfold Y1650.calculate_put. cbv zeta.
  change (Y1650.my_state (Y1650.cache_sorted g)) with (Y1650.my_state g).
  set (g' := Y1650.cache_sorted g).
  set (unused := unused_indices (Y1650.my_state g)).
  intros Hrun.
  apply Res_bind_Ok in Hrun as (high & _ & Hrun).
  apply Res_bind_Ok in Hrun as (early & Hearly & Hrun).
  destruct early as [early|].
  { injection Hrun as <-.
    destruct high; [by eapply cleanup_low_open|].
    destruct (Y1650.my_yacht_completed g'); [by eapply cleanup_low_open|discriminate]. }
  apply Res_bind_Ok in Hrun as (best & Hfirst & Hrun).
  apply Res_bind_Ok in Hrun as (best2 & Hsecond & Hrun).
  assert (Hbest : names_open unused best).
  { revert Hfirst. apply for_each_invariant; [by intros r d|].
    intros s a s' _. apply consider_priority_rule_open. }
  assert (Hbest2 : names_open unused best2).
  { destruct best.1 as [chosen|] eqn:Hchosen.
    - by injection Hsecond as <-.
    - revert Hsecond. apply for_each_invariant; [exact Hbest|].
      intros s a s'. apply consider_any_rule_open. }
  destruct best2.1 as [[best_rule best_dice]|] eqn:Hchosen.
  - injection Hrun as <-. cbn [put_rule]. by eapply Hbest2.
  - apply Res_bind_Ok in Hrun as (first & Hat & Hrun).
    apply Res_bind_Ok in Hrun as (rule & Hrule & Hrun).
    injection Hrun as <-. cbn [put_rule].
    rewrite (DiceRule_of_value _ _ Hrule).
    unfold at_pos in Hat. destruct (unused !! 0%nat) as [x|] eqn:Hx; [|discriminate].
    injection Hat as <-. by eapply list_elem_of_lookup_2.
Qed.

Lemma use_dice_1650_accepts st put :
  rule_score st !! value (put_rule put) = Some None →
  ∃ st', Y1650.use_dice st put = Ok st'.
Proof.
  intros Hopen. unfold Y1650.use_dice. rewrite Hopen.
  destruct (remove_present_Ok (dice st) (put_dice put)) as (rest & -> & _).
  eauto.
Qed.

(** X11.  The put that [calculate_put] of [1650.py] returns always names
    a category that is still open on my board, so [use_dice] accepts it;
    on a board of twelve entries [update_put] accepts it as well, and the
    result has one open category less. *)
Theorem X11_calculate_put_is_accepted (g : Y1650.Game) (put : DicePut) :
  Y1650.calculate_put g = Ok put →
  rule_score (Y1650.my_state g) !! value (put_rule put) = Some None
  ∧ (∃ st', Y1650.use_dice (Y1650.my_state g) put = Ok st')
  ∧ (length (rule_score (Y1650.my_state g)) = 12%nat →
     ∃ g', Y1650.update_put g put = Ok g'
           ∧ Y1650.count_unused_rules g' = Y1650.count_unused_rules g - 1).
Proof.
  intros Hput. apply calculate_put_open, elem_of_unused_indices in Hput.
  split; [exact Hput|]. split; [by apply use_dice_1650_accepts|].
  intros Hlen.
  destruct (use_dice_1650_accepts _ _ Hput) as (st' & Huse).
  pose proof (use_dice_1650_Ok _ _ _ Huse) as (_ & Hboard & _).
  unfold Y1650.update_put. rewrite Huse. cbn [mbind Res_bind].
  unfold Y1650.check_my_yacht_completion. cbn [Y1650.my_state].
  assert (Hyacht : ∃ s, rule_score st' !! value YACHT = Some s).
  { apply lookup_lt_is_Some. rewrite Hboard, length_insert, Hlen. simpl. lia. }
  destruct Hyacht as (s & Hs). unfold at_pos. rewrite Hs. cbn [mbind Res_bind].
  eexists. split; [reflexivity|].
  unfold Y1650.count_unused_rules. cbn [Y1650.my_state]. rewrite Hboard.
  pose proof (open_count_insert _ _ (Y1650.calculate_score put) Hput). lia.
Qed.

Lemma X11_calculate_put_is_accepted_witness :
  ∃ put, Y1650.calculate_put (partial_straight_game 0 0 0) = Ok put
         ∧ rule_score (Y1650.my_state (partial_straight_game 0 0 0))
             !! value (put_rule put) = Some None.
Proof.
  eexists. split; [vm_compute; reflexivity|].
  refine (proj1 (X11_calculate_put_is_accepted (partial_straight_game 0 0 0) _ _)).
  vm_compute. reflexivity.
Defined.

(** ** The search of [find_optimal_dice_for_rule] *)

Lemma list_remove_present x l :
  x ∈ l → ∃ l', list_remove x l = Ok l' ∧ l ≡ₚ x :: l'.
Proof.
  intros Hin. destruct (list_remove x l) as [l'|e] eqn:Hrm.
  - exists l'. split; [done|]. by apply list_remove_Ok.
  - apply list_remove_Raise in Hrm as [_ Hnot]. done.
Qed.

Lemma count_app x l1 l2 : count x (l1 ++ l2) = count x l1 + count x l2.
Proof. induction l1 as [|y l1 IH]; simpl; lia. Qed.

Lemma count_replicate_ne x y n : x ≠ y → count x (replicate n y) = 0.
Proof.
  intros Hne. induction n as [|n IH]; [done|]. simpl. rewrite IH.
  destruct (y =? x) eqn:E; [apply Z.eqb_eq in E; congruence | done].
Qed.

Lemma small_dice_Permutation l l' : l ≡ₚ l' → small_dice l → small_dice l'.
Proof. unfold small_dice. by intros ->. Qed.

Lemma small_dice_replicate n x : 0 ≤ x ≤ 6 → small_dice (replicate n x).
Proof. intros Hx. by apply Forall_replicate. Qed.

Lemma move_copies_Ok n x target temp :
  Z.of_nat n ≤ count x temp →
  ∃ temp', move_copies n x target temp = Ok (target ++ replicate n x, temp')
           ∧ temp ≡ₚ replicate n x ++ temp'.
Proof.
  revert target temp. induction n as [|n IH]; intros target temp Hcount.
  - exists temp. by rewrite app_nil_r.
  - assert (Hin : x ∈ temp) by (apply count_pos_elem; lia).
    destruct (list_remove_present _ _ Hin) as (temp1 & Hrm & Hperm).
    assert (Hcount1 : Z.of_nat n ≤ count x temp1).
    { rewrite (count_Permutation x _ _ Hperm) in Hcount. simpl in Hcount.
      rewrite Z.eqb_refl in Hcount. lia. }
    destruct (IH (target ++ [x]) temp1 Hcount1) as (temp' & Hrun & Hperm').
    exists temp'. split.
    + cbn [move_copies]. rewrite Hrm. cbn [mbind Res_bind]. rewrite Hrun.
      by rewrite <- app_assoc.
    + rewrite Hperm, Hperm'. done.
Qed.

Lemma move_present_from seq :
  ∀ target temp,
    ∃ picked temp',
      move_present seq target temp = Ok (target ++ picked, temp')
      ∧ temp ≡ₚ picked ++ temp'
      ∧ sublist picked seq.
Proof.
  unfold move_present. induction seq as [|num seq IH]; intros target temp.
  - exists [], temp. by rewrite app_nil_r.
  - cbn [for_each]. destruct (py_in num temp) eqn:Hin.
    + apply py_in_elem in Hin.
      destruct (list_remove_present _ _ Hin) as (temp1 & -> & Hperm).
      cbn [mbind Res_bind].
      destruct (IH (target ++ [num]) temp1) as (picked & temp' & Hrun & Hperm' & Hsub).
      exists (num :: picked), temp'. split; [|split].
      * rewrite Hrun. by rewrite <- app_assoc.
      * rewrite Hperm, Hperm'. done.
      * by apply sublist_skip.
    + cbn [mbind Res_bind].
      destruct (IH target temp) as (picked & temp' & Hrun & Hperm' & Hsub).
      exists picked, temp'. split; [exact Hrun|]. split; [exact Hperm'|].
      by apply sublist_cons.
Qed.

Lemma picked_ok_step dice temp temp' x :
  (length dice < 5)%nat → temp ≡ₚ x :: temp' →
  picked_ok dice temp → picked_ok (dice ++ [x]) temp'.
Proof.
  intros Hlen Hperm (_ & Hdice & Htemp).
  apply (small_dice_Permutation _ _ Hperm) in Htemp.
  apply Forall_cons in Htemp as [Hx Htemp'].
  split; [rewrite length_app; simpl; lia|]. split; [|exact Htemp'].
  apply Forall_app. split; [exact Hdice|]. by apply Forall_singleton.
Qed.

Lemma take_sixes_Ok turns :
  ∀ dice temp,
    picked_ok dice temp →
    ∃ dice' temp', Y1650.take_sixes turns dice temp = Ok (dice', temp')
                   ∧ picked_ok dice' temp'.
Proof.
  induction turns as [|turns IH]; intros dice temp Hok; [by eauto|].
  cbn [Y1650.take_sixes].
  destruct (length dice <? 5)%nat eqn:Hlen; [|by eauto].
  destruct (py_in 6 temp) eqn:Hin; [|by eauto].
  cbn [andb]. apply Nat.ltb_lt in Hlen. apply py_in_elem in Hin.
  destruct (list_remove_present _ _ Hin) as (temp1 & -> & Hperm).
  cbn [mbind Res_bind]. apply IH. by eapply picked_ok_step.
Qed.

Lemma take_unique_Ok unique_dice :
  ∀ dice temp,
    picked_ok dice temp →
    ∃ dice' temp', Y1650.take_unique unique_dice dice temp = Ok (dice', temp')
                   ∧ picked_ok dice' temp'.
Proof.
  induction unique_dice as [|selected unique_dice IH]; intros dice temp Hok;
    [by eauto|].
  cbn [Y1650.take_unique].
  destruct (length dice <? 5)%nat eqn:Hlen; [|by eauto].
  destruct (py_in selected temp) eqn:Hin; [|by apply IH].
  apply Nat.ltb_lt in Hlen. apply py_in_elem in Hin.
  destruct (list_remove_present _ _ Hin) as (temp1 & -> & Hperm).
  cbn [mbind Res_bind]. apply IH. by eapply picked_ok_step.
Qed.

Lemma fill_from_ok temp :
  ∀ dice, picked_ok dice temp →
          picked_ok (fill_from dice temp).1 (fill_from dice temp).2.
Proof.
  induction temp as [|x temp IH]; intros dice Hok; [done|].
  cbn [fill_from]. destruct (length dice <? 5)%nat eqn:Hlen; [|done].
  apply Nat.ltb_lt in Hlen. apply IH. by eapply picked_ok_step.
Qed.

Lemma pad_with_ok dice :
  (length dice ≤ 5)%nat → small_dice dice →
  length (pad_with 0 dice) = 5%nat ∧ small_dice (pad_with 0 dice).
Proof.
  intros Hlen Hdice. unfold pad_with. split.
  - rewrite length_app, length_replicate. lia.
  - apply Forall_app. split; [exact Hdice|]. by apply small_dice_replicate.
Qed.

Lemma is_unused_total st r :
  length (rule_score st) = 12%nat → ∃ b, is_unused st r = Ok b.
Proof.
  intros Hlen. destruct (is_unused_filled st r) as (b & Hb & _); [|by eauto].
  rewrite Hlen. destruct r; simpl; lia.
Qed.

Lemma first_return_total {A B} (Q : B → Prop) (body : A → Res (option B)) l :
  (∀ x, x ∈ l → ∃ r, body x = Ok r ∧ ∀ b, r = Some b → Q b) →
  ∃ r, first_return body l = Ok r ∧ ∀ b, r = Some b → Q b.
Proof.
  induction l as [|x l IH]; intros Hbody; [by exists None|].
  cbn [first_return].
  destruct (Hbody x) as (r & -> & Hr); [left|]. cbn [mbind Res_bind].
  destruct r as [b|].
  - exists (Some b). split; [done|]. exact Hr.
  - apply IH. intros y Hy. apply Hbody. by right.
Qed.

Lemma for_each_total {A S} (P : S → Prop) (body : S → A → Res S) l :
  ∀ s,
    P s →
    (∀ s a, a ∈ l → P s → ∃ s', body s a = Ok s' ∧ P s') →
    ∃ r, for_each body s l = Ok r ∧ P r.
Proof.
  induction l as [|x l IH]; intros s Hs Hbody; [by exists s|].
  cbn [for_each].
  destruct (Hbody s x) as (s' & -> & Hs'); [left|exact Hs|].
  cbn [mbind Res_bind]. apply IH; [exact Hs'|].
  intros s0 a Ha. apply Hbody. by right.
Qed.

Lemma optimal_number_dice_good g rule target_number :
  regular_position g → 1 ≤ target_number ≤ 6 →
  0 < count target_number (dice (Y1650.my_state g)) →
  ∃ r, Y1650.optimal_number_dice g rule target_number
         (count target_number (dice (Y1650.my_state g))) = Ok r
       ∧ good_choice rule r.
Proof.
  intros [Hboard Hpool] Htarget Hcount.
  unfold Y1650.optimal_number_dice. cbv zeta.
  set (pool := dice (Y1650.my_state g)) in *.
  destruct (move_copies_Ok (Z.to_nat (5 `min` count target_number pool))
              target_number [] pool) as (temp0 & -> & Hperm); [lia|].
  cbn [mbind Res_bind app].
  destruct (is_unused_total (Y1650.my_state g) FOUR_OF_A_KIND Hboard) as (b1 & ->).
  destruct (is_unused_total (Y1650.my_state g) FULL_HOUSE Hboard) as (b2 & ->).
  destruct (is_unused_total (Y1650.my_state g) LARGE_STRAIGHT Hboard) as (b3 & ->).
  destruct (is_unused_total (Y1650.my_state g) SMALL_STRAIGHT Hboard) as (b4 & ->).
  cbn [mbind Res_bind fmap Res_fmap].
  assert (Hstart : picked_ok (replicate (Z.to_nat (5 `min` count target_number pool))
                                target_number) temp0).
  { split; [rewrite length_replicate; lia|]. split.
    - apply small_dice_replicate. lia.
    - apply (small_dice_Permutation _ _ Hperm) in Hpool.
      by apply Forall_app in Hpool as [_ ?]. }
  set (start := replicate _ target_number) in *.
  assert (Hsixes : ∃ dice1 temp1,
            (if (b1 || b2) && py_in 6 temp0
             then Y1650.take_sixes 5 start temp0 else Ok (start, temp0))
            = Ok (dice1, temp1) ∧ picked_ok dice1 temp1).
  { destruct (_ && _); [by apply take_sixes_Ok | by eauto]. }
  destruct Hsixes as (dice1 & temp1 & -> & Hok1). cbn [mbind Res_bind].
  match goal with
  | |- context [Y1650.take_unique ?u dice1 temp1] =>
      destruct (take_unique_Ok u dice1 temp1 Hok1) as (dice2 & temp2 & -> & Hok2)
  end.
  cbn [mbind Res_bind].
  assert (Hfill : ∃ dice3 temp3,
            (if negb b3 && negb b4 then fill_from dice2 (sorted temp2)
             else fill_from dice2 temp2) = (dice3, temp3)
            ∧ picked_ok dice3 temp3).
  { destruct (_ && _).
    - exists (fill_from dice2 (sorted temp2)).1, (fill_from dice2 (sorted temp2)).2.
      split; [by destruct (fill_from _ _)|]. apply fill_from_ok.
      destruct Hok2 as (? & ? & Htemp2). split; [done|]. split; [done|].
      revert Htemp2. apply small_dice_Permutation. unfold sorted.
      by rewrite merge_sort_Permutation.
    - exists (fill_from dice2 temp2).1, (fill_from dice2 temp2).2.
      split; [by destruct (fill_from _ _)|]. by apply fill_from_ok. }
  destruct Hfill as (dice3 & temp3 & -> & (Hlen3 & Hdice3 & _)).
  destruct (pad_with_ok dice3 Hlen3 Hdice3) as [Hlen Hsmall].
  rewrite (potential_small_dice rule _ Hsmall). cbn [mbind Res_bind].
  eexists. split; [reflexivity|].
  split; [cbn [fst]; lia|]. split; [exact Hsmall | reflexivity].
Qed.

Lemma default_dice_good g rule :
  regular_position g →
  ∃ r, Y1650.default_dice g rule = Ok r ∧ good_choice rule r.
Proof.
  intros [_ Hpool]. unfold Y1650.default_dice. cbv zeta.
  set (chosen := if (5 <=? length _)%nat then _ else _).
  assert (Hchosen : (length chosen ≤ 5)%nat ∧ small_dice chosen).
  { subst chosen. destruct (5 <=? _)%nat.
    - split; [rewrite length_take; lia|]. by apply Forall_take.
    - split; [done|]. by apply small_dice_replicate. }
  destruct Hchosen as [Hlen Hsmall].
  rewrite (potential_small_dice rule _ Hsmall). cbn [mbind Res_bind].
  eexists. split; [reflexivity|]. done.
Qed.

Lemma zeros_good rule :
  rule = FOUR_OF_A_KIND ∨ rule = FULL_HOUSE ∨ rule = CHOICE →
  good_choice rule (replicate 5 0, 0).
Proof.
  intros Hrule. split; [done|]. split; [by apply small_dice_replicate|].
  by destruct Hrule as [-> | [-> | ->]].
Qed.

Lemma optimal_four_of_a_kind_good g nums :
  regular_position g → (∀ n, n ∈ nums → 1 ≤ n ≤ 6) →
  ∃ r, Y1650.optimal_four_of_a_kind g nums = Ok r
       ∧ ∀ b, r = Some b → good_choice FOUR_OF_A_KIND b.
Proof.
  intros [_ Hpool] Hnums. unfold Y1650.optimal_four_of_a_kind. cbv zeta.
  apply first_return_total. intros num Hnum. specialize (Hnums num Hnum).
  destruct (4 <=? _) eqn:Hcount; [|by exists None].
  apply Z.leb_le in Hcount.
  destruct (move_copies_Ok 4 num [] (dice (Y1650.my_state g)))
    as (temp & -> & Hperm); [simpl; lia|].
  cbn [mbind Res_bind app].
  apply (small_dice_Permutation _ _ Hperm) in Hpool.
  apply Forall_app in Hpool as [Hfour Htemp].
  set (target := match temp with [] => _ | _ => _ end).
  assert (Htarget : length target = 5%nat ∧ small_dice target).
  { subst target. destruct temp as [|x temp].
    - split; [done|]. apply Forall_app. split; [exact Hfour|].
      apply Forall_singleton. lia.
    - split; [done|]. apply Forall_app. split; [exact Hfour|].
      apply Forall_singleton. by apply Forall_cons in Htemp as [? _]. }
  destruct Htarget as [Hlen Hsmall].
  rewrite (potential_small_dice FOUR_OF_A_KIND _ Hsmall). cbn [mbind Res_bind].
  eexists. split; [reflexivity|]. intros b [= <-].
  split; [cbn [fst]; lia|]. done.
Qed.

Lemma optimal_full_house_good g nums :
  regular_position g → (∀ n, n ∈ nums → 1 ≤ n ≤ 6) →
  ∃ r, Y1650.optimal_full_house g nums = Ok r
       ∧ ∀ b, r = Some b → good_choice FULL_HOUSE b.
Proof.
  intros [_ Hpool] Hnums. unfold Y1650.optimal_full_house. cbv zeta.
  apply first_return_total. intros num1 Hnum1.
  destruct (3 <=? _) eqn:Hcount1; [|by exists None].
  apply Z.leb_le in Hcount1.
  apply first_return_total. intros num2 Hnum2.
  destruct (negb (num2 =? num1)) eqn:Hne; [|by exists None].
  destruct (2 <=? _) eqn:Hcount2; [|by exists None].
  cbn [andb]. apply Z.leb_le in Hcount2.
  apply negb_true_iff, Z.eqb_neq in Hne.
  destruct (move_copies_Ok 3 num1 [] (dice (Y1650.my_state g)))
    as (temp1 & -> & Hperm1); [simpl; lia|].
  cbn [mbind Res_bind app].
  assert (Hcount2' : 2 ≤ count num2 temp1).
  { rewrite (count_Permutation num2 _ _ Hperm1), count_app in Hcount2.
    rewrite count_replicate_ne in Hcount2 by done. lia. }
  destruct (move_copies_Ok 2 num2 (replicate 3 num1) temp1)
    as (temp2 & -> & Hperm2); [simpl; lia|].
  cbn [mbind Res_bind].
  assert (Hsmall : small_dice (replicate 3 num1 ++ replicate 2 num2)).
  { apply Forall_app. split; apply small_dice_replicate.
    - specialize (Hnums num1 Hnum1). lia.
    - specialize (Hnums num2 Hnum2). lia. }
  rewrite (potential_small_dice FULL_HOUSE _ Hsmall). cbn [mbind Res_bind].
  eexists. split; [reflexivity|]. intros b [= <-]. done.
Qed.

Lemma optimal_yacht_good g :
  regular_position g →
  ∃ r, Y1650.optimal_yacht g = Ok r ∧ ∀ b, r = Some b → good_choice YACHT b.
Proof.
  intros [_ Hpool]. unfold Y1650.optimal_yacht. cbv zeta.
  apply first_return_total. intros num Hnum.
  apply elem_of_range_1_7 in Hnum.
  destruct (5 <=? _) eqn:Hcount; [|by exists None].
  apply Z.leb_le in Hcount.
  destruct (move_copies_Ok 5 num [] (dice (Y1650.my_state g)))
    as (temp & -> & Hperm); [simpl; lia|].
  cbn [mbind Res_bind app].
  assert (Hsmall : small_dice (replicate 5 num))
    by (apply small_dice_replicate; unfold dice_value in Hnum; lia).
  rewrite (potential_small_dice YACHT _ Hsmall). cbn [mbind Res_bind].
  eexists. split; [reflexivity|]. intros b [= <-]. done.
Qed.

Lemma sublist_small picked seq :
  sublist picked seq → small_dice seq → small_dice picked.
Proof. intros Hsub. unfold small_dice. rewrite !Forall_forall.
  intros Hseq x Hx. apply Hseq. by eapply elem_of_sublist. Qed.

Lemma optimal_large_straight_good g :
  regular_position g →
  ∃ r, Y1650.optimal_large_straight g = Ok r
       ∧ ∀ b, r = Some b → good_choice LARGE_STRAIGHT b.
Proof.
  intros [_ Hpool]. unfold Y1650.optimal_large_straight. cbv zeta.
  assert (Hpick : ∀ seq, (length seq ≤ 5)%nat → small_dice seq →
            ∃ r, ('(target_dice, temp_dice) ←
                    move_present seq [] (dice (Y1650.my_state g));
                  score ← Y1650.calculate_rule_potential_score target_dice
                            LARGE_STRAIGHT;
                  Ok (Some (target_dice, score))) = Ok r
                 ∧ ∀ b, r = Some b → good_choice LARGE_STRAIGHT b).
  { intros seq Hlen Hseq.
    destruct (move_present_from seq [] (dice (Y1650.my_state g)))
      as (picked & temp & -> & _ & Hsub).
    cbn [mbind Res_bind app].
    pose proof (sublist_small _ _ Hsub Hseq) as Hsmall.
    rewrite (potential_small_dice LARGE_STRAIGHT _ Hsmall). cbn [mbind Res_bind].
    eexists. split; [reflexivity|]. intros b [= <-].
    split; [|done]. cbn [fst]. apply sublist_length in Hsub. lia. }
  destruct (all _).
  - apply Hpick; [done|]. repeat constructor; lia.
  - destruct (all _); [|by exists None].
    apply Hpick; [done|]. repeat constructor; lia.
Qed.

Lemma py_in_cache x l : py_in x (sorted (remove_dups l)) = py_in x l.
Proof.
  apply Bool.eq_iff_eq_true. rewrite !py_in_elem. unfold sorted.
  by rewrite merge_sort_Permutation, elem_of_remove_dups.
Qed.

Lemma small_straight_zero pool picked :
  (∀ seq, seq ∈ Y1650.sequences → all ((λ x, py_in x pool) <$> seq) = false) →
  (∀ x, x ∈ picked → x ∈ pool) →
  Y1650.calculate_score (mkDicePut SMALL_STRAIGHT picked) = 0.
Proof.
  intros Hnone Hsub.
  assert (Himp : ∀ i, py_in i picked = true → py_in i pool = true).
  { intros i. rewrite !py_in_elem. apply Hsub. }
  pose proof (Hnone [1; 2; 3; 4]) as H1.
  pose proof (Hnone [2; 3; 4; 5]) as H2.
  pose proof (Hnone [3; 4; 5; 6]) as H3.
  unfold Y1650.sequences in H1, H2, H3.
  specialize (H1 ltac:(rewrite !elem_of_cons; tauto)).
  specialize (H2 ltac:(rewrite !elem_of_cons; tauto)).
  specialize (H3 ltac:(rewrite !elem_of_cons; tauto)).
  cbn [all fmap list_fmap forallb id] in H1, H2, H3.
  change (Y1650.calculate_score (mkDicePut SMALL_STRAIGHT picked))
    with (if ((0 <? count 1 picked) && (0 <? count 2 picked)
              && (0 <? count 3 picked) && (0 <? count 4 picked))
             || ((0 <? count 2 picked) && (0 <? count 3 picked)
                 && (0 <? count 4 picked) && (0 <? count 5 picked))
             || ((0 <? count 3 picked) && (0 <? count 4 picked)
                 && (0 <? count 5 picked) && (0 <? count 6 picked))
          then 15000 else 0).
  rewrite !count_pos_py_in.
  pose proof (Himp 1) as I1. pose proof (Himp 2) as I2. pose proof (Himp 3) as I3.
  pose proof (Himp 4) as I4. pose proof (Himp 5) as I5. pose proof (Himp 6) as I6.
  destruct (py_in 1 picked), (py_in 2 picked), (py_in 3 picked),
           (py_in 4 picked), (py_in 5 picked), (py_in 6 picked);
    try reflexivity;
    try specialize (I1 eq_refl); try specialize (I2 eq_refl);
    try specialize (I3 eq_refl); try specialize (I4 eq_refl);
    try specialize (I5 eq_refl); try specialize (I6 eq_refl);
    destruct (py_in 1 pool), (py_in 2 pool), (py_in 3 pool),
             (py_in 4 pool), (py_in 5 pool), (py_in 6 pool);
    discriminate.
Qed.

Lemma small_dice_sequences seq : seq ∈ Y1650.sequences → small_dice seq ∧ length seq = 4%nat.
Proof.
  unfold Y1650.sequences. rewrite !elem_of_cons, elem_of_nil.
  intros [-> | [-> | [-> | []]]]; (split; [repeat constructor; lia | done]).
Qed.

Lemma optimal_small_straight_good g :
  regular_position g → cache_fresh g →
  ∃ r, Y1650.optimal_small_straight g = Ok r
       ∧ ∀ b, r = Some b → good_choice SMALL_STRAIGHT b.
Proof.
  intros [_ Hpool] [Hcache _]. unfold Y1650.optimal_small_straight. cbv zeta.
  rewrite Hcache. set (pool := dice (Y1650.my_state g)) in *.
  match goal with
  | |- context [first_return ?body Y1650.sequences] =>
      destruct (first_return_total (good_choice SMALL_STRAIGHT) body Y1650.sequences)
        as (complete & Hrun & Hcomplete)
  end.
  { intros sequence Hseq.
    destruct (all _); [|by exists None].
    destruct (move_present_from sequence [] pool) as (picked & temp & -> & Hperm & Hsub).
    cbn [mbind Res_bind app].
    destruct (small_dice_sequences _ Hseq) as [Hsmall Hlen].
    set (filler := if List.last sequence 0 <? 6 then _ else _).
    assert (Hfiller : 0 ≤ filler ≤ 6).
    { subst filler. revert Hseq. unfold Y1650.sequences.
      rewrite !elem_of_cons, elem_of_nil.
      intros [-> | [-> | [-> | []]]]; simpl; lia. }
    set (target := match temp with [] => _ | _ => _ end).
    assert (Htarget : (length target ≤ 5)%nat ∧ small_dice target).
    { pose proof (sublist_small _ _ Hsub Hsmall) as Hpicked.
      pose proof (sublist_length _ _ Hsub) as Hpl.
      apply (small_dice_Permutation _ _ Hperm) in Hpool.
      apply Forall_app in Hpool as [_ Htemp].
      subst target. destruct temp as [|x temp].
      - split; [rewrite length_app; simpl; lia|].
        apply Forall_app. split; [exact Hpicked|]. by apply Forall_singleton.
      - split; [rewrite length_app; simpl; lia|].
        apply Forall_app. split; [exact Hpicked|].
        apply Forall_singleton. by apply Forall_cons in Htemp as [? _]. }
    destruct Htarget as [Htl Hts].
    rewrite (potential_small_dice SMALL_STRAIGHT _ Hts). cbn [mbind Res_bind].
    eexists. split; [reflexivity|]. intros b [= <-]. done. }
  rewrite Hrun. cbn [mbind Res_bind].
  destruct complete as [r|]; [by eauto|].
  assert (Hnone : ∀ seq, seq ∈ Y1650.sequences →
            all ((λ x, py_in x pool) <$> seq) = false).
  { intros seq Hseq.
    pose proof (first_return_None _ _ Hrun seq Hseq) as Hbody. cbv beta in Hbody.
    assert (Heq : all ((λ x, py_in x (sorted (remove_dups pool))) <$> seq)
                  = all ((λ x, py_in x pool) <$> seq)).
    { f_equal. apply list_fmap_ext. intros _ x _. apply py_in_cache. }
    rewrite <- Heq. destruct (all _); [|done]. exfalso.
    apply Res_bind_Ok in Hbody as ([t d] & _ & Hbody).
    apply Res_bind_Ok in Hbody as (sc & _ & Hbody). discriminate. }
  destruct (foldl _ _ _) as [best_partial best_count] eqn:Hfold.
  destruct best_partial as [partial|]; [|by exists None].
  destruct (1 <=? best_count); [|by exists None].
  assert (Hpartial : partial ∈ Y1650.sequences).
  { revert Hfold. unfold Y1650.sequences. cbn [foldl].
    repeat match goal with
           | |- context [if ?c then _ else _] => destruct c
           end; intros [= <- _]; rewrite !elem_of_cons; tauto. }
  destruct (move_present_from partial [] pool) as (picked & temp & -> & Hperm & Hsub).
  cbn [mbind Res_bind app].
  eexists. split; [reflexivity|]. intros b [= <-].
  destruct (small_dice_sequences _ Hpartial) as [Hsmall Hlen].
  split; [cbn [fst]; apply sublist_length in Hsub; lia|].
  split; [by eapply sublist_small|].
  cbn [fst snd]. symmetry. apply (small_straight_zero pool); [exact Hnone|].
  intros x Hx. rewrite Hperm. apply elem_of_app. by left.
Qed.

Lemma find_optimal_good g rule :
  regular_position g → cache_fresh g →
  ∃ r, Y1650.find_optimal_dice_for_rule g rule = Ok r ∧ good_choice rule r.
Proof.
  intros Hreg Hfresh. unfold Y1650.find_optimal_dice_for_rule. cbv zeta.
  assert (Hnumber : ∀ r target,
            1 ≤ target ≤ 6 →
            ∃ found,
              (if 0 <? count target (dice (Y1650.my_state g))
               then Some <$> Y1650.optimal_number_dice g r target
                               (count target (dice (Y1650.my_state g)))
               else Ok None) = Ok found
              ∧ ∀ b, found = Some b → good_choice r b).
  { intros r target Htarget. destruct (0 <? _) eqn:Hcount; [|by exists None].
    apply Z.ltb_lt in Hcount.
    destruct (optimal_number_dice_good g r target Hreg Htarget Hcount)
      as (b & -> & Hb).
    exists (Some b). split; [done|]. by intros ? [= <-]. }
  assert (Hrange47 : ∀ n, n ∈ range 4 7 → 1 ≤ n ≤ 6).
  { intros n. change (range 4 7) with [4; 5; 6].
    rewrite !elem_of_cons, elem_of_nil. lia. }
  assert (Hrange17 : ∀ n, n ∈ range 1 7 → 1 ≤ n ≤ 6).
  { intros n Hn. by apply elem_of_range_1_7 in Hn. }
  assert (Hfound : ∃ found,
            match rule with
            | ONE | TWO | THREE | FOUR | FIVE | SIX =>
                if 0 <? count (Z.of_nat (value rule) + 1) (dice (Y1650.my_state g))
                then Some <$> Y1650.optimal_number_dice g rule
                                (Z.of_nat (value rule) + 1)
                                (count (Z.of_nat (value rule) + 1)
                                       (dice (Y1650.my_state g)))
                else Ok None
            | CHOICE =>
                if 10 <=? Y1650.current_round g then
                  score ← Y1650.calculate_rule_potential_score
                            (take 5 (Y1650.sorted_dice g)) CHOICE;
                  Ok (Some (take 5 (Y1650.sorted_dice g), score))
                else Ok (Some (replicate 5 0, 0))
            | FOUR_OF_A_KIND =>
                if Y1650.current_round g <=? 8 then
                  r ← Y1650.optimal_four_of_a_kind g (range 4 7);
                  Ok (Some (default (replicate 5 0, 0) r))
                else Y1650.optimal_four_of_a_kind g (range 1 7)
            | FULL_HOUSE =>
                if Y1650.current_round g <=? 8 then
                  r ← Y1650.optimal_full_house g (range 4 7);
                  Ok (Some (default (replicate 5 0, 0) r))
                else Y1650.optimal_full_house g (range 1 7)
            | SMALL_STRAIGHT => Y1650.optimal_small_straight g
            | LARGE_STRAIGHT => Y1650.optimal_large_straight g
            | YACHT => Y1650.optimal_yacht g
            end = Ok found
            ∧ ∀ b, found = Some b → good_choice rule b).
  { destruct rule;
      try (apply Hnumber; simpl; lia);
      try (by apply optimal_small_straight_good);
      try (by apply optimal_large_straight_good);
      try (by apply optimal_yacht_good).
    - destruct (10 <=? _).
      + assert (Hsmall : small_dice (take 5 (Y1650.sorted_dice g))).
        { apply Forall_take. destruct Hfresh as [_ ->]. destruct Hreg as [_ Hpool].
          revert Hpool. apply small_dice_Permutation. unfold sorted_rev.
          by rewrite merge_sort_Permutation. }
        rewrite (potential_small_dice CHOICE _ Hsmall). cbn [mbind Res_bind].
        eexists. split; [reflexivity|]. intros b [= <-].
        split; [cbn [fst]; rewrite length_take; lia|]. done.
      + eexists. split; [reflexivity|]. intros b [= <-]. apply zeros_good. tauto.
    - destruct (_ <=? 8).
      + destruct (optimal_four_of_a_kind_good g (range 4 7) Hreg Hrange47)
          as (r & -> & Hr).
        cbn [mbind Res_bind]. eexists. split; [reflexivity|]. intros b [= <-].
        destruct r as [b|]; [by apply Hr | apply zeros_good; tauto].
      + by apply optimal_four_of_a_kind_good.
    - destruct (_ <=? 8).
      + destruct (optimal_full_house_good g (range 4 7) Hreg Hrange47)
          as (r & -> & Hr).
        cbn [mbind Res_bind]. eexists. split; [reflexivity|]. intros b [= <-].
        destruct r as [b|]; [by apply Hr | apply zeros_good; tauto].
      + by apply optimal_full_house_good. }
  destruct Hfound as (found & -> & Hfound). cbn [mbind Res_bind].
  destruct found as [b|]; [by eauto|]. by apply default_dice_good.
Qed.

Lemma cache_sorted_regular g :
  regular_position g →
  regular_position (Y1650.cache_sorted g) ∧ cache_fresh (Y1650.cache_sorted g).
Proof. intros Hreg. split; [exact Hreg | by split]. Qed.

(** X12.  The search [find_optimal_dice_for_rule] of [1650.py], run as
    [calculate_put] runs it (with the two sorted copies of the pool just
    stored), on a board of twelve entries and a pool of dice 0..6: it
    returns for every rule, never raises; it returns at most five dice,
    each 0..6; and the score it returns is the score that
    [calculate_score] gives to these dice under the rule. *)
Theorem X12_find_optimal_dice (g : Y1650.Game) (rule : DiceRule) :
  regular_position g →
  ∃ dice score,
    Y1650.find_optimal_dice_for_rule (Y1650.cache_sorted g) rule = Ok (dice, score)
    ∧ score = Y1650.calculate_score (mkDicePut rule dice)
    ∧ (length dice ≤ 5)%nat
    ∧ small_dice dice.
Proof.
  intros Hreg. destruct (cache_sorted_regular g Hreg) as [Hreg' Hfresh].
  destruct (find_optimal_good _ rule Hreg' Hfresh) as ([dice score] & Hrun & Hgood).
  exists dice, score. split; [exact Hrun|].
  destruct Hgood as (Hlen & Hsmall & Hscore). done.
Qed.

Lemma X12_find_optimal_dice_witness :
  ∃ dice score,
    Y1650.find_optimal_dice_for_rule
      (Y1650.cache_sorted (partial_straight_game 0 0 0)) FULL_HOUSE = Ok (dice, score)
    ∧ score = Y1650.calculate_score (mkDicePut FULL_HOUSE dice)
    ∧ (length dice ≤ 5)%nat
    ∧ small_dice dice.
Proof.
  apply (X12_find_optimal_dice (partial_straight_game 0 0 0) FULL_HOUSE).
  split; [reflexivity|]. unfold small_dice. simpl. repeat constructor; lia.
Defined.

Lemma DiceRule_of_total i : (i < 12)%nat → ∃ r, DiceRule_of i = Ok r.
Proof.
  intros Hi. unfold DiceRule_of.
  destruct (all_rules !! i) as [r|] eqn:Hr; [by eauto|].
  apply lookup_ge_None in Hr. simpl in Hr. lia.
Qed.

Lemma unused_index_rule g i :
  regular_position g → i ∈ unused_indices (Y1650.my_state g) →
  ∃ r, DiceRule_of i = Ok r.
Proof.
  intros [Hboard _] Hi. apply DiceRule_of_total.
  apply elem_of_unused_indices, lookup_lt_Some in Hi. lia.
Qed.

Lemma cleanup_low_total g threshold :
  regular_position g → cache_fresh g →
  ∃ r, Y1650.cleanup_low g (unused_indices (Y1650.my_state g)) threshold = Ok r
       ∧ ∀ put, r = Some put →
                (length (put_dice put) ≤ 5)%nat ∧ small_dice (put_dice put).
Proof.
  intros Hreg Hfresh. unfold Y1650.cleanup_low.
  apply first_return_total. intros low _.
  destruct (threshold <=? _); [|by exists None].
  destruct (bool_decide _) eqn:Hopen; [|by exists None].
  apply bool_decide_eq_true in Hopen.
  destruct (unused_index_rule g _ Hreg Hopen) as (rule & ->).
  cbn [mbind Res_bind].
  destruct (find_optimal_good g rule Hreg Hfresh) as ([dice score] & -> & Hgood).
  cbn [mbind Res_bind]. eexists. split; [reflexivity|].
  intros put [= <-]. destruct Hgood as (? & ? & _). done.
Qed.

Lemma consider_priority_rule_total g best priority_rule :
  regular_position g → cache_fresh g → best_good best →
  ∃ best', Y1650.consider_priority_rule g (unused_indices (Y1650.my_state g))
             best priority_rule = Ok best'
           ∧ best_good best'.
Proof.
  intros Hreg Hfresh Hbest. unfold Y1650.consider_priority_rule.
  destruct best as [best_put best_score].
  destruct (bool_decide _) eqn:Hopen; [|by eauto].
  apply bool_decide_eq_true in Hopen.
  destruct (unused_index_rule g _ Hreg Hopen) as (rule & ->).
  cbn [mbind Res_bind].
  destruct (find_optimal_good g rule Hreg Hfresh) as ([dice score] & -> & Hgood).
  cbn [mbind Res_bind].
  assert (Hnew : best_good (Some (rule, dice), score)).
  { intros r d [= <- <-]. destruct Hgood as (? & ? & _). done. }
  destruct (Y1650.should_use_rule_strategically _ _ _); [|by eauto].
  destruct (_ && _).
  - destruct best_put as [[best_rule best_dice]|]; [|by eauto].
    destruct (_ || _); by eauto.
  - destruct (_ <? _); by eauto.
Qed.

Lemma consider_any_rule_total g best rule_index :
  regular_position g → cache_fresh g →
  rule_index ∈ unused_indices (Y1650.my_state g) → best_good best →
  ∃ best', Y1650.consider_any_rule g best rule_index = Ok best' ∧ best_good best'.
Proof.
  intros Hreg Hfresh Hopen Hbest. unfold Y1650.consider_any_rule.
  destruct best as [best_put best_score].
  destruct (unused_index_rule g _ Hreg Hopen) as (rule & ->).
  cbn [mbind Res_bind].
  destruct (find_optimal_good g rule Hreg Hfresh) as ([dice score] & -> & Hgood).
  cbn [mbind Res_bind].
  destruct (_ <? _); [|by eauto].
  eexists. split; [reflexivity|].
  intros r d [= <- <-]. destruct Hgood as (? & ? & _). done.
Qed.

Lemma priority_loop_closed_board g best :
  for_each (Y1650.consider_priority_rule g []) best Y1650.priority_rules = Ok best.
Proof. by destruct best. Qed.

Lemma calculate_put_regular (g : Y1650.Game) :
  regular_position g →
  (unused_indices (Y1650.my_state g) ≠ [] →
   ∃ put, Y1650.calculate_put g = Ok put
          ∧ (length (put_dice put) ≤ 5)%nat
          ∧ small_dice (put_dice put))
  ∧ (unused_indices (Y1650.my_state g) = [] →
     Y1650.calculate_put g = Raise IndexError).
Proof.
  intros Hreg0. destruct (cache_sorted_regular g Hreg0) as [Hreg Hfresh].
  pose proof Hreg as [Hboard Hpool].
  unfold Y1650.calculate_put. cbv zeta.
  set (g' := Y1650.cache_sorted g) in *.
  destruct (is_unused_total (Y1650.my_state g') LARGE_STRAIGHT Hboard) as (b1 & ->).
  destruct (is_unused_total (Y1650.my_state g') SMALL_STRAIGHT Hboard) as (b2 & ->).
  cbn [mbind Res_bind fmap Res_fmap].
  assert (Hhigh : ∃ high,
            (if Y1650.my_yacht_completed g'
             then if negb b1 : bool then Ok (negb b2) else Ok false
             else Ok false) = Ok high).
  { destruct (Y1650.my_yacht_completed g'); [|by eauto].
    destruct (negb b1); by eauto. }
  destruct Hhigh as (high & ->). cbn [mbind Res_bind].
  split.
  - intros Hopen.
    assert (Hearly : ∃ early,
              (if high
               then Y1650.cleanup_low g' (unused_indices (Y1650.my_state g')) 3
               else if Y1650.my_yacht_completed g'
                    then Y1650.cleanup_low g' (unused_indices (Y1650.my_state g')) 4
                    else Ok None) = Ok early
              ∧ ∀ put, early = Some put →
                       (length (put_dice put) ≤ 5)%nat ∧ small_dice (put_dice put)).
    { destruct high; [by apply cleanup_low_total|].
      destruct (Y1650.my_yacht_completed g'); [by apply cleanup_low_total|].
      by exists None. }
    destruct Hearly as (early & -> & Hearly). cbn [mbind Res_bind].
    destruct early as [put|]; [exists put; split; [done|]; by apply Hearly|].
    destruct (for_each_total best_good
                (Y1650.consider_priority_rule g' (unused_indices (Y1650.my_state g')))
                Y1650.priority_rules (None, -1)) as (best & -> & Hbest).
    { by intros r d. }
    { intros s a _ Hs. by apply consider_priority_rule_total. }
    cbn [mbind Res_bind].
    assert (Hlast : ∀ best2 : Y1650.Best,
              best_good best2 →
              ∃ put,
                match best2.1 with
                | Some (best_rule, best_dice) => Ok (mkDicePut best_rule best_dice)
                | None =>
                    first ← at_pos (unused_indices (Y1650.my_state g')) 0;
                    best_rule ← DiceRule_of first;
                    Ok (mkDicePut best_rule
                          (if (5 <=? length (dice (Y1650.my_state g')))%nat
                           then take 5 (dice (Y1650.my_state g'))
                           else replicate 5 0))
                end = Ok put
                ∧ (length (put_dice put) ≤ 5)%nat ∧ small_dice (put_dice put)).
    { intros best2 Hbest2.
      destruct best2.1 as [[best_rule best_dice]|] eqn:Hchosen.
      - eexists. split; [reflexivity|]. by apply (Hbest2 best_rule).
      - change (Y1650.my_state g') with (Y1650.my_state g) in *.
        destruct (unused_indices (Y1650.my_state g)) as [|first rest] eqn:Hunused;
          [done|].
        assert (Hfirst : first ∈ unused_indices (Y1650.my_state g))
          by (rewrite Hunused; left).
        destruct (unused_index_rule g first Hreg0 Hfirst) as (rule & Hrule).
        cbn [at_pos lookup list_lookup mbind Res_bind]. rewrite Hrule.
        cbn [mbind Res_bind]. eexists. split; [reflexivity|]. cbn [put_dice].
        destruct (5 <=? _)%nat.
        + split; [rewrite length_take; lia | by apply Forall_take].
        + split; [done | by apply small_dice_replicate]. }
    destruct best.1 as [chosen|] eqn:Hchosen.
    + cbn [mbind Res_bind]. by apply Hlast.
    + destruct (for_each_total best_good (Y1650.consider_any_rule g')
                  (unused_indices (Y1650.my_state g')) best Hbest)
        as (best2 & -> & Hbest2).
      { intros s a Ha Hs. by apply consider_any_rule_total. }
      cbn [mbind Res_bind]. by apply Hlast.
  - intros Hclosed.
    change (Y1650.my_state g') with (Y1650.my_state g). rewrite Hclosed.
    assert (Hearly : (if high then Y1650.cleanup_low g' [] 3
                      else if Y1650.my_yacht_completed g'
                           then Y1650.cleanup_low g' [] 4 else Ok None)
                     = Ok None).
    { unfold Y1650.cleanup_low. cbn [first_return].
      destruct high; [|destruct (Y1650.my_yacht_completed g'); [|done]];
        repeat (destruct (_ <=? _); cbn [bool_decide decide_rel mbind Res_bind]);
        reflexivity. }
    rewrite Hearly. cbn [mbind Res_bind].
    rewrite priority_loop_closed_board. reflexivity.
Qed.

(** X13.  [calculate_put] of [1650.py] on a board of twelve entries and
    a pool of dice 0..6: while a category is open it returns a put and
    never raises, and the put has at most five dice, each 0..6; once
    every category is filled it raises [IndexError]
    ([unused_rules[0]] of an empty list). *)
Theorem X13_calculate_put_returns (g : Y1650.Game) :
  regular_position g →
  (unused_indices (Y1650.my_state g) ≠ [] →
   ∃ put, Y1650.calculate_put g = Ok put
          ∧ (length (put_dice put) ≤ 5)%nat
          ∧ small_dice (put_dice put))
  ∧ (unused_indices (Y1650.my_state g) = [] →
     Y1650.calculate_put g = Raise IndexError).
Proof. apply calculate_put_regular. Qed.

Lemma X13_calculate_put_returns_witness :
  ∃ put, Y1650.calculate_put (partial_straight_game 0 0 0) = Ok put
         ∧ (length (put_dice put) ≤ 5)%nat
         ∧ small_dice (put_dice put).
Proof.
  refine (proj1 (X13_calculate_put_returns (partial_straight_game 0 0 0) _) _).
  - split; [reflexivity|]. unfold small_dice. simpl. repeat constructor; lia.
  - discriminate.
Defined.

(** ** The helpers of [1650.py] that choose a group *)

Lemma face_cases (m : Z) :
  1 ≤ m ≤ 6 → m = 1 ∨ m = 2 ∨ m = 3 ∨ m = 4 ∨ m = 5 ∨ m = 6.
Proof. lia. Qed.

(** X14.  [get_my_max_duplicate_number] of [1650.py], for a pool of dice
    0..6: it returns the face 1..6 that the pool holds most often with
    the number of its copies, the smallest such face on a tie, and
    nothing exactly when the pool holds no face 1..6. *)
Theorem X14_most_frequent_face (g : Y1650.Game) :
  small_dice (dice (Y1650.my_state g)) →
  ∃ r, Y1650.get_my_max_duplicate_number g = Ok r
       ∧ (r = None ↔ ∀ n, 1 ≤ n ≤ 6 → count n (dice (Y1650.my_state g)) = 0)
       ∧ ∀ n c, r = Some (n, c) →
           1 ≤ n ≤ 6 ∧ c = count n (dice (Y1650.my_state g)) ∧ 0 < c
           ∧ (∀ m, 1 ≤ m ≤ 6 → count m (dice (Y1650.my_state g)) ≤ c)
           ∧ (∀ m, 1 ≤ m < n → count m (dice (Y1650.my_state g)) < c).
Proof.
  intros Hsmall. unfold Y1650.get_my_max_duplicate_number. cbv zeta.
  set (pool := dice (Y1650.my_state g)) in *.
  destruct pool as [|d pool'] eqn:Hpool.
  { exists None. split; [done|]. split; [|done]. split; [by intros _ n _ | done]. }
  rewrite <- Hpool in *. clear Hpool d pool'.
  destruct (count_array_counts pool Hsmall) as (counts & -> & Hat).
  cbn [mbind Res_bind]. rewrite range_1_7. cbn [for_each].
  pose proof (count_nonneg 1 pool). pose proof (count_nonneg 2 pool).
  pose proof (count_nonneg 3 pool). pose proof (count_nonneg 4 pool).
  pose proof (count_nonneg 5 pool). pose proof (count_nonneg 6 pool).
  rewrite (Hat 1) by lia. cbn [mbind Res_bind].
  destruct (0 <? count 1 pool) eqn:E1;
    rewrite (Hat 2) by lia; cbn [mbind Res_bind];
    destruct (_ <? count 2 pool) eqn:E2;
    rewrite (Hat 3) by lia; cbn [mbind Res_bind];
    destruct (_ <? count 3 pool) eqn:E3;
    rewrite (Hat 4) by lia; cbn [mbind Res_bind];
    destruct (_ <? count 4 pool) eqn:E4;
    rewrite (Hat 5) by lia; cbn [mbind Res_bind];
    destruct (_ <? count 5 pool) eqn:E5;
    rewrite (Hat 6) by lia; cbn [mbind Res_bind];
    destruct (_ <? count 6 pool) eqn:E6;
    cbn [mbind Res_bind];
    rewrite ?Z.ltb_lt, ?Z.ltb_ge in E1, E2, E3, E4, E5, E6;
    (eexists; split; [reflexivity|]);
    match goal with
    | |- context [if ?c then _ else _] => destruct c eqn:E
    end;
    rewrite ?Z.ltb_lt, ?Z.ltb_ge in E; try lia;
    (split;
     [split; [try discriminate; intros _ m Hm;
              destruct (face_cases m Hm) as [-> | [-> | [-> | [-> | [-> | ->]]]]]; lia
             | try reflexivity; intros Hzero;
               pose proof (Hzero 1 ltac:(lia)); pose proof (Hzero 2 ltac:(lia));
               pose proof (Hzero 3 ltac:(lia)); pose proof (Hzero 4 ltac:(lia));
               pose proof (Hzero 5 ltac:(lia)); pose proof (Hzero 6 ltac:(lia)); lia]
     | intros n c [= <- <-];
       repeat split; try lia;
       intros m Hm;
       (destruct (face_cases m ltac:(lia)) as [-> | [-> | [-> | [-> | [-> | ->]]]]];
        lia)]).
Qed.

Lemma X14_most_frequent_face_witness :
  ∃ r, Y1650.get_my_max_duplicate_number (partial_straight_game 0 0 0) = Ok r
       ∧ r = Some (1, 2).
Proof.
  destruct (X14_most_frequent_face (partial_straight_game 0 0 0)) as (r & Hr & _).
  - unfold small_dice. simpl. repeat constructor; lia.
  - exists r. split; [exact Hr|]. vm_compute in Hr. by injection Hr as <-.
Defined.

Lemma DiceRule_of_value_inv r : DiceRule_of (value r) = Ok r.
Proof. by destruct r. Qed.

Lemma potential_loop d l :
  small_dice d → (∀ i, i ∈ l → (i < 12)%nat) →
  ∀ acc,
    ∃ v,
      for_each (λ max_score rule_index,
                  rule ← DiceRule_of rule_index;
                  score ← Y1650.calculate_rule_potential_score d rule;
                  Ok (max_score `max` score)) acc l = Ok v
      ∧ acc ≤ v
      ∧ (∀ r, value r ∈ l → Y1650.calculate_score (mkDicePut r d) ≤ v)
      ∧ (v = acc ∨ ∃ r, value r ∈ l ∧ Y1650.calculate_score (mkDicePut r d) = v).
Proof.
  intros Hd. induction l as [|i l IH]; intros Hl acc.
  - exists acc. split; [done|]. split; [lia|]. split; [|by left].
    intros r Hr. by apply elem_of_nil in Hr.
  - cbn [for_each].
    destruct (DiceRule_of_total i) as (rule & Hrule); [apply Hl; left|].
    rewrite Hrule. cbn [mbind Res_bind].
    rewrite (potential_small_dice rule d Hd). cbn [mbind Res_bind].
    pose proof (DiceRule_of_value _ _ Hrule) as Hvalue.
    destruct (IH (λ j Hj, Hl j (list_elem_of_further _ _ _ Hj))
                 (acc `max` Y1650.calculate_score (mkDicePut rule d)))
      as (v & -> & Hacc & Hupper & Hattained).
    exists v. split; [done|]. split; [lia|]. split.
    + intros r Hr. apply elem_of_cons in Hr as [Hr|Hr]; [|by apply Hupper].
      assert (r = rule) as ->.
      { rewrite <- Hvalue in Hr.
        pose proof (DiceRule_of_value_inv r) as H1.
        pose proof (DiceRule_of_value_inv rule) as H2.
        rewrite Hr in H1. congruence. }
      lia.
    + destruct Hattained as [-> | (r & Hr & Hv)].
      * destruct (Z.max_spec acc (Y1650.calculate_score (mkDicePut rule d)))
          as [[_ ->] | [_ ->]]; [|by left].
        right. exists rule. split; [rewrite Hvalue; left | done].
      * right. exists r. split; [by right | done].
Qed.

(** X15.  [calculate_potential_score] of [Game] in [1650.py], on a board
    of twelve entries and dice 0..6: it returns the best score that
    [calculate_score] gives to the dice over the open categories, 0 when
    no open category scores; and
    [select_group_by_remaining_combinations] answers "A" as soon as some
    open category scores more on group A than every open category
    scores on group B. *)
Theorem X15_potential_of_a_group (g : Y1650.Game) (dice_a dice_b : list Z) :
  regular_position g → small_dice dice_a → small_dice dice_b →
  let open r := rule_score (Y1650.my_state g) !! value r = Some None in
  (∃ v, Y1650.calculate_potential_score dice_a (unused_indices (Y1650.my_state g))
        = Ok v
        ∧ 0 ≤ v
        ∧ (∀ r, open r → Y1650.calculate_score (mkDicePut r dice_a) ≤ v)
        ∧ (v = 0 ∨ ∃ r, open r ∧ Y1650.calculate_score (mkDicePut r dice_a) = v))
  ∧ ((∃ r, open r
           ∧ 0 < Y1650.calculate_score (mkDicePut r dice_a)
           ∧ ∀ r', open r' → Y1650.calculate_score (mkDicePut r' dice_b)
                             < Y1650.calculate_score (mkDicePut r dice_a)) →
     Y1650.select_group_by_remaining_combinations g dice_a dice_b = Ok "A").
Proof.
  intros Hreg Ha Hb open.
  assert (Hindex : ∀ i, i ∈ unused_indices (Y1650.my_state g) → (i < 12)%nat).
  { intros i Hi. destruct Hreg as [Hboard _].
    apply elem_of_unused_indices, lookup_lt_Some in Hi. lia. }
  assert (Hpot : ∀ d, small_dice d →
            ∃ v, Y1650.calculate_potential_score d (unused_indices (Y1650.my_state g))
                 = Ok v
                 ∧ 0 ≤ v
                 ∧ (∀ r, open r → Y1650.calculate_score (mkDicePut r d) ≤ v)
                 ∧ (v = 0 ∨ ∃ r, open r ∧ Y1650.calculate_score (mkDicePut r d) = v)).
  { intros d Hd.
    destruct (potential_loop d _ Hd Hindex 0) as (v & Hrun & Hnonneg & Hupper & Hatt).
    exists v. split; [exact Hrun|]. split; [exact Hnonneg|]. split.
    - intros r Hr. apply Hupper. by apply elem_of_unused_indices.
    - destruct Hatt as [-> | (r & Hr & Hv)]; [by left|].
      right. exists r. split; [by apply elem_of_unused_indices | done]. }
  split; [by apply Hpot|].
  intros (r & Hr & Hpos & Hbetter).
  unfold Y1650.select_group_by_remaining_combinations. cbv zeta.
  destruct (Hpot dice_a Ha) as (va & -> & _ & Hupper_a & _).
  destruct (Hpot dice_b Hb) as (vb & -> & _ & _ & Hatt_b).
  cbn [mbind Res_bind].
  specialize (Hupper_a r Hr).
  assert (vb < va) as Hlt.
  { destruct Hatt_b as [-> | (r' & Hr' & <-)]; [lia|].
    specialize (Hbetter r' Hr'). lia. }
  apply Z.ltb_lt in Hlt. by rewrite Hlt.
Qed.

Lemma X15_potential_of_a_group_witness :
  Y1650.select_group_by_remaining_combinations (partial_straight_game 0 0 0)
    [6; 6; 6; 6; 6] [1; 1; 1; 1; 2] = Ok "A".
Proof.
  refine (proj2 (X15_potential_of_a_group (partial_straight_game 0 0 0)
                   [6; 6; 6; 6; 6] [1; 1; 1; 1; 2] _ _ _) _).
  - split; [reflexivity|]. unfold small_dice. simpl. repeat constructor; lia.
  - unfold small_dice. repeat constructor; lia.
  - unfold small_dice. repeat constructor; lia.
  - exists YACHT. split; [reflexivity|]. split; [by vm_compute|].
    intros r' _. destruct r'; by vm_compute.
Defined.

(** X16.  [select_group_based_on_my_dice] of [1650.py], on a board of
    twelve entries and dice 0..6: it answers "A" or "B"; when the pool
    has a most frequent face, the group that holds more copies of that
    face is chosen; when the pool holds no face at all, the group with
    the larger sum is chosen, "B" on a tie. *)
Theorem X16_group_by_own_dice (g : Y1650.Game) (dice_a dice_b : list Z) :
  regular_position g → small_dice dice_a → small_dice dice_b →
  ∃ grp,
    Y1650.select_group_based_on_my_dice g dice_a dice_b = Ok grp
    ∧ (grp = "A" ∨ grp = "B")
    ∧ (∀ n c, Y1650.get_my_max_duplicate_number g = Ok (Some (n, c)) →
              (count n dice_b < count n dice_a → grp = "A")
              ∧ (count n dice_a < count n dice_b → grp = "B"))
    ∧ (Y1650.get_my_max_duplicate_number g = Ok None →
       grp = if py_sum dice_b <? py_sum dice_a then "A" else "B").
Proof.
  intros Hreg Ha Hb.
  assert (Hindex : ∀ i, i ∈ unused_indices (Y1650.my_state g) → (i < 12)%nat).
  { intros i Hi. destruct Hreg as [Hboard _].
    apply elem_of_unused_indices, lookup_lt_Some in Hi. lia. }
  assert (Hsum : ∀ s : string,
            s = (if py_sum dice_b <? py_sum dice_a then "A" else "B") →
            s = "A" ∨ s = "B").
  { intros s ->. destruct (_ <? _); tauto. }
  unfold Y1650.select_group_based_on_my_dice. cbv zeta.
  destruct (Y1650.get_my_max_duplicate_number g) as [info|e] eqn:Hinfo.
  2:{ exfalso.
      assert (Hsome : ∃ r, Y1650.get_my_max_duplicate_number g = Ok r).
      { unfold Y1650.get_my_max_duplicate_number. cbv zeta.
        destruct (dice (Y1650.my_state g)) as [|d pool'] eqn:Hpool; [by eauto|].
        rewrite <- Hpool.
        destruct (count_array_counts (dice (Y1650.my_state g)) (proj2 Hreg))
          as (counts & -> & Hat).
        cbn [mbind Res_bind].
        destruct (for_each_total (λ _, True)
                    (λ '(max_count, max_number) i,
                       c ← at_pos counts (Z.to_nat i);
                       Ok (if max_count <? c then (c, i)
                           else (max_count, max_number)))
                    (range 1 7) (0, 0) I) as ([mc mn] & -> & _); [|by eauto].
        intros [mc mn] i Hi _. apply elem_of_range_1_7 in Hi.
        rewrite (Hat i) by (unfold dice_value in Hi; lia).
        cbn [mbind Res_bind]. by eauto. }
      destruct Hsome as (r & Hr). congruence. }
  cbn [mbind Res_bind].
  destruct info as [[n c]|].
  - destruct (count n dice_b <? count n dice_a) eqn:Hab.
    { exists "A". split; [done|]. split; [by left|]. split; [|done].
      intros n' c' [= <- <-]. apply Z.ltb_lt in Hab. split; [done | lia]. }
    destruct (count n dice_a <? count n dice_b) eqn:Hba.
    { exists "B". split; [done|]. split; [by right|]. split; [|done].
      intros n' c' [= <- <-]. apply Z.ltb_lt in Hba. split; [lia | done]. }
    apply Z.ltb_ge in Hab, Hba.
    assert (Hrest : ∀ grp, grp = "A" ∨ grp = "B" →
              (grp = "A" ∨ grp = "B")
              ∧ (∀ n0 c0, Ok (Some (n, c)) = Ok (Some (n0, c0)) →
                          (count n0 dice_b < count n0 dice_a → grp = "A")
                          ∧ (count n0 dice_a < count n0 dice_b → grp = "B"))
              ∧ (@Ok (option (Z * Z)) (Some (n, c)) = Ok None →
                 grp = if py_sum dice_b <? py_sum dice_a then "A" else "B")).
    { intros grp Hgrp. split; [exact Hgrp|]. split; [|done].
      intros n' c' [= <- <-]. split; lia. }
    destruct (_ && _).
    + destruct (_ <=? 8).
      * eexists. split; [reflexivity|]. apply Hrest. by apply Hsum.
      * unfold Y1650.select_group_by_remaining_combinations. cbv zeta.
        destruct (potential_loop dice_a _ Ha Hindex 0) as (va & Hva & _).
        destruct (potential_loop dice_b _ Hb Hindex 0) as (vb & Hvb & _).
        unfold Y1650.calculate_potential_score. rewrite Hva, Hvb.
        cbn [mbind Res_bind]. eexists. split; [reflexivity|]. apply Hrest.
        destruct (vb <? va); [by left | by right].
    + eexists. split; [reflexivity|]. apply Hrest. by apply Hsum.
  - eexists. split; [reflexivity|]. split; [by apply Hsum|]. split; [done|].
    by intros _.
Qed.

Lemma X16_group_by_own_dice_witness :
  ∃ grp,
    Y1650.select_group_based_on_my_dice (partial_straight_game 0 0 0)
      [1; 1; 6; 6; 6] [1; 2; 2; 2; 2] = Ok grp
    ∧ grp = "A".
Proof.
  destruct (X16_group_by_own_dice (partial_straight_game 0 0 0)
              [1; 1; 6; 6; 6] [1; 2; 2; 2; 2]) as (grp & Hrun & _ & Hmode & _).
  - split; [reflexivity|]. unfold small_dice. simpl. repeat constructor; lia.
  - unfold small_dice. repeat constructor; lia.
  - unfold small_dice. repeat constructor; lia.
  - exists grp. split; [exact Hrun|].
    apply (Hmode 1 2); [reflexivity | by vm_compute].
Defined.

(** ** The short puts and the strategic filter of [1650.py] *)

Lemma head_open_positions (board : list (option Z)) :
  ∀ (h : nat → nat) i,
    (∀ a b, (a ≤ b)%nat → (h a ≤ h b)%nat) →
    head (omap (λ '(i, score), match score with None => Some i | Some _ => None end)
               (imap (λ i s, (h i, s)) board)) = Some i →
    ∀ j, j ∈ omap (λ '(i, score), match score with None => Some i | Some _ => None end)
                  (imap (λ i s, (h i, s)) board) →
         (i ≤ j)%nat.
Proof.
  induction board as [|s board IH]; intros h i Hmono Hhead j Hj; [done|].
  rewrite imap_cons in Hhead, Hj. destruct s as [v|].
  - apply (IH (h ∘ S) i); [|exact Hhead|exact Hj].
    intros a b Hab. apply Hmono. lia.
  - injection Hhead as <-.
    apply list_elem_of_omap in Hj as ([k s'] & Hin & Hk).
    destruct s'; [discriminate|]. injection Hk as <-.
    apply elem_of_cons in Hin as [[= ->]|Hin]; [done|].
    apply elem_of_lookup_imap in Hin as (k' & s' & [= -> _] & _).
    apply Hmono. lia.
Qed.

(** X17.  The two short puts of [1650.py], [calculate_simple_put] and
    [calculate_13th_round_put], on a board of twelve entries: they are
    the same function; the put has exactly five dice: the first five
    of the pool when it holds at least five, and five zeros when it
    holds fewer; while a category
    is open its rule is the open category of lowest index; once the
    board is full the rule is ONE and [update_put] rejects the put with
    the assertion error of [use_dice]. *)
Theorem X17_short_puts (g : Y1650.Game) :
  length (rule_score (Y1650.my_state g)) = 12%nat →
  Y1650.calculate_13th_round_put g = Y1650.calculate_simple_put g
  ∧ ∃ put,
      Y1650.calculate_simple_put g = Ok put
      ∧ length (put_dice put) = 5%nat
      ∧ ((5 ≤ length (dice (Y1650.my_state g)))%nat →
         put_dice put = take 5 (dice (Y1650.my_state g)))
      ∧ ((length (dice (Y1650.my_state g)) < 5)%nat →
         put_dice put = replicate 5 0)
      ∧ (unused_indices (Y1650.my_state g) ≠ [] →
         rule_score (Y1650.my_state g) !! value (put_rule put) = Some None
         ∧ ∀ r, rule_score (Y1650.my_state g) !! value r = Some None →
                (value (put_rule put) ≤ value r)%nat)
      ∧ (unused_indices (Y1650.my_state g) = [] →
         put_rule put = ONE
         ∧ Y1650.update_put g put = Raise (AssertionError "Rule already used")).
Proof.
  intros Hboard. split; [reflexivity|].
  unfold Y1650.calculate_simple_put. cbv zeta.
  set (chosen := if (5 <=? length _)%nat then _ else _).
  assert (Hchosen : length chosen = 5%nat).
  { subst chosen. destruct (5 <=? _)%nat eqn:Hlen; [|done].
    apply Nat.leb_le in Hlen. rewrite length_take. lia. }
  assert (Hfive : (5 ≤ length (dice (Y1650.my_state g)))%nat →
                  chosen = take 5 (dice (Y1650.my_state g))).
  { intros Hlen. subst chosen.
    by destruct (Nat.leb_spec 5 (length (dice (Y1650.my_state g)))); [|lia]. }
  assert (Hzeros : (length (dice (Y1650.my_state g)) < 5)%nat →
                   chosen = replicate 5 0).
  { intros Hlen. subst chosen.
    by destruct (Nat.leb_spec 5 (length (dice (Y1650.my_state g)))); [lia|]. }
  destruct (unused_indices (Y1650.my_state g)) as [|first rest] eqn:Hunused.
  - cbn [head default]. change (DiceRule_of 0) with (Ok ONE).
    cbn [mbind Res_bind]. eexists. split; [reflexivity|].
    split; [exact Hchosen|]. split; [exact Hfive|]. split; [exact Hzeros|].
    split; [done|]. intros _. split; [done|].
    unfold Y1650.update_put, Y1650.use_dice. cbn [put_rule value].
    destruct (rule_score (Y1650.my_state g) !! 0%nat) as [[v|]|] eqn:Hone.
    + reflexivity.
    + apply elem_of_unused_indices in Hone. rewrite Hunused in Hone.
      by apply elem_of_nil in Hone.
    + apply lookup_ge_None in Hone. lia.
  - change (default 0%nat (head (first :: rest))) with first.
    assert (Hfirst : first ∈ unused_indices (Y1650.my_state g))
      by (rewrite Hunused; left).
    pose proof Hfirst as Hopen. apply elem_of_unused_indices in Hopen.
    destruct (DiceRule_of_total first) as (rule & Hrule).
    { apply lookup_lt_Some in Hopen. lia. }
    rewrite Hrule. cbn [mbind Res_bind]. eexists. split; [reflexivity|].
    split; [exact Hchosen|]. split; [exact Hfive|]. split; [exact Hzeros|].
    split; [|done]. intros _. cbn [put_rule].
    rewrite (DiceRule_of_value _ _ Hrule). split; [exact Hopen|].
    intros r Hr. apply elem_of_unused_indices in Hr.
    apply (head_open_positions (rule_score (Y1650.my_state g)) id first);
      [done| |exact Hr].
    change (head (unused_indices (Y1650.my_state g)) = Some first).
    by rewrite Hunused.
Qed.

Lemma X17_short_puts_witness :
  ∃ put, Y1650.calculate_simple_put (partial_straight_game 0 0 0) = Ok put
         ∧ length (put_dice put) = 5%nat
         ∧ put_dice put = [1; 1; 2; 2; 3]
         ∧ value (put_rule put) = 3%nat.
Proof.
  destruct (X17_short_puts (partial_straight_game 0 0 0) eq_refl)
    as (_ & put & Hput & Hlen & Hfive & _ & Hopen & _).
  exists put. split; [exact Hput|]. split; [exact Hlen|].
  split; [exact (Hfive (le_n 5))|].
  assert (Hsome : unused_indices (Y1650.my_state (partial_straight_game 0 0 0)) ≠ [])
    by (vm_compute; discriminate).
  destruct (Hopen Hsome) as [Hrule Hleast].
  assert (Hle : (value (put_rule put) ≤ 3)%nat)
    by exact (Hleast FOUR eq_refl).
  destruct (put_rule put); simpl in Hrule, Hle |- *;
    first [reflexivity | discriminate Hrule | lia].
Defined.

(** X18.  The filter [should_use_rule_strategically] of [1650.py]: a
    positive score is accepted for YACHT, the two straights and
    FOUR_OF_A_KIND in every round and for every category from round 10
    on; a score of zero or less is accepted only for SMALL_STRAIGHT up
    to round 6 and for the six number categories from round 8 on. *)
Theorem X18_strategic_filter (g : Y1650.Game) (rule : DiceRule) (score : Z) :
  (0 < score →
   rule ∈ [YACHT; LARGE_STRAIGHT; SMALL_STRAIGHT; FOUR_OF_A_KIND]
   ∨ 10 ≤ Y1650.current_round g →
   Y1650.should_use_rule_strategically g rule score = true)
  ∧ (score ≤ 0 →
     (Y1650.should_use_rule_strategically g rule score = true
      ↔ (rule = SMALL_STRAIGHT ∧ Y1650.current_round g ≤ 6)
        ∨ (rule ∈ number_rules ∧ 8 ≤ Y1650.current_round g))).
Proof.
  unfold number_rules. split.
  - intros Hpos Hcase. unfold Y1650.should_use_rule_strategically.
    rewrite !elem_of_cons, elem_of_nil in Hcase.
    destruct rule;
      repeat match goal with
             | |- context [?a <? ?b] => destruct (Z.ltb_spec a b)
             | |- context [?a <=? ?b] => destruct (Z.leb_spec a b)
             end; cbn [andb]; try reflexivity;
      destruct Hcase as [[? | [? | [? | [? | []]]]] | ?];
      try discriminate; lia.
  - intros Hzero. unfold Y1650.should_use_rule_strategically.
    rewrite !elem_of_cons, elem_of_nil.
    destruct rule;
      repeat match goal with
             | |- context [?a <? ?b] => destruct (Z.ltb_spec a b)
             | |- context [?a <=? ?b] => destruct (Z.leb_spec a b)
             end; cbn [andb];
      (split;
       [intros Htrue; try discriminate; try lia;
        first [ left; split; [reflexivity | lia]
              | right; split; [tauto | lia] ]
       |intros [[? ?] | [[? | [? | [? | [? | [? | [? | []]]]]]] ?]];
        try discriminate; try reflexivity; lia]).
Qed.

Lemma X18_strategic_filter_witness :
  Y1650.should_use_rule_strategically round9_game CHOICE 3000 = false
  ∧ Y1650.should_use_rule_strategically (partial_straight_game 0 0 0)
      YACHT 50000 = true.
Proof.
  split; [reflexivity|].
  apply (proj1 (X18_strategic_filter (partial_straight_game 0 0 0) YACHT 50000));
    [lia|]. left. rewrite !elem_of_cons. tauto.
Defined.

(** ** The exhaustive search of [test2.py] *)

Lemma mapM_DiceRule_of l :
  (∀ i, i ∈ l → (i < 12)%nat) →
  ∃ rules, mapM DiceRule_of l = Ok rules ∧ value <$> rules = l.
Proof.
  induction l as [|i l IH]; intros Hl; [by exists []|].
  destruct (DiceRule_of_total i) as (r & Hr); [apply Hl; left|].
  destruct IH as (rules & Hrules & Hvalues).
  { intros j Hj. apply Hl. by right. }
  exists (r :: rules). split.
  - cbn [mapM]. rewrite Hr. cbn [mbind Res_bind]. rewrite Hrules. done.
  - rewrite fmap_cons, Hvalues. by rewrite (DiceRule_of_value _ _ Hr).
Qed.

Lemma get_unused_rules_total st :
  length (rule_score st) = 12%nat →
  ∃ rules, Test2.get_unused_rules st = Ok rules
           ∧ ∀ r, r ∈ rules ↔ rule_score st !! value r = Some None.
Proof.
  intros Hboard.
  destruct (mapM_DiceRule_of (unused_indices st)) as (rules & Hrules & Hvalues).
  { intros i Hi. apply elem_of_unused_indices, lookup_lt_Some in Hi. lia. }
  exists rules. split; [exact Hrules|]. intros r.
  rewrite <- elem_of_unused_indices, <- Hvalues. split.
  - intros Hr. by apply list_elem_of_fmap_2.
  - intros Hr. apply list_elem_of_fmap in Hr as (r' & Hv & Hr').
    assert (r = r') as ->; [|done].
    pose proof (DiceRule_of_value_inv r) as H1.
    pose proof (DiceRule_of_value_inv r') as H2.
    rewrite Hv in H1. congruence.
Qed.

Lemma max_play_spec rest :
  ∀ first,
    Test2.max_play first rest ∈ first :: rest
    ∧ ∀ p, p ∈ first :: rest →
           Test2.play_score p ≤ Test2.play_score (Test2.max_play first rest).
Proof.
  unfold Test2.max_play. induction rest as [|q rest IH]; intros first.
  - cbn [foldl]. split; [left|].
    intros p Hp. apply list_elem_of_singleton in Hp as ->. lia.
  - cbn [foldl].
    destruct (IH (if Test2.play_score first <? Test2.play_score q then q else first))
      as [Hin Hmax].
    split.
    + apply elem_of_cons in Hin as [Hin|Hin]; [|by do 2 right].
      rewrite Hin. destruct (_ <? _); [right; left | left].
    + intros p Hp.
      assert (Hstep : Test2.play_score first
                      ≤ Test2.play_score
                          (if Test2.play_score first <? Test2.play_score q
                           then q else first)
                      ∧ Test2.play_score q
                        ≤ Test2.play_score
                            (if Test2.play_score first <? Test2.play_score q
                             then q else first)).
      { destruct (Z.ltb_spec (Test2.play_score first) (Test2.play_score q)); lia. }
      pose proof (Hmax _ (list_elem_of_here _ _)) as Hhere.
      apply elem_of_cons in Hp as [-> | Hp]; [lia|].
      apply elem_of_cons in Hp as [-> | Hp]; [lia|].
      apply Hmax. by right.
Qed.

Lemma combinations_nonempty l r :
  (r ≤ length l)%nat → take r l ∈ combinations l r.
Proof.
  intros Hr. apply elem_of_combinations. split.
  - apply sublist_take.
  - rewrite length_take. lia.
Qed.

Lemma remove_sublist_Ok pool puts :
  puts `sublist_of` pool →
  ∃ rest, for_each (λ ds d, list_remove d ds) pool puts = Ok rest.
Proof.
  intros Hsub.
  destruct (for_each _ pool puts) as [rest|e] eqn:Hrun; [by eauto|].
  apply remove_all_Raise in Hrun as [_ Hnot].
  destruct Hnot. by apply sublist_submseteq.
Qed.

Lemma elem_of_possible_plays p pool rules :
  p ∈ possible_plays pool rules
  ↔ ∃ hand rule,
      hand ∈ combinations pool (length pool `min` 5)%nat ∧ rule ∈ rules
      ∧ p = Test2.mkPlay (Test2.calculate_score (mkDicePut rule hand)) rule hand.
Proof.
  unfold possible_plays. rewrite list_elem_of_bind. split.
  - intros (hand & Hp & Hhand). apply list_elem_of_bind in Hp as (rule & Hp & Hrule).
    apply list_elem_of_singleton in Hp. by exists hand, rule.
  - intros (hand & rule & Hhand & Hrule & ->). exists hand. split; [|done].
    apply list_elem_of_bind. exists rule. split; [left | done].
Qed.

Lemma play_score_exhaustive pool rules m :
  Forall (λ d, 0 ≤ d) pool →
  m ∈ possible_plays pool rules →
  (∀ p, p ∈ possible_plays pool rules → Test2.play_score p ≤ Test2.play_score m) →
  Test2.play_score m = exhaustive_maximum pool rules.
Proof.
  intros Hpool Hm Hmax. unfold exhaustive_maximum.
  apply Z.le_antisymm.
  - apply highest_upper, elem_of_hand_scores.
    apply elem_of_possible_plays in Hm as (hand & rule & Hhand & Hrule & ->).
    by exists hand, rule.
  - apply highest_least.
    + apply elem_of_possible_plays in Hm as (hand & rule & Hhand & Hrule & ->).
      cbn [Test2.play_score].
      destruct (score_test2_thousands (mkDicePut rule hand)) as (k & Hk & ->); [|lia].
      cbn [put_dice]. apply elem_of_combinations in Hhand as [Hsub _].
      rewrite Forall_forall in Hpool |- *. intros d Hd. apply Hpool.
      by eapply elem_of_sublist.
    + intros x Hx. apply elem_of_hand_scores in Hx as (hand & rule & Hhand & Hrule & ->).
      apply (Hmax (Test2.mkPlay _ rule hand)).
      apply elem_of_possible_plays. by exists hand, rule.
Qed.

Lemma first_such_impl {A} (P Q : A → Prop) x (l : list A) :
  (∀ y, P y ↔ Q y) → first_such P x l → first_such Q x l.
Proof.
  intros H (before & after & -> & Hx & Hbefore).
  exists before, after. split; [done|]. split; [by apply H|].
  intros y Hy HQ. apply (Hbefore y Hy). by apply H.
Qed.

Lemma head_filter_first {A} (P : A → Prop) `{!∀ x, Decision (P x)} (l : list A) y :
  head (filter P l) = Some y → first_such P y l.
Proof.
  induction l as [|x l IH]; [done|]. rewrite filter_cons.
  destruct (decide (P x)) as [Hx|Hx].
  - intros [= <-]. exists [], l. split; [done|]. split; [done|].
    intros z Hz. by apply elem_of_nil in Hz.
  - intros Hhead. destruct (IH Hhead) as (before & after & -> & Hy & Hbefore).
    exists (x :: before), after. split; [done|]. split; [done|].
    intros z Hz. apply elem_of_cons in Hz as [-> | Hz]; [done | by apply Hbefore].
Qed.

Lemma head_bind_first {A B} (f : A → list B) (l : list A) y :
  head (l ≫= f) = Some y →
  ∃ x, first_such (λ x, f x ≠ []) x l ∧ head (f x) = Some y.
Proof.
  induction l as [|x l IH]; [done|]. rewrite bind_cons, head_app.
  destruct (f x) as [|z zs] eqn:Hfx.
  - cbn [head]. intros Hhead.
    destruct (IH Hhead) as (x' & (before & after & -> & Hx' & Hbefore) & Hy).
    exists x'. split; [|done]. exists (x :: before), after.
    split; [done|]. split; [done|].
    intros w Hw. apply elem_of_cons in Hw as [-> | Hw]; [|by apply Hbefore].
    intros Hne. by apply Hne.
  - cbn [head]. intros [= <-]. exists x. split; [|by rewrite Hfx].
    exists [], l. split; [done|]. split; [by rewrite Hfx|].
    intros w Hw. by apply elem_of_nil in Hw.
Qed.

Lemma head_bind_None {A B} (f : A → list B) (l : list A) :
  head (l ≫= f) = None → ∀ x, x ∈ l → f x = [].
Proof.
  induction l as [|x l IH]; [by intros _ y ?%elem_of_nil|].
  rewrite bind_cons, head_app_None. intros [Hx Hl] y Hy.
  apply elem_of_cons in Hy as [-> | Hy]; [|by apply IH].
  by destruct (f x).
Qed.

(** [max] keeps the first of the plays of maximal score. *)
Lemma max_play_first rest :
  ∀ first, ∃ before after,
    first :: rest = before ++ Test2.max_play first rest :: after
    ∧ ∀ q, q ∈ before →
           Test2.play_score q < Test2.play_score (Test2.max_play first rest).
Proof.
  induction rest as [|q rest IH]; intros first.
  - exists [], []. split; [done|]. intros q Hq. by apply elem_of_nil in Hq.
  - change (Test2.max_play first (q :: rest))
      with (Test2.max_play
              (if Test2.play_score first <? Test2.play_score q then q else first)
              rest).
    destruct (Z.ltb_spec (Test2.play_score first) (Test2.play_score q)) as [Hlt|Hge].
    + destruct (IH q) as (before & after & Heq & Hbefore).
      destruct (max_play_spec rest q) as [_ Hmax].
      pose proof (Hmax q (list_elem_of_here _ _)) as Hq.
      exists (first :: before), after. split; [by rewrite Heq|].
      intros z Hz. apply elem_of_cons in Hz as [-> | Hz]; [lia | by apply Hbefore].
    + destruct (IH first) as (before & after & Heq & Hbefore).
      destruct before as [|x before].
      * injection Heq as Hfirst ->. exists [], (q :: after).
        split; [by rewrite <- Hfirst|]. intros z Hz. by apply elem_of_nil in Hz.
      * injection Heq as <- Hrest.
        exists (first :: q :: before), after.
        split; [cbn [app]; do 2 f_equal; exact Hrest|].
        pose proof (Hbefore first (list_elem_of_here _ _)) as Hfirst.
        intros z Hz. apply elem_of_cons in Hz as [-> | Hz]; [done|].
        apply elem_of_cons in Hz as [-> | Hz]; [lia|].
        apply Hbefore. by right.
Qed.

Lemma possible_plays_rule q pool rules :
  q ∈ possible_plays pool rules → Test2.play_rule q ∈ rules.
Proof.
  intros (hand & rule & _ & Hrule & ->)%elem_of_possible_plays. done.
Qed.

(** What [find_best_put] returns while a rule is open: with the
    sacrifice allowed, the best score below 10000 and a play of score 0
    under a rule of [sacrifice_priority], the first such play of the
    first such rule; the first play of maximal score otherwise. *)
Lemma find_best_put_exact st pool b rules :
  Test2.get_unused_rules st = Ok rules → rules ≠ [] →
  Forall (λ d, 0 ≤ d) pool →
  ∃ p, p ∈ possible_plays pool rules
       ∧ Test2.find_best_put st pool b
         = Ok (mkDicePut (Test2.play_rule p) (Test2.play_dice p))
       ∧ ((b = true ∧ exhaustive_maximum pool rules < 10000
           ∧ sacrificable (possible_plays pool rules)
           ∧ Test2.play_score p = 0
           ∧ first_such
               (λ r, ∃ q, q ∈ possible_plays pool rules
                          ∧ Test2.play_rule q = r ∧ Test2.play_score q = 0)
               (Test2.play_rule p) Test2.sacrifice_priority
           ∧ first_such
               (λ q, Test2.play_rule q = Test2.play_rule p
                     ∧ Test2.play_score q = 0)
               p (possible_plays pool rules))
          ∨ (¬ (b = true ∧ exhaustive_maximum pool rules < 10000
                ∧ sacrificable (possible_plays pool rules))
             ∧ Test2.play_score p = exhaustive_maximum pool rules
             ∧ first_such
                 (λ q, Test2.play_score q = exhaustive_maximum pool rules)
                 p (possible_plays pool rules))).
Proof.
  intros Hrules Hopen Hpool. unfold Test2.find_best_put. rewrite Hrules.
  cbn [mbind Res_bind]. destruct rules as [|first_rule rules']; [done|].
  cbv zeta.
  set (M := exhaustive_maximum pool (first_rule :: rules')).
  assert (Hlast : ∀ plays : list Test2.Play,
            plays = possible_plays pool (first_rule :: rules') →
            ∃ p, p ∈ plays
                 ∧ match plays with
                   | [] => Ok (mkDicePut first_rule (take 5 pool))
                   | p :: ps =>
                       match (if b && (Test2.play_score (Test2.max_play p ps) <? 10000)
                              then head (rule_to_sacrifice ← Test2.sacrifice_priority;
                                         if bool_decide (rule_to_sacrifice
                                                         ∈ first_rule :: rules')
                                         then filter (λ play,
                                                        Test2.play_rule play
                                                        = rule_to_sacrifice
                                                        ∧ Test2.play_score play = 0)
                                                     plays
                                         else [])
                              else None) with
                       | Some play =>
                           Ok (mkDicePut (Test2.play_rule play) (Test2.play_dice play))
                       | None =>
                           Ok (mkDicePut (Test2.play_rule (Test2.max_play p ps))
                                         (Test2.play_dice (Test2.max_play p ps)))
                       end
                   end = Ok (mkDicePut (Test2.play_rule p) (Test2.play_dice p))
                 ∧ ((b = true ∧ M < 10000 ∧ sacrificable plays
                     ∧ Test2.play_score p = 0
                     ∧ first_such
                         (λ r, ∃ q, q ∈ plays ∧ Test2.play_rule q = r
                                    ∧ Test2.play_score q = 0)
                         (Test2.play_rule p) Test2.sacrifice_priority
                     ∧ first_such
                         (λ q, Test2.play_rule q = Test2.play_rule p
                               ∧ Test2.play_score q = 0) p plays)
                    ∨ (¬ (b = true ∧ M < 10000 ∧ sacrificable plays)
                       ∧ Test2.play_score p = M
                       ∧ first_such (λ q, Test2.play_score q = M) p plays))).
  { intros plays Hplays. destruct plays as [|p ps].
    { exfalso.
      assert (Hin : Test2.mkPlay
                      (Test2.calculate_score
                         (mkDicePut first_rule (take (length pool `min` 5) pool)))
                      first_rule (take (length pool `min` 5) pool)
                    ∈ possible_plays pool (first_rule :: rules')).
      { apply elem_of_possible_plays. eexists _, _.
        split; [apply combinations_nonempty; lia|]. split; [left | done]. }
      rewrite <- Hplays in Hin. by apply elem_of_nil in Hin. }
    destruct (max_play_spec ps p) as [Hin Hmax].
    destruct (max_play_first ps p) as (mb & ma & Hsplit & Hbefore).
    set (m := Test2.max_play p ps) in *.
    assert (Hm : Test2.play_score m = M).
    { apply play_score_exhaustive; [exact Hpool| |]; by rewrite <- Hplays. }
    assert (Hfirst : first_such (λ q, Test2.play_score q = M) m (p :: ps)).
    { exists mb, ma. split; [exact Hsplit|]. split; [exact Hm|].
      intros q Hq. specialize (Hbefore q Hq). lia. }
    assert (Hfilter : ∀ r,
              (if bool_decide (r ∈ first_rule :: rules')
               then filter (λ play, Test2.play_rule play = r
                                    ∧ Test2.play_score play = 0) (p :: ps)
               else []) ≠ []
              ↔ ∃ q, q ∈ p :: ps ∧ Test2.play_rule q = r ∧ Test2.play_score q = 0).
    { intros r. split.
      - intros Hne. destruct (bool_decide _); [|done].
        destruct (filter _ _) as [|q qs] eqn:Hq; [done|].
        assert (Hin' : q ∈ filter (λ play, Test2.play_rule play = r
                                           ∧ Test2.play_score play = 0) (p :: ps))
          by (rewrite Hq; left).
        apply list_elem_of_filter in Hin' as [[Hr Hz] Hin']. by exists q.
      - intros (q & Hq & Hr & Hz).
        assert (Hopen' : r ∈ first_rule :: rules').
        { rewrite <- Hr. apply (possible_plays_rule q pool). by rewrite <- Hplays. }
        rewrite bool_decide_eq_true_2 by done.
        intros Hnil. by apply (filter_nil_not_elem_of _ _ q Hnil). }
    cbv iota.
    destruct (b && _) eqn:Hsacrifice.
    - apply andb_true_iff in Hsacrifice as [-> Hlow].
      apply Z.ltb_lt in Hlow.
      destruct (head _) as [play|] eqn:Hhead.
      + apply head_bind_first in Hhead as (r & Hr & Hhead).
        apply (first_such_impl _ _ _ _ Hfilter) in Hr.
        destruct (bool_decide _); [|done].
        apply head_filter_first in Hhead.
        pose proof Hhead as (pb & pa & Hpl & [Hrule Hzero] & Hpb).
        exists play. split; [rewrite Hpl; apply elem_of_app; right; left|].
        split; [done|]. left.
        split; [done|]. split; [lia|]. split.
        { exists play. split; [rewrite Hpl; apply elem_of_app; right; left|].
          split; [|done]. rewrite Hrule.
          destruct Hr as (rb & ra & Hpri & _ & _). rewrite Hpri.
          apply elem_of_app. right. left. }
        split; [done|]. rewrite Hrule. split; [exact Hr | exact Hhead].
      + exists m. split; [exact Hin|]. split; [done|]. right.
        split; [|split; [exact Hm | exact Hfirst]].
        intros (_ & _ & q & Hq & Hpri & Hz).
        pose proof (head_bind_None _ _ Hhead _ Hpri) as Hnil.
        apply (proj2 (Hfilter (Test2.play_rule q))); [|exact Hnil].
        by exists q.
    - exists m. split; [exact Hin|]. split; [done|]. right.
      split; [|split; [exact Hm | exact Hfirst]].
      intros (-> & Hlow & _). cbn [andb] in Hsacrifice.
      apply Z.ltb_ge in Hsacrifice. lia. }
  destruct (Hlast _ eq_refl) as (p & Hp & Hrun & Hscore).
  exists p. split; [exact Hp|]. split; [exact Hrun | exact Hscore].
Qed.

(** X19.  The SCORE step of [test2.py], on a board of twelve entries
    with an open category and a pool of dice that are not negative:
    [calculate_put] returns a put; its rule is an open category and its
    dice are a selection of min(5, pool size) dice of the pool, so
    [update_put] accepts it, although [use_dice] of this file raises on
    a die that the pool lacks.  The plays are listed selection by
    selection and, within a selection, by open rule.  When the
    exhaustive maximum over all selections and open rules is below
    10000 and some listed play scores 0 under a rule of
    [sacrifice_priority], the put scores 0: its rule is the first rule
    of [sacrifice_priority] with a listed play of score 0, and its dice
    are those of the first such play of that rule.  When the maximum is
    10000 or more, or no such play is listed, the put is the first
    listed play that scores the exhaustive maximum.  Without the
    sacrifice option [find_best_put] always returns the first listed
    play of maximal score. *)
Theorem X19_test2_put (g : Test2.Game) :
  let st := Test2.my_state g in
  length (rule_score st) = 12%nat →
  Forall (λ d, 0 ≤ d) (dice st) →
  unused_indices st ≠ [] →
  ∃ rules put g',
    Test2.get_unused_rules st = Ok rules
    ∧ Test2.calculate_put g = Ok put
    ∧ rule_score st !! value (put_rule put) = Some None
    ∧ put_dice put `sublist_of` dice st
    ∧ length (put_dice put) = (length (dice st) `min` 5)%nat
    ∧ Test2.update_put g put = Ok g'
    ∧ (Test2.calculate_score put = exhaustive_maximum (dice st) rules
       ∨ (Test2.calculate_score put = 0
          ∧ exhaustive_maximum (dice st) rules < 10000
          ∧ put_rule put ∈ Test2.sacrifice_priority))
    ∧ (exhaustive_maximum (dice st) rules < 10000 →
       sacrificable (possible_plays (dice st) rules) →
       Test2.calculate_score put = 0
       ∧ first_such
           (λ r, ∃ q, q ∈ possible_plays (dice st) rules
                      ∧ Test2.play_rule q = r ∧ Test2.play_score q = 0)
           (put_rule put) Test2.sacrifice_priority
       ∧ first_such
           (λ q, Test2.play_rule q = put_rule put ∧ Test2.play_score q = 0)
           (Test2.mkPlay (Test2.calculate_score put) (put_rule put) (put_dice put))
           (possible_plays (dice st) rules))
    ∧ (10000 ≤ exhaustive_maximum (dice st) rules
       ∨ ¬ sacrificable (possible_plays (dice st) rules) →
       Test2.calculate_score put = exhaustive_maximum (dice st) rules
       ∧ first_such
           (λ q, Test2.play_score q = exhaustive_maximum (dice st) rules)
           (Test2.mkPlay (Test2.calculate_score put) (put_rule put) (put_dice put))
           (possible_plays (dice st) rules))
    ∧ ∃ put', Test2.find_best_put st (dice st) false = Ok put'
              ∧ Test2.calculate_score put' = exhaustive_maximum (dice st) rules
              ∧ first_such
                  (λ q, Test2.play_score q = exhaustive_maximum (dice st) rules)
                  (Test2.mkPlay (Test2.calculate_score put') (put_rule put')
                     (put_dice put'))
                  (possible_plays (dice st) rules).
Proof.
  intros st Hboard Hpool Hopen.
  destruct (get_unused_rules_total st Hboard) as (rules & Hrules & Hmember).
  assert (Hne : rules ≠ []).
  { intros ->. destruct (unused_indices st) as [|i l] eqn:Hunused; [done|].
    assert (Hi : i ∈ unused_indices st) by (rewrite Hunused; left).
    pose proof Hi as Hlook. apply elem_of_unused_indices in Hlook.
    destruct (DiceRule_of_total i) as (r & Hr).
    { apply lookup_lt_Some in Hlook. lia. }
    rewrite <- (DiceRule_of_value _ _ Hr) in Hlook.
    apply Hmember in Hlook. by apply elem_of_nil in Hlook. }
  destruct (find_best_put_exact st (dice st) true rules Hrules Hne Hpool)
    as (p & Hp & Hrun & Hscore).
  destruct (find_best_put_exact st (dice st) false rules Hrules Hne Hpool)
    as (p' & Hp' & Hrun' & Hscore').
  apply elem_of_possible_plays in Hp as (hand & rule & Hhand & Hrule & ->).
  apply elem_of_possible_plays in Hp' as (hand' & rule' & Hhand' & Hrule' & ->).
  cbn [Test2.play_rule Test2.play_dice Test2.play_score] in *.
  apply elem_of_combinations in Hhand as [Hsub Hlen].
  apply Hmember in Hrule.
  destruct (remove_sublist_Ok _ _ Hsub) as (rest & Hrest).
  exists rules, (mkDicePut rule hand). eexists.
  split; [exact Hrules|]. split; [exact Hrun|]. split; [exact Hrule|].
  split; [exact Hsub|]. split; [exact Hlen|]. split.
  { unfold Test2.update_put, Test2.use_dice. cbn [put_rule put_dice].
    fold st. rewrite Hrule, Hrest. reflexivity. }
  cbn [put_rule put_dice].
  split; [|split; [|split]].
  - destruct Hscore as [(_ & Hlow & _ & Hzero & Hpri & _) | (_ & Hmax & _)];
      [right | by left].
    split; [exact Hzero|]. split; [exact Hlow|].
    destruct Hpri as (rb & ra & Heq & _ & _). rewrite Heq.
    apply elem_of_app. right. left.
  - intros Hlow Hsome.
    destruct Hscore as [(_ & _ & _ & Hzero & Hpri & Hplay) | (Hnot & _)].
    + split; [exact Hzero|]. split; [exact Hpri | exact Hplay].
    + destruct Hnot. done.
  - intros Hcase.
    destruct Hscore as [(_ & Hlow & Hsome & _) | (_ & Hmax & Hfirst)].
    + destruct Hcase as [Hhigh | Hnone]; [lia | done].
    + split; [exact Hmax | exact Hfirst].
  - exists (mkDicePut rule' hand'). split; [exact Hrun'|].
    cbn [put_rule put_dice].
    destruct Hscore' as [(Hfalse & _) | (_ & Hmax & Hfirst)]; [discriminate|].
    split; [exact Hmax | exact Hfirst].
Qed.

Lemma X19_test2_put_witness :
  ∃ put,
    Test2.calculate_put two_dice_game = Ok put
    ∧ Test2.calculate_score put = 0
    ∧ put_rule put ∈ Test2.sacrifice_priority.
Proof.
  assert (Hpool : Forall (λ d, 0 ≤ d) (dice (Test2.my_state two_dice_game))).
  { cbn [two_dice_game Test2.my_state dice].
    apply Forall_cons. split; [lia|]. apply Forall_cons. split; [lia|].
    apply Forall_nil_2. }
  assert (Hopen : unused_indices (Test2.my_state two_dice_game) ≠ [])
    by (vm_compute; discriminate).
  destruct (X19_test2_put two_dice_game eq_refl Hpool Hopen)
    as (rules & put & g' & Hrules & Hput & _ & _ & _ & _ & _ & Hsacrifice & _).
  assert (Hlist : rules = [ONE; TWO; THREE; FOUR; FIVE; SIX; CHOICE;
                           FOUR_OF_A_KIND; FULL_HOUSE; SMALL_STRAIGHT;
                           LARGE_STRAIGHT; YACHT]).
  { assert (Heq : Ok rules
                  = Ok [ONE; TWO; THREE; FOUR; FIVE; SIX; CHOICE;
                        FOUR_OF_A_KIND; FULL_HOUSE; SMALL_STRAIGHT;
                        LARGE_STRAIGHT; YACHT] :> Res (list DiceRule)).
    { rewrite <- Hrules. vm_compute. reflexivity. }
    injection Heq as ->. reflexivity. }
  subst rules.
  assert (Hlow : exhaustive_maximum (dice (Test2.my_state two_dice_game))
                   [ONE; TWO; THREE; FOUR; FIVE; SIX; CHOICE;
                    FOUR_OF_A_KIND; FULL_HOUSE; SMALL_STRAIGHT;
                    LARGE_STRAIGHT; YACHT] < 10000)
    by (vm_compute; reflexivity).
  assert (Hsome : sacrificable
                    (possible_plays (dice (Test2.my_state two_dice_game))
                       [ONE; TWO; THREE; FOUR; FIVE; SIX; CHOICE;
                        FOUR_OF_A_KIND; FULL_HOUSE; SMALL_STRAIGHT;
                        LARGE_STRAIGHT; YACHT])).
  { exists (Test2.mkPlay 0 YACHT [1; 2]).
    split; [|split; [left | reflexivity]].
    vm_compute. do 11 right. left. }
  destruct (Hsacrifice Hlow Hsome) as (Hzero & Hrule & _).
  exists put. split; [exact Hput|]. split; [exact Hzero|].
  destruct Hrule as (rb & ra & Heq & _ & _). rewrite Heq.
  apply elem_of_app. right. left.
Defined.

(** ** The put of the last turns in [main.py] *)

Lemma last_turn_argmax g l rule1 rule2 positions :
  ∀ hs acc b1 b2,
    mapM (MainPy.hands_at l) positions = Ok hs →
    Forall (λ hands, length hands.1 = 5%nat ∧ length hands.2 = 5%nat
                     ∧ Forall dice_value hands.1 ∧ Forall dice_value hands.2) hs →
    ∃ m b1' b2',
      for_each
        (λ '(max_score, best1, best2) positions,
           '(dice_for_rule1, dice_for_rule2) ← MainPy.hands_at l positions;
           score1 ← MainPy.calculate_rule_potential_score g dice_for_rule1 rule1;
           score2 ← MainPy.calculate_rule_potential_score g dice_for_rule2 rule2;
           let total_score := score1 + score2 in
           if max_score <? total_score
           then Ok (total_score, dice_for_rule1, dice_for_rule2)
           else Ok (max_score, best1, best2))
        (acc, b1, b2) positions = Ok (m, b1', b2')
      ∧ acc ≤ m
      ∧ (∀ h, h ∈ hs → split_value g rule1 rule2 h ≤ m)
      ∧ ((m = acc ∧ b1' = b1 ∧ b2' = b2)
         ∨ (acc < m ∧ (b1', b2') ∈ hs ∧ split_value g rule1 rule2 (b1', b2') = m)).
Proof.
  induction positions as [|p positions IH]; intros hs acc b1 b2 Hmap Hall.
  - injection Hmap as <-. exists acc, b1, b2. split; [done|]. split; [lia|].
    split; [|by left]. intros h Hh. by apply elem_of_nil in Hh.
  - apply mapM_cons_Ok in Hmap as ([h1 h2] & hs' & Hp & Hmap & ->).
    apply Forall_cons in Hall as [(Hl1 & Hl2 & Hv1 & Hv2) Hall].
    simpl in Hl1, Hl2, Hv1, Hv2.
    cbn [for_each]. rewrite Hp. cbn [mbind Res_bind].
    destruct (potential_total g h1 rule1 Hl1 Hv1) as (v1 & Hs1 & _).
    destruct (potential_total g h2 rule2 Hl2 Hv2) as (v2 & Hs2 & _).
    rewrite Hs1, Hs2. cbn [mbind Res_bind]. cbv zeta.
    assert (Hvalue : split_value g rule1 rule2 (h1, h2) = v1 + v2).
    { unfold split_value. cbn [fst snd]. by rewrite Hs1, Hs2. }
    destruct (Z.ltb_spec acc (v1 + v2)) as [Hlt|Hge]; cbn [mbind Res_bind].
    + destruct (IH hs' (v1 + v2) h1 h2 Hmap Hall)
        as (m & b1' & b2' & Hrun & Hacc & Hupper & Hcase).
      exists m, b1', b2'. split; [exact Hrun|]. split; [lia|]. split.
      * intros h Hh. apply elem_of_cons in Hh as [-> | Hh]; [lia | by apply Hupper].
      * right. destruct Hcase as [(-> & -> & ->) | (Hlt' & Hin & Hval)].
        -- split; [lia|]. split; [left | done].
        -- split; [lia|]. split; [by right | done].
    + destruct (IH hs' acc b1 b2 Hmap Hall)
        as (m & b1' & b2' & Hrun & Hacc & Hupper & Hcase).
      exists m, b1', b2'. split; [exact Hrun|]. split; [lia|]. split.
      * intros h Hh. apply elem_of_cons in Hh as [-> | Hh]; [lia | by apply Hupper].
      * destruct Hcase as [Hsame | (Hlt' & Hin & Hval)]; [by left|].
        right. split; [lia|]. split; [by right | done].
Qed.

(** X20.  The search at the head of [calculate_put] of [main.py] in the
    last turns (round 12 on, two categories left, ten dice of 1..6 in
    the pool) and the valuation
    [calculate_highest_possible_score_for_last_turn] of the same pool:
    when the valuation is 0 the search returns nothing and
    [calculate_put] goes on; when it is positive the search returns a
    put for the first of the two categories whose five dice are one
    half of a five/five split of the pool, and the two halves of this
    split score exactly the valuation. *)
Theorem X20_last_turn_put (g : Y1650.Game) (rule1 rule2 : DiceRule) :
  let pool := dice (Y1650.my_state g) in
  12 ≤ Y1650.current_round g →
  MainPy.remaining_rules (Y1650.my_state g) = Ok [rule1; rule2] →
  length pool = 10%nat →
  Forall dice_value pool →
  ∃ best r,
    MainPy.calculate_highest_possible_score_for_last_turn g [] = Ok best
    ∧ MainPy.last_turn_put g = Ok r
    ∧ 0 ≤ best
    ∧ (best = 0 → r = None)
    ∧ (0 < best →
       ∃ mask,
         five_of_ten mask
         ∧ r = Some (mkDicePut rule1 (split_by mask pool).1)
         ∧ split_value g rule1 rule2 (split_by mask pool) = best).
Proof.
  intros pool Hround Hrules Hlen Hall. subst pool.
  cbv zeta.
  pose proof (hands_of_ten_dice (dice (Y1650.my_state g)) Hlen) as Hmap.
  assert (Hhands : Forall (λ hands, length hands.1 = 5%nat ∧ length hands.2 = 5%nat
                                    ∧ Forall dice_value hands.1
                                    ∧ Forall dice_value hands.2)
                          (splits 5 (dice (Y1650.my_state g)))).
  { apply Forall_forall. intros hands Hin.
    apply splits_from_mask in Hin as (mask & Hm & Hk & <-).
    destruct (five_of_ten_hands mask (dice (Y1650.my_state g))) as (_ & ? & ? & ? & ?); try done.
    split; [lia | done]. }
  destruct (last_turn_argmax g (dice (Y1650.my_state g)) rule1 rule2 _ _ 0 [] []
              Hmap Hhands)
    as (m & b1 & b2 & Hrun & Hnonneg & Hupper & Hcase).
  assert (Hbest : highest (split_value g rule1 rule2
                           <$> splits 5 (dice (Y1650.my_state g))) = m).
  { apply Z.le_antisymm.
    - apply highest_least; [exact Hnonneg|]. intros x Hx.
      apply list_elem_of_fmap in Hx as (h & -> & Hh). by apply Hupper.
    - destruct Hcase as [(-> & _) | (_ & Hin & <-)]; [apply highest_nonneg|].
      apply highest_upper, list_elem_of_fmap. by eexists. }
  exists m, (match b1, b2 with
             | _ :: _, _ :: _ => Some (mkDicePut rule1 b1)
             | _, _ => None
             end).
  split; [|split; [|split; [exact Hnonneg|]]].
  - unfold MainPy.calculate_highest_possible_score_for_last_turn.
    rewrite Hrules. cbn [mbind Res_bind].
    rewrite app_nil_r. rewrite <- Hbest.
    exact (last_turn_loop g (dice (Y1650.my_state g)) rule1 rule2 _ _ 0
             Hmap Hhands).
  - unfold MainPy.last_turn_put.
    destruct (Z.leb_spec 12 (Y1650.current_round g)); [|lia].
    rewrite Hrules. cbn [mbind Res_bind]. cbv zeta. cbv zeta in Hrun.
    rewrite Hrun. cbn [mbind Res_bind]. by destruct b1, b2.
  - split.
    { intros Hzero. destruct Hcase as [(_ & -> & ->) | (Hlt & _)]; [done | lia]. }
    intros Hpos. destruct Hcase as [(-> & _) | (Hlt & Hin & Hval)]; [lia|].
    apply splits_from_mask in Hin as (mask & Hm & Hk & Hsplit).
    assert (Hmask : five_of_ten mask) by (split; [lia | done]).
    destruct (five_of_ten_hands mask (dice (Y1650.my_state g)) Hmask Hlen Hall)
      as (_ & Hl1 & Hl2 & _).
    rewrite Hsplit in Hl1, Hl2. cbn [fst snd] in Hl1, Hl2.
    exists mask. split; [exact Hmask|]. rewrite Hsplit. split; [|exact Hval].
    cbn [fst]. destruct b1 as [|x1 b1]; [done|]. by destruct b2 as [|x2 b2].
Qed.

Lemma X20_last_turn_put_witness :
  ∃ best r,
    MainPy.calculate_highest_possible_score_for_last_turn last_turn_game [] = Ok best
    ∧ MainPy.last_turn_put last_turn_game = Ok r.
Proof.
  assert (Hall : Forall dice_value [1; 1; 1; 1; 1; 6; 6; 6; 6; 6]).
  { repeat constructor; unfold dice_value; lia. }
  assert (Hround : 12 ≤ Y1650.current_round last_turn_game).
  { cbn [Y1650.current_round last_turn_game]. lia. }
  destruct (X20_last_turn_put last_turn_game ONE FULL_HOUSE
              Hround eq_refl eq_refl Hall)
    as (best & r & Hbest & Hput & _).
  exists best, r. split; [exact Hbest | exact Hput].
Defined.

(** ** The bid of [test2.py] *)

Lemma py_sum_bound l :
  Forall dice_value l → 0 ≤ py_sum l ≤ 6 * Z.of_nat (length l).
Proof.
  unfold dice_value. induction 1 as [|x l Hx _ IH]; [simpl; lia|].
  rewrite py_sum_cons. cbn [length]. lia.
Qed.

Lemma score_test2_bound rule hand :
  (length hand ≤ 5)%nat → Forall dice_value hand →
  0 ≤ Test2.calculate_score (mkDicePut rule hand) ≤ 50000.
Proof.
  intros Hlen Hall. pose proof (py_sum_bound hand Hall) as Hsum.
  assert (Hcount : ∀ i, 0 ≤ count i hand ≤ 5).
  { intros i. pose proof (count_nonneg i hand). pose proof (count_le_length i hand).
    lia. }
  unfold Test2.calculate_score. cbn [put_rule put_dice]. cbv zeta.
  pose proof (Hcount 1). pose proof (Hcount 2). pose proof (Hcount 3).
  pose proof (Hcount 4). pose proof (Hcount 5). pose proof (Hcount 6).
  destruct rule; try lia;
    match goal with |- context [if ?c then _ else _] => destruct c end; lia.
Qed.

Lemma potential_test2_bound budget picks pool rules :
  Forall dice_value pool →
  0 ≤ Test2.potential_score_within budget picks pool rules ≤ 50000.
Proof.
  intros Hpool. rewrite potential_score_within_highest. cbv zeta.
  split; [apply highest_nonneg|].
  apply highest_least; [lia|]. intros x Hx.
  apply elem_of_hand_scores in Hx as (hand & rule & Hhand & _ & ->).
  assert (Hin : hand ∈ combinations pool (length pool `min` 5)%nat).
  { destruct (decide _); [by eapply random_sample_subset | done]. }
  apply elem_of_combinations in Hin as [Hsub Hlen].
  apply score_test2_bound; [lia|].
  rewrite Forall_forall in Hpool |- *. intros d Hd. apply Hpool.
  by eapply elem_of_sublist.
Qed.

(** X21.  [calculate_bid] of [test2.py], on boards of twelve entries and
    with dice 1..6: whatever positions the sampling draws, it returns a
    bid for group "A" or "B" whose amount is between 0 and 25000; the
    clamp at 100000 is never reached, because no potential score
    exceeds 50000 and at most half of the difference is bid. *)
Theorem X21_test2_bid_range (draws : Test2.BidDraws) (g : Test2.Game)
    (dice_a dice_b : list Z) :
  length (rule_score (Test2.my_state g)) = 12%nat →
  length (rule_score (Test2.opp_state g)) = 12%nat →
  Forall dice_value (dice (Test2.my_state g) ++ dice_a) →
  Forall dice_value (dice (Test2.my_state g) ++ dice_b) →
  ∃ bid,
    Test2.calculate_bid draws g dice_a dice_b = Ok bid
    ∧ (group bid = "A" ∨ group bid = "B")
    ∧ 0 ≤ amount bid ≤ 25000.
Proof.
  intros Hmy Hopp Ha Hb. unfold Test2.calculate_bid. cbv zeta.
  destruct (get_unused_rules_total _ Hmy) as (my_rules & -> & _).
  destruct (get_unused_rules_total _ Hopp) as (opp_rules & -> & _).
  cbn [mbind Res_bind]. unfold Test2.calculate_potential_score.
  pose proof (potential_test2_bound 300 (Test2.draw_my_A draws) _ my_rules Ha) as HA.
  pose proof (potential_test2_bound 300 (Test2.draw_my_B draws) _ my_rules Hb) as HB.
  set (pa := Test2.potential_score_within 300 (Test2.draw_my_A draws) _ _) in *.
  set (pb := Test2.potential_score_within 300 (Test2.draw_my_B draws) _ _) in *.
  eexists. split; [reflexivity|]. cbn [group amount]. split.
  { destruct (pb <? pa); [by left | by right]. }
  assert (Hgain : 0 ≤ Z.abs (pa - pb) ≤ 50000) by lia.
  pose proof (Z.div_pos (Z.abs (pa - pb)) 2 ltac:(lia) ltac:(lia)).
  pose proof (Z.div_pos (Z.abs (pa - pb)) 4 ltac:(lia) ltac:(lia)).
  pose proof (Z.div_pos (Z.abs (pa - pb)) 8 ltac:(lia) ltac:(lia)).
  assert (Z.abs (pa - pb) `div` 2 ≤ 25000)
    by (apply Z.div_le_upper_bound; lia).
  assert (Z.abs (pa - pb) `div` 4 ≤ 25000)
    by (apply Z.div_le_upper_bound; lia).
  assert (Z.abs (pa - pb) `div` 8 ≤ 25000)
    by (apply Z.div_le_upper_bound; lia).
  destruct (String.eqb _ _); [|lia].
  destruct (_ <? -20000); [lia|]. destruct (20000 <? _); lia.
Qed.

Lemma X21_test2_bid_range_witness :
  ∃ bid,
    Test2.calculate_bid (Test2.mkBidDraws [] [] [] [])
      (Test2.mkGame GameState_init GameState_init)
      [6; 6; 6; 6; 6] [1; 2; 3; 4; 6] = Ok bid
    ∧ (group bid = "A" ∨ group bid = "B")
    ∧ 0 ≤ amount bid ≤ 25000.
Proof.
  apply (X21_test2_bid_range (Test2.mkBidDraws [] [] [] [])
           (Test2.mkGame GameState_init GameState_init)
           [6; 6; 6; 6; 6] [1; 2; 3; 4; 6] eq_refl eq_refl).
  - repeat constructor; unfold dice_value; lia.
  - repeat constructor; unfold dice_value; lia.
Defined.

(** ** The bidding of [main.py] *)

Lemma duplicate_loop (g : Y1650.Game) (counts group nums : list Z) :
  (6 ≤ length (rule_score (Y1650.my_state g)))%nat →
  (∀ n, 0 ≤ n ≤ 6 → at_pos counts (Z.to_nat n) = Ok (count n group)) →
  (∀ n, n ∈ nums → 1 ≤ n ≤ 6) →
  ∀ d0 : gmap Z Z,
    ∃ d,
      for_each
        (λ (duplicate_dict : gmap Z Z) (num : Z),
           s ← at_pos (rule_score (Y1650.my_state g)) (Z.to_nat (num - 1));
           match s with
           | None =>
               c ← at_pos counts (Z.to_nat num);
               Ok (if 2 <=? c then <[num := c]> duplicate_dict else duplicate_dict)
           | Some _ => Ok duplicate_dict
           end) d0 nums = Ok d
      ∧ ∀ n, d !! n
             = if decide (n ∈ nums ∧ open_number g n ∧ 2 ≤ count n group)
               then Some (count n group) else d0 !! n.
Proof.
  intros Hboard Hcounts. induction nums as [|x nums IH]; intros Hnums d0.
  - exists d0. split; [done|]. intros n. rewrite decide_False; [done|].
    intros [Hn _]. by apply elem_of_nil in Hn.
  - assert (Hx : 1 ≤ x ≤ 6) by (apply Hnums; left).
    assert (Hfinish : ∀ d1 d : gmap Z Z,
              d1 = (if decide (open_number g x ∧ 2 ≤ count x group)
                    then <[x := count x group]> d0 else d0) →
              (∀ n, d !! n
                    = if decide (n ∈ nums ∧ open_number g n ∧ 2 ≤ count n group)
                      then Some (count n group) else d1 !! n) →
              ∀ n, d !! n
                   = if decide (n ∈ x :: nums ∧ open_number g n ∧ 2 ≤ count n group)
                     then Some (count n group) else d0 !! n).
    { intros d1 d -> Hd n. rewrite Hd.
      destruct (decide (n = x)) as [-> | Hne].
      - destruct (decide (open_number g x ∧ 2 ≤ count x group)) as [Hopen|Hclosed].
        + rewrite lookup_insert_eq.
          rewrite (decide_True (P := x ∈ x :: nums ∧ _)) by (split; [left | done]).
          by destruct (decide _).
        + rewrite decide_False by tauto.
          rewrite (decide_False (P := x ∈ x :: nums ∧ _)) by tauto. done.
      - assert (Hlook : (if decide (open_number g x ∧ 2 ≤ count x group)
                         then <[x := count x group]> d0 else d0) !! n = d0 !! n).
        { destruct (decide _); [by rewrite lookup_insert_ne | done]. }
        rewrite Hlook.
        destruct (decide (n ∈ nums ∧ open_number g n ∧ 2 ≤ count n group))
          as [Hin|Hout].
        + rewrite decide_True; [done|]. destruct Hin. split; [by right | done].
        + rewrite decide_False; [done|]. intros [Hin Hrest]. apply Hout.
          apply elem_of_cons in Hin as [? | ?]; [done|]. done. }
    pose proof (λ n Hn, Hnums n (list_elem_of_further _ _ _ Hn)) as Hnums'.
    assert (Hs : ∃ s, rule_score (Y1650.my_state g) !! Z.to_nat (x - 1) = Some s).
    { apply lookup_lt_is_Some. lia. }
    destruct Hs as (s & Hs).
    assert (Hat : at_pos (rule_score (Y1650.my_state g)) (Z.to_nat (x - 1)) = Ok s).
    { unfold at_pos. by rewrite Hs. }
    cbn [for_each]. rewrite Hat. cbn [mbind Res_bind]. destruct s as [v|].
    + destruct (IH Hnums' d0) as (d & Hrun & Hd).
      exists d. split; [exact Hrun|]. apply (Hfinish d0); [|exact Hd].
      rewrite decide_False; [done|]. intros [Hopen _].
      unfold open_number in Hopen. rewrite Hs in Hopen. discriminate.
    + rewrite (Hcounts x) by lia. cbn [mbind Res_bind].
      destruct (Z.leb_spec 2 (count x group)).
      * destruct (IH Hnums' (<[x := count x group]> d0)) as (d & Hrun & Hd).
        exists d. split; [exact Hrun|].
        apply (Hfinish (<[x := count x group]> d0)); [|exact Hd].
        by rewrite decide_True.
      * destruct (IH Hnums' d0) as (d & Hrun & Hd).
        exists d. split; [exact Hrun|]. apply (Hfinish d0); [|exact Hd].
        rewrite decide_False; [done|]. lia.
Qed.

Lemma max_duplicate_spec (d : gmap Z Z) :
  ∃ m, MainPy.max_duplicate d = Ok m
       ∧ ((d = ∅ ∧ m = 0)
          ∨ ((∃ k, d !! k = Some m) ∧ ∀ k v, d !! k = Some v → v ≤ m)).
Proof.
  unfold MainPy.max_duplicate. destruct (decide (d = ∅)) as [-> | Hne].
  - exists 0. split; [done|]. by left.
  - rewrite bool_decide_eq_false_2 by done. unfold py_max.
    destruct (dict_values d) as [|x l] eqn:Hvalues.
    { exfalso. apply Hne. apply map_to_list_empty_iff.
      unfold dict_values in Hvalues. by apply fmap_nil_inv in Hvalues. }
    exists (foldl Z.max x l). split; [done|]. right.
    assert (Hmax : ∀ (l : list Z) (x : Z),
              (∀ y, y ∈ x :: l → y ≤ foldl Z.max x l) ∧ foldl Z.max x l ∈ x :: l).
    { clear. intros l. induction l as [|z l IH]; intros x; cbn [foldl].
      - split; [|left]. intros y ->%list_elem_of_singleton. lia.
      - destruct (IH (x `max` z)) as [Hle Hin]. split.
        + intros y Hy.
          assert (x `max` z ≤ foldl Z.max (x `max` z) l) by (apply Hle; left).
          apply elem_of_cons in Hy as [->|Hy]; [lia|].
          apply elem_of_cons in Hy as [->|Hy]; [lia|]. apply Hle. by right.
        + apply elem_of_cons in Hin as [Hin|Hin]; [|right; by right].
          rewrite Hin.
          destruct (Z.max_spec x z) as [[_ ->]|[_ ->]]; [right; left | left]. }
    destruct (Hmax l x) as [Hle Hin]. rewrite <- Hvalues in Hle, Hin. split.
    + by apply elem_of_dict_values.
    + intros k v Hk. apply Hle. apply elem_of_dict_values. by exists k.
Qed.

Lemma main_duplicates g group :
  length (rule_score (Y1650.my_state g)) = 12%nat →
  small_dice group →
  ∃ d, MainPy.get_max_duplicate_count g group = Ok d
       ∧ ∀ n c, d !! n = Some c
                ↔ 1 ≤ n ≤ 6 ∧ open_number g n ∧ c = count n group ∧ 2 ≤ c.
Proof.
  intros Hboard Hgroup. unfold MainPy.get_max_duplicate_count.
  destruct (count_array_counts group Hgroup) as (counts & -> & Hat).
  cbn [mbind Res_bind].
  destruct (is_unused_total (Y1650.my_state g) SMALL_STRAIGHT Hboard) as (b1 & ->).
  destruct (is_unused_total (Y1650.my_state g) LARGE_STRAIGHT Hboard) as (b2 & ->).
  destruct (is_unused_total (Y1650.my_state g) YACHT Hboard) as (b3 & ->).
  cbn [mbind Res_bind fmap Res_fmap]. cbv zeta.
  set (nums := if negb b1 && negb b2 && negb b3 then [6; 5; 4; 3; 2; 1]
               else range 1 7).
  assert (Hnums : ∀ n, n ∈ nums ↔ 1 ≤ n ≤ 6).
  { intros n. subst nums. destruct (_ && _).
    - rewrite !elem_of_cons, elem_of_nil. lia.
    - apply elem_of_range_1_7. }
  destruct (duplicate_loop g counts group nums ltac:(lia) Hat
              (λ n Hn, proj1 (Hnums n) Hn) ∅) as (d & -> & Hd).
  exists d. split; [done|]. intros n c. rewrite Hd.
  destruct (decide _) as [(Hin & Hopen & Hcount)|Hout].
  - split.
    + intros [= <-]. split; [by apply Hnums | done].
    + intros (_ & _ & -> & _). done.
  - rewrite lookup_empty. split; [done|].
    intros (Hn & Hopen & -> & Hc). destruct Hout. split; [by apply Hnums | done].
Qed.

(** X22.  [get_max_duplicate_count] of [main.py], on a board of twelve
    entries and a group of dice 0..6: it returns the dictionary that
    maps exactly the faces 1..6 whose number category is open and that
    the group holds at least twice to their number of copies; both
    branches of the function (faces from 6 down once the straights and
    YACHT are filled, from 1 up otherwise) build this same dictionary.
    [max(d.values()) if d else 0] over it is 0 when there is no such
    face and else the largest of these counts. *)
Theorem X22_duplicates_of_main (g : Y1650.Game) (group : list Z) :
  length (rule_score (Y1650.my_state g)) = 12%nat →
  small_dice group →
  ∃ d m,
    MainPy.get_max_duplicate_count g group = Ok d
    ∧ (∀ n c, d !! n = Some c
              ↔ 1 ≤ n ≤ 6 ∧ open_number g n ∧ c = count n group ∧ 2 ≤ c)
    ∧ MainPy.max_duplicate d = Ok m
    ∧ (∀ n, 1 ≤ n ≤ 6 → open_number g n → 2 ≤ count n group → count n group ≤ m)
    ∧ (m = 0 ∨ ∃ n, 1 ≤ n ≤ 6 ∧ open_number g n ∧ m = count n group ∧ 2 ≤ m).
Proof.
  intros Hboard Hgroup.
  destruct (main_duplicates g group Hboard Hgroup) as (d & Hrun & Hd).
  destruct (max_duplicate_spec d) as (m & Hm & Hcase).
  exists d, m. split; [exact Hrun|]. split; [exact Hd|]. split; [exact Hm|].
  destruct Hcase as [[-> ->] | [(k & Hk) Hle]].
  - split; [|by left]. intros n Hn Hopen Hcount.
    assert (Hin : (∅ : gmap Z Z) !! n = Some (count n group)) by (by apply Hd).
    by rewrite lookup_empty in Hin.
  - split.
    + intros n Hn Hopen Hcount. apply (Hle n). by apply Hd.
    + right. exists k. apply Hd in Hk. tauto.
Qed.

Lemma X22_duplicates_of_main_witness :
  ∃ d m,
    MainPy.get_max_duplicate_count (partial_straight_game 0 0 0) [4; 4; 4; 1; 1] = Ok d
    ∧ MainPy.max_duplicate d = Ok m
    ∧ 3 ≤ m.
Proof.
  destruct (X22_duplicates_of_main (partial_straight_game 0 0 0) [4; 4; 4; 1; 1])
    as (d & m & Hd & _ & Hm & Hupper & _).
  - reflexivity.
  - unfold small_dice. repeat constructor; lia.
  - exists d, m. split; [exact Hd|]. split; [exact Hm|].
    apply (Hupper 4); [lia | reflexivity | vm_compute; discriminate].
Defined.

Lemma block_search opp_dice dice_group dice_a dice_b counts :
  (∀ n, 0 ≤ n ≤ 6 → at_pos counts (Z.to_nat n) = Ok (count n (opp_dice ++ dice_group))) →
  ∃ r,
    first_return
      (λ num : Z,
         c ← at_pos counts (Z.to_nat num);
         if 5 <=? c then
           let count_a := count num dice_a in
           let count_b := count num dice_b in
           if ((0 <? count_a) && (count_b =? 0))
              || ((count_a =? 0) && (0 <? count_b))
           then Ok (Some (if 0 <? count_a then "A" else "B", 5001))
           else Ok None
         else Ok None)
      (range 1 7) = Ok r
    ∧ (∀ answer, r = Some answer → blocks opp_dice dice_group dice_a dice_b answer)
    ∧ (r = None →
       ∀ n, 1 ≤ n ≤ 6 → 5 ≤ count n (opp_dice ++ dice_group) →
            (0 < count n dice_a ↔ 0 < count n dice_b)).
Proof.
  intros Hat.
  match goal with
  | |- ∃ r, first_return ?body _ = _ ∧ _ =>
      destruct (first_return_total (blocks opp_dice dice_group dice_a dice_b)
                  body (range 1 7)) as (r & Hrun & Hsome)
  end.
  { intros num Hnum. apply elem_of_range_1_7 in Hnum. unfold dice_value in Hnum.
    rewrite (Hat num) by lia. cbn [mbind Res_bind]. cbv zeta.
    destruct (Z.leb_spec 5 (count num (opp_dice ++ dice_group))); [|by exists None].
    pose proof (count_nonneg num dice_a). pose proof (count_nonneg num dice_b).
    destruct (Z.ltb_spec 0 (count num dice_a)), (Z.eqb_spec (count num dice_b) 0),
             (Z.eqb_spec (count num dice_a) 0), (Z.ltb_spec 0 (count num dice_b));
      cbn [andb orb]; try lia; try (by exists None);
      (eexists; split; [reflexivity|]; intros answer [= <-];
       split; [done|]; exists num; split; [done|]; split; [done|]; cbn [fst]).
    - left. done.
    - right. split; [done|]. split; [lia | done]. }
  exists r. split; [exact Hrun|]. split; [exact Hsome|].
  intros -> n Hn Hfive.
  pose proof (first_return_None _ _ Hrun n) as Hbody. cbv beta in Hbody.
  rewrite (Hat n) in Hbody by lia. cbn [mbind Res_bind] in Hbody. cbv zeta in Hbody.
  specialize (Hbody ltac:(apply elem_of_range_1_7; exact Hn)).
  destruct (Z.leb_spec 5 (count n (opp_dice ++ dice_group))); [|lia].
  pose proof (count_nonneg n dice_a). pose proof (count_nonneg n dice_b).
  destruct (Z.ltb_spec 0 (count n dice_a)), (Z.eqb_spec (count n dice_b) 0),
           (Z.eqb_spec (count n dice_a) 0), (Z.ltb_spec 0 (count n dice_b));
    cbn [andb orb] in Hbody; try discriminate; lia.
Qed.

(** X23.  [should_block_yacht] of [main.py], with the opponent's pool
    and both offered groups made of dice 0..6: it never raises; it
    answers nothing once the opponent has completed YACHT or while the
    opponent holds fewer than four dice; an answer is always the amount
    5001 with the group that alone shows a face which the opponent's
    pool, joined to one of the two groups, holds five times; and when
    it answers nothing although the opponent holds four dice and no
    YACHT, every face that reaches five copies with either group shows
    in both groups or in neither. *)
Theorem X23_block_of_main (g : Y1650.Game) (dice_a dice_b : list Z) :
  let opp_dice := dice (Y1650.opp_state g) in
  small_dice opp_dice → small_dice dice_a → small_dice dice_b →
  (Y1650.opponent_yacht_completed g = true ∨ (length opp_dice < 4)%nat →
   MainPy.should_block_yacht g dice_a dice_b = Ok None)
  ∧ ∃ r,
      MainPy.should_block_yacht g dice_a dice_b = Ok r
      ∧ (∀ answer, r = Some answer →
           blocks opp_dice dice_a dice_a dice_b answer
           ∨ blocks opp_dice dice_b dice_a dice_b answer)
      ∧ (r = None → Y1650.opponent_yacht_completed g = false →
         (4 ≤ length opp_dice)%nat →
         ∀ n, 1 ≤ n ≤ 6 →
              5 ≤ count n (opp_dice ++ dice_a) ∨ 5 ≤ count n (opp_dice ++ dice_b) →
              (0 < count n dice_a ↔ 0 < count n dice_b)).
Proof.
  intros opp_dice Hopp Ha Hb. subst opp_dice.
  unfold MainPy.should_block_yacht. cbv zeta.
  destruct (Y1650.opponent_yacht_completed g) eqn:Hflag.
  { split; [done|]. exists None. split; [done|]. split; [done|]. done. }
  destruct (Nat.ltb_spec (length (dice (Y1650.opp_state g))) 4) as [Hshort|Hlong].
  { split; [done|]. exists None. split; [done|]. split; [done|]. intros _ _ ?. lia. }
  split; [intros [? | ?]; [done | lia]|].
  assert (Hca : small_dice (dice (Y1650.opp_state g) ++ dice_a))
    by (apply Forall_app; done).
  assert (Hcb : small_dice (dice (Y1650.opp_state g) ++ dice_b))
    by (apply Forall_app; done).
  destruct (count_array_counts _ Hca) as (counts_a & Hrun_a & Hat_a).
  destruct (count_array_counts _ Hcb) as (counts_b & Hrun_b & Hat_b).
  destruct (block_search _ dice_a dice_a dice_b counts_a Hat_a)
    as (ra & Hra & Hsome_a & Hnone_a).
  destruct (block_search _ dice_b dice_a dice_b counts_b Hat_b)
    as (rb & Hrb & Hsome_b & Hnone_b).
  cbv zeta in Hra, Hrb.
  cbn [first_return]. rewrite Hrun_a. cbn [mbind Res_bind]. rewrite Hra.
  cbn [mbind Res_bind].
  destruct ra as [answer|].
  { exists (Some answer). split; [done|]. split; [|done].
    intros ? [= <-]. left. by apply Hsome_a. }
  rewrite Hrun_b. cbn [mbind Res_bind]. rewrite Hrb. cbn [mbind Res_bind].
  destruct rb as [answer|].
  { exists (Some answer). split; [done|]. split; [|done].
    intros ? [= <-]. right. by apply Hsome_b. }
  exists None. split; [done|]. split; [done|].
  intros _ _ _ n Hn [Hfive | Hfive]; [by apply Hnone_a | by apply Hnone_b].
Qed.

Lemma X23_block_of_main_witness :
  ∃ r, MainPy.should_block_yacht last_turn_game [3; 4; 5; 6; 6] [1; 2; 3; 4; 5] = Ok r.
Proof.
  destruct (X23_block_of_main last_turn_game [3; 4; 5; 6; 6] [1; 2; 3; 4; 5])
    as (_ & r & Hr & _).
  - constructor.
  - unfold small_dice. repeat constructor; lia.
  - unfold small_dice. repeat constructor; lia.
  - exists r. exact Hr.
Defined.

Lemma remaining_rules_total st :
  length (rule_score st) = 12%nat →
  ∃ rules, MainPy.remaining_rules st = Ok rules
           ∧ ∀ r, r ∈ rules → rule_score st !! value r = Some None.
Proof.
  intros Hboard.
  destruct (for_each_total (λ _ : list DiceRule, True)
              (λ acc i, s ← at_pos (rule_score st) i;
                        match s with
                        | None => r ← DiceRule_of i; Ok (acc ++ [r])
                        | Some _ => Ok acc
                        end)
              (seq 0 12) [] I) as (rules & Hrun & _).
  { intros acc i Hi _. apply elem_of_seq in Hi.
    assert (Hs : is_Some (rule_score st !! i)) by (apply lookup_lt_is_Some; lia).
    destruct Hs as (s & Hs). unfold at_pos. rewrite Hs. cbn [mbind Res_bind].
    destruct s as [v|]; [by eauto|].
    destruct (DiceRule_of_total i) as (r & ->); [lia|]. cbn [mbind Res_bind].
    by eauto. }
  exists rules. split; [exact Hrun|]. intros r Hr.
  by eapply remaining_rules_open.
Qed.

Lemma foldl_nonneg {A} (f : Z → A → Z) (l : list A) :
  (∀ acc x, x ∈ l → 0 ≤ acc → acc ≤ f acc x) →
  ∀ acc, 0 ≤ acc → acc ≤ foldl f acc l.
Proof.
  induction l as [|x l IH]; intros Hf acc Hacc; [simpl; lia|].
  cbn [foldl].
  assert (acc ≤ f acc x) by (apply Hf; [left | done]).
  assert (f acc x ≤ foldl f (f acc x) l).
  { apply IH; [|lia]. intros acc' y Hy. apply Hf. by right. }
  lia.
Qed.

Lemma needed_value_nonneg g dice_group rules is_opponent :
  Forall (λ d, 0 ≤ d) dice_group →
  0 ≤ MainPy.calculate_needed_dice_value g dice_group rules is_opponent.
Proof.
  intros Hgroup. unfold MainPy.calculate_needed_dice_value. cbv zeta.
  pose proof (py_sum_nonneg dice_group Hgroup) as Hsum.
  apply foldl_nonneg; [|lia].
  intros acc rule _ Hacc.
  assert (H47 : ∀ n, n ∈ range 4 7 → 4 ≤ n ≤ 6).
  { intros n. change (range 4 7) with [4; 5; 6].
    rewrite !elem_of_cons, elem_of_nil. lia. }
  destruct rule;
    try (cbn [value]; match goal with
                      | |- _ ≤ _ + count ?n _ * _ =>
                          pose proof (count_nonneg n dice_group); nia
                      end);
    try lia;
    try (apply foldl_nonneg; [|lia]; intros acc' x Hx Hacc';
         try (apply H47 in Hx); try (apply elem_of_range_1_7 in Hx);
         match goal with
         | |- context [if ?c then _ else _] => destruct c
         end; try lia).
  apply foldl_nonneg; [|lia]. intros acc'' y Hy Hacc''. apply H47 in Hy.
  destruct (_ && _); lia.
Qed.

(** X24.  [calculate_final_round_bid] of [main.py], on a board of twelve
    entries and offered dice that are not negative: it returns a bid
    for group "A" or "B" whose amount is 0 or 999, nothing in between;
    the amount is 999 exactly when one of the two groups has a positive
    needed value for the open categories
    ([calculate_needed_dice_value], which is never negative), and the
    group with the strictly larger needed value is the one chosen. *)
Theorem X24_final_round_bid (g : Y1650.Game) (dice_a dice_b : list Z) :
  length (rule_score (Y1650.my_state g)) = 12%nat →
  Forall (λ d, 0 ≤ d) dice_a → Forall (λ d, 0 ≤ d) dice_b →
  ∃ rules bid,
    MainPy.remaining_rules (Y1650.my_state g) = Ok rules
    ∧ MainPy.calculate_final_round_bid g dice_a dice_b = Ok bid
    ∧ (group bid = "A" ∨ group bid = "B")
    ∧ (amount bid = 0 ∨ amount bid = 999)
    ∧ let value_a := MainPy.calculate_needed_dice_value g dice_a rules false in
      let value_b := MainPy.calculate_needed_dice_value g dice_b rules false in
      0 ≤ value_a ∧ 0 ≤ value_b
      ∧ (amount bid = 999 ↔ 0 < value_a ∨ 0 < value_b)
      ∧ (value_b < value_a → group bid = "A")
      ∧ (value_a < value_b → group bid = "B").
Proof.
  intros Hboard Ha Hb.
  destruct (remaining_rules_total _ Hboard) as (rules & Hrules & _).
  pose proof (needed_value_nonneg g dice_a rules false Ha) as Hva.
  pose proof (needed_value_nonneg g dice_b rules false Hb) as Hvb.
  unfold MainPy.calculate_final_round_bid. rewrite Hrules.
  cbn [mbind Res_bind]. cbv zeta.
  exists rules.
  destruct rules as [|rule rules].
  { eexists. split; [done|]. split; [reflexivity|]. cbn [group amount].
    split; [destruct (_ <=? _); tauto|]. split; [by left|].
    change (MainPy.calculate_needed_dice_value g dice_a [] false) with 0.
    change (MainPy.calculate_needed_dice_value g dice_b [] false) with 0.
    repeat split; lia. }
  set (value_a := MainPy.calculate_needed_dice_value g dice_a (rule :: rules) false)
    in *.
  set (value_b := MainPy.calculate_needed_dice_value g dice_b (rule :: rules) false)
    in *.
  destruct (Z.ltb_spec value_b value_a) as [Hab|Hab].
  { eexists. split; [done|]. split; [reflexivity|]. cbn [group amount].
    split; [by left|]. split; [lia|]. repeat split; try done; lia. }
  destruct (Z.ltb_spec value_a value_b) as [Hba|Hba].
  { eexists. split; [done|]. split; [reflexivity|]. cbn [group amount].
    split; [by right|]. split; [lia|]. repeat split; try done; lia. }
  eexists. split; [done|]. split; [reflexivity|]. cbn [group amount].
  split; [destruct (_ <=? _); tauto|]. split; [lia|]. repeat split; lia.
Qed.

Lemma X24_final_round_bid_witness :
  ∃ bid,
    MainPy.calculate_final_round_bid last_round_game [1; 1; 1; 2; 2] [3; 4; 5; 6; 6]
    = Ok bid
    ∧ (amount bid = 0 ∨ amount bid = 999).
Proof.
  destruct (X24_final_round_bid last_round_game [1; 1; 1; 2; 2] [3; 4; 5; 6; 6])
    as (rules & bid & _ & Hbid & _ & Hamount & _).
  - reflexivity.
  - repeat constructor; lia.
  - repeat constructor; lia.
  - exists bid. split; [exact Hbid | exact Hamount].
Defined.

Ltac split_conditions :=
  repeat match goal with
         | |- context [if ?c then _ else _] => destruct c
         end.

Lemma main_amount_range draw g selected_dice v :
  MainPy.calculate_strategic_bid_amount draw g selected_dice = Ok v →
  0 ≤ v ≤ 7999.
Proof.
  unfold MainPy.calculate_strategic_bid_amount. cbv zeta.
  intros (d & _ & H)%Res_bind_Ok.
  apply Res_bind_Ok in H as (max_count & _ & H). revert H.
  destruct (Y1650.current_round g <=? 1).
  { split_conditions; intros [= <-]; lia. }
  destruct (Y1650.current_round g <=? 3).
  { split_conditions; intros [= <-]; lia. }
  destruct ((4 <=? Y1650.current_round g) && (Y1650.current_round g <=? 8)).
  { destruct (Y1650.my_yacht_completed g).
    - intros (lowest & _ & H)%Res_bind_Ok.
      apply random_choice_two in H as [-> | ->]; lia.
    - intros (lowest & _ & H)%Res_bind_Ok.
      apply Res_bind_Ok in H as (d' & _ & H).
      apply Res_bind_Ok in H as (combined & _ & H). revert H.
      split_conditions; intros [= <-]; lia. }
  destruct (9 <=? Y1650.current_round g); [|intros [= <-]; lia].
  intros (mine & _ & H)%Res_bind_Ok.
  apply Res_bind_Ok in H as (theirs & _ & H).
  apply Res_bind_Ok in H as (lowest & _ & H). revert H.
  destruct (0 <? mine); [split_conditions; intros [= <-]; lia|].
  destruct (0 <? theirs); [split_conditions; intros [= <-]; lia|].
  intros H. apply random_choice_two in H as [-> | ->]; lia.
Qed.

(** X25.  [calculate_strategic_bid_amount] of [main.py]: every amount it
    returns lies between 0 and 7999, whatever the state, the dice and
    the draw.  From round 4 on it reads the smallest recorded bid of
    the opponent without checking that one exists: with an empty
    history (boards of twelve entries, dice 0..6) it raises
    [ValueError].  From round 9 on, a needed value of the selected dice
    between 1 and 32 always gives the amount 1
    ([min(1, max(min_opponent_bid, 2))]), whatever the opponent has
    bid. *)
Theorem X25_amount_of_main (draw : nat) (g : Y1650.Game) (selected_dice : list Z) :
  (∀ v, MainPy.calculate_strategic_bid_amount draw g selected_dice = Ok v →
        0 ≤ v ≤ 7999)
  ∧ (length (rule_score (Y1650.my_state g)) = 12%nat →
     length (rule_score (Y1650.opp_state g)) = 12%nat →
     small_dice selected_dice →
     4 ≤ Y1650.current_round g → Y1650.opponent_bids g = ∅ →
     MainPy.calculate_strategic_bid_amount draw g selected_dice = Raise ValueError)
  ∧ (∀ mine v,
       9 ≤ Y1650.current_round g →
       MainPy.calculate_my_needed_dice_value g selected_dice = Ok mine →
       0 < mine < 33 →
       MainPy.calculate_strategic_bid_amount draw g selected_dice = Ok v →
       v = 1).
Proof.
  split; [intros v; apply main_amount_range|]. split.
  - intros Hmy Hopp Hsel Hround Hbids.
    unfold MainPy.calculate_strategic_bid_amount. cbv zeta.
    destruct (main_duplicates g selected_dice Hmy Hsel) as (d & -> & _).
    cbn [mbind Res_bind].
    destruct (max_duplicate_spec d) as (m & -> & _). cbn [mbind Res_bind].
    assert (Hmin : py_min (dict_values (Y1650.opponent_bids g)) = Raise ValueError).
    { rewrite Hbids. unfold dict_values. by rewrite map_to_list_empty. }
    destruct (Z.leb_spec (Y1650.current_round g) 1); [lia|].
    destruct (Z.leb_spec (Y1650.current_round g) 3); [lia|].
    destruct (_ && _) eqn:Hmid.
    { destruct (Y1650.my_yacht_completed g); by rewrite Hmin. }
    destruct (Z.leb_spec 9 (Y1650.current_round g)) as [Hlate|Hearly].
    2:{ apply andb_false_iff in Hmid as [Hmid|Hmid]; apply Z.leb_gt in Hmid; lia. }
    unfold MainPy.calculate_my_needed_dice_value,
      MainPy.calculate_opponent_needed_dice_value.
    destruct (remaining_rules_total _ Hmy) as (mine & -> & _).
    destruct (remaining_rules_total _ Hopp) as (theirs & -> & _).
    cbn [mbind Res_bind]. by rewrite Hmin.
  - intros mine v Hround Hmine Hrange.
    unfold MainPy.calculate_strategic_bid_amount. cbv zeta.
    intros (d & _ & Hrun)%Res_bind_Ok.
    apply Res_bind_Ok in Hrun as (max_count & _ & Hrun). revert Hrun.
    destruct (Z.leb_spec (Y1650.current_round g) 1); [lia|].
    destruct (Z.leb_spec (Y1650.current_round g) 3); [lia|].
    destruct (Z.leb_spec 4 (Y1650.current_round g)); [|lia].
    destruct (Z.leb_spec (Y1650.current_round g) 8); [lia|]. cbn [andb].
    destruct (Z.leb_spec 9 (Y1650.current_round g)); [|lia].
    rewrite Hmine. cbn [mbind Res_bind].
    intros (theirs & _ & Hrun)%Res_bind_Ok.
    apply Res_bind_Ok in Hrun as (lowest & _ & Hrun). revert Hrun.
    destruct (Z.ltb_spec 0 mine); [|lia].
    destruct (Z.leb_spec 51 mine); [lia|].
    destruct (Z.leb_spec 42 mine); [lia|].
    destruct (Z.leb_spec 33 mine); [lia|].
    intros [= <-]. lia.
Qed.

Lemma main_block_shape g dice_a dice_b grp amt :
  MainPy.should_block_yacht g dice_a dice_b = Ok (Some (grp, amt)) →
  amt = 5001 ∧ (grp = "A" ∨ grp = "B").
Proof.
  unfold MainPy.should_block_yacht. cbv zeta.
  destruct (Y1650.opponent_yacht_completed g); [discriminate|].
  destruct (length _ <? 4)%nat; [discriminate|].
  intros (dice_group & _ & H)%first_return_Some.
  apply Res_bind_Ok in H as (counts & _ & H).
  apply first_return_Some in H as (num & _ & H).
  apply Res_bind_Ok in H as (c & _ & H).
  destruct (5 <=? c); [|discriminate].
  destruct (_ || _); [|discriminate].
  injection H as <- <-. split; [done|]. destruct (0 <? _); auto.
Qed.

Lemma select_by_duplicates_group g dice_a dice_b selected grp :
  MainPy.select_by_duplicates g dice_a dice_b = Ok (selected, grp) →
  grp = "A" ∨ grp = "B".
Proof.
  unfold MainPy.select_by_duplicates. cbv zeta.
  intros (da & _ & H)%Res_bind_Ok.
  apply Res_bind_Ok in H as (db & _ & H).
  apply Res_bind_Ok in H as (ma & _ & H).
  apply Res_bind_Ok in H as (mb & _ & H). revert H.
  split_conditions; intros [= <- <-]; auto.
Qed.

Lemma select_by_needed_value_group g dice_a dice_b selected grp :
  MainPy.select_by_needed_value g dice_a dice_b = Ok (selected, grp) →
  grp = "A" ∨ grp = "B".
Proof.
  unfold MainPy.select_by_needed_value.
  intros (va & _ & H)%Res_bind_Ok.
  apply Res_bind_Ok in H as (vb & _ & H). revert H.
  destruct (vb <? va); [intros [= <- <-]; auto|].
  destruct (va <? vb); [intros [= <- <-]; auto|].
  apply select_by_duplicates_group.
Qed.

Lemma select_group_group g dice_a dice_b selected grp :
  MainPy.select_group g dice_a dice_b = Ok (selected, grp) →
  grp = "A" ∨ grp = "B".
Proof.
  unfold MainPy.select_group. cbv zeta.
  destruct (6 <=? Y1650.current_round g); [|apply select_by_duplicates_group].
  intros (one_open & _ & H)%Res_bind_Ok.
  apply Res_bind_Ok in H as (any_open & _ & H). revert H.
  destruct any_open; [|apply select_by_needed_value_group].
  destruct (_ && _); [intros [= <- <-]; auto|].
  destruct (_ && _); [intros [= <- <-]; auto|].
  intros (two_open & _ & H)%Res_bind_Ok. revert H.
  destruct (_ && _); [intros [= <- <-]; auto|].
  destruct (_ && _); [intros [= <- <-]; auto|].
  apply select_by_needed_value_group.
Qed.

(** X26.  Every bid that [calculate_bid] of [main.py] returns, for
    offered dice that are not negative and whatever the state and the
    draw, names the group "A" or "B" and an amount between 0 and 7999;
    a YACHT block bids 5001, and the last round with other than two
    open categories bids 0 or 999. *)
Theorem X26_bid_of_main (draw : nat) (g : Y1650.Game) (dice_a dice_b : list Z)
    (bid : Bid) :
  Forall (λ d, 0 ≤ d) dice_a → Forall (λ d, 0 ≤ d) dice_b →
  MainPy.calculate_bid draw g dice_a dice_b = Ok bid →
  (group bid = "A" ∨ group bid = "B")
  ∧ 0 ≤ amount bid ≤ 7999
  ∧ (Y1650.current_round g ≠ 13 →
     ∀ blocked, MainPy.should_block_yacht g dice_a dice_b = Ok (Some blocked) →
                group bid = blocked.1 ∧ amount bid = 5001)
  ∧ (Y1650.current_round g = 13 →
     length (filter (λ score, score = None) (rule_score (Y1650.my_state g))) ≠ 2%nat →
     amount bid = 0 ∨ amount bid = 999).
Proof.
  intros Ha Hb. unfold MainPy.calculate_bid. cbv zeta.
  destruct (Z.eqb_spec (Y1650.current_round g) 13) as [Hlast|Hnot].
  - destruct (Nat.eqb_spec
                (length (filter (λ score, score = None)
                                (rule_score (Y1650.my_state g)))) 2) as [Htwo|Hother].
    + intros (score_a & _ & H)%Res_bind_Ok.
      apply Res_bind_Ok in H as (score_b & _ & H).
      assert (Hshape : ∀ selected grp,
                grp = "A" ∨ grp = "B" →
                (amount ← MainPy.calculate_strategic_bid_amount draw g selected;
                 Ok (mkBid grp amount)) = Ok bid →
                (group bid = "A" ∨ group bid = "B") ∧ 0 ≤ amount bid ≤ 7999).
      { intros selected grp Hgrp (v & Hv & [= <-])%Res_bind_Ok.
        split; [exact Hgrp|]. by eapply main_amount_range. }
      assert (Hbid : (group bid = "A" ∨ group bid = "B") ∧ 0 ≤ amount bid ≤ 7999).
      { revert H. split_conditions; apply Hshape; auto. }
      destruct Hbid. repeat split; try done; try lia.
    + intros H. unfold MainPy.calculate_final_round_bid in H.
      apply Res_bind_Ok in H as (rules & _ & H). cbv zeta in H.
      pose proof (needed_value_nonneg g dice_a rules false Ha) as Hva.
      pose proof (needed_value_nonneg g dice_b rules false Hb) as Hvb.
      assert (Hbid : (group bid = "A" ∨ group bid = "B")
                     ∧ (amount bid = 0 ∨ amount bid = 999)).
      { destruct rules as [|rule rules].
        - injection H as <-. cbn [group amount].
          split; [destruct (_ <=? _); auto | auto].
        - revert H. split_conditions; intros [= <-]; cbn [group amount];
            (split; [auto | lia]). }
      destruct Hbid as [Hgroup Hamount].
      split; [exact Hgroup|]. split; [lia|]. split; [done|]. done.
  - intros (block & Hblock & H)%Res_bind_Ok.
    destruct block as [[block_group block_amount]|].
    + injection H as <-. cbn [group amount].
      destruct (main_block_shape _ _ _ _ _ Hblock) as [-> Hgroup].
      split; [exact Hgroup|]. split; [lia|]. split; [|done].
      intros _ blocked Hb'. rewrite Hblock in Hb'. injection Hb' as <-. done.
    + apply Res_bind_Ok in H as ([selected grp] & Hselect & H).
      apply Res_bind_Ok in H as (v & Hv & [= <-]). cbn [group amount].
      split; [by eapply select_group_group|].
      split; [by eapply main_amount_range|]. split; [|done].
      intros _ blocked Hb'. rewrite Hblock in Hb'. discriminate.
Qed.

Lemma X25_amount_of_main_witness :
  MainPy.calculate_strategic_bid_amount 0 last_turn_game [1; 2; 3; 4; 5]
  = Raise ValueError.
Proof.
  apply (proj1 (proj2 (X25_amount_of_main 0 last_turn_game [1; 2; 3; 4; 5]))).
  - reflexivity.
  - reflexivity.
  - unfold small_dice. repeat constructor; lia.
  - cbn [Y1650.current_round last_turn_game]. lia.
  - reflexivity.
Defined.

Lemma X26_bid_of_main_witness :
  ∃ bid,
    MainPy.calculate_bid 0 Y1650.Game_init [1; 1; 2; 3; 4] [2; 3; 4; 5; 6] = Ok bid
    ∧ (group bid = "A" ∨ group bid = "B")
    ∧ 0 ≤ amount bid ≤ 7999.
Proof.
  eexists. split; [vm_compute; reflexivity|].
  refine (let H := X26_bid_of_main 0 Y1650.Game_init [1; 1; 2; 3; 4] [2; 3; 4; 5; 6]
                     _ _ _ _ in conj (proj1 H) (proj1 (proj2 H))).
  - repeat constructor; lia.
  - repeat constructor; lia.
  - vm_compute. reflexivity.
Defined.

(** ** The strategic filters of [1650.py] and [main.py] *)

(** X27.  The filters [should_use_rule_strategically] of [1650.py] and
    of [main.py] are monotone in the round: a rule and score accepted
    in some round are accepted in every later round, except for a
    SMALL_STRAIGHT without a positive score, which is only tried up to
    round 6.  In [main.py] a number category is accepted in every round
    once the score reaches three copies of its face, and CHOICE is
    accepted only from round 13 on and only above 7000. *)
Theorem X27_filters_monotone (g g' : Y1650.Game) (rule : DiceRule) (score : Z) :
  (Y1650.current_round g ≤ Y1650.current_round g' →
   rule ≠ SMALL_STRAIGHT ∨ 0 < score →
   (Y1650.should_use_rule_strategically g rule score = true →
    Y1650.should_use_rule_strategically g' rule score = true)
   ∧ (MainPy.should_use_rule_strategically g rule score = true →
      MainPy.should_use_rule_strategically g' rule score = true))
  ∧ (rule ∈ number_rules → 3000 * (Z.of_nat (value rule) + 1) ≤ score →
     MainPy.should_use_rule_strategically g rule score = true)
  ∧ (MainPy.should_use_rule_strategically g CHOICE score = true
     ↔ 13 ≤ Y1650.current_round g ∧ 7000 < score).
Proof.
  split; [|split].
  - intros Hround Hrule.
    unfold Y1650.should_use_rule_strategically,
      MainPy.should_use_rule_strategically.
    cbv zeta.
    destruct rule;
      repeat match goal with
             | |- context [?a <? ?b] => destruct (Z.ltb_spec a b)
             | |- context [?a <=? ?b] => destruct (Z.leb_spec a b)
             end; cbn [andb];
      try (destruct Hrule as [Hrule | Hrule]; [done | lia]);
      (split; intros Htrue; try reflexivity; try discriminate; lia).
  - unfold number_rules. rewrite !elem_of_cons, elem_of_nil.
    unfold MainPy.should_use_rule_strategically. cbv zeta.
    intros [-> | [-> | [-> | [-> | [-> | [-> | []]]]]]] Hscore;
      cbn [value] in Hscore;
      match goal with
      | |- context [?a <=? score] => destruct (Z.leb_spec a score)
      end; try reflexivity; lia.
  - unfold MainPy.should_use_rule_strategically.
    rewrite andb_true_iff, Z.leb_le, Z.ltb_lt. lia.
Qed.

Lemma X27_filters_monotone_witness :
  MainPy.should_use_rule_strategically last_turn_game SIX 18000 = true.
Proof.
  apply (proj1 (proj2 (X27_filters_monotone last_turn_game last_turn_game
                          SIX 18000))).
  - unfold number_rules. rewrite !elem_of_cons. tauto.
  - cbn [value]. lia.
Defined.

(** ** The total score across a placement *)

Lemma value_inj r r' : value r = value r' → r = r'.
Proof.
  intros Hv. pose proof (DiceRule_of_value_inv r) as H1.
  pose proof (DiceRule_of_value_inv r') as H2. rewrite Hv in H1. congruence.
Qed.

Lemma score_of_insert st st' r0 s :
  rule_score st !! value r0 = Some None →
  rule_score st' = <[value r0 := Some s]> (rule_score st) →
  score_of st r0 = 0
  ∧ ∀ r, score_of st' r = if decide (r = r0) then s else score_of st r.
Proof.
  intros Hopen Hboard. unfold score_of. split; [by rewrite Hopen|].
  intros r. rewrite Hboard. destruct (decide (r = r0)) as [-> | Hne].
  - rewrite list_lookup_insert_eq; [done|]. by eapply lookup_lt_Some.
  - rewrite list_lookup_insert_ne; [done|]. intros Hv. apply Hne.
    symmetry. by apply value_inj.
Qed.

Lemma subtotal_insert st st' r0 s rules :
  NoDup rules →
  score_of st r0 = 0 →
  (∀ r, score_of st' r = if decide (r = r0) then s else score_of st r) →
  subtotal st' rules
  = subtotal st rules + (if decide (r0 ∈ rules) then s else 0).
Proof.
  intros Hnodup Hzero Hafter. unfold subtotal.
  induction Hnodup as [|r rules Hnotin _ IH].
  - rewrite decide_False; [simpl; lia | apply not_elem_of_nil].
  - rewrite !fmap_cons, !py_sum_cons, IH, Hafter.
    destruct (decide (r = r0)) as [-> | Hne].
    + rewrite (decide_True (P := r0 ∈ r0 :: rules)) by left.
      rewrite decide_False by done. lia.
    + destruct (decide (r0 ∈ rules)) as [Hin|Hout].
      * rewrite (decide_True (P := r0 ∈ r :: rules)) by (by right). lia.
      * rewrite (decide_False (P := r0 ∈ r :: rules)); [lia|].
        intros [-> | ?]%elem_of_cons; done.
Qed.

Lemma rules_partition r :
  (r ∈ number_rules ∧ ¬ (r ∈ other_rules))
  ∨ (¬ (r ∈ number_rules) ∧ r ∈ other_rules).
Proof.
  unfold number_rules, other_rules.
  destruct r; [left|left|left|left|left|left|right|right|right|right|right|right];
    compute_done.
Qed.

Lemma total_after_board st st' r0 s :
  rule_score st !! value r0 = Some None →
  rule_score st' = <[value r0 := Some s]> (rule_score st) →
  bid_score st' = bid_score st →
  0 ≤ s →
  Y1650.get_total_score st'
  = Y1650.get_total_score st + s
    + (if decide (r0 ∈ number_rules)
       then if (subtotal st number_rules <? 63000)
               && (63000 <=? subtotal st number_rules + s)
            then 35000 else 0
       else 0).
Proof.
  intros Hopen Hboard Hbid Hs.
  destruct (score_of_insert st st' r0 s Hopen Hboard) as [Hzero Hafter].
  rewrite !total_1650_formula, Hbid.
  rewrite (subtotal_insert st st' r0 s number_rules); [|by compute_done|done|done].
  rewrite (subtotal_insert st st' r0 s other_rules); [|by compute_done|done|done].
  destruct (rules_partition r0) as [[Hin Hout] | [Hout Hin]].
  - rewrite !(decide_True (P := r0 ∈ number_rules)) by done.
    rewrite (decide_False (P := r0 ∈ other_rules)) by done.
    destruct (Z.leb_spec 63000 (subtotal st number_rules)),
             (Z.leb_spec 63000 (subtotal st number_rules + s)),
             (Z.ltb_spec (subtotal st number_rules) 63000); cbn [andb]; lia.
  - rewrite !(decide_False (P := r0 ∈ number_rules)) by done.
    rewrite (decide_True (P := r0 ∈ other_rules)) by done.
    rewrite Z.add_0_r. lia.
Qed.

(** X28.  What a placement does to the total score, in [1650.py]
    (identical in [main.py]) and in [test2.py]: when [use_dice] accepts
    a put whose score is not negative, [get_total_score] grows by
    exactly that score, plus the bonus of 35000 when the put goes to a
    number category and lifts the subtotal of the six number categories
    from below 63000 to 63000 or more; so the total never decreases and
    the bonus is granted once. *)
Theorem X28_total_after_placement (st st' : GameState) (put : DicePut) :
  0 ≤ Y1650.calculate_score put →
  0 ≤ Test2.calculate_score put →
  let upper := subtotal st number_rules in
  let bonus (score : Z) :=
    if decide (put_rule put ∈ number_rules)
    then if (upper <? 63000) && (63000 <=? upper + score) then 35000 else 0
    else 0 in
  (Y1650.use_dice st put = Ok st' →
   Y1650.get_total_score st'
   = Y1650.get_total_score st + Y1650.calculate_score put
     + bonus (Y1650.calculate_score put)
   ∧ Y1650.get_total_score st ≤ Y1650.get_total_score st')
  ∧ (Test2.use_dice st put = Ok st' →
     Test2.get_total_score st'
     = Test2.get_total_score st + Test2.calculate_score put
       + bonus (Test2.calculate_score put)
     ∧ Test2.get_total_score st ≤ Test2.get_total_score st').
Proof.
  intros Hs1 Hs2 upper bonus. subst upper bonus. cbv beta.
  assert (Hbonus : ∀ s, 0 ≤ (if decide (put_rule put ∈ number_rules)
                             then if (subtotal st number_rules <? 63000)
                                     && (63000 <=? subtotal st number_rules + s)
                                  then 35000 else 0
                             else 0)).
  { intros s. destruct (decide _); [|lia]. destruct (_ && _); lia. }
  split.
  - intros Huse. apply use_dice_1650_Ok in Huse as (Hopen & Hboard & Hbid).
    rewrite (total_after_board st st' _ _ Hopen Hboard Hbid Hs1).
    split; [done|]. specialize (Hbonus (Y1650.calculate_score put)). lia.
  - intros Huse. apply use_dice_test2_Ok in Huse as (Hopen & Hboard & Hbid).
    change (Test2.get_total_score st') with (Y1650.get_total_score st').
    change (Test2.get_total_score st) with (Y1650.get_total_score st).
    rewrite (total_after_board st st' _ _ Hopen Hboard Hbid Hs2).
    split; [done|]. specialize (Hbonus (Test2.calculate_score put)). lia.
Qed.

Lemma X28_total_after_placement_witness :
  ∃ st',
    Y1650.use_dice (mkGameState [6; 6; 6; 6; 6] (replicate 12 None) 0)
      (mkDicePut SIX [6; 6; 6; 6; 6]) = Ok st'
    ∧ Y1650.get_total_score (mkGameState [6; 6; 6; 6; 6] (replicate 12 None) 0)
      ≤ Y1650.get_total_score st'.
Proof.
  eexists. split; [reflexivity|].
  refine (proj2 (proj1 (X28_total_after_placement
                          (mkGameState [6; 6; 6; 6; 6] (replicate 12 None) 0) _
                          (mkDicePut SIX [6; 6; 6; 6; 6]) _ _) eq_refl)).
  - vm_compute. discriminate.
  - vm_compute. discriminate.
Defined.

(** ** The SCORE step of [1650.py] *)

Lemma update_put_regular g put g' :
  regular_position g → Y1650.update_put g put = Ok g' → regular_position g'.
Proof.
  intros [Hboard Hpool] Hput. unfold Y1650.update_put in Hput.
  apply Res_bind_Ok in Hput as (st & Huse & Hcheck).
  apply check_my_yacht_states in Hcheck as [Hmy _]. cbn [Y1650.my_state] in Hmy.
  unfold regular_position. rewrite Hmy.
  pose proof (use_dice_1650_Ok _ _ _ Huse) as (_ & Hafter & _).
  split; [by rewrite Hafter, length_insert|].
  unfold Y1650.use_dice in Huse.
  destruct (rule_score (Y1650.my_state g) !! value (put_rule put)) as [[v|]|];
    try discriminate.
  destruct (remove_present_Ok (dice (Y1650.my_state g)) (put_dice put))
    as (rest & Hrest & Hsub & _).
  rewrite Hrest in Huse. injection Huse as <-. cbn [dice].
  unfold small_dice in *. rewrite Forall_forall in Hpool |- *.
  intros d Hd. apply Hpool. by eapply elem_of_submseteq.
Qed.

(** X29.  A board of twelve entries with a pool of dice 0..6 is an
    invariant of the game loop of [1650.py], and under it the SCORE
    step is safe: [update_get] with offered dice 0..6, [update_set] and
    [update_put] keep it; and while a category is open, [calculate_put]
    returns a put that [update_put] accepts, after which one category
    less is open.  So from a fresh game the agent can answer SCORE
    twelve times without raising. *)
Theorem X29_score_step_is_safe (g : Y1650.Game) :
  regular_position Y1650.Game_init
  ∧ (regular_position g →
     (∀ dice_a dice_b my_bid opp_bid my_group,
        small_dice dice_a → small_dice dice_b →
        regular_position (Y1650.update_get g dice_a dice_b my_bid opp_bid my_group))
     ∧ (∀ put g', Y1650.update_set g put = Ok g' → regular_position g')
     ∧ (∀ put g', Y1650.update_put g put = Ok g' → regular_position g')
     ∧ (0 < Y1650.count_unused_rules g →
        ∃ put g',
          Y1650.calculate_put g = Ok put
          ∧ Y1650.update_put g put = Ok g'
          ∧ regular_position g'
          ∧ Y1650.count_unused_rules g' = Y1650.count_unused_rules g - 1)).
Proof.
  split; [split; [done | constructor]|].
  intros Hreg. pose proof Hreg as [Hboard Hpool]. split; [|split; [|split]].
  - intros dice_a dice_b my_bid opp_bid my_group Ha Hb.
    unfold regular_position, Y1650.update_get. cbv zeta.
    destruct (String.eqb my_group "A"); cbn [Y1650.my_state];
      (split; [by destruct (String.eqb _ _) | ]);
      destruct (String.eqb _ _); cbn [dice Y1650.add_dice Y1650.bid];
      apply Forall_app; done.
  - intros put g' Hset. apply update_set_1650_inv in Hset as [_ Hmy].
    unfold regular_position. by rewrite Hmy.
  - intros put g'. by apply update_put_regular.
  - intros Hopen.
    assert (Hunused : unused_indices (Y1650.my_state g) ≠ []).
    { intros Hnil. unfold Y1650.count_unused_rules in Hopen.
      rewrite <- length_unused_indices, Hnil in Hopen. simpl in Hopen. lia. }
    destruct (proj1 (calculate_put_regular g Hreg) Hunused) as (put & Hput & _).
    pose proof (calculate_put_open g put Hput) as Hrule.
    apply elem_of_unused_indices in Hrule.
    destruct (use_dice_1650_accepts _ _ Hrule) as (st' & Huse).
    pose proof (use_dice_1650_Ok _ _ _ Huse) as (_ & Hafter & _).
    assert (Hyacht : ∃ s, rule_score st' !! value YACHT = Some s).
    { apply lookup_lt_is_Some. rewrite Hafter, length_insert, Hboard. simpl. lia. }
    destruct Hyacht as (s & Hs).
    assert (Hupdate : ∃ g', Y1650.update_put g put = Ok g').
    { unfold Y1650.update_put. rewrite Huse. cbn [mbind Res_bind].
      unfold Y1650.check_my_yacht_completion, at_pos. cbn [Y1650.my_state].
      rewrite Hs. cbn [mbind Res_bind]. by eauto. }
    destruct Hupdate as (g' & Hupdate).
    exists put, g'. split; [exact Hput|]. split; [exact Hupdate|].
    split; [by eapply update_put_regular|].
    apply update_put_1650_inv in Hupdate as [Huse' _].
    rewrite Huse in Huse'. injection Huse' as Hst.
    unfold Y1650.count_unused_rules. rewrite <- Hst, Hafter.
    pose proof (open_count_insert _ _ (Y1650.calculate_score put) Hrule). lia.
Qed.

Lemma X29_score_step_is_safe_witness :
  ∃ put g',
    Y1650.calculate_put (partial_straight_game 0 0 0) = Ok put
    ∧ Y1650.update_put (partial_straight_game 0 0 0) put = Ok g'
    ∧ regular_position g'.
Proof.
  destruct (proj2 (X29_score_step_is_safe (partial_straight_game 0 0 0)))
    as (_ & _ & _ & Hstep).
  - split; [reflexivity|]. unfold small_dice. simpl. repeat constructor; lia.
  - destruct Hstep as (put & g' & Hput & Hupdate & Hreg & _).
    + vm_compute. reflexivity.
    + exists put, g'. split; [exact Hput|]. split; [exact Hupdate | exact Hreg].
Defined.

(** ** The critical categories of [1650.py] *)

Lemma is_unused_lookup st r b :
  is_unused st r = Ok b →
  (b = true ↔ rule_score st !! value r = Some None).
Proof.
  unfold is_unused, at_pos.
  destruct (rule_score st !! value r) as [[v|]|]; cbn [mbind Res_bind];
    [intros [= <-] | intros [= <-] | discriminate]; split; done.
Qed.

(** X30.  [count_critical_rules] of [1650.py], on a board of twelve
    entries: it returns the number of open categories among YACHT,
    LARGE_STRAIGHT, SMALL_STRAIGHT and FOUR_OF_A_KIND, a number from 0
    to 4 that never exceeds [count_unused_rules]; it is 0 exactly when
    the four are filled, and 4 in a fresh game. *)
Theorem X30_critical_rules (g : Y1650.Game) :
  length (rule_score (Y1650.my_state g)) = 12%nat →
  let critical := [YACHT; LARGE_STRAIGHT; SMALL_STRAIGHT; FOUR_OF_A_KIND] in
  let open r := rule_score (Y1650.my_state g) !! value r = Some None in
  Y1650.count_critical_rules Y1650.Game_init = Ok 4
  ∧ ∃ n,
      Y1650.count_critical_rules g = Ok n
      ∧ n = Z.of_nat (length (filter open critical))
      ∧ 0 ≤ n ≤ 4
      ∧ n ≤ Y1650.count_unused_rules g
      ∧ (n = 0 ↔ ∀ r, r ∈ critical → filled (Y1650.my_state g) r).
Proof.
  intros Hboard critical open. split; [reflexivity|].
  subst critical.
  assert (Hfilled : ∀ r, ¬ open r ↔ filled (Y1650.my_state g) r).
  { intros r. subst open. cbv beta. unfold filled.
    assert (Hr : is_Some (rule_score (Y1650.my_state g) !! value r)).
    { apply lookup_lt_is_Some. rewrite Hboard. destruct r; simpl; lia. }
    destruct Hr as ([v|] & ->); split; try done.
    - by eauto.
    - intros (v & [=]). }
  assert (Hle : Z.of_nat (length (filter open
                  [YACHT; LARGE_STRAIGHT; SMALL_STRAIGHT; FOUR_OF_A_KIND]))
                ≤ Y1650.count_unused_rules g).
  { unfold Y1650.count_unused_rules. rewrite <- length_unused_indices.
    rewrite <- (length_fmap value). apply inj_le, submseteq_length.
    apply NoDup_submseteq.
    - assert (Hinj : Inj (=) (=) value) by (intros r r'; apply value_inj).
      apply (NoDup_fmap_2 value). apply NoDup_filter. compute_done.
    - intros i (r & -> & Hr)%list_elem_of_fmap.
      apply list_elem_of_filter in Hr as [Hr _].
      by apply elem_of_unused_indices. }
  unfold Y1650.count_critical_rules. cbn [for_each].
  destruct (is_unused_total (Y1650.my_state g) YACHT Hboard) as (b1 & H1).
  destruct (is_unused_total (Y1650.my_state g) LARGE_STRAIGHT Hboard) as (b2 & H2).
  destruct (is_unused_total (Y1650.my_state g) SMALL_STRAIGHT Hboard) as (b3 & H3).
  destruct (is_unused_total (Y1650.my_state g) FOUR_OF_A_KIND Hboard) as (b4 & H4).
  rewrite H1. cbn [mbind Res_bind]. rewrite H2. cbn [mbind Res_bind].
  rewrite H3. cbn [mbind Res_bind]. rewrite H4. cbn [mbind Res_bind].
  apply is_unused_lookup in H1, H2, H3, H4.
  eexists. split; [reflexivity|].
  assert (Hcount : (if b4 then (if b3 then (if b2 then (if b1 then 0 + 1 else 0) + 1
                                            else if b1 then 0 + 1 else 0) + 1
                                else if b2 then (if b1 then 0 + 1 else 0) + 1
                                     else if b1 then 0 + 1 else 0) + 1
                    else if b3 then (if b2 then (if b1 then 0 + 1 else 0) + 1
                                     else if b1 then 0 + 1 else 0) + 1
                         else if b2 then (if b1 then 0 + 1 else 0) + 1
                              else if b1 then 0 + 1 else 0)
                   = Z.of_nat (length (filter open
                       [YACHT; LARGE_STRAIGHT; SMALL_STRAIGHT; FOUR_OF_A_KIND]))).
  { rewrite !filter_cons, filter_nil.
    destruct b1, b2, b3, b4;
      repeat match goal with
             | |- context [decide (open ?r)] =>
                 first [ rewrite (decide_True (P := open r)) by (subst open; tauto)
                       | rewrite (decide_False (P := open r))
                           by (subst open; cbv beta; intros Ho;
                               first [ apply H1 in Ho | apply H2 in Ho
                                     | apply H3 in Ho | apply H4 in Ho ];
                               discriminate) ]
             end; reflexivity. }
  split; [destruct b1, b2, b3, b4; exact Hcount|].
  assert (Hn : ∀ n, n = Z.of_nat (length (filter open
                        [YACHT; LARGE_STRAIGHT; SMALL_STRAIGHT; FOUR_OF_A_KIND])) →
               0 ≤ n ≤ 4 ∧ n ≤ Y1650.count_unused_rules g
               ∧ (n = 0 ↔ ∀ r, r ∈ [YACHT; LARGE_STRAIGHT; SMALL_STRAIGHT;
                                     FOUR_OF_A_KIND] →
                               filled (Y1650.my_state g) r)).
  { intros n ->. split; [|split; [exact Hle|]].
    - pose proof (length_filter open
                    [YACHT; LARGE_STRAIGHT; SMALL_STRAIGHT; FOUR_OF_A_KIND]) as Hl.
      simpl length in Hl at 2. lia.
    - split.
      + intros Hzero r Hr. apply Hfilled. intros Ho.
        assert (Hin : r ∈ filter open
                  [YACHT; LARGE_STRAIGHT; SMALL_STRAIGHT; FOUR_OF_A_KIND])
          by (by apply list_elem_of_filter).
        destruct (filter open _); [by apply elem_of_nil in Hin | simpl in Hzero; lia].
      + intros Hall.
        destruct (filter open
                    [YACHT; LARGE_STRAIGHT; SMALL_STRAIGHT; FOUR_OF_A_KIND])
          as [|r l] eqn:Hf; [done|].
        assert (Hin : r ∈ filter open
                  [YACHT; LARGE_STRAIGHT; SMALL_STRAIGHT; FOUR_OF_A_KIND])
          by (rewrite Hf; left).
        apply list_elem_of_filter in Hin as [Ho Hr].
        apply Hall, Hfilled in Hr. done. }
  apply Hn. destruct b1, b2, b3, b4; exact Hcount.
Qed.

Lemma X30_critical_rules_witness :
  ∃ n, Y1650.count_critical_rules (partial_straight_game 0 0 0) = Ok n
       ∧ n ≤ Y1650.count_unused_rules (partial_straight_game 0 0 0).
Proof.
  destruct (X30_critical_rules (partial_straight_game 0 0 0) eq_refl)
    as (_ & n & Hn & _ & _ & Hle & _).
  exists n. split; [exact Hn | exact Hle].
Defined.
